(* ===== verification/_CoqProject ===== *)
-Q . S2P
Prelude.v
PyDict.v
PyStr.v
Scoring.v
Pareto.v
Validator.v
Player.v
Game.v
GameLog.v
WebGame.v
Session.v
Analysis.v
Trials.v
