(* ===== verification/Prelude.v ===== *)
(** * A verification development for lm-selfplay

    lm-selfplay plays a two-player negotiation game ("Deal or No Deal")
    between language models, or between a model and a human on a web
    page, scores the outcome, checks Pareto optimality and aggregates
    statistics over batches of games.  This library models the Python
    sources under [src/] as executable Rocq definitions and proves the
    properties that make them correct, together with the places where the
    code departs from what it means to do.

    ** The program and how its parts interact

    - [src/utils.py] and the methods [calculateScore], [isValidDeal],
      [calculateFinalScores] of [NegotiationGame] (src/games/negotiation.py)
      score an allocation (a dot product of two Python dicts, zipped by
      their [values()] order) and combine the two players' scores under an
      objective ("self", "coop", "comp").
    - [utils.isParetoOptimal] and the method [NegotiationGame.isParetoOptimal]
      enumerate the lattice of allocations and look for a dominating one.
    - [LLMPlayer.is_valid_output], [is_valid_message], [is_valid_proposal]
      (src/players.py) validate a model's turn; [LLMPlayer.respond] retries
      up to five times and then answers "[ABORT]";
      [ClosedSourceChatPlayer.generate_response] post-processes the raw
      completion.
    - [NegotiationGame.play_game] drives the batch game: the turn loop
      relays messages between the players, records proposals, closes the
      deal on the second proposal, and stops on "[ABORT]" or after 50
      messages, appending each answer and the final scores to the game's
      full text log; [play.simulate_trials] runs it game after game and
      writes the batch directory.
    - [WebNegotiationGame.receive_and_respond]
      (src/web_interface/games/web_negotiation.py) is the one-step variant
      that the web server [src/web_interface/app.py] calls from its
      Socket.IO handlers, which keep every user's game in process-wide
      dicts.
    - [src/analysis.py] aggregates a batch's files and parses the header
      of each full text log; [utils.check_agreement_validity] and
      [utils.extract_final_scores] read the logs back with regular
      expressions; [utils.concatenate] selects the transcripts used for
      fine-tuning and [finetuning.main] submits them.

    ** Files, in dependency order, and what they model

    - [Prelude] (this file): the Python exception type [exn], the result
      monad [res] with its notation in [py_scope], [mapM], [foldM],
      [py_index] (list indexing with negative indices), [py_sum],
      [py_range], the two-slot [player] index and the hint database [py].
    - [PyDict]: Python dicts as insertion-ordered association lists
      ([dict]), [getitem] raising [KeyError], [keys], [values],
      comprehensions over keys.
    - [PyStr]: the [str] methods the code calls ([strip], [startswith],
      [in], [find], slicing, [split] with and without a separator),
      [re.findall(r"\d+")], [int] and [str] on integers, and
      [str.format] with keyword arguments; [int(str(n)) = n] and the value
      of the last digits of a numeral.
    - [Scoring]: [calculateScore], [calculateFinalScore], the
      [NegotiationGame] record and its [__init__], [isValidDeal],
      [calculateFinalScores].
    - [Pareto]: the allocation lattice, [utils.isParetoOptimal] refined
      against a declarative "no dominating allocation" specification,
      [Module GameMethod] for the method of [NegotiationGame] with its
      miscomparison, and [calculate_maximum_collective_score].
    - [Validator]: [is_valid_message], [is_valid_proposal],
      [is_valid_output], [parse_proposal] and the post-processing of
      [generate_response].
    - [Player]: the [Agent] type class the game loop is written against
      (with its laws [AgentLaws]), [LLMPlayer] with [respond] and its retry
      loop, its log file (the header, then one entry per answer), and
      [HumanPlayer]; both are instances.
    - [Game]: [play_game] as a step function [turn_step] on an explicit
      state (game, both players, turn, messages, the text appended to the
      full log) and the loop [play_loop];
      its sections state the transcript and privacy invariants, the bound
      of 50 messages and end-to-end runs.
    - [GameLog]: the header [__init__] writes to the full text log, a
      fragment of Python's [re] ([re.search], [re.findall] by a greedy
      matcher that is exact for the code's patterns), and the three log
      readers [check_agreement_validity], [extract_final_scores] and
      [parse_game_context] with [generate_game_contexts].
    - [WebGame]: [WebNegotiationGame] around the batch game record,
      [receive_and_respond] split into the user's part and the model's
      turn, and sequences of rounds.
    - [Session] (stdpp [gmap]): the store of app.py ([current_games],
      [user_data], [mturk_users], [current_model]) and, in [Module App],
      every handler as a function of the store in a state monad whose
      exceptions keep earlier updates; [reachable] closes the initial
      store under the handlers.
    - [Analysis]: [analysis.analyze] and [calculate_avg_score] over a batch
      directory given as a record of its files, [utils.concatenate],
      [utils.calculate_dataset_ceiling_performance], the rows of
      [analysis.create_csv], and the game index.
    - [Trials]: [play.simulate_trials] writing that record game by game
      (files created with mode "x", the context drawn from the data
      lines, the players built, the players' log files, the ledgers,
      transcripts and summaries written), and [finetuning.main] with the request of
      [utils.create_finetuning_job].

    ** What the theorems show

    - Scoring and Pareto: [isValidDeal] and [calculateFinalScores] against
      the spec's deal rule (an invalid deal scores 0 under every
      objective), [utils.isParetoOptimal] equivalent to the absence of a
      dominating allocation, and the method's miscomparison, which
      rejects the welfare maximum.
    - Validation and players: a message is refused while a proposal is
      owed and a proposal before any message; every message with
      "[propose]" right after its prefix is accepted, and every in-stock
      proposal preceded by a claim of [n] books is accepted and parsed as
      [n] books; [respond] answers "[ABORT]" exactly after five refusals
      and adds exactly one entry to the player's log file.
    - Batch game: [play_game] returns for players that always answer
      (total), stops within 50 messages (the fuel of [play_loop] is
      adequate), closes after the reply to a proposal, keeps each player's
      transcript equal to the game's messages seen from its side, and never
      shows a proposal to the opponent; runs of the spec's scenarios.
    - Web game and server: the web round's departures from the batch loop
      (no cap, the user's turn unvalidated, the proposal leaked to the
      browser, in every round where the assistant proposes first; a
      pending assistant proposal never forces the user to counter); a user
      message touches only its own session, but all sessions share
      [current_model], so a game that ends after another user starts one
      is priced by that user's draw; every reachable store keeps each assistant on
      its own game's prompt; a finished game is paid, counted and removed.
    - Analysis: for every batch the above-average cohort's lengths are
      the agreement cohort's, the Pareto proportion is 0 under the default objective,
      and two games share an index exactly when their numbers agree
      modulo 1000.
    - Logs and the batch driver: the final scores and the header a game
      writes are read back exactly by [extract_final_scores] (when not
      negative) and [parse_game_context] (under plural keys); the scores
      of a competitive game that is not a tie are never read back; [simulate_trials]
      returns only for at most 1000 games, every summary it writes is well
      typed, and [analyze] returns on every directory it writes.

    ** Bounds and fuel

    [respond] runs its retry loop with fuel [RESPOND_FUEL] = 5, the number
    of refusals after which the code aborts, so the fuel never runs out
    ([respond_loop_fuel]).  [play_loop] has fuel [PLAY_FUEL] = 50: every
    turn appends one message and the code stops at 50, and
    [play_loop_fuel] shows that any larger fuel gives the same result.
    [re.findall] scans with fuel one more than the length of the text,
    never exhausted since every match or miss consumes a character
    ([findall_fuel_enough]).
    Integers are unbounded [Z], as in Python; numpy's float results are
    exact rationals [Q] in [Analysis] and bonuses are exact cents in
    [Session].

    ** Not modelled

    Printing (console echo of answers and counts), the OpenAI client (a
    model is a function of the history and the call number; the
    fine-tuning upload is the request record it would send), the GPT-2
    tokenizer (a parameter where a count is needed), argparse in play.py's
    main and analysis.py's main, the text of the CSV file [create_csv]
    writes (its rows are modelled), the S3 upload that
    app.py leaves commented out, and the random draws, which are inputs.
    Regular expressions are modelled for the patterns the code uses, not
    in general.  Strings are modelled over
    ASCII: Python's [str.strip] and [\d] also accept non-ASCII whitespace
    and digits, which the model leaves out. *)

From Stdlib Require Import String Ascii ZArith Bool Lia List Permutation.
Import ListNotations.

(** ** Python exceptions and the result monad *)

Inductive exn : Type :=
| KeyError (key : string)
| IndexError
| ValueError
| AssertionError
| AttributeError (attr : string)
| EOFError
| TypeError (msg : string)
| ZeroDivisionError
| FileNotFoundError (path : string)
| FileExistsError (path : string)
| StopIteration
| UnboundLocalError (name : string)
| Exception (msg : string).

Inductive res (A : Type) : Type :=
| Ok (a : A)
| Raise (e : exn).
Arguments Ok {A} a.
Arguments Raise {A} e.

Definition bind {A B : Type} (m : res A) (k : A -> res B) : res B :=
  match m with
  | Ok a => k a
  | Raise e => Raise e
  end.

Definition res_map {A B : Type} (f : A -> B) (m : res A) : res B :=
  bind m (fun a => Ok (f a)).

Declare Scope py_scope.
Delimit Scope py_scope with py.
Notation "x <- m ;; k" := (bind m (fun x => k))
  (at level 62, m at next level, right associativity) : py_scope.
Notation "' p <- m ;; k" := (bind m (fun x => match x with p => k end))
  (at level 62, p pattern, m at next level, right associativity) : py_scope.

(** [mapM]: run a fallible function over a list, left to right, stopping
    at the first exception, as a Python list comprehension does. *)
Fixpoint mapM {A B : Type} (f : A -> res B) (l : list A) : res (list B) :=
  match l with
  | [] => Ok []
  | x :: xs =>
      match f x with
      | Ok y => match mapM f xs with
                | Ok ys => Ok (y :: ys)
                | Raise e => Raise e
                end
      | Raise e => Raise e
      end
  end.

(** [foldM]: a loop that threads an accumulator through a list and stops
    at the first exception. *)
Fixpoint foldM {A B : Type} (f : A -> B -> res A) (a : A) (l : list B) : res A :=
  match l with
  | [] => Ok a
  | x :: xs => bind (f a x) (fun a' => foldM f a' xs)
  end.

(** [l[i]]: a negative index counts from the end; an index out of range
    raises [IndexError]. *)
Definition py_index {A : Type} (l : list A) (i : Z) : res A :=
  let j := if (i <? 0)%Z then (Z.of_nat (length l) + i)%Z else i in
  if (j <? 0)%Z then Raise IndexError
  else match nth_error l (Z.to_nat j) with
       | Some x => Ok x
       | None => Raise IndexError
       end.

(** ** Python's [sum] and [range] on integers *)

Definition py_sum (l : list Z) : Z := fold_left Z.add l 0%Z.

Definition py_range (n : Z) : list Z := map Z.of_nat (seq 0 (Z.to_nat n)).

(** ** The two players: index [0] or [1] of a two-element Python list *)

Inductive player : Type := P0 | P1.

(** [1 - turn] *)
Definition other (p : player) : player :=
  match p with P0 => P1 | P1 => P0 end.

(** [xs[p]] for a two-element list [xs] *)
Definition pick {A : Type} (p : player) (xs : A * A) : A :=
  match p with P0 => fst xs | P1 => snd xs end.

(** [xs[p] = v] *)
Definition upd {A : Type} (p : player) (v : A) (xs : A * A) : A * A :=
  match p with P0 => (v, snd xs) | P1 => (fst xs, v) end.

Definition player_eq_dec (p q : player) : {p = q} + {p <> q}.
Proof. decide equality. Defined.

(** ** Shared lemmas *)

Create HintDb py discriminated.
Create Rewrite HintDb py.

Lemma bind_Ok {A B} (a : A) (k : A -> res B) : bind (Ok a) k = k a.
Proof. reflexivity. Qed.

Lemma bind_Raise {A B} (e : exn) (k : A -> res B) : bind (Raise e) k = Raise e.
Proof. reflexivity. Qed.

Lemma bind_eq_Ok {A B} (m : res A) (k : A -> res B) (b : B) :
  bind m k = Ok b -> exists a, m = Ok a /\ k a = Ok b.
Proof. destruct m; simpl; [eauto | discriminate]. Qed.

Lemma mapM_Ok_length {A B} (f : A -> res B) l ys :
  mapM f l = Ok ys -> length ys = length l.
Proof.
  revert ys; induction l as [|x l IH]; simpl; intros ys H.
  - now inversion H.
  - destruct (f x); [|discriminate].
    destruct (mapM f l) eqn:E; inversion H; subst; simpl; f_equal; auto.
Qed.

Lemma mapM_map_Ok {A B} (f : A -> B) l : mapM (fun x => Ok (f x)) l = Ok (map f l).
Proof. induction l as [|x l IH]; simpl; [|rewrite IH]; reflexivity. Qed.

Lemma mapM_ext_Ok {A B} (f : A -> res B) (g : A -> B) l :
  (forall x, In x l -> f x = Ok (g x)) -> mapM f l = Ok (map g l).
Proof.
  induction l as [|x l IH]; simpl; intros H; [reflexivity|].
  rewrite H, IH; auto.
Qed.

Lemma forallb_false_iff {A} (f : A -> bool) l :
  forallb f l = false <-> exists x, In x l /\ f x = false.
Proof.
  induction l as [|x l IH]; simpl; [split; [discriminate|intros (? & [] & _)]|].
  rewrite andb_false_iff, IH; split.
  - intros [H|(y & Hy & H)]; eauto.
  - intros (y & [->|Hy] & H); eauto.
Qed.

Lemma length_flat_map_const {A B} (f : A -> list B) l n :
  (forall x, In x l -> length (f x) = n) -> length (flat_map f l) = length l * n.
Proof.
  induction l as [|x l IH]; simpl; intros H; [reflexivity|].
  rewrite length_app, H, IH; auto.
Qed.

Lemma py_sum_acc l (a : Z) : fold_left Z.add l a = (a + py_sum l)%Z.
Proof.
  unfold py_sum; revert a; induction l as [|x l IH]; intros a; simpl; [lia|].
  rewrite (IH (a + x)%Z), (IH x); lia.
Qed.

Lemma py_sum_nil : py_sum [] = 0%Z.
Proof. reflexivity. Qed.

Lemma py_sum_cons x l : py_sum (x :: l) = (x + py_sum l)%Z.
Proof. unfold py_sum at 1; simpl; rewrite py_sum_acc; lia. Qed.

Lemma py_sum_app l1 l2 : py_sum (l1 ++ l2) = (py_sum l1 + py_sum l2)%Z.
Proof.
  induction l1 as [|x l IH]; [reflexivity|].
  simpl app; rewrite !py_sum_cons, IH; lia.
Qed.

Lemma py_sum_perm l l' : Permutation l l' -> py_sum l = py_sum l'.
Proof.
  induction 1; simpl app; rewrite ?py_sum_cons; try lia.
Qed.

Lemma in_py_range (i n : Z) : In i (py_range n) <-> (0 <= i < n)%Z.
Proof.
  unfold py_range; rewrite in_map_iff; split.
  - intros (k & <- & Hk); apply in_seq in Hk; lia.
  - intros H; exists (Z.to_nat i); rewrite in_seq; split; lia.
Qed.

Lemma length_py_range n : length (py_range n) = Z.to_nat n.
Proof. unfold py_range; now rewrite length_map, length_seq. Qed.

Lemma pick_upd_eq {A} p (v : A) xs : pick p (upd p v xs) = v.
Proof. now destruct p. Qed.

Lemma pick_upd_ne {A} p q (v : A) xs : p <> q -> pick q (upd p v xs) = pick q xs.
Proof. destruct p, q; simpl; congruence. Qed.

Lemma foldM_app {A B} (f : A -> B -> res A) a l1 l2 :
  foldM f a (l1 ++ l2) = bind (foldM f a l1) (fun a' => foldM f a' l2).
Proof.
  revert a; induction l1 as [|x l1 IH]; intros a; simpl; [reflexivity|].
  destruct (f a x); simpl; [apply IH|reflexivity].
Qed.

(** A loop whose every step succeeds, from an accumulator satisfying an
    invariant the steps keep, returns. *)
Lemma foldM_total {A B} (P : A -> Prop) (f : A -> B -> res A) a l :
  P a -> (forall x y, P x -> In y l -> exists z, f x y = Ok z /\ P z) ->
  exists z, foldM f a l = Ok z /\ P z.
Proof.
  revert a; induction l as [|y l IH]; intros a Ha Hf; simpl; [eauto|].
  destruct (Hf a y Ha (or_introl eq_refl)) as (z & -> & Hz); simpl.
  apply IH; [exact Hz|intros x y' Hx Hy; apply Hf; [exact Hx|right; exact Hy]].
Qed.

(** An invariant every step keeps holds of what the loop returns. *)
Lemma foldM_inv {A B} (P : A -> Prop) (f : A -> B -> res A) a l a' :
  P a -> (forall x y z, P x -> In y l -> f x y = Ok z -> P z) -> foldM f a l = Ok a' -> P a'.
Proof.
  revert a; induction l as [|y l IH]; intros a Ha Hf H; simpl in H; [now injection H as <-|].
  destruct (f a y) as [z|] eqn:E; simpl in H; [|discriminate].
  apply (IH z); [exact (Hf a y z Ha (or_introl eq_refl) E)|intros; eapply Hf; eauto; now right|exact H].
Qed.

(** Every element a successful [mapM] returns satisfies what each call
    guarantees. *)
Lemma mapM_Forall {A B} (P : B -> Prop) (f : A -> res B) l ys :
  (forall x y, In x l -> f x = Ok y -> P y) -> mapM f l = Ok ys -> Forall P ys.
Proof.
  revert ys; induction l as [|x l IH]; intros ys Hf H; cbn [mapM] in H.
  - injection H as <-; constructor.
  - destruct (f x) as [y|] eqn:Ey; [|discriminate].
    destruct (mapM f l) as [ys'|] eqn:Eys; [|discriminate]; injection H as <-.
    constructor; [exact (Hf x y (or_introl eq_refl) Ey)|].
    apply IH; [intros x' y' Hx Hy; exact (Hf x' y' (or_intror Hx) Hy)|reflexivity].
Qed.

Lemma mapM_app {A B} (f : A -> res B) l1 l2 :
  mapM f (l1 ++ l2) = bind (mapM f l1) (fun r1 => bind (mapM f l2) (fun r2 => Ok (r1 ++ r2))).
Proof.
  induction l1 as [|x l1 IH]; simpl.
  - destruct (mapM f l2); reflexivity.
  - destruct (f x); simpl; [|reflexivity].
    rewrite IH; destruct (mapM f l1); simpl; [|reflexivity].
    destruct (mapM f l2); reflexivity.
Qed.

Lemma py_range_S n : py_range (Z.of_nat (S n)) = py_range (Z.of_nat n) ++ [Z.of_nat n].
Proof. unfold py_range; rewrite !Nat2Z.id, seq_S, map_app; reflexivity. Qed.

Lemma other_involutive p : other (other p) = p.
Proof. now destruct p. Qed.

Lemma other_neq p : other p <> p.
Proof. now destruct p. Qed.

#[export] Hint Rewrite @bind_Ok @bind_Raise @py_sum_cons @py_sum_app
  @pick_upd_eq other_involutive : py.
#[export] Hint Resolve other_neq : py.

(** [py_inv H] splits a hypothesis [bind m k = Ok b] into the value of
    [m] and the rest of the computation. *)
Ltac py_inv H :=
  let a := fresh "a" in
  let Hm := fresh "Hm" in
  apply bind_eq_Ok in H; destruct H as (a & Hm & H).

(** [py_unfold H] splits a hypothesis [bind m k = Ok b] into the values
    of all its steps, destructing the tuples that [' (x, y) <- m]
    binds. *)
Ltac py_unfold H :=
  repeat (first [ apply bind_eq_Ok in H; destruct H as (? & ? & H)
                | match type of H with
                  | match ?x with pair _ _ => _ end = _ => destruct x
                  end ]).

(** [py_step] performs one case split on the first scrutinee of a
    [bind] in the goal. *)
Ltac py_step :=
  match goal with
  | |- context [bind ?m _] =>
      let E := fresh "E" in destruct m eqn:E; simpl
  end.
