(* ===== verification/PyDict.v ===== *)
(** * Python dictionaries

    A Python [dict] with string keys, as the code builds and reads it:
    an association list in insertion order.  Order matters to the code
    ([calculateScore] zips two dicts' [values()]), so a finite map with
    extensional equality would not be faithful here.  Dict literals and
    comprehensions over the keys of another dict have distinct keys; the
    lemmas state this as [NoDup (keys d)] where they need it. *)

From Stdlib Require Import String ZArith Lia List Permutation.
From S2P Require Import Prelude.
Import ListNotations.
Local Open Scope string_scope.
Local Open Scope py_scope.

Definition dict (V : Type) : Type := list (string * V).

(** [k in d] / [d.get(k)] *)
Fixpoint lookup {V : Type} (d : dict V) (k : string) : option V :=
  match d with
  | [] => None
  | (k', v) :: d' => if String.eqb k k' then Some v else lookup d' k
  end.

(** [d[k]], raising [KeyError] when [k] is absent *)
Definition getitem {V : Type} (d : dict V) (k : string) : res V :=
  match lookup d k with
  | Some v => Ok v
  | None => Raise (KeyError k)
  end.

(** [d[k] = v]: a key already present keeps its place, a new key goes
    last. *)
Fixpoint setitem {V : Type} (d : dict V) (k : string) (v : V) : dict V :=
  match d with
  | [] => [(k, v)]
  | (k', v') :: d' => if String.eqb k k' then (k', v) :: d' else (k', v') :: setitem d' k v
  end.

(** [d.keys()] and [d.values()], in insertion order *)
Definition keys {V : Type} (d : dict V) : list string := map fst d.
Definition values {V : Type} (d : dict V) : list V := map snd d.

(** [{k: f(k) for k in ks}], evaluated left to right *)
Definition comprehension {V : Type} (ks : list string) (f : string -> res V)
  : res (dict V) :=
  mapM (fun k => v <- f k ;; Ok (k, v)) ks.

(** The three item kinds of the game, in the order every dict of the
    program lists them. *)
Definition ITEMS : list string := ["book"; "hat"; "ball"].

(** [{"book": b, "hat": h, "ball": l}] *)
Definition items (b h l : Z) : dict Z := [("book", b); ("hat", h); ("ball", l)].

(** A lookup that reads an absent key as 0, used to state sums over keys. *)
Definition get0 (d : dict Z) (k : string) : Z :=
  match lookup d k with Some v => v | None => 0%Z end.

(** ** Lemmas *)

Lemma lookup_cons_ne {V} k k' (v : V) d :
  k <> k' -> lookup ((k', v) :: d) k = lookup d k.
Proof. intros H; simpl; destruct (String.eqb_spec k k'); congruence. Qed.

Lemma lookup_cons_eq {V} k (v : V) d : lookup ((k, v) :: d) k = Some v.
Proof. simpl; now rewrite String.eqb_refl. Qed.

Lemma lookup_setitem_eq {V} (d : dict V) k v : lookup (setitem d k v) k = Some v.
Proof.
  induction d as [|[k' v'] d IH]; simpl; [now rewrite String.eqb_refl|].
  destruct (String.eqb_spec k k') as [->|Hne]; simpl;
    [now rewrite String.eqb_refl|rewrite (proj2 (String.eqb_neq k k') Hne); exact IH].
Qed.

Lemma lookup_setitem_ne {V} (d : dict V) k k' v :
  k <> k' -> lookup (setitem d k v) k' = lookup d k'.
Proof.
  intros Hne; induction d as [|[k0 v0] d IH]; simpl.
  - destruct (String.eqb_spec k' k); congruence.
  - destruct (String.eqb_spec k k0) as [->|Hk]; simpl;
      [destruct (String.eqb_spec k' k0); congruence|now rewrite IH].
Qed.

Lemma lookup_setitem_some {V} (d : dict V) k k' v :
  lookup d k <> None -> lookup (setitem d k' v) k <> None.
Proof.
  destruct (String.eqb_spec k' k) as [->|Hne]; [now rewrite lookup_setitem_eq|].
  now rewrite lookup_setitem_ne.
Qed.

Lemma In_setitem {V} (d : dict V) k v k' v' :
  In (k', v') (setitem d k v) -> In (k', v') d \/ k' = k.
Proof.
  induction d as [|[k0 v0] d IH]; cbn [setitem]; intros H.
  - destruct H as [[= <- _]|[]]; now right.
  - destruct (String.eqb_spec k k0) as [->|_].
    + destruct H as [[= <- _]|H]; [now right|left; now right].
    + destruct H as [H|H]; [left; now left|destruct (IH H); [left; now right|now right]].
Qed.

Lemma lookup_In_keys {V} (d : dict V) k v : lookup d k = Some v -> In k (keys d).
Proof.
  induction d as [|[k' v'] d IH]; simpl; [discriminate|].
  destruct (String.eqb_spec k k'); auto.
Qed.

Lemma lookup_None {V} (d : dict V) k : ~ In k (keys d) -> lookup d k = None.
Proof.
  induction d as [|[k' v'] d IH]; simpl; auto.
  intros H; destruct (String.eqb_spec k k'); [subst; tauto|apply IH; tauto].
Qed.

Lemma In_keys_lookup {V} (d : dict V) k :
  In k (keys d) -> exists v, lookup d k = Some v.
Proof.
  induction d as [|[k' v'] d IH]; simpl; [tauto|].
  destruct (String.eqb_spec k k'); eauto.
  intros [->|H]; [congruence|auto].
Qed.

Lemma getitem_Ok {V} (d : dict V) k v : getitem d k = Ok v <-> lookup d k = Some v.
Proof. unfold getitem; destruct (lookup d k); split; congruence. Qed.

Lemma getitem_In {V} (d : dict V) k :
  In k (keys d) -> exists v, getitem d k = Ok v /\ lookup d k = Some v.
Proof.
  intros H; destruct (In_keys_lookup d k H) as [v Hv].
  exists v; unfold getitem; now rewrite Hv.
Qed.

Lemma comprehension_keys {V} ks (f : string -> res V) d :
  comprehension ks f = Ok d -> keys d = ks.
Proof.
  unfold comprehension; revert d; induction ks as [|k ks IH]; simpl; intros d H.
  - now inversion H.
  - destruct (f k); simpl in H; [|discriminate].
    destruct (mapM _ ks) eqn:E; inversion H; subst; simpl; f_equal; auto.
Qed.

Lemma comprehension_lookup {V} ks (f : string -> res V) d k v :
  comprehension ks f = Ok d -> lookup d k = Some v -> f k = Ok v.
Proof.
  unfold comprehension; revert d; induction ks as [|k' ks IH]; simpl; intros d H.
  - inversion H; subst; discriminate.
  - destruct (f k') eqn:Ef; simpl in H; [|discriminate].
    destruct (mapM _ ks) eqn:E; inversion H; subst; simpl.
    destruct (String.eqb_spec k k'); [intros [= <-]; congruence|eauto].
Qed.

Lemma get0_cons_ne k k' (v : Z) d : k <> k' -> get0 ((k', v) :: d) k = get0 d k.
Proof. intros H; unfold get0; now rewrite lookup_cons_ne. Qed.

Lemma get0_cons_eq k (v : Z) d : get0 ((k, v) :: d) k = v.
Proof. unfold get0; now rewrite lookup_cons_eq. Qed.

(** Rewriting a sum over the tail keys of a dict whose head key is not
    among them. *)
Lemma map_get0_tail (f : Z -> Z -> Z) k (x y : Z) (v c : dict Z) ks :
  ~ In k ks ->
  map (fun k' => f (get0 ((k, x) :: v) k') (get0 ((k, y) :: c) k')) ks =
  map (fun k' => f (get0 v k') (get0 c k')) ks.
Proof.
  intros Hk; apply map_ext_in; intros k' Hk'.
  rewrite !get0_cons_ne; auto; intros ->; contradiction.
Qed.

(** Reading every key of [ks] without an exception means they are all
    keys of the dict. *)
Lemma mapM_getitem_incl {V} (d : dict V) ks vs :
  mapM (getitem d) ks = Ok vs -> incl ks (keys d).
Proof.
  revert vs; induction ks as [|k ks IH]; simpl; intros vs H; [intros ? []|].
  destruct (getitem d k) eqn:Ek; [|discriminate].
  destruct (mapM (getitem d) ks) eqn:E; [|discriminate].
  apply incl_cons; [|eauto].
  apply getitem_Ok in Ek; eauto using lookup_In_keys.
Qed.

Lemma get0_items_book b h l : get0 (items b h l) "book" = b.
Proof. reflexivity. Qed.
Lemma get0_items_hat b h l : get0 (items b h l) "hat" = h.
Proof. reflexivity. Qed.
Lemma get0_items_ball b h l : get0 (items b h l) "ball" = l.
Proof. reflexivity. Qed.

#[export] Hint Rewrite get0_items_book get0_items_hat get0_items_ball : py.
#[export] Hint Rewrite @lookup_cons_eq get0_cons_eq : py.
#[export] Hint Resolve lookup_In_keys lookup_None : py.
