(* ===== verification/PyStr.v ===== *)
(** * Python string operations

    The [str] methods and the regular expression the players and the game
    apply to model output and data files: [strip], [startswith], [in],
    [find], [s[n:]], [split] with a separator and without one
    ([split_ws]), [re.findall(r"\d+", s)], [int] on digit runs and on
    any string ([py_int], which raises [ValueError]), [str] on integers
    ([str_of_Z]) and [str.format] with keyword arguments ([py_format]).  Strings are Stdlib
    [string]s of ASCII characters; whitespace is Python's ASCII whitespace
    (space, \t, \n, \x0b, \x0c, \r and the separators \x1c to \x1f) and
    [\d] matches the ASCII digits.  [split] recurses on a fuel equal to
    the length of the string plus one, which [split_rec_fuel] shows is
    never exhausted; [str_of_Z] peels digits with a fuel of [log2 n + 1],
    enough for every digit ([int_of_str_of_Z], [py_int_str_of_Z]). *)

From Stdlib Require Import String Ascii ZArith Bool Lia List.
From S2P Require Import Prelude PyDict.
Import ListNotations.
Local Open Scope string_scope.
Local Open Scope py_scope.
Local Open Scope bool_scope.

(** ** Characters *)

Definition is_space (c : ascii) : bool :=
  let n := nat_of_ascii c in
  (Nat.leb 9 n && Nat.leb n 13) || (Nat.leb 28 n && Nat.leb n 32).

Definition is_digit (c : ascii) : bool :=
  let n := nat_of_ascii c in Nat.leb 48 n && Nat.leb n 57.

Definition digit_value (c : ascii) : Z := Z.of_nat (nat_of_ascii c - 48).

(** ** [strip] *)

Fixpoint lstrip (s : string) : string :=
  match s with
  | EmptyString => EmptyString
  | String c s' => if is_space c then lstrip s' else s
  end.

(** Drops the trailing whitespace: a character is kept unless it and
    everything after it are whitespace. *)
Fixpoint rstrip (s : string) : string :=
  match s with
  | EmptyString => EmptyString
  | String c s' =>
      let r := rstrip s' in
      if andb (is_space c) (String.eqb r "") then EmptyString else String c r
  end.

Definition strip (s : string) : string := rstrip (lstrip s).

(** ** Searching *)

(** [s.startswith(prefix)] *)
Definition startswith (prefix s : string) : bool := String.prefix prefix s.

(** [sub in s] *)
Definition contains (sub s : string) : bool :=
  match index 0 sub s with Some _ => true | None => false end.

(** [s.find(sub)]: the first index, or -1 *)
Definition find (sub s : string) : Z :=
  match index 0 sub s with Some n => Z.of_nat n | None => (-1)%Z end.

(** [s[n:]] *)
Fixpoint slice_from (n : nat) (s : string) : string :=
  match n, s with
  | 0, _ => s
  | S _, EmptyString => EmptyString
  | S n', String _ s' => slice_from n' s'
  end.

(** ** [split] *)

(** A left-to-right scan: [cur] is the piece being read; at a position
    where [sep] starts, the piece ends and the scan resumes after [sep].
    Each step consumes at least one character, so [length s + 1] steps
    suffice ([split_rec_fuel]). *)
Fixpoint split_rec (fuel : nat) (sep s cur : string) : list string :=
  match fuel with
  | 0 => [cur ++ s]
  | S f =>
      match s with
      | EmptyString => [cur]
      | String c s' =>
          if String.prefix sep s then cur :: split_rec f sep (slice_from (String.length sep) s) ""
          else split_rec f sep s' (cur ++ String c EmptyString)
      end
  end.

(** [s.split(sep)]; an empty separator raises [ValueError]. *)
Definition py_split (sep s : string) : res (list string) :=
  if String.eqb sep "" then Raise ValueError
  else Ok (split_rec (S (String.length s)) sep s "").

(** [s.split(sep)[0]] and [s.split(sep)[-1]]: a split is never empty. *)
Definition first_piece (l : list string) : string := hd "" l.
Definition last_piece (l : list string) : string := last l "".

(** ** [re.findall(r"\d+", s)] and [int] *)

(** Maximal runs of digits, left to right; [cur] is the run being read. *)
Fixpoint digit_runs (s cur : string) : list string :=
  match s with
  | EmptyString => if String.eqb cur "" then [] else [cur]
  | String c s' =>
      if is_digit c then digit_runs s' (cur ++ String c EmptyString)
      else if String.eqb cur "" then digit_runs s' ""
      else cur :: digit_runs s' ""
  end.

Definition findall_digits (s : string) : list string := digit_runs s "".

(** [int(x)] for a string of digits *)
Definition int_of_digits (s : string) : Z :=
  fold_left (fun acc c => (10 * acc + digit_value c)%Z) (list_ascii_of_string s) 0%Z.

(** [str(n)] for an integer: its decimal digits, with a minus sign when
    negative.  [nat_digits] peels the last digit [fuel] times; a fuel of
    [log2 n + 1] is at least the number of decimal digits of [n]. *)
Definition digit_char (d : Z) : ascii := ascii_of_nat (48 + Z.to_nat d).

Fixpoint nat_digits (fuel : nat) (n : Z) : string :=
  match fuel with
  | 0 => EmptyString
  | S f =>
      if (n <? 10)%Z then String (digit_char n) EmptyString
      else nat_digits f (n / 10)%Z ++ String (digit_char (n mod 10)) EmptyString
  end.

Definition str_of_Z (n : Z) : string :=
  if (n <? 0)%Z then "-" ++ nat_digits (S (Z.to_nat (Z.log2 (- n)))) (- n)
  else nat_digits (S (Z.to_nat (Z.log2 n))) n.

(** ** [str.format] with keyword arguments *)

(** The scanner's state: literal text, just after a '{' or a '}', or
    inside a replacement field whose text so far is [name]. *)
Inductive fmt_mode : Type :=
| FLit
| FOpen
| FClose
| FField (name : string).

(** The value of a replacement field: the field name is the text before
    any '!' conversion or ':' format specification (which are not
    applied); an empty or numeric name is a positional field, and there
    are no positional arguments ([IndexError]); a missing keyword raises
    [KeyError]. *)
Fixpoint field_base (name : string) : string :=
  match name with
  | EmptyString => EmptyString
  | String c rest =>
      if Ascii.eqb c ":" || Ascii.eqb c "!" then EmptyString
      else String c (field_base rest)
  end.

Definition field_value (args : list (string * string)) (name : string) : res string :=
  match field_base name with
  | EmptyString => Raise IndexError
  | String c _ as base =>
      if is_digit c then Raise IndexError
      else match lookup args base with
           | Some v => Ok v
           | None => Raise (KeyError base)
           end
  end.

(** [template.format] with the keyword arguments [args], left to right: "{{" and "}}" are literal
    braces, a single '}' or an unclosed '{' raises [ValueError]. *)
Fixpoint fmt_scan (args : list (string * string)) (mode : fmt_mode) (s : string)
    : res string :=
  match s, mode with
  | EmptyString, FLit => Ok EmptyString
  | EmptyString, _ => Raise ValueError
  | String c s', FLit =>
      if Ascii.eqb c "{" then fmt_scan args FOpen s'
      else if Ascii.eqb c "}" then fmt_scan args FClose s'
      else r <- fmt_scan args FLit s' ;; Ok (String c r)
  | String c s', FOpen =>
      if Ascii.eqb c "{" then r <- fmt_scan args FLit s' ;; Ok (String c r)
      else if Ascii.eqb c "}" then
        v <- field_value args EmptyString ;; r <- fmt_scan args FLit s' ;; Ok (v ++ r)
      else fmt_scan args (FField (String c EmptyString)) s'
  | String c s', FClose =>
      if Ascii.eqb c "}" then r <- fmt_scan args FLit s' ;; Ok (String c r)
      else Raise ValueError
  | String c s', FField name =>
      if Ascii.eqb c "}" then
        v <- field_value args name ;; r <- fmt_scan args FLit s' ;; Ok (v ++ r)
      else if Ascii.eqb c "{" then Raise ValueError
      else fmt_scan args (FField (name ++ String c EmptyString)) s'
  end.

Definition py_format (template : string) (args : list (string * string)) : res string :=
  fmt_scan args FLit template.

(** The double quote character, which a Rocq string literal cannot hold
    without doubling it. *)
Definition DQ : string := String (ascii_of_nat 34) EmptyString.

(** The newline character [\n]. *)
Definition NL : string := String (ascii_of_nat 10) EmptyString.

(** Every character of [s] satisfies [f]. *)
Fixpoint all_chars (f : ascii -> bool) (s : string) : bool :=
  match s with
  | EmptyString => true
  | String c s' => f c && all_chars f s'
  end.

(** ** [str.split()] with no separator *)

(** The maximal runs of characters that are not whitespace, left to
    right; [cur] is the run being read. *)
Fixpoint split_ws_rec (s cur : string) : list string :=
  match s with
  | EmptyString => if String.eqb cur "" then [] else [cur]
  | String c s' =>
      if is_space c then
        if String.eqb cur "" then split_ws_rec s' "" else cur :: split_ws_rec s' ""
      else split_ws_rec s' (cur ++ String c EmptyString)
  end.

Definition split_ws (s : string) : list string := split_ws_rec s "".

(** [" ".join(l)], to state what [split_ws] reads back. *)
Fixpoint join_sp (l : list string) : string :=
  match l with
  | [] => ""
  | [t] => t
  | t :: ts => t ++ " " ++ join_sp ts
  end.

(** ** [int(x)] on a string

    The digits of a literal, with single underscores allowed between
    digits as Python 3 reads them; [after_digit] records that the last
    character read was a digit, and [acc] is the value read so far. *)
Fixpoint int_body (s : string) (after_digit : bool) (acc : Z) : option Z :=
  match s with
  | EmptyString => if after_digit then Some acc else None
  | String c s' =>
      if is_digit c then int_body s' true (10 * acc + digit_value c)%Z
      else if Ascii.eqb c "_"%char && after_digit then int_body s' false acc
      else None
  end.

(** [int(x)]: surrounding whitespace is ignored, then an optional sign and
    the digits; anything else raises [ValueError]. *)
Definition py_int (x : string) : res Z :=
  let literal :=
    match strip x with
    | EmptyString => None
    | String c t as s =>
        if Ascii.eqb c "-"%char then option_map Z.opp (int_body t false 0)
        else if Ascii.eqb c "+"%char then int_body t false 0
        else int_body s false 0
    end in
  match literal with
  | Some n => Ok n
  | None => Raise ValueError
  end.

(** The value of a list of digit characters, as [int] reads them. *)
Definition digits_value (l : list ascii) : Z :=
  fold_left (fun a c => 10 * a + digit_value c)%Z l 0%Z.

(** [str(turn)] of a player index. *)
Definition player_str (p : player) : string :=
  match p with P0 => "0" | P1 => "1" end.

(** [f"{x}"] of an [int] attribute that may still be [None]. *)
Definition py_str_opt (x : option Z) : string :=
  match x with Some n => str_of_Z n | None => "None" end.

(** [s[-n:]] *)
Definition slice_last (n : nat) (s : string) : string :=
  substring (String.length s - n) n s.

(** [s[:n]] *)
Definition slice_to (n : nat) (s : string) : string := substring 0 n s.

(** [s.endswith(suffix)] *)
Definition endswith (suffix s : string) : bool :=
  Nat.leb (String.length suffix) (String.length s) &&
  String.eqb (slice_last (String.length suffix) s) suffix.

(** A character that [str.split()] does not split at. *)
Definition not_space (c : ascii) : bool := negb (is_space c).

(** The characters other than [a]. *)
Definition not_char (a : ascii) (c : ascii) : bool := negb (Ascii.eqb c a).

(** ** Lemmas on strings *)

Lemma str_app_assoc (a b c : string) : (a ++ b) ++ c = a ++ (b ++ c).
Proof. induction a as [|x a IH]; simpl; [reflexivity|now rewrite IH]. Qed.

Lemma str_app_nil_r (a : string) : a ++ "" = a.
Proof. induction a as [|x a IH]; simpl; [reflexivity|now rewrite IH]. Qed.

Lemma str_length_app (a b : string) :
  String.length (a ++ b) = String.length a + String.length b.
Proof. induction a as [|x a IH]; simpl; [reflexivity|now rewrite IH]. Qed.

Lemma prefix_app (p s : string) :
  String.prefix p s = true -> s = p ++ slice_from (String.length p) s.
Proof.
  revert s; induction p as [|c p IH]; intros [|d s] H; simpl in *; try discriminate;
    [reflexivity|reflexivity|].
  destruct (Ascii.ascii_dec c d); [subst; f_equal; auto|discriminate].
Qed.

Lemma slice_from_length n s :
  String.length (slice_from n s) = String.length s - n.
Proof. revert s; induction n as [|n IH]; intros [|c s]; simpl; auto; lia. Qed.

Lemma is_space_not_digit c : is_space c = true -> is_digit c = false.
Proof.
  unfold is_space, is_digit; intros H.
  apply Bool.orb_true_iff in H; rewrite !Bool.andb_true_iff, !Nat.leb_le in H.
  apply Bool.not_true_iff_false; rewrite Bool.andb_true_iff, !Nat.leb_le; lia.
Qed.

#[export] Hint Rewrite str_app_assoc str_app_nil_r str_length_app : py.

(** *** [split] *)

Lemma split_rec_fuel sep s cur f1 f2 :
  sep <> "" -> String.length s < f1 -> String.length s < f2 ->
  split_rec f1 sep s cur = split_rec f2 sep s cur.
Proof.
  intros Hsep; revert f2 s cur; induction f1 as [|f1 IH]; intros [|f2] s cur H1 H2;
    try lia.
  destruct s as [|c s']; cbn [split_rec]; [reflexivity|].
  destruct (String.prefix sep (String c s')) eqn:Hp.
  - f_equal; apply IH; rewrite slice_from_length;
      destruct sep; try congruence; simpl in *; lia.
  - apply IH; simpl in *; lia.
Qed.

Lemma split_rec_not_nil f sep s cur : split_rec f sep s cur <> [].
Proof.
  revert s cur; induction f as [|f IH]; intros [|c s] cur; cbn [split_rec]; try discriminate.
  destruct (String.prefix _ _); [discriminate|apply IH].
Qed.

(** Joining the pieces with [sep] gives back the string. *)
Lemma split_rec_join sep s cur f :
  sep <> "" -> String.length s < f ->
  String.concat sep (split_rec f sep s cur) = cur ++ s.
Proof.
  intros Hsep; revert s cur; induction f as [|f IH]; intros s cur Hf; [lia|].
  destruct s as [|c s']; cbn [split_rec]; [simpl; now rewrite str_app_nil_r|].
  destruct (String.prefix sep (String c s')) eqn:Hp.
  - assert (Hlen : String.length (slice_from (String.length sep) (String c s')) < f)
      by (rewrite slice_from_length; destruct sep; [congruence|simpl in *; lia]).
    destruct (split_rec f sep _ "") as [|x l] eqn:E.
    + exfalso; exact (split_rec_not_nil _ _ _ _ E).
    + change (String.concat sep (cur :: x :: l))
        with (cur ++ sep ++ String.concat sep (x :: l)).
      rewrite <- E, IH by exact Hlen; simpl.
      f_equal; symmetry; now apply prefix_app.
  - rewrite IH by (simpl in *; lia); now rewrite str_app_assoc.
Qed.

Lemma concat_snoc sep l x :
  l <> [] -> String.concat sep (l ++ [x])%list = String.concat sep l ++ sep ++ x.
Proof.
  induction l as [|y l IH]; intros H; [congruence|].
  destruct l as [|z l]; simpl; [reflexivity|].
  simpl in IH; rewrite IH by discriminate; now rewrite !str_app_assoc.
Qed.

(** The last piece of a split is a suffix of the string, after an
    occurrence of [sep] when there is more than one piece. *)
Lemma py_split_last sep s l :
  py_split sep s = Ok l ->
  s = last_piece l \/ exists u, s = u ++ sep ++ last_piece l.
Proof.
  unfold py_split; destruct (String.eqb_spec sep ""); [discriminate|].
  intros H; replace l with (split_rec (S (String.length s)) sep s "") by congruence.
  pose proof (split_rec_join sep s "" (S (String.length s)) n ltac:(lia)) as J.
  pose proof (split_rec_not_nil (S (String.length s)) sep s "") as Hnn.
  destruct (exists_last Hnn) as (l0 & x & E); rewrite E in J |- *.
  unfold last_piece; rewrite last_last.
  destruct l0 as [|y l0]; [left; simpl in J; now rewrite <- J|right].
  rewrite concat_snoc in J by discriminate; eauto.
Qed.

(** *** [re.findall(r"\d+")] *)

Lemma digit_runs_nondigit x c y cur :
  is_digit c = false ->
  digit_runs (x ++ String c y) cur = (digit_runs x cur ++ digit_runs y "")%list.
Proof.
  intros Hc; revert cur; induction x as [|d x IH]; intros cur; simpl.
  - rewrite Hc; destruct (String.eqb cur ""); reflexivity.
  - destruct (is_digit d); [apply IH|].
    destruct (String.eqb cur ""); simpl; now rewrite IH.
Qed.

Lemma digit_runs_no_digits_tail x w cur :
  all_chars (fun c => negb (is_digit c)) w = true ->
  digit_runs (x ++ w) cur = digit_runs x cur.
Proof.
  revert cur; induction x as [|d x IH]; intros cur Hw; simpl.
  - revert cur; induction w as [|c w IHw]; intros cur; simpl in *; [reflexivity|].
    apply Bool.andb_true_iff in Hw as [Hc Hw]; apply Bool.negb_true_iff in Hc.
    rewrite Hc; destruct (String.eqb_spec cur ""); rewrite IHw by exact Hw;
      [reflexivity|].
    simpl; destruct (String.eqb_spec cur ""); [congruence|reflexivity].
  - destruct (is_digit d); [now apply IH|].
    destruct (String.eqb cur ""); rewrite IH by exact Hw; reflexivity.
Qed.

Lemma digit_runs_lstrip t : digit_runs (lstrip t) "" = digit_runs t "".
Proof.
  induction t as [|c t IH]; simpl; [reflexivity|].
  destruct (is_space c) eqn:Hs; [|reflexivity].
  now rewrite is_space_not_digit by exact Hs.
Qed.

Lemma rstrip_decomp t :
  exists w, t = rstrip t ++ w /\ all_chars (fun c => negb (is_digit c)) w = true.
Proof.
  induction t as [|c t (w & Ht & Hw)]; simpl; [now exists ""|].
  destruct (is_space c) eqn:Hs, (String.eqb_spec (rstrip t) ""); simpl.
  - exists (String c t); simpl; split; [reflexivity|].
    rewrite is_space_not_digit by exact Hs; simpl.
    rewrite Ht, e; exact Hw.
  - exists w; rewrite Ht at 1; auto.
  - exists w; rewrite Ht at 1; auto.
  - exists w; rewrite Ht at 1; auto.
Qed.

(** Stripping whitespace does not change the digit runs. *)
Lemma findall_digits_strip t : findall_digits (strip t) = findall_digits t.
Proof.
  unfold findall_digits, strip.
  destruct (rstrip_decomp (lstrip t)) as (w & E & Hw).
  transitivity (digit_runs (lstrip t) ""); [|apply digit_runs_lstrip].
  set (u := lstrip t) in *; rewrite E at 2.
  now rewrite digit_runs_no_digits_tail.
Qed.

(** The digit runs of a string include those of the last piece of its
    split on "[propose]": the separator ends with ']', which is not a
    digit, so no run straddles it. *)
Lemma findall_last_piece s l :
  py_split "[propose]" s = Ok l ->
  exists pre, findall_digits s = (pre ++ findall_digits (last_piece l))%list.
Proof.
  intros H; destruct (py_split_last _ _ _ H) as [E|(u & E)]; rewrite E.
  - now exists [].
  - exists (digit_runs (u ++ "[propose") "").
    unfold findall_digits.
    replace (u ++ "[propose]" ++ last_piece l)
      with ((u ++ "[propose") ++ String "]" (last_piece l))
      by (rewrite str_app_assoc; reflexivity).
    now apply digit_runs_nondigit.
Qed.

(** *** [str] and [int] on integers *)

Lemma list_ascii_app (a b : string) :
  list_ascii_of_string (a ++ b) = (list_ascii_of_string a ++ list_ascii_of_string b)%list.
Proof. induction a as [|c a IH]; simpl; [reflexivity|now rewrite IH]. Qed.

Lemma int_of_digits_snoc s c :
  int_of_digits (s ++ String c EmptyString) = (10 * int_of_digits s + digit_value c)%Z.
Proof. unfold int_of_digits; rewrite list_ascii_app, fold_left_app; reflexivity. Qed.

Lemma digit_value_char d : (0 <= d < 10)%Z -> digit_value (digit_char d) = d.
Proof.
  intros Hd; unfold digit_value, digit_char.
  rewrite nat_ascii_embedding by lia.
  replace (48 + Z.to_nat d - 48) with (Z.to_nat d) by lia.
  apply Z2Nat.id; lia.
Qed.

Lemma int_of_digits_nat_digits fuel n :
  (0 <= n < 10 ^ Z.of_nat fuel)%Z -> int_of_digits (nat_digits fuel n) = n.
Proof.
  revert n; induction fuel as [|f IH]; intros n Hn; cbn [nat_digits].
  - simpl in Hn; assert (n = 0%Z) as -> by lia; reflexivity.
  - rewrite Nat2Z.inj_succ, Z.pow_succ_r in Hn by lia.
    destruct (Z.ltb_spec n 10).
    + apply (digit_value_char n); lia.
    + rewrite int_of_digits_snoc, IH, digit_value_char.
      * pose proof (Z.div_mod n 10); lia.
      * pose proof (Z.mod_pos_bound n 10); lia.
      * split; [apply Z.div_pos; lia|apply Z.div_lt_upper_bound; lia].
Qed.

Lemma log2_fuel n : (0 <= n)%Z -> (n < 10 ^ Z.of_nat (S (Z.to_nat (Z.log2 n))))%Z.
Proof.
  intros Hn; rewrite Nat2Z.inj_succ, Z2Nat.id by apply Z.log2_nonneg.
  apply Z.lt_le_trans with (2 ^ Z.succ (Z.log2 n))%Z.
  - destruct (Z.eq_dec n 0) as [->|]; [reflexivity|apply Z.log2_spec; lia].
  - apply Z.pow_le_mono_l; pose proof (Z.log2_nonneg n); lia.
Qed.

Lemma str_of_Z_nonneg n :
  (0 <= n)%Z -> str_of_Z n = nat_digits (S (Z.to_nat (Z.log2 n))) n.
Proof. unfold str_of_Z; intros Hn; destruct (Z.ltb_spec n 0); [lia|reflexivity]. Qed.

Lemma digit_char_digit d : (0 <= d < 10)%Z -> is_digit (digit_char d) = true.
Proof.
  intros Hd; unfold is_digit, digit_char; rewrite nat_ascii_embedding by lia.
  apply andb_true_iff; rewrite !Nat.leb_le; lia.
Qed.

Lemma all_chars_app f a b : all_chars f (a ++ b) = all_chars f a && all_chars f b.
Proof. induction a as [|c a IH]; simpl; [reflexivity|now rewrite IH, andb_assoc]. Qed.

Lemma nat_digits_spec fuel n :
  (0 <= n)%Z -> fuel <> 0 ->
  all_chars is_digit (nat_digits fuel n) = true /\ nat_digits fuel n <> "".
Proof.
  revert n; induction fuel as [|f IH]; intros n Hn Hf; [congruence|cbn [nat_digits]].
  destruct (Z.ltb_spec n 10).
  - cbn [all_chars]; rewrite digit_char_digit by lia; split; [reflexivity|discriminate].
  - assert (Hd : is_digit (digit_char (n mod 10)) = true)
      by (apply digit_char_digit; apply Z.mod_pos_bound; lia).
    assert (Hlast : all_chars is_digit (String (digit_char (n mod 10)) "") = true)
      by (cbn [all_chars]; rewrite Hd; reflexivity).
    destruct f as [|f].
    + cbn [nat_digits append]; split; [exact Hlast|discriminate].
    + destruct (IH (n / 10)%Z) as [Ha Hne]; [apply Z.div_pos; lia|lia|].
      rewrite all_chars_app, Ha, Hlast; split; [reflexivity|].
      destruct (nat_digits (S f) (n / 10)%Z); [congruence|discriminate].
Qed.

(** [str(n)] of a non-negative integer is a non-empty run of digits that
    [int] reads back as [n]. *)
Lemma str_of_Z_digits n :
  (0 <= n)%Z -> all_chars is_digit (str_of_Z n) = true /\ str_of_Z n <> "".
Proof. intros Hn; rewrite str_of_Z_nonneg by exact Hn; apply nat_digits_spec; lia. Qed.

Lemma int_of_str_of_Z n : (0 <= n)%Z -> int_of_digits (str_of_Z n) = n.
Proof.
  intros Hn; rewrite str_of_Z_nonneg by exact Hn.
  apply int_of_digits_nat_digits; split; [exact Hn|now apply log2_fuel].
Qed.

(** A run of digits extends the run being read. *)
Lemma digit_runs_digits ds rest cur :
  all_chars is_digit ds = true -> digit_runs (ds ++ rest) cur = digit_runs rest (cur ++ ds).
Proof.
  revert cur; induction ds as [|c ds IH]; intros cur H; simpl in *.
  - now rewrite str_app_nil_r.
  - apply andb_true_iff in H as [Hc H]; rewrite Hc, IH by exact H.
    now rewrite str_app_assoc.
Qed.

(** A non-digit closes the run being read. *)
Lemma digit_runs_close c rest cur :
  is_digit c = false -> cur <> "" -> digit_runs (String c rest) cur = cur :: digit_runs rest "".
Proof.
  intros Hc Hcur; simpl; rewrite Hc.
  destruct (String.eqb_spec cur ""); [congruence|reflexivity].
Qed.

(** Characters that are not digits are skipped between runs. *)
Lemma digit_runs_skip p x :
  all_chars (fun c => negb (is_digit c)) p = true -> digit_runs (p ++ x) "" = digit_runs x "".
Proof.
  induction p as [|c p IH]; intros H; [reflexivity|].
  cbn [all_chars] in H; apply andb_true_iff in H as [Hc H]; apply negb_true_iff in Hc.
  cbn [append digit_runs]; rewrite Hc; exact (IH H).
Qed.

Lemma digit_runs_close_app c p x cur :
  is_digit c = false -> cur <> "" ->
  digit_runs (String c p ++ x) cur = cur :: digit_runs (p ++ x) "".
Proof. intros Hc Hcur; exact (digit_runs_close c (p ++ x) cur Hc Hcur). Qed.

(** *** [str.split()] and [int] *)

Lemma strip_no_space s : all_chars not_space s = true -> strip s = s.
Proof.
  intros H; unfold strip.
  assert (Hl : lstrip s = s).
  { destruct s as [|c s]; [reflexivity|]; cbn [all_chars] in H.
    apply andb_true_iff in H as [Hc _]; unfold not_space in Hc; apply negb_true_iff in Hc.
    cbn [lstrip]; now rewrite Hc. }
  rewrite Hl; clear Hl; induction s as [|c s IH]; [reflexivity|].
  cbn [all_chars] in H; apply andb_true_iff in H as [Hc H].
  unfold not_space in Hc; apply negb_true_iff in Hc.
  cbn [rstrip]; rewrite (IH H), Hc; reflexivity.
Qed.

Lemma int_body_digits s b acc :
  all_chars is_digit s = true -> (s <> "" \/ b = true) ->
  int_body s b acc =
  Some (fold_left (fun a c => 10 * a + digit_value c)%Z (list_ascii_of_string s) acc).
Proof.
  revert b acc; induction s as [|c s IH]; intros b acc H Hb; cbn [int_body].
  - destruct Hb as [Hb| ->]; [congruence|reflexivity].
  - cbn [all_chars] in H; apply andb_true_iff in H as [Hc H]; rewrite Hc.
    apply IH; auto.
Qed.

Lemma digit_not_space c : is_digit c = true -> not_space c = true.
Proof.
  intros Hd; unfold not_space; apply negb_true_iff.
  destruct (is_space c) eqn:Hs; [|reflexivity].
  now rewrite (is_space_not_digit c Hs) in Hd.
Qed.

Lemma digits_not_space s : all_chars is_digit s = true -> all_chars not_space s = true.
Proof.
  induction s as [|c s IH]; intros H; [reflexivity|]; cbn [all_chars] in *.
  apply andb_true_iff in H as [Hc H]; now rewrite digit_not_space, IH.
Qed.

Lemma int_body_int_of_digits s :
  all_chars is_digit s = true -> s <> "" -> int_body s false 0 = Some (int_of_digits s).
Proof. intros H Hne; apply int_body_digits; auto. Qed.

(** [int] of a non-empty run of digits is its value. *)
Lemma py_int_digits t : all_chars is_digit t = true -> t <> "" -> py_int t = Ok (int_of_digits t).
Proof.
  intros Hd Hne; unfold py_int; rewrite strip_no_space by (apply digits_not_space, Hd).
  destruct t as [|c t']; [congruence|].
  pose proof Hd as Hd'; cbn [all_chars] in Hd'; apply andb_true_iff in Hd' as [Hc _].
  assert (Hm : Ascii.eqb c "-"%char = false)
    by (destruct (Ascii.eqb_spec c "-"%char) as [->|]; [discriminate|reflexivity]).
  assert (Hp : Ascii.eqb c "+"%char = false)
    by (destruct (Ascii.eqb_spec c "+"%char) as [->|]; [discriminate|reflexivity]).
  rewrite Hm, Hp, int_body_int_of_digits by assumption; reflexivity.
Qed.

(** [int(str(n)) == n] for every integer. *)
Lemma py_int_str_of_Z n : py_int (str_of_Z n) = Ok n.
Proof.
  destruct (Z.ltb_spec n 0) as [Hn|Hn].
  - unfold py_int.
    assert (Hs : str_of_Z n = String "-"%char (nat_digits (S (Z.to_nat (Z.log2 (- n)))) (- n)))
      by (unfold str_of_Z; rewrite (proj2 (Z.ltb_lt n 0)) by exact Hn; reflexivity).
    destruct (nat_digits_spec (S (Z.to_nat (Z.log2 (- n)))) (- n)) as [Hd Hne]; [lia|lia|].
    rewrite Hs, strip_no_space by (cbn [all_chars]; apply digits_not_space, Hd).
    cbn [Ascii.eqb Bool.eqb andb]; rewrite int_body_int_of_digits by assumption.
    cbn [option_map]; rewrite int_of_digits_nat_digits; [f_equal; lia|].
    split; [lia|apply log2_fuel; lia].
  - destruct (str_of_Z_digits n Hn) as [Hd Hne].
    rewrite py_int_digits, int_of_str_of_Z by assumption; reflexivity.
Qed.

(** *** The last digits of a numeral *)

Lemma all_chars_forallb f s : all_chars f s = forallb f (list_ascii_of_string s).
Proof. induction s as [|c s IH]; cbn; [reflexivity|now rewrite IH]. Qed.

Lemma substring_list m n s :
  list_ascii_of_string (substring m n s) = firstn n (skipn m (list_ascii_of_string s)).
Proof.
  revert m n; induction s as [|c s IH]; intros [|m] [|n]; cbn; try reflexivity.
  - now rewrite IH.
  - apply IH.
  - apply IH.
Qed.

Lemma length_list_ascii s : length (list_ascii_of_string s) = String.length s.
Proof. induction s as [|c s IH]; cbn; [reflexivity|now rewrite IH]. Qed.

Lemma slice_last_list n s :
  list_ascii_of_string (slice_last n s) = skipn (String.length s - n)%nat (list_ascii_of_string s).
Proof.
  unfold slice_last; rewrite substring_list; apply firstn_all2.
  rewrite length_skipn, length_list_ascii; lia.
Qed.

Lemma digit_value_range c : is_digit c = true -> (0 <= digit_value c < 10)%Z.
Proof.
  unfold is_digit, digit_value; intros H; apply andb_true_iff in H as [H1 H2].
  apply Nat.leb_le in H1, H2; lia.
Qed.

Lemma digits_value_snoc l c :
  digits_value (l ++ [c]) = (10 * digits_value l + digit_value c)%Z.
Proof. unfold digits_value; rewrite fold_left_app; reflexivity. Qed.

Lemma digits_value_bound l :
  forallb is_digit l = true -> (0 <= digits_value l < 10 ^ Z.of_nat (length l))%Z.
Proof.
  induction l as [|c l IH] using rev_ind; intros H; [cbn; lia|].
  rewrite forallb_app in H; apply andb_true_iff in H as [Hl Hc]; cbn in Hc.
  rewrite andb_true_r in Hc; apply digit_value_range in Hc.
  specialize (IH Hl); rewrite digits_value_snoc, length_app, Nat2Z.inj_add, Z.pow_add_r by lia.
  cbn [length Z.of_nat]; rewrite Z.pow_1_r; lia.
Qed.

(** The value of the last [k] digits of a numeral is its value modulo
    [10 ^ k]. *)
Lemma digits_value_skipn l k :
  forallb is_digit l = true ->
  digits_value (skipn (length l - k) l) = (digits_value l mod 10 ^ Z.of_nat k)%Z.
Proof.
  revert k; induction l as [|c l IH] using rev_ind; intros k H.
  - rewrite skipn_nil; unfold digits_value; cbn [fold_left].
    symmetry; apply Z.mod_0_l, Z.pow_nonzero; lia.
  - pose proof (digits_value_bound _ H) as Hb.
    rewrite forallb_app in H; apply andb_true_iff in H as [Hl Hc]; cbn in Hc.
    rewrite andb_true_r in Hc; apply digit_value_range in Hc.
    rewrite length_app; cbn [length].
    destruct k as [|k].
    + replace (length l + 1 - 0) with (length (l ++ [c])) by (rewrite length_app; cbn; lia).
      rewrite skipn_all; cbn; now rewrite Z.mod_1_r.
    + replace (length l + 1 - S k) with (length l - k) by lia.
      rewrite skipn_app; replace (length l - k - length l) with 0 by lia; cbn [skipn].
      rewrite !digits_value_snoc, IH by exact Hl.
      rewrite Nat2Z.inj_succ, Z.pow_succ_r by lia.
      pose proof (Z.pow_pos_nonneg 10 (Z.of_nat k) ltac:(lia) ltac:(lia)) as Hp.
      apply Z.mod_unique with (q := (digits_value l / 10 ^ Z.of_nat k)%Z).
      * left; pose proof (Z.mod_pos_bound (digits_value l) (10 ^ Z.of_nat k)%Z Hp); lia.
      * pose proof (Z.div_mod (digits_value l) (10 ^ Z.of_nat k)%Z ltac:(lia)); lia.
Qed.

(** A word without whitespace extends the run being read. *)
Lemma split_ws_word t rest cur :
  all_chars not_space t = true -> split_ws_rec (t ++ rest) cur = split_ws_rec rest (cur ++ t).
Proof.
  revert cur; induction t as [|c t IH]; intros cur H; cbn [append].
  - now rewrite str_app_nil_r.
  - cbn [all_chars] in H; apply andb_true_iff in H as [Hc H].
    unfold not_space in Hc; apply negb_true_iff in Hc.
    cbn [split_ws_rec]; rewrite Hc, IH by exact H; now rewrite str_app_assoc.
Qed.

(** [str.split()] reads back the words [" ".join] glued together. *)
Lemma split_ws_join l :
  Forall (fun t => t <> "" /\ all_chars not_space t = true) l -> split_ws (join_sp l) = l.
Proof.
  unfold split_ws; induction l as [|t l IH]; intros H; [reflexivity|].
  inversion H as [|? ? [Hne Ht] Hl]; subst.
  destruct l as [|t2 l].
  - cbn [join_sp]; rewrite <- (str_app_nil_r t) at 1; rewrite split_ws_word by exact Ht; cbn [append split_ws_rec].
    destruct (String.eqb_spec t ""); [congruence|reflexivity].
  - change (join_sp (t :: t2 :: l)) with (t ++ " " ++ join_sp (t2 :: l)).
    rewrite split_ws_word by exact Ht; cbn [append split_ws_rec].
    destruct (String.eqb_spec t ""); [congruence|].
    change (is_space " "%char) with true; cbn [String.eqb].
    rewrite IH by exact Hl; reflexivity.
Qed.

Lemma digit_value_inj c1 c2 :
  is_digit c1 = true -> is_digit c2 = true -> digit_value c1 = digit_value c2 -> c1 = c2.
Proof.
  unfold is_digit, digit_value; intros H1 H2 E.
  apply andb_true_iff in H1 as [H1 _], H2 as [H2 _]; apply Nat.leb_le in H1, H2.
  rewrite <- (ascii_nat_embedding c1), <- (ascii_nat_embedding c2); f_equal; lia.
Qed.

(** Digit lists of the same length are equal when their values are. *)
Lemma digits_value_inj l1 l2 :
  forallb is_digit l1 = true -> forallb is_digit l2 = true -> length l1 = length l2 ->
  digits_value l1 = digits_value l2 -> l1 = l2.
Proof.
  revert l2; induction l1 as [|c1 l1 IH] using rev_ind; intros l2 H1 H2 Hlen Hv.
  - now destruct l2.
  - destruct (@exists_last _ l2) as (l2' & c2 & ->); [intros ->; rewrite length_app in Hlen; cbn in Hlen; lia|].
    rewrite forallb_app in H1, H2; cbn in H1, H2; rewrite andb_true_r in H1, H2.
    apply andb_true_iff in H1 as [H1 Hc1], H2 as [H2 Hc2].
    rewrite !length_app in Hlen; cbn in Hlen.
    rewrite !digits_value_snoc in Hv.
    pose proof (digit_value_range _ Hc1); pose proof (digit_value_range _ Hc2).
    assert (Hd : digit_value c1 = digit_value c2) by lia.
    rewrite (IH l2' H1 H2 ltac:(lia) ltac:(lia)), (digit_value_inj _ _ Hc1 Hc2 Hd); reflexivity.
Qed.

(** [s[:len(x)]] of [x + y] is [x]. *)
Lemma slice_to_app x y : slice_to (String.length x) (x ++ y) = x.
Proof.
  unfold slice_to; induction x as [|c x IH]; cbn; [now destruct y|now rewrite IH].
Qed.

(** *** Trailing whitespace *)

Lemma rstrip_spaces w : all_chars is_space w = true -> rstrip w = "".
Proof.
  induction w as [|c w IH]; cbn [all_chars rstrip]; intros H; [reflexivity|].
  apply andb_true_iff in H as [Hc Hw]; now rewrite IH, Hc.
Qed.

Lemma lstrip_spaces w : all_chars is_space w = true -> lstrip w = "".
Proof.
  induction w as [|c w IH]; cbn [all_chars lstrip]; intros H; [reflexivity|].
  apply andb_true_iff in H as [Hc Hw]; now rewrite Hc, IH.
Qed.

Lemma rstrip_app_space x w : all_chars is_space w = true -> rstrip (x ++ w) = rstrip x.
Proof.
  intros Hw; induction x as [|c x IH]; cbn [String.append rstrip];
    [exact (rstrip_spaces w Hw)|now rewrite IH].
Qed.

Lemma strip_app_space x w : all_chars is_space w = true -> strip (x ++ w) = strip x.
Proof.
  intros Hw; unfold strip; induction x as [|c x IH]; cbn [String.append lstrip].
  - now rewrite lstrip_spaces.
  - destruct (is_space c); [exact IH|].
    change (String c (x ++ w)) with (String c x ++ w); apply rstrip_app_space, Hw.
Qed.

(** [int(line.strip())] ignores the blank and the newline after a number. *)
Lemma py_int_app_space x w : all_chars is_space w = true -> py_int (x ++ w) = py_int x.
Proof. intros Hw; unfold py_int; now rewrite strip_app_space. Qed.

Lemma all_chars_impl (f g : ascii -> bool) s :
  (forall c, f c = true -> g c = true) -> all_chars f s = true -> all_chars g s = true.
Proof.
  intros Hfg; induction s as [|c s IH]; cbn [all_chars]; [reflexivity|].
  rewrite !andb_true_iff; intros [Hc Hs]; split; auto.
Qed.

(** *** Searching and stripping around a fixed prefix *)

Lemma prefix_app_self p s : String.prefix p (p ++ s) = true.
Proof.
  induction p as [|c p IH]; [destruct s; reflexivity|].
  cbn; destruct (ascii_dec c c); [exact IH|congruence].
Qed.

Lemma contains_app_self sub s : contains sub (sub ++ s) = true.
Proof.
  unfold contains; destruct (sub ++ s) as [|c t] eqn:E; cbn [index].
  - destruct sub; [reflexivity|discriminate].
  - rewrite <- E, prefix_app_self; reflexivity.
Qed.

(** A character other than the first of [sub] cannot start an
    occurrence of [sub]. *)
Lemma contains_skip a sub c s :
  c <> a -> contains (String a sub) (String c s) = contains (String a sub) s.
Proof.
  intros Hc; unfold contains; cbn [index String.prefix].
  destruct (ascii_dec a c) as [->|_]; [congruence|].
  destruct (index 0 (String a sub) s); reflexivity.
Qed.

(** Stripping a text that starts with a word without whitespace keeps
    the word. *)
Lemma strip_app_word p s :
  p <> "" -> all_chars not_space p = true -> strip (p ++ s) = p ++ rstrip s.
Proof.
  intros Hne Hp; unfold strip.
  assert (Hl : lstrip (p ++ s) = p ++ s).
  { destruct p as [|c p]; [congruence|].
    cbn [all_chars] in Hp; apply andb_true_iff in Hp as [Hc _].
    unfold not_space in Hc; apply negb_true_iff in Hc; cbn [String.append lstrip]; now rewrite Hc. }
  rewrite Hl; clear Hl Hne; induction p as [|c p IH]; [reflexivity|].
  cbn [all_chars] in Hp; apply andb_true_iff in Hp as [Hc Hp].
  unfold not_space in Hc; apply negb_true_iff in Hc.
  cbn [String.append rstrip]; rewrite (IH Hp), Hc; reflexivity.
Qed.

(** *** Occurrences after text that cannot start them *)

Lemma prefix_cons_ne a sub c s : c <> a -> String.prefix (String a sub) (String c s) = false.
Proof. intros Hc; cbn; destruct (ascii_dec a c); [congruence|reflexivity]. Qed.

Lemma index_cons_skip sub c s :
  String.prefix sub (String c s) = false -> index 0 sub (String c s) = option_map S (index 0 sub s).
Proof. intros H; cbn [index]; rewrite H; destruct (index 0 sub s); reflexivity. Qed.

Lemma index_app_skip a sub p s :
  all_chars (not_char a) p = true ->
  index 0 (String a sub) (p ++ s) = option_map (Nat.add (String.length p)) (index 0 (String a sub) s).
Proof.
  induction p as [|c p IH]; intros Hp;
    [cbn [String.append String.length]; destruct (index _ _ s); reflexivity|].
  cbn [all_chars] in Hp; apply andb_true_iff in Hp as [Hc Hp].
  unfold not_char in Hc; apply negb_true_iff in Hc.
  cbn [String.append]; rewrite index_cons_skip, IH by
    (exact Hp || (apply prefix_cons_ne; intros ->; rewrite Ascii.eqb_refl in Hc; discriminate)).
  destruct (index _ _ s); reflexivity.
Qed.

Lemma index_app_here sub s : index 0 sub (sub ++ s) = Some 0.
Proof.
  destruct (sub ++ s) as [|c t] eqn:E; cbn [index].
  - destruct sub; [reflexivity|discriminate].
  - rewrite <- E, prefix_app_self; reflexivity.
Qed.

Lemma digits_not_char a s :
  is_digit a = false -> all_chars is_digit s = true -> all_chars (not_char a) s = true.
Proof.
  intros Ha; apply all_chars_impl; intros c Hc; unfold not_char.
  destruct (Ascii.eqb_spec c a) as [->|_]; [congruence|reflexivity].
Qed.

Lemma slice_from_app p s : slice_from (String.length p) (p ++ s) = s.
Proof. induction p as [|c p IH]; [destruct s; reflexivity|exact IH]. Qed.

Lemma split_rec_sep f sep s cur :
  sep <> "" -> String.length (sep ++ s) < f ->
  split_rec f sep (sep ++ s) cur = cur :: split_rec (S (String.length s)) sep s "".
Proof.
  intros Hsep Hf; destruct f as [|f]; [lia|].
  destruct sep as [|a sep']; [congruence|].
  remember (S (String.length s)) as F eqn:EF.
  cbn [String.append split_rec]; change (String a (sep' ++ s)) with (String a sep' ++ s).
  rewrite prefix_app_self, slice_from_app; f_equal; subst F.
  apply split_rec_fuel; [exact Hsep|rewrite str_length_app in Hf; cbn in Hf; lia|lia].
Qed.

Lemma split_rec_skip a sep' p s cur f :
  all_chars (not_char a) p = true -> String.length (p ++ s) < f ->
  split_rec f (String a sep') (p ++ s) cur = split_rec (S (String.length s)) (String a sep') s (cur ++ p).
Proof.
  revert cur f; induction p as [|c p IH]; intros cur f Hp Hf.
  - rewrite str_app_nil_r; apply split_rec_fuel; [discriminate|exact Hf|lia].
  - cbn [all_chars] in Hp; apply andb_true_iff in Hp as [Hc Hp].
    unfold not_char in Hc; apply negb_true_iff in Hc.
    destruct f as [|f]; [lia|]; remember (S (String.length s)) as F eqn:EF.
    cbn [String.append split_rec]; subst F.
    rewrite prefix_cons_ne by (intros ->; rewrite Ascii.eqb_refl in Hc; discriminate).
    rewrite IH by (exact Hp || (cbn in Hf; lia)).
    now rewrite str_app_assoc.
Qed.

Lemma split_rec_last a sep' s cur f :
  all_chars (not_char a) s = true -> String.length s < f ->
  split_rec f (String a sep') s cur = [cur ++ s].
Proof.
  intros Hs Hf; rewrite <- (str_app_nil_r s) at 1.
  rewrite split_rec_skip by (exact Hs || (rewrite str_app_nil_r; exact Hf)); reflexivity.
Qed.

Lemma rstrip_app_ne x y : rstrip y <> "" -> rstrip (x ++ y) = x ++ rstrip y.
Proof.
  intros Hy; induction x as [|c x IH]; [reflexivity|].
  change (String c x ++ y) with (String c (x ++ y)); unfold rstrip at 1; fold rstrip.
  rewrite IH; destruct (String.eqb_spec (x ++ rstrip y) "") as [E|E];
    [destruct x; [contradiction|discriminate]|].
  rewrite andb_false_r; reflexivity.
Qed.

Lemma rstrip_last x c : is_space c = false -> rstrip (x ++ String c "") = x ++ String c "".
Proof.
  intros Hc; assert (E : rstrip (String c "") = String c "") by (cbn [rstrip]; now rewrite Hc).
  rewrite rstrip_app_ne, E; [reflexivity|rewrite E; discriminate].
Qed.

Lemma str_digits_not_char a n :
  is_digit a = false -> (0 <= n)%Z -> all_chars (not_char a) (str_of_Z n) = true.
Proof. intros Ha Hn; apply digits_not_char; [exact Ha|exact (proj1 (str_of_Z_digits n Hn))]. Qed.

(** Closes [all_chars] goals over literals and decimal numerals. *)
Ltac no_char_tac :=
  rewrite ?all_chars_app, ?str_digits_not_char by (reflexivity || assumption); reflexivity.

Lemma find_after a sub P Y :
  all_chars (not_char a) P = true ->
  find (String a sub) (P ++ String a sub ++ Y) = Z.of_nat (String.length P).
Proof.
  intros HP; unfold find; rewrite index_app_skip, index_app_here by exact HP.
  cbn [option_map]; f_equal; lia.
Qed.

