(* ===== verification/Scoring.v ===== *)
(** * Allocation and scoring

    [calculateScore] and [calculateFinalScore] of src/utils.py, and the
    [NegotiationGame] state of src/games/negotiation.py with the methods
    that score a finished game: [__init__] (its log writes are [GameLog.init_log]),
    [isValidDeal], [calculateScore] and [calculateFinalScores].

    The theorems show that the score is the sum over item kinds of value
    times count when the two dicts list the same keys in the same order
    (and only then: [calculateScore_order_dependent]), that it is linear
    and invariant under a common reordering of the keys, that a deal is
    valid exactly when the proposals add up to the item counts, and that
    the method [calculateFinalScores] agrees with [utils.calculateFinalScore]
    and zeroes both scores of an invalid deal. *)

From Stdlib Require Import String ZArith Lia List Permutation.
From S2P Require Import Prelude PyDict.
Import ListNotations.
Local Open Scope string_scope.
Local Open Scope py_scope.

(** ** Scores *)

(** [sum(x * y for x, y in zip(player_values.values(), player_cnts.values()))]
    ([zip] stops at the shorter list, as [combine] does). *)
Definition calculateScore (player_values player_cnts : dict Z) : Z :=
  py_sum (map (fun '(x, y) => (x * y)%Z)
              (combine (values player_values) (values player_cnts))).

(** utils.calculateFinalScore: the objective is the string the caller
    passes; an unknown one raises [Exception()]. *)
Definition calculateFinalScore (player_values player_cnts opponent_values
    opponents_cnts : dict Z) (objective : string) : res Z :=
  let player_score := calculateScore player_values player_cnts in
  let opponent_score := calculateScore opponent_values opponents_cnts in
  if objective =? "self" then Ok player_score
  else if objective =? "coop" then Ok (player_score + opponent_score)%Z
  else if objective =? "comp" then Ok (player_score - opponent_score)%Z
  else Raise (Exception "").

(** ** The game object *)

(** The fields of [NegotiationGame] that the game logic reads and writes
    ([game_index] and [game_log_filename] only name the log file). *)
Record NegotiationGame : Type := mkGame {
  item_counts : dict Z;
  player_values : dict Z * dict Z;
  proposals : option (dict Z) * option (dict Z);
  final_scores : option Z * option Z;
  deal_proposed : bool;
  game_over : bool;
  objective : string;
  prompt_path : string
}.

Definition set_proposals (ps : option (dict Z) * option (dict Z))
    (g : NegotiationGame) : NegotiationGame :=
  mkGame (item_counts g) (player_values g) ps (final_scores g)
         (deal_proposed g) (game_over g) (objective g) (prompt_path g).

Definition set_final_scores (fs : option Z * option Z) (g : NegotiationGame)
    : NegotiationGame :=
  mkGame (item_counts g) (player_values g) (proposals g) fs
         (deal_proposed g) (game_over g) (objective g) (prompt_path g).

Definition set_deal_proposed (b : bool) (g : NegotiationGame) : NegotiationGame :=
  mkGame (item_counts g) (player_values g) (proposals g) (final_scores g)
         b (game_over g) (objective g) (prompt_path g).

Definition set_game_over (b : bool) (g : NegotiationGame) : NegotiationGame :=
  mkGame (item_counts g) (player_values g) (proposals g) (final_scores g)
         (deal_proposed g) b (objective g) (prompt_path g).

Definition DEFAULT_COUNTS : dict Z := items 1 2 3.
Definition DEFAULT_P1_VALUES : dict Z := items 1 3 1.
Definition DEFAULT_P2_VALUES : dict Z := items 2 1 2.

(** The objective check of [__init__]. *)
Definition prompt_of_objective (objective : string) : res string :=
  if objective =? "self" then Ok "prompts/dond.txt"
  else if objective =? "coop" then Ok "prompts/coop_dond.txt"
  else if objective =? "comp" then Ok "prompts/comp_dond.txt"
  else Raise (Exception "invalid objective").

(** [NegotiationGame.__init__]: defaults for missing arguments, the
    objective check, then the log header, which reads the three item
    kinds of the counts and of both value dicts (a missing one raises
    [KeyError]); the text written to the log is not modelled. *)
Definition init (item_counts p1_values p2_values : option (dict Z))
    (objective : string) : res NegotiationGame :=
  let counts := match item_counts with Some c => c | None => DEFAULT_COUNTS end in
  let v0 := match p1_values with Some v => v | None => DEFAULT_P1_VALUES end in
  let v1 := match p2_values with Some v => v | None => DEFAULT_P2_VALUES end in
  path <- prompt_of_objective objective ;;
  _ <- mapM (getitem counts) ITEMS ;;
  _ <- mapM (getitem v0) ITEMS ;;
  _ <- mapM (getitem v1) ITEMS ;;
  Ok (mkGame counts (v0, v1) (None, None) (None, None) false false objective path).

(** The loop of [isValidDeal] over [p1_cnts.keys()]. *)
Fixpoint deal_sums_match (p1_cnts p2_cnts counts : dict Z) (ks : list string)
    : res bool :=
  match ks with
  | [] => Ok true
  | k :: ks' =>
      a <- getitem p1_cnts k ;;
      b <- getitem p2_cnts k ;;
      c <- getitem counts k ;;
      if (a + b =? c)%Z then deal_sums_match p1_cnts p2_cnts counts ks'
      else Ok false
  end.

Definition isValidDeal (self : NegotiationGame) : res bool :=
  match proposals self with
  | (Some p1_cnts, Some p2_cnts) =>
      deal_sums_match p1_cnts p2_cnts (item_counts self) (keys p1_cnts)
  | _ => Ok false
  end.

(** [calculateFinalScores]: zero for an invalid deal, otherwise the two
    raw scores combined by the objective; an objective outside the three
    (which [init] rules out) leaves [final_scores] as it was.  The
    [Raise] branch is Python's [None.values()], unreachable once the deal
    is valid. *)
Definition calculateFinalScores (self : NegotiationGame) : res NegotiationGame :=
  valid <- isValidDeal self ;;
  if negb valid then Ok (set_final_scores (Some 0%Z, Some 0%Z) self)
  else
    match proposals self with
    | (Some c0, Some c1) =>
        let p0_score := calculateScore (fst (player_values self)) c0 in
        let p1_score := calculateScore (snd (player_values self)) c1 in
        if objective self =? "self" then
          Ok (set_final_scores (Some p0_score, Some p1_score) self)
        else if objective self =? "coop" then
          Ok (set_final_scores (Some (p0_score + p1_score)%Z,
                                Some (p0_score + p1_score)%Z) self)
        else if objective self =? "comp" then
          Ok (set_final_scores (Some (p0_score - p1_score)%Z,
                                Some (p1_score - p0_score)%Z) self)
        else Ok self
    | _ => Raise (AttributeError "values")
    end.

(** The objectives [__init__] accepts. *)
Definition valid_objective (o : string) : bool :=
  (o =? "self") || (o =? "coop") || (o =? "comp").

(** Pointwise sum of two allocations listed in the same order; a
    specification device for linearity, not code of the program. *)
Definition add_alloc (a b : dict Z) : dict Z :=
  map (fun '((k, x), (_, y)) => (k, (x + y)%Z)) (combine a b).

(** ** Concrete instances

    The scenario of the specification: counts (1 book, 2 hats, 3 balls),
    values (1, 3, 1) for player 0 and (2, 1, 2) for player 1. *)

Definition spec_game (obj : string) (p0 p1 : option (dict Z)) : NegotiationGame :=
  mkGame DEFAULT_COUNTS (DEFAULT_P1_VALUES, DEFAULT_P2_VALUES) (p0, p1)
         (None, None) true true obj "prompts/dond.txt".

Ltac lookup_cases :=
  intros ?k; simpl;
  destruct (String.eqb_spec k "book"), (String.eqb_spec k "hat"); subst;
  reflexivity || discriminate.

(** ** Lemmas on [calculateScore] *)

Lemma calculateScore_cons k x v k' y c :
  calculateScore ((k, x) :: v) ((k', y) :: c) = (x * y + calculateScore v c)%Z.
Proof. unfold calculateScore; simpl; now rewrite py_sum_cons. Qed.

Lemma calculateScore_nil_l c : calculateScore [] c = 0%Z.
Proof. reflexivity. Qed.

#[export] Hint Rewrite calculateScore_cons calculateScore_nil_l : py.

(** ** Theorems *)

(** when the value dict and the allocation list the same keys in the
    same order (as every dict of the program does), the score is the sum
    over item kinds of value times quantity. *)
Theorem calculateScore_keys (v c : dict Z) :
  keys v = keys c -> NoDup (keys v) ->
  calculateScore v c = py_sum (map (fun k => get0 v k * get0 c k)%Z (keys v)).
Proof.
  revert c; induction v as [|[k x] v IH]; intros [|[k' y] c] Hk Hnd;
    simpl in Hk; try discriminate; [reflexivity|].
  injection Hk as <- Hk; apply NoDup_cons_iff in Hnd as [Hnin Hnd].
  rewrite calculateScore_cons; simpl keys; simpl map.
  rewrite py_sum_cons, !get0_cons_eq, (map_get0_tail Z.mul); auto.
  now rewrite IH.
Qed.

(** the score does not depend on the order of the item kinds, as long
    as both dicts are reordered the same way. *)
Theorem calculateScore_reorder (v c v' c' : dict Z) :
  keys v = keys c -> keys v' = keys c' -> NoDup (keys v) ->
  Permutation (keys v) (keys v') ->
  (forall k, lookup v k = lookup v' k) -> (forall k, lookup c k = lookup c' k) ->
  calculateScore v c = calculateScore v' c'.
Proof.
  intros Hk Hk' Hnd Hp Hv Hc.
  rewrite (calculateScore_keys v c), (calculateScore_keys v' c'); auto;
    [|eapply Permutation_NoDup; eauto].
  apply py_sum_perm.
  replace (map (fun k => get0 v k * get0 c k)%Z (keys v))
    with (map (fun k => get0 v' k * get0 c' k)%Z (keys v));
    [now apply Permutation_map|].
  apply map_ext; intros k; unfold get0; now rewrite Hv, Hc.
Qed.

(** The score is linear in the allocation. *)
Lemma calculateScore_linear (v a b : dict Z) :
  keys a = keys b ->
  calculateScore v (add_alloc a b) = (calculateScore v a + calculateScore v b)%Z.
Proof.
  revert a b; induction v as [|[k x] v IH]; intros [|[ka xa] a] [|[kb xb] b] Hk;
    simpl in Hk; try discriminate; try reflexivity.
  injection Hk as _ Hk.
  change (add_alloc ((ka, xa) :: a) ((kb, xb) :: b))
    with ((ka, (xa + xb)%Z) :: add_alloc a b).
  rewrite !calculateScore_cons, IH; [lia|assumption].
Qed.

(** the zip pairs values by position, not by key: the same allocation
    written with its keys in another order scores differently. *)
Theorem calculateScore_order_dependent :
  exists v c c' : dict Z, (forall k, lookup c k = lookup c' k) /\
    calculateScore v c <> calculateScore v c'.
Proof.
  exists (items 1 3 1), (items 1 2 0), [("hat", 2%Z); ("book", 1%Z); ("ball", 0%Z)].
  split; [|discriminate].
  intros k; simpl.
  destruct (String.eqb_spec k "book"), (String.eqb_spec k "hat"); subst;
    reflexivity || discriminate.
Qed.

(** The loop of [isValidDeal] computes a conjunction over the keys when
    every key it reads is present. *)
Lemma deal_sums_match_spec p1 p2 counts ks :
  incl ks (keys p1) -> incl ks (keys p2) -> incl ks (keys counts) ->
  deal_sums_match p1 p2 counts ks =
  Ok (forallb (fun k => get0 p1 k + get0 p2 k =? get0 counts k)%Z ks).
Proof.
  induction ks as [|k ks IH]; intros H1 H2 H3; [reflexivity|].
  apply incl_cons_inv in H1 as [H1 H1'], H2 as [H2 H2'], H3 as [H3 H3'].
  cbn [deal_sums_match].
  destruct (getitem_In _ _ H1) as (a & -> & Ha).
  destruct (getitem_In _ _ H2) as (b & -> & Hb).
  destruct (getitem_In _ _ H3) as (c & -> & Hc).
  simpl; unfold get0 at 1 2 3; rewrite Ha, Hb, Hc.
  destruct (a + b =? c)%Z; simpl; auto.
Qed.

(** C5: a deal is valid exactly when, for every item kind of the first
    proposal, the two proposals add up to the item count. *)
Theorem isValidDeal_spec g p1 p2 :
  proposals g = (Some p1, Some p2) ->
  incl (keys p1) (keys p2) -> incl (keys p1) (keys (item_counts g)) ->
  isValidDeal g = Ok true <->
  (forall k, In k (keys p1) -> (get0 p1 k + get0 p2 k)%Z = get0 (item_counts g) k).
Proof.
  intros Hp H2 H3; unfold isValidDeal; rewrite Hp.
  rewrite deal_sums_match_spec; auto using incl_refl.
  split.
  - intros [= Hb] k Hk; rewrite forallb_forall in Hb; apply Z.eqb_eq; auto.
  - intros H; f_equal; apply forallb_forall; intros k Hk; apply Z.eqb_eq; auto.
Qed.

(** C6: an invalid or missing deal gives both players 0, whatever the
    objective. *)
Theorem calculateFinalScores_invalid g :
  isValidDeal g = Ok false ->
  calculateFinalScores g = Ok (set_final_scores (Some 0%Z, Some 0%Z) g).
Proof. intros H; unfold calculateFinalScores; now rewrite H. Qed.

(** C31: for a valid deal, the method's final scores are the scores that
    [utils.calculateFinalScore] computes for each player against the
    other, for each of the three objectives. *)
Theorem calculateFinalScores_agrees g c0 c1 :
  isValidDeal g = Ok true -> valid_objective (objective g) = true ->
  proposals g = (Some c0, Some c1) ->
  exists f0 f1,
    calculateFinalScore (fst (player_values g)) c0 (snd (player_values g)) c1
      (objective g) = Ok f0 /\
    calculateFinalScore (snd (player_values g)) c1 (fst (player_values g)) c0
      (objective g) = Ok f1 /\
    calculateFinalScores g = Ok (set_final_scores (Some f0, Some f1) g).
Proof.
  intros Hv Ho Hp; unfold calculateFinalScores, calculateFinalScore.
  rewrite Hv, Hp; simpl; unfold valid_objective in Ho.
  destruct (objective g =? "self"), (objective g =? "coop"), (objective g =? "comp");
    try discriminate;
    do 2 eexists; (split; [reflexivity|split; [reflexivity|]]);
    first [reflexivity | do 4 f_equal; lia].
Qed.

(** under the competitive objective the final scores always sum to
    zero, valid deal or not. *)
Theorem calculateFinalScores_comp_zero_sum g g' :
  objective g = "comp" -> calculateFinalScores g = Ok g' ->
  exists f, final_scores g' = (Some f, Some (- f)%Z).
Proof.
  intros Ho H; unfold calculateFinalScores in H; rewrite Ho in H.
  destruct (isValidDeal g) as [[|]|]; simpl in H; [|inversion H; now exists 0%Z|discriminate].
  destruct (proposals g) as [[c0|] [c1|]]; inversion H; subst; simpl.
  eexists; f_equal; f_equal; lia.
Qed.

(** [__init__] accepts exactly the three objectives and leaves a game
    whose counts and value dicts have the three item kinds, no proposal,
    and [deal_proposed] and [game_over] both false. *)
Theorem init_spec counts v0 v1 obj g :
  init counts v0 v1 obj = Ok g ->
  valid_objective (objective g) = true /\
  incl ITEMS (keys (item_counts g)) /\
  incl ITEMS (keys (fst (player_values g))) /\
  incl ITEMS (keys (snd (player_values g))) /\
  proposals g = (None, None) /\ deal_proposed g = false /\ game_over g = false.
Proof.
  intros H; unfold init in H.
  py_inv H; py_inv H; py_inv H; py_inv H; inversion H; subst; simpl.
  repeat split; eauto using mapM_getitem_incl.
  unfold prompt_of_objective, valid_objective in *.
  destruct (obj =? "self"), (obj =? "coop"), (obj =? "comp"); easy.
Qed.

(** an objective other than the three raises [Exception] before any
    state is built. *)
Theorem init_invalid_objective counts v0 v1 obj :
  valid_objective obj = false ->
  init counts v0 v1 obj = Raise (Exception "invalid objective").
Proof.
  unfold init, prompt_of_objective, valid_objective; intros H.
  destruct (obj =? "self"), (obj =? "coop"), (obj =? "comp"); easy.
Qed.

(** With one of the three objectives the final scores are both set. *)
Lemma calculateFinalScores_some g g' :
  valid_objective (objective g) = true -> calculateFinalScores g = Ok g' ->
  exists s0 s1, final_scores g' = (Some s0, Some s1).
Proof.
  intros Hv H; unfold calculateFinalScores in H; unfold valid_objective in Hv.
  destruct (isValidDeal g) as [[|]|]; cbn [bind negb] in H; try discriminate.
  - destruct (proposals g) as [[c0|] [c1|]]; try discriminate.
    destruct (objective g =? "self"), (objective g =? "coop"), (objective g =? "comp");
      cbn [orb] in Hv; try discriminate; injection H as <-; do 2 eexists; reflexivity.
  - injection H as <-; do 2 eexists; reflexivity.
Qed.

Lemma calculateScore_keys_witness :
  keys (items 1 3 1) = keys (items 1 0 0) /\ NoDup (keys (items 1 3 1)) /\
  calculateScore (items 1 3 1) (items 1 0 0) =
  py_sum (map (fun k => get0 (items 1 3 1) k * get0 (items 1 0 0) k)%Z
              (keys (items 1 3 1))).
Proof.
  assert (Hk : keys (items 1 3 1) = keys (items 1 0 0)) by reflexivity.
  assert (Hnd : NoDup (keys (items 1 3 1)))
    by (repeat constructor; simpl; intuition discriminate).
  split; [exact Hk|split; [exact Hnd|exact (calculateScore_keys _ _ Hk Hnd)]].
Defined.

Lemma calculateScore_reorder_witness :
  let v' := [("hat", 3%Z); ("book", 1%Z); ("ball", 1%Z)] in
  let c' := [("hat", 2%Z); ("book", 0%Z); ("ball", 3%Z)] in
  keys (items 1 3 1) = keys (items 0 2 3) /\ keys v' = keys c' /\
  NoDup (keys (items 1 3 1)) /\ Permutation (keys (items 1 3 1)) (keys v') /\
  (forall k, lookup (items 1 3 1) k = lookup v' k) /\
  (forall k, lookup (items 0 2 3) k = lookup c' k) /\
  calculateScore (items 1 3 1) (items 0 2 3) = calculateScore v' c'.
Proof.
  intros v' c'.
  assert (H1 : keys (items 1 3 1) = keys (items 0 2 3)) by reflexivity.
  assert (H2 : keys v' = keys c') by reflexivity.
  assert (H3 : NoDup (keys (items 1 3 1)))
    by (repeat constructor; simpl; intuition discriminate).
  assert (H4 : Permutation (keys (items 1 3 1)) (keys v')) by apply perm_swap.
  assert (H5 : forall k, lookup (items 1 3 1) k = lookup v' k) by lookup_cases.
  assert (H6 : forall k, lookup (items 0 2 3) k = lookup c' k) by lookup_cases.
  split; [exact H1|split; [exact H2|split; [exact H3|split; [exact H4|]]]].
  split; [exact H5|split; [exact H6|]].
  exact (calculateScore_reorder _ _ _ _ H1 H2 H3 H4 H5 H6).
Defined.

Lemma isValidDeal_spec_witness :
  let g := spec_game "self" (Some (items 1 0 0)) (Some (items 0 2 3)) in
  proposals g = (Some (items 1 0 0), Some (items 0 2 3)) /\
  incl (keys (items 1 0 0)) (keys (items 0 2 3)) /\
  incl (keys (items 1 0 0)) (keys (item_counts g)) /\
  (isValidDeal g = Ok true <->
   (forall k, In k (keys (items 1 0 0)) ->
      (get0 (items 1 0 0) k + get0 (items 0 2 3) k)%Z = get0 (item_counts g) k)).
Proof.
  intros g.
  assert (Hp : proposals g = (Some (items 1 0 0), Some (items 0 2 3))) by reflexivity.
  assert (H2 : incl (keys (items 1 0 0)) (keys (items 0 2 3))) by apply incl_refl.
  assert (H3 : incl (keys (items 1 0 0)) (keys (item_counts g))) by apply incl_refl.
  split; [exact Hp|split; [exact H2|split; [exact H3|]]].
  exact (isValidDeal_spec _ _ _ Hp H2 H3).
Defined.

Lemma calculateFinalScores_invalid_witness :
  let g := spec_game "self" (Some (items 1 1 1)) (Some (items 1 1 1)) in
  isValidDeal g = Ok false /\
  calculateFinalScores g = Ok (set_final_scores (Some 0%Z, Some 0%Z) g).
Proof.
  intros g; assert (H : isValidDeal g = Ok false) by reflexivity.
  split; [exact H|exact (calculateFinalScores_invalid g H)].
Defined.

Lemma calculateFinalScores_agrees_witness :
  let g := spec_game "self" (Some (items 1 0 0)) (Some (items 0 2 3)) in
  isValidDeal g = Ok true /\ valid_objective (objective g) = true /\
  proposals g = (Some (items 1 0 0), Some (items 0 2 3)) /\
  calculateFinalScores g = Ok (set_final_scores (Some 1%Z, Some 8%Z) g).
Proof.
  intros g.
  assert (H1 : isValidDeal g = Ok true) by reflexivity.
  assert (H2 : valid_objective (objective g) = true) by reflexivity.
  assert (H3 : proposals g = (Some (items 1 0 0), Some (items 0 2 3))) by reflexivity.
  split; [exact H1|split; [exact H2|split; [exact H3|]]].
  destruct (calculateFinalScores_agrees g _ _ H1 H2 H3) as (f0 & f1 & E0 & E1 & ->).
  vm_compute in E0, E1; injection E0 as <-; injection E1 as <-; reflexivity.
Defined.

Lemma calculateFinalScores_comp_zero_sum_witness :
  let g := spec_game "comp" (Some (items 1 0 0)) (Some (items 0 2 3)) in
  objective g = "comp" /\
  calculateFinalScores g = Ok (set_final_scores (Some (-7)%Z, Some 7%Z) g) /\
  exists f, final_scores (set_final_scores (Some (-7)%Z, Some 7%Z) g) = (Some f, Some (- f)%Z).
Proof.
  intros g.
  assert (H1 : objective g = "comp") by reflexivity.
  assert (H2 : calculateFinalScores g = Ok (set_final_scores (Some (-7)%Z, Some 7%Z) g))
    by reflexivity.
  split; [exact H1|split; [exact H2|exact (calculateFinalScores_comp_zero_sum _ _ H1 H2)]].
Defined.

Lemma init_spec_witness :
  let g := mkGame DEFAULT_COUNTS (DEFAULT_P1_VALUES, DEFAULT_P2_VALUES) (None, None)
             (None, None) false false "self" "prompts/dond.txt" in
  init None None None "self" = Ok g /\ valid_objective (objective g) = true /\
  incl ITEMS (keys (item_counts g)) /\
  incl ITEMS (keys (fst (player_values g))) /\
  incl ITEMS (keys (snd (player_values g))) /\
  proposals g = (None, None) /\ deal_proposed g = false /\ game_over g = false.
Proof.
  intros g; assert (H : init None None None "self" = Ok g) by reflexivity.
  split; [exact H|exact (init_spec _ _ _ _ _ H)].
Defined.

Lemma init_invalid_objective_witness :
  valid_objective "orig" = false /\
  init None None None "orig" = Raise (Exception "invalid objective").
Proof.
  assert (H : valid_objective "orig" = false) by reflexivity.
  split; [exact H|exact (init_invalid_objective _ _ _ _ H)].
Defined.
