(* ===== verification/Pareto.v ===== *)
(** * Pareto optimality

    [isParetoOptimal] and [calculate_maximum_collective_score] of
    src/utils.py, and the method [NegotiationGame.isParetoOptimal] of
    src/games/negotiation.py (the same code appears in
    src/web_interface/games/web_negotiation.py).

    The lattice of allocations is built by three nested [for] loops whose
    ranges read [cnts["book"]], [cnts["hat"]] and [cnts["ball"]];
    [allocations] keeps Python's order of evaluation (a missing key is
    only read when its loop is reached).  [utils.isParetoOptimal] is
    refined against [pareto_spec], the declarative "no allocation of the
    lattice weakly improves both players and strictly improves one"; the
    method variant is characterised exactly, which shows that it only
    looks at player 0's values and reports a welfare-maximising outcome
    as dominated. *)

From Stdlib Require Import String ZArith QArith Lia List.
From S2P Require Import Prelude PyDict Scoring.
Import ListNotations.
Local Open Scope string_scope.
Local Open Scope py_scope.

(** ** The allocation lattice *)

(** [for i in range(nb + 1): for j in range(nh + 1): for k in range(nl + 1):
       allocations.append({"book": i, "hat": j, "ball": k})] with the three
    counts already read. *)
Definition lattice (nb nh nl : Z) : list (dict Z) :=
  flat_map (fun i =>
    flat_map (fun j =>
      map (fun k => items i j k) (py_range (nl + 1)))
    (py_range (nh + 1)))
  (py_range (nb + 1)).

(** The same loops reading the counts where Python reads them: the range
    of an inner loop is evaluated at each iteration of the outer one. *)
Definition allocations (cnts : dict Z) : res (list (dict Z)) :=
  nb <- getitem cnts "book" ;;
  res_map (@concat _) (mapM (fun i =>
    nh <- getitem cnts "hat" ;;
    res_map (@concat _) (mapM (fun j =>
      nl <- getitem cnts "ball" ;;
      Ok (map (fun k => items i j k) (py_range (nl + 1))))
    (py_range (nh + 1))))
  (py_range (nb + 1))).

(** [{k: cnts[k] - p0_cnts[k] for k in p0_cnts.keys()}] *)
Definition complement (cnts p0_cnts : dict Z) : res (dict Z) :=
  comprehension (keys p0_cnts)
    (fun k => c <- getitem cnts k ;; v <- getitem p0_cnts k ;; Ok (c - v)%Z).

(** ** utils.isParetoOptimal *)

(** The loop over the allocations, with its early [return False]. *)
Fixpoint pareto_loop (p0_score p1_score : Z) (cnts p0_values p1_values : dict Z)
    (objective : string) (allocs : list (dict Z)) : res bool :=
  match allocs with
  | [] => Ok true
  | allocation :: rest =>
      let p0_cnts := allocation in
      p1_cnts <- complement cnts p0_cnts ;;
      p0_new_score <- calculateFinalScore p0_values p0_cnts p1_values p1_cnts objective ;;
      p1_new_score <- calculateFinalScore p1_values p1_cnts p0_values p0_cnts objective ;;
      let isAsGood := (p0_score <=? p0_new_score)%Z && (p1_score <=? p1_new_score)%Z in
      let isBetter := (p0_score <? p0_new_score)%Z || (p1_score <? p1_new_score)%Z in
      if isAsGood && isBetter then Ok false
      else pareto_loop p0_score p1_score cnts p0_values p1_values objective rest
  end.

Definition isParetoOptimal (p0_score p1_score : Z) (cnts p0_values p1_values : dict Z)
    (objective : string) : res bool :=
  if negb (valid_objective objective) then Raise AssertionError
  else
    allocs <- allocations cnts ;;
    pareto_loop p0_score p1_score cnts p0_values p1_values objective allocs.

(** ** The method NegotiationGame.isParetoOptimal *)

Module GameMethod.

(** The loop of the method, as written: both "new utilities" are player
    0's score of [p1_cnts], and [isBetter] compares [p1_new_utility] with
    itself.  [p2_cnts] is computed (and can raise) but never used. *)
Fixpoint pareto_loop (self : NegotiationGame) (p1_current p2_current : Z)
    (allocs : list (dict Z)) : res bool :=
  match allocs with
  | [] => Ok true
  | allocation :: rest =>
      let p1_cnts := allocation in
      _ <- complement (item_counts self) p1_cnts ;;
      let p1_new_utility := calculateScore (fst (player_values self)) p1_cnts in
      let p2_new_utility := calculateScore (fst (player_values self)) p1_cnts in
      let isAsGood := (p1_current <=? p1_new_utility)%Z
                      && (p2_current <=? p2_new_utility)%Z in
      let isBetter := (p1_new_utility <? p1_new_utility)%Z
                      || (p2_current <? p2_new_utility)%Z in
      if isAsGood && isBetter then Ok false
      else pareto_loop self p1_current p2_current rest
  end.

Definition isParetoOptimal (self : NegotiationGame)
    (p1_values p2_values p1_cnts p2_cnts : dict Z) : res bool :=
  allocs <- allocations (item_counts self) ;;
  let p1_current_utility := calculateScore p1_values p1_cnts in
  let p2_current_utility := calculateScore p2_values p2_cnts in
  pareto_loop self p1_current_utility p2_current_utility allocs.

End GameMethod.

(** ** utils.calculate_maximum_collective_score *)

(** The lattice of this function is keyed by ["books"], ["hats"],
    ["balls"]. *)
Definition max_score_allocations (cnts : dict Z) : res (list (dict Z)) :=
  nb <- getitem cnts "books" ;;
  res_map (@concat _) (mapM (fun i =>
    nh <- getitem cnts "hats" ;;
    res_map (@concat _) (mapM (fun j =>
      nl <- getitem cnts "balls" ;;
      Ok (map (fun k => [("books", i); ("hats", j); ("balls", k)])
              (py_range (nl + 1))))
    (py_range (nh + 1))))
  (py_range (nb + 1))).

Fixpoint best_combined_loop (cnts p0_values p1_values : dict Z)
    (best : Z) (allocs : list (dict Z)) : res Z :=
  match allocs with
  | [] => Ok best
  | allocation :: rest =>
      let p0_cnts := allocation in
      p1_cnts <- complement cnts p0_cnts ;;
      let p0_new_score := calculateScore p0_values p0_cnts in
      let p1_new_score := calculateScore p1_values p1_cnts in
      best_combined_loop cnts p0_values p1_values
        (Z.max best (p0_new_score + p1_new_score)) rest
  end.

(** The result is a Python float for ["self"] ([/ 2]) and an int for
    ["coop"]; both are rationals here. *)
Definition calculate_maximum_collective_score (cnts p0_values p1_values : dict Z)
    (objective : string) : res Q :=
  allocs <- max_score_allocations cnts ;;
  best <- best_combined_loop cnts p0_values p1_values 0%Z allocs ;;
  if objective =? "self" then Ok (inject_Z best / 2)%Q
  else if objective =? "coop" then Ok (inject_Z best)
  else Raise (Exception "").

(** ** Specifications *)

(** [n0, n1] improves on [s0, s1]: as good for both, better for one. *)
Definition dominates (s0 s1 n0 n1 : Z) : Prop :=
  (s0 <= n0 /\ s1 <= n1 /\ (s0 < n0 \/ s1 < n1))%Z.

(** The final score a player gets from its own and its opponent's raw
    score under an objective the code accepts. *)
Definition combine_objective (objective : string) (own opp : Z) : Z :=
  if objective =? "coop" then (own + opp)%Z
  else if objective =? "comp" then (own - opp)%Z
  else own.

(** The final scores of the allocation giving player 0 [(i, j, k)] and
    player 1 the rest. *)
Definition lattice_scores (objective : string) (v0 v1 : dict Z) (nb nh nl i j k : Z)
    : Z * Z :=
  let u0 := calculateScore v0 (items i j k) in
  let u1 := calculateScore v1 (items (nb - i) (nh - j) (nl - k)) in
  (combine_objective objective u0 u1, combine_objective objective u1 u0).

Definition in_box (nb nh nl i j k : Z) : Prop :=
  (0 <= i <= nb /\ 0 <= j <= nh /\ 0 <= k <= nl)%Z.

(** The outcome [(s0, s1)] is Pareto-optimal: no allocation of the
    lattice dominates it. *)
Definition pareto_spec (objective : string) (s0 s1 : Z) (v0 v1 : dict Z) (nb nh nl : Z)
    : Prop :=
  forall i j k, in_box nb nh nl i j k ->
    ~ dominates s0 s1 (fst (lattice_scores objective v0 v1 nb nh nl i j k))
                      (snd (lattice_scores objective v0 v1 nb nh nl i j k)).

(** [dominates] as the boolean the code computes. *)
Definition dominatesb (s0 s1 n0 n1 : Z) : bool :=
  ((s0 <=? n0)%Z && (s1 <=? n1)%Z) && ((s0 <? n0)%Z || (s1 <? n1)%Z).

(** ** Lemmas *)

Lemma dominatesb_spec s0 s1 n0 n1 : dominatesb s0 s1 n0 n1 = true <-> dominates s0 s1 n0 n1.
Proof.
  unfold dominatesb, dominates.
  rewrite !andb_true_iff, orb_true_iff, !Z.leb_le, !Z.ltb_lt; tauto.
Qed.

Lemma in_lattice nb nh nl a :
  In a (lattice nb nh nl) <-> exists i j k, in_box nb nh nl i j k /\ a = items i j k.
Proof.
  unfold lattice, in_box; rewrite in_flat_map; split.
  - intros (i & Hi & Ha); rewrite in_flat_map in Ha; destruct Ha as (j & Hj & Ha).
    rewrite in_map_iff in Ha; destruct Ha as (k & <- & Hk).
    rewrite in_py_range in Hi, Hj, Hk; exists i, j, k; split; [lia|reflexivity].
  - intros (i & j & k & Hb & ->); exists i; rewrite in_py_range; split; [lia|].
    rewrite in_flat_map; exists j; rewrite in_py_range; split; [lia|].
    apply in_map; rewrite in_py_range; lia.
Qed.

Lemma allocations_eq cnts nb nh nl :
  lookup cnts "book" = Some nb -> lookup cnts "hat" = Some nh ->
  lookup cnts "ball" = Some nl ->
  allocations cnts = Ok (lattice nb nh nl).
Proof.
  intros Hb Hh Hl; unfold allocations, lattice, getitem; rewrite Hb, Hh, Hl; simpl.
  rewrite (mapM_ext_Ok _ (fun i => flat_map (fun j => map (fun k => items i j k)
             (py_range (nl + 1))) (py_range (nh + 1)))); [now rewrite flat_map_concat_map|].
  intros i _; simpl.
  rewrite (mapM_ext_Ok _ (fun j => map (fun k => items i j k) (py_range (nl + 1))));
    [now rewrite flat_map_concat_map|reflexivity].
Qed.

Lemma complement_items cnts nb nh nl i j k :
  lookup cnts "book" = Some nb -> lookup cnts "hat" = Some nh ->
  lookup cnts "ball" = Some nl ->
  complement cnts (items i j k) = Ok (items (nb - i) (nh - j) (nl - k)).
Proof.
  intros Hb Hh Hl; unfold complement, comprehension, getitem; simpl.
  now rewrite Hb, Hh, Hl.
Qed.

Lemma calculateFinalScore_valid v c ov oc obj :
  valid_objective obj = true ->
  calculateFinalScore v c ov oc obj =
  Ok (combine_objective obj (calculateScore v c) (calculateScore ov oc)).
Proof.
  unfold valid_objective, calculateFinalScore, combine_objective.
  destruct (obj =? "self") eqn:Es, (obj =? "coop") eqn:Ec, (obj =? "comp") eqn:Ep;
    try discriminate; try reflexivity;
  apply String.eqb_eq in Es; subst; discriminate.
Qed.

Lemma items_get0 a i j k : a = items i j k ->
  a = items (get0 a "book") (get0 a "hat") (get0 a "ball").
Proof. intros ->; reflexivity. Qed.

(** The loop of [utils.isParetoOptimal] over allocations of the lattice
    form returns whether none of them dominates. *)
Lemma pareto_loop_spec s0 s1 cnts v0 v1 obj nb nh nl allocs :
  lookup cnts "book" = Some nb -> lookup cnts "hat" = Some nh ->
  lookup cnts "ball" = Some nl -> valid_objective obj = true ->
  (forall a, In a allocs -> exists i j k, a = items i j k) ->
  pareto_loop s0 s1 cnts v0 v1 obj allocs =
  Ok (forallb (fun a =>
        let sc := lattice_scores obj v0 v1 nb nh nl
                    (get0 a "book") (get0 a "hat") (get0 a "ball") in
        negb (dominatesb s0 s1 (fst sc) (snd sc))) allocs).
Proof.
  intros Hb Hh Hl Ho; induction allocs as [|a allocs IH]; intros Ha; [reflexivity|].
  destruct (Ha a (or_introl eq_refl)) as (i & j & k & Ea).
  cbn [pareto_loop forallb]; rewrite Ea, (complement_items _ nb nh nl); auto; simpl.
  rewrite !calculateFinalScore_valid by assumption; simpl.
  unfold lattice_scores, dominatesb; simpl.
  destruct (_ && _ && _); simpl; [reflexivity|].
  apply IH; intros; apply Ha; now right.
Qed.

Lemma length_lattice nb nh nl :
  (0 <= nb)%Z -> (0 <= nh)%Z -> (0 <= nl)%Z ->
  length (lattice nb nh nl) = Z.to_nat ((nb + 1) * (nh + 1) * (nl + 1)).
Proof.
  intros Hb Hh Hl; unfold lattice.
  rewrite (length_flat_map_const _ _ (Z.to_nat ((nh + 1) * (nl + 1)))).
  - rewrite length_py_range, <- Z2Nat.inj_mul, Z.mul_assoc by lia; reflexivity.
  - intros i _; rewrite (length_flat_map_const _ _ (Z.to_nat (nl + 1))).
    + rewrite length_py_range, <- Z2Nat.inj_mul by lia; reflexivity.
    + intros j _; now rewrite length_map, length_py_range.
Qed.

Lemma method_pareto_loop_spec g c1 c2 nb nh nl allocs :
  lookup (item_counts g) "book" = Some nb -> lookup (item_counts g) "hat" = Some nh ->
  lookup (item_counts g) "ball" = Some nl ->
  (forall a, In a allocs -> exists i j k, a = items i j k) ->
  GameMethod.pareto_loop g c1 c2 allocs =
  Ok (forallb (fun a =>
        let u := calculateScore (fst (player_values g)) a in
        negb ((c1 <=? u)%Z && (c2 <? u)%Z)) allocs).
Proof.
  intros Hb Hh Hl; induction allocs as [|a allocs IH]; intros Ha; [reflexivity|].
  destruct (Ha a (or_introl eq_refl)) as (i & j & k & Ea).
  cbn [GameMethod.pareto_loop forallb]; rewrite Ea, (complement_items _ nb nh nl); auto.
  rewrite <- Ea; simpl bind; rewrite Z.ltb_irrefl.
  set (u := calculateScore (fst (player_values g)) a).
  assert (IH' : GameMethod.pareto_loop g c1 c2 allocs =
    Ok (forallb (fun a => let u := calculateScore (fst (player_values g)) a in
                   negb ((c1 <=? u)%Z && (c2 <? u)%Z)) allocs))
    by (apply IH; intros; apply Ha; now right).
  destruct (Z.leb_spec c1 u), (Z.leb_spec c2 u), (Z.ltb_spec c2 u);
    simpl; try lia; try reflexivity; exact IH'.
Qed.

(** ** Theorems *)

(** the three nested loops enumerate exactly the allocations of the
    box [0..book] x [0..hat] x [0..ball], and there are
    (book + 1)(hat + 1)(ball + 1) of them. *)
Theorem allocations_lattice cnts nb nh nl :
  lookup cnts "book" = Some nb -> lookup cnts "hat" = Some nh ->
  lookup cnts "ball" = Some nl -> (0 <= nb)%Z -> (0 <= nh)%Z -> (0 <= nl)%Z ->
  exists l, allocations cnts = Ok l /\
    (forall a, In a l <-> exists i j k, in_box nb nh nl i j k /\ a = items i j k) /\
    length l = Z.to_nat ((nb + 1) * (nh + 1) * (nl + 1)).
Proof.
  intros Hb Hh Hl H1 H2 H3; exists (lattice nb nh nl).
  split; [now apply allocations_eq|split; [apply in_lattice|now apply length_lattice]].
Qed.

(** C3: refinement. For counts with the three item kinds and an accepted
    objective, [utils.isParetoOptimal] returns without exception, and it
    returns [True] exactly when no allocation of the lattice dominates the
    given final scores. *)
Theorem isParetoOptimal_correct s0 s1 cnts v0 v1 obj nb nh nl :
  lookup cnts "book" = Some nb -> lookup cnts "hat" = Some nh ->
  lookup cnts "ball" = Some nl -> valid_objective obj = true ->
  exists b, isParetoOptimal s0 s1 cnts v0 v1 obj = Ok b /\
    (b = true <-> pareto_spec obj s0 s1 v0 v1 nb nh nl).
Proof.
  intros Hb Hh Hl Ho; unfold isParetoOptimal; rewrite Ho; simpl.
  rewrite (allocations_eq _ nb nh nl); auto; simpl.
  rewrite (pareto_loop_spec _ _ _ _ _ _ nb nh nl); auto;
    [|intros a Ha; apply in_lattice in Ha as (i & j & k & _ & ->); eauto].
  eexists; split; [reflexivity|]; rewrite forallb_forall; split.
  - intros H i j k Hbox Hdom.
    assert (Hin : In (items i j k) (lattice nb nh nl)) by (apply in_lattice; eauto).
    specialize (H _ Hin); cbv beta zeta in H; autorewrite with py in H.
    apply dominatesb_spec in Hdom.
    rewrite Hdom in H; discriminate.
  - intros H a Ha; apply in_lattice in Ha as (i & j & k & Hbox & ->).
    cbv beta zeta; autorewrite with py.
    destruct (dominatesb _ _ _ _) eqn:E; [|reflexivity].
    apply dominatesb_spec in E; exfalso; exact (H i j k Hbox E).
Qed.

(** an outcome whose final scores add up to at least those of every
    allocation of the lattice (for instance a welfare-maximising one under
    "self" or "coop") is reported Pareto-optimal. *)
Theorem isParetoOptimal_max_sum s0 s1 cnts v0 v1 obj nb nh nl :
  lookup cnts "book" = Some nb -> lookup cnts "hat" = Some nh ->
  lookup cnts "ball" = Some nl -> valid_objective obj = true ->
  (forall i j k, in_box nb nh nl i j k ->
     (fst (lattice_scores obj v0 v1 nb nh nl i j k)
      + snd (lattice_scores obj v0 v1 nb nh nl i j k) <= s0 + s1)%Z) ->
  isParetoOptimal s0 s1 cnts v0 v1 obj = Ok true.
Proof.
  intros Hb Hh Hl Ho Hmax.
  destruct (isParetoOptimal_correct s0 s1 cnts v0 v1 obj nb nh nl) as (b & -> & Hb');
    auto.
  f_equal; apply Hb'; intros i j k Hbox (H1 & H2 & H3).
  specialize (Hmax i j k Hbox); lia.
Qed.

(** C34: under the competitive objective every outcome whose final scores
    sum to at least 0 (every outcome the game produces: they sum to 0) is
    reported Pareto-optimal, so the Pareto rate says nothing there. *)
Theorem isParetoOptimal_comp s0 s1 cnts v0 v1 nb nh nl :
  lookup cnts "book" = Some nb -> lookup cnts "hat" = Some nh ->
  lookup cnts "ball" = Some nl -> (0 <= s0 + s1)%Z ->
  isParetoOptimal s0 s1 cnts v0 v1 "comp" = Ok true.
Proof.
  intros Hb Hh Hl Hs; apply (isParetoOptimal_max_sum _ _ _ _ _ _ nb nh nl); auto.
  intros i j k _; unfold lattice_scores, combine_objective; simpl; lia.
Qed.

(** C23: The method [NegotiationGame.isParetoOptimal] returns [False]
    exactly when some allocation gives player 0 (by player 0's values) at
    least the first current utility and more than the second: player 1's
    values and the complementary split never enter.  So every outcome in
    which player 1 scores less than player 0's score of some allocation,
    the welfare maximum of the specification's scenario included, is
    reported dominated. *)
Theorem method_isParetoOptimal_spec g v1 v2 c1 c2 nb nh nl :
  lookup (item_counts g) "book" = Some nb -> lookup (item_counts g) "hat" = Some nh ->
  lookup (item_counts g) "ball" = Some nl ->
  exists b, GameMethod.isParetoOptimal g v1 v2 c1 c2 = Ok b /\
    (b = false <-> exists i j k, in_box nb nh nl i j k /\
       (calculateScore v1 c1 <= calculateScore (fst (player_values g)) (items i j k))%Z /\
       (calculateScore v2 c2 < calculateScore (fst (player_values g)) (items i j k))%Z).
Proof.
  intros Hb Hh Hl; unfold GameMethod.isParetoOptimal.
  rewrite (allocations_eq _ nb nh nl); auto; simpl.
  rewrite (method_pareto_loop_spec _ _ _ nb nh nl); auto;
    [|intros a Ha; apply in_lattice in Ha as (i & j & k & _ & ->); eauto].
  eexists; split; [reflexivity|].
  rewrite forallb_false_iff; split.
  - intros (a & Ha & E); apply in_lattice in Ha as (i & j & k & Hbox & ->).
    exists i, j, k; split; [exact Hbox|].
    apply negb_false_iff, andb_true_iff in E as [E1 E2].
    now rewrite Z.leb_le in E1; rewrite Z.ltb_lt in E2.
  - intros (i & j & k & Hbox & H1 & H2); exists (items i j k).
    split; [apply in_lattice; eauto|]; simpl.
    now rewrite (proj2 (Z.leb_le _ _) H1), (proj2 (Z.ltb_lt _ _) H2).
Qed.

(** C39: [calculate_maximum_collective_score] reads the counts under the
    keys "books", "hats", "balls", while every counts dict of the program
    is keyed "book", "hat", "ball": it always raises [KeyError]. *)
Theorem calculate_maximum_collective_score_keyerror cnts v0 v1 obj :
  keys cnts = ITEMS ->
  calculate_maximum_collective_score cnts v0 v1 obj = Raise (KeyError "books").
Proof.
  intros H; unfold calculate_maximum_collective_score, max_score_allocations, getitem.
  rewrite lookup_None; [reflexivity|rewrite H; simpl; intuition discriminate].
Qed.

(** ** Witnesses *)

Lemma allocations_lattice_witness :
  lookup DEFAULT_COUNTS "book" = Some 1%Z /\ lookup DEFAULT_COUNTS "hat" = Some 2%Z /\
  lookup DEFAULT_COUNTS "ball" = Some 3%Z /\ (0 <= 1)%Z /\ (0 <= 2)%Z /\ (0 <= 3)%Z /\
  exists l, allocations DEFAULT_COUNTS = Ok l /\
    (forall a, In a l <-> exists i j k, in_box 1 2 3 i j k /\ a = items i j k) /\
    length l = Z.to_nat ((1 + 1) * (2 + 1) * (3 + 1)).
Proof.
  assert (Hb : lookup DEFAULT_COUNTS "book" = Some 1%Z) by reflexivity.
  assert (Hh : lookup DEFAULT_COUNTS "hat" = Some 2%Z) by reflexivity.
  assert (Hl : lookup DEFAULT_COUNTS "ball" = Some 3%Z) by reflexivity.
  assert (H1 : (0 <= 1)%Z) by lia. assert (H2 : (0 <= 2)%Z) by lia.
  assert (H3 : (0 <= 3)%Z) by lia.
  split; [exact Hb|split; [exact Hh|split; [exact Hl|]]].
  split; [exact H1|split; [exact H2|split; [exact H3|]]].
  exact (allocations_lattice _ _ _ _ Hb Hh Hl H1 H2 H3).
Defined.

Lemma isParetoOptimal_correct_witness :
  lookup DEFAULT_COUNTS "book" = Some 1%Z /\ lookup DEFAULT_COUNTS "hat" = Some 2%Z /\
  lookup DEFAULT_COUNTS "ball" = Some 3%Z /\ valid_objective "self" = true /\
  exists b, isParetoOptimal 1 8 DEFAULT_COUNTS DEFAULT_P1_VALUES DEFAULT_P2_VALUES "self"
              = Ok b /\
    (b = true <-> pareto_spec "self" 1 8 DEFAULT_P1_VALUES DEFAULT_P2_VALUES 1 2 3).
Proof.
  assert (Hb : lookup DEFAULT_COUNTS "book" = Some 1%Z) by reflexivity.
  assert (Hh : lookup DEFAULT_COUNTS "hat" = Some 2%Z) by reflexivity.
  assert (Hl : lookup DEFAULT_COUNTS "ball" = Some 3%Z) by reflexivity.
  assert (Ho : valid_objective "self" = true) by reflexivity.
  split; [exact Hb|split; [exact Hh|split; [exact Hl|split; [exact Ho|]]]].
  exact (isParetoOptimal_correct _ _ _ _ _ _ _ _ _ Hb Hh Hl Ho).
Defined.

Lemma isParetoOptimal_max_sum_witness :
  lookup DEFAULT_COUNTS "book" = Some 1%Z /\ lookup DEFAULT_COUNTS "hat" = Some 2%Z /\
  lookup DEFAULT_COUNTS "ball" = Some 3%Z /\ valid_objective "self" = true /\
  (forall i j k, in_box 1 2 3 i j k ->
     (fst (lattice_scores "self" DEFAULT_P1_VALUES DEFAULT_P2_VALUES 1 2 3 i j k)
      + snd (lattice_scores "self" DEFAULT_P1_VALUES DEFAULT_P2_VALUES 1 2 3 i j k)
      <= 6 + 8)%Z) /\
  isParetoOptimal 6 8 DEFAULT_COUNTS DEFAULT_P1_VALUES DEFAULT_P2_VALUES "self" = Ok true.
Proof.
  assert (Hb : lookup DEFAULT_COUNTS "book" = Some 1%Z) by reflexivity.
  assert (Hh : lookup DEFAULT_COUNTS "hat" = Some 2%Z) by reflexivity.
  assert (Hl : lookup DEFAULT_COUNTS "ball" = Some 3%Z) by reflexivity.
  assert (Ho : valid_objective "self" = true) by reflexivity.
  assert (Hm : forall i j k, in_box 1 2 3 i j k ->
     (fst (lattice_scores "self" DEFAULT_P1_VALUES DEFAULT_P2_VALUES 1 2 3 i j k)
      + snd (lattice_scores "self" DEFAULT_P1_VALUES DEFAULT_P2_VALUES 1 2 3 i j k)
      <= 6 + 8)%Z)
    by (intros i j k Hbox; unfold in_box in Hbox;
        unfold lattice_scores, combine_objective, DEFAULT_P1_VALUES, DEFAULT_P2_VALUES, items;
        cbn [fst snd];
        rewrite !calculateScore_cons, !calculateScore_nil_l;
        replace ("self" =? "coop") with false by reflexivity;
        replace ("self" =? "comp") with false by reflexivity; lia).
  split; [exact Hb|split; [exact Hh|split; [exact Hl|split; [exact Ho|split; [exact Hm|]]]]].
  exact (isParetoOptimal_max_sum _ _ _ _ _ _ _ _ _ Hb Hh Hl Ho Hm).
Defined.

Lemma isParetoOptimal_comp_witness :
  lookup DEFAULT_COUNTS "book" = Some 1%Z /\ lookup DEFAULT_COUNTS "hat" = Some 2%Z /\
  lookup DEFAULT_COUNTS "ball" = Some 3%Z /\ (0 <= -7 + 7)%Z /\
  isParetoOptimal (-7) 7 DEFAULT_COUNTS DEFAULT_P1_VALUES DEFAULT_P2_VALUES "comp" = Ok true.
Proof.
  assert (Hb : lookup DEFAULT_COUNTS "book" = Some 1%Z) by reflexivity.
  assert (Hh : lookup DEFAULT_COUNTS "hat" = Some 2%Z) by reflexivity.
  assert (Hl : lookup DEFAULT_COUNTS "ball" = Some 3%Z) by reflexivity.
  assert (Hs : (0 <= -7 + 7)%Z) by lia.
  split; [exact Hb|split; [exact Hh|split; [exact Hl|split; [exact Hs|]]]].
  exact (isParetoOptimal_comp _ _ _ _ _ _ _ _ Hb Hh Hl Hs).
Defined.

Lemma method_isParetoOptimal_spec_witness :
  let g := spec_game "self" (Some (items 0 2 0)) (Some (items 1 0 3)) in
  lookup (item_counts g) "book" = Some 1%Z /\ lookup (item_counts g) "hat" = Some 2%Z /\
  lookup (item_counts g) "ball" = Some 3%Z /\
  exists b, GameMethod.isParetoOptimal g DEFAULT_P1_VALUES DEFAULT_P2_VALUES
              (items 0 2 0) (items 1 0 3) = Ok b /\
    (b = false <-> exists i j k, in_box 1 2 3 i j k /\
       (calculateScore DEFAULT_P1_VALUES (items 0 2 0)
          <= calculateScore (fst (player_values g)) (items i j k))%Z /\
       (calculateScore DEFAULT_P2_VALUES (items 1 0 3)
          < calculateScore (fst (player_values g)) (items i j k))%Z).
Proof.
  intros g.
  assert (Hb : lookup (item_counts g) "book" = Some 1%Z) by reflexivity.
  assert (Hh : lookup (item_counts g) "hat" = Some 2%Z) by reflexivity.
  assert (Hl : lookup (item_counts g) "ball" = Some 3%Z) by reflexivity.
  split; [exact Hb|split; [exact Hh|split; [exact Hl|]]].
  exact (method_isParetoOptimal_spec _ _ _ _ _ _ _ _ Hb Hh Hl).
Defined.

Lemma calculate_maximum_collective_score_keyerror_witness :
  keys DEFAULT_COUNTS = ITEMS /\
  calculate_maximum_collective_score DEFAULT_COUNTS DEFAULT_P1_VALUES DEFAULT_P2_VALUES
    "coop" = Raise (KeyError "books").
Proof.
  assert (H : keys DEFAULT_COUNTS = ITEMS) by reflexivity.
  split; [exact H|exact (calculate_maximum_collective_score_keyerror _ _ _ _ H)].
Defined.
