(* ===== verification/Validator.v ===== *)
(** * Response validation

    The output-format contract of a turn, from src/players.py:
    [LLMPlayer.is_valid_message], [is_valid_proposal] and
    [is_valid_output]; the parser [NegotiationGame.parse_proposal] of
    src/games/negotiation.py; and the post-processing of a raw completion
    in [ClosedSourceChatPlayer.generate_response].  A validator method
    reads two fields of the player: [self.game] (the game object the loop
    mutates, passed as [game]) and [self.messages_log] (passed as
    [messages_log]).  Chat messages are the records [{"role", "content"}]
    of the players' histories. *)

From Stdlib Require Import String Ascii ZArith Bool Lia List.
From S2P Require Import Prelude PyDict PyStr Scoring.
Import ListNotations.
Local Open Scope string_scope.
Local Open Scope py_scope.
Local Open Scope bool_scope.

(** [{"role": role, "content": content}] *)
Record chat : Type := mkChat { role : string; content : string }.

(** ** Feedback strings *)

Definition ERR_REDUNDANT : string :=
  "Do not include any mentions of [message] or [propose] after the initial prefix. Please just send a single message, beginning with [message].".
Definition ERR_MSG_PREFIX : string := "Messages must begin with [message].".
Definition ERR_OWE_PROPOSAL : string :=
  "Opponent's proposal must be followed by a proposal of your own. Please send a proposal, beginning with [propose].".
Definition ERR_DISCUSS_FIRST : string :=
  "Please begin the dialogue by discussing how you'll divide the items before submitting a private proposal.".
Definition ERR_PROP_PREFIX : string :=
  "Proposals must begin with [propose]. You may resubmit the exact same proposal but with [propose] as a prefix.".
Definition ERR_ORDER : string :=
  "Item counts must be sequenced in the following order: books, hats, and then balls.".
Definition ERR_THREE : string :=
  "There should only be counts for three items in your proposal: books, hats, and balls.".
Definition ERR_RANGE : string :=
  "Item counts suggested are invalid based on game context; some of your proposal's item counts are greater than total items available.".
Definition ERR_FORMAT : string :=
  "Your output should either begin with [message] or a [propose].".

(** ** The validators *)

(** [is_valid_message]: the text after the first ten characters must not
    mention a marker, the stripped text must start with "[message]", and
    no proposal may be pending. *)
Definition is_valid_message (game : NegotiationGame) (msg : string) : bool * string :=
  if contains "[message]" (slice_from 10 msg) || contains "[propose]" (slice_from 10 msg)
  then (false, ERR_REDUNDANT)
  else if negb (startswith "[message]" (strip msg)) then (false, ERR_MSG_PREFIX)
  else if deal_proposed game then (false, ERR_OWE_PROPOSAL)
  else (true, "").

(** [0 <= q <= counts[k]], a chained comparison that reads [counts[k]]
    only when [0 <= q]. *)
Definition in_range (q : Z) (counts : dict Z) (k : string) : res bool :=
  if (0 <=? q)%Z then c <- getitem counts k ;; Ok (q <=? c)%Z else Ok false.

Definition is_valid_proposal (game : NegotiationGame) (messages_log : list chat)
    (msg : string) : res (bool * string) :=
  if Nat.eqb (length messages_log) 1 then Ok (false, ERR_DISCUSS_FIRST)
  else if negb (startswith "[propose]" (strip msg)) then Ok (false, ERR_PROP_PREFIX)
  else
    pieces <- py_split "[propose]" msg ;;
    let proposal := strip (last_piece pieces) in
    let book_idx := find "book" proposal in
    let hat_idx := find "hat" proposal in
    let ball_idx := find "ball" proposal in
    if negb ((-1 <? book_idx) && (book_idx <? hat_idx) && (hat_idx <? ball_idx))%Z
    then Ok (false, ERR_ORDER)
    else
      let quantities := map int_of_digits (findall_digits proposal) in
      if negb (Nat.eqb (length quantities) 3) then Ok (false, ERR_THREE)
      else
        ok0 <- in_range (nth 0 quantities 0%Z) (item_counts game) "book" ;;
        ok1 <- (if ok0 then in_range (nth 1 quantities 0%Z) (item_counts game) "hat"
                else Ok false) ;;
        ok2 <- (if ok1 then in_range (nth 2 quantities 0%Z) (item_counts game) "ball"
                else Ok false) ;;
        if negb ok2 then Ok (false, ERR_RANGE) else Ok (true, "").

Definition is_valid_output (game : NegotiationGame) (messages_log : list chat)
    (response_text : string) : res (bool * string) :=
  if startswith "[propose]" (strip response_text) then
    is_valid_proposal game messages_log response_text
  else if startswith "[message]" (strip response_text) then
    Ok (is_valid_message game response_text)
  else Ok (false, ERR_FORMAT).

(** ** Parsing a proposal *)

(** [counts = re.findall(r"\d+", text)] and the dict of the first three,
    raising [IndexError] when there are fewer. *)
Definition parse_proposal (text : string) : res (dict Z) :=
  match map int_of_digits (findall_digits text) with
  | c0 :: c1 :: c2 :: _ => Ok (items c0 c1 c2)
  | _ => Raise IndexError
  end.

(** ** Post-processing a completion *)

(** The part of [ClosedSourceChatPlayer.generate_response] after the API
    call: strip, cut at the first "[END]" (or "[end]"), and keep only the
    first line of a proposal. *)
Definition postprocess (content : string) : res string :=
  let full_output := strip content in
  response_text <-
    (if contains "[END]" full_output then
       res_map (fun l => strip (first_piece l)) (py_split "[END]" full_output)
     else if contains "[end]" full_output then
       res_map (fun l => strip (first_piece l)) (py_split "[end]" full_output)
     else Ok (strip full_output)) ;;
  if startswith "[propose]" (strip response_text) then
    res_map first_piece (py_split NL response_text)
  else Ok response_text.

(** ** Specification of an accepted turn *)

(** Each of the three item kinds is in [counts] and the quantity of it is
    between [0] and the count. *)
Definition within_counts (counts : dict Z) (b h l : Z) : Prop :=
  (exists c, lookup counts "book" = Some c /\ (0 <= b <= c)%Z) /\
  (exists c, lookup counts "hat" = Some c /\ (0 <= h <= c)%Z) /\
  (exists c, lookup counts "ball" = Some c /\ (0 <= l <= c)%Z).

(** What an accepted proposal text [p] satisfies: it names books, hats
    and balls in that order, and it holds exactly three numbers, each in
    stock. *)
Definition proposal_accepted (counts : dict Z) (p : string) : Prop :=
  (-1 < find "book" p < find "hat" p)%Z /\ (find "hat" p < find "ball" p)%Z /\
  exists b h l, map int_of_digits (findall_digits p) = [b; h; l] /\
                within_counts counts b h l.

(** What an accepted message satisfies. *)
Definition message_accepted (game : NegotiationGame) (msg : string) : Prop :=
  contains "[message]" (slice_from 10 msg) = false /\
  contains "[propose]" (slice_from 10 msg) = false /\
  deal_proposed game = false.

(** A proposal written the way the prompt asks for it. *)
Definition proposal_text (b h l : Z) : string :=
  "[propose] (" ++ str_of_Z b ++ " books, " ++ str_of_Z h ++ " hats, " ++
  str_of_Z l ++ " balls)".

(** ** Concrete instances

    A game of the specification's scenario before any proposal, and a
    player log holding the system prompt and one message. *)

Definition fresh_game : NegotiationGame :=
  mkGame DEFAULT_COUNTS (DEFAULT_P1_VALUES, DEFAULT_P2_VALUES) (None, None)
         (None, None) false false "self" "prompts/dond.txt".

Definition sample_log : list chat :=
  [mkChat "system" "prompt"; mkChat "assistant" "[message] Hello"].

(** ** Lemmas *)

Lemma in_range_true q counts k :
  in_range q counts k = Ok true <->
  exists c, lookup counts k = Some c /\ (0 <= q <= c)%Z.
Proof.
  unfold in_range, getitem; destruct (Z.leb_spec 0 q) as [Hq|Hq].
  - destruct (lookup counts k) as [c|]; simpl.
    + destruct (Z.leb_spec q c) as [Hc|Hc]; split.
      * intros _; exists c; split; [reflexivity|lia].
      * reflexivity.
      * discriminate.
      * intros (c' & [= <-] & H'); lia.
    + split; [discriminate|intros (? & ? & _); discriminate].
  - split; [discriminate|intros (c & _ & H'); lia].
Qed.

Lemma py_split_propose msg :
  py_split "[propose]" msg = Ok (split_rec (S (String.length msg)) "[propose]" msg "").
Proof. reflexivity. Qed.

Lemma ex_Ok_iff {A} (a : A) (Q : A -> Prop) : (exists x, Ok a = Ok x /\ Q x) <-> Q a.
Proof. split; [intros (? & [= <-] & HQ); exact HQ|eauto]. Qed.

Lemma range_chain_true counts b h l :
  (ok0 <- in_range b counts "book" ;;
   ok1 <- (if ok0 then in_range h counts "hat" else Ok false) ;;
   ok2 <- (if ok1 then in_range l counts "ball" else Ok false) ;;
   if negb ok2 then Ok (false, ERR_RANGE) else Ok (true, "")) = Ok (true, "")
  <-> within_counts counts b h l.
Proof.
  unfold within_counts; rewrite <- !in_range_true.
  destruct (in_range b counts "book") as [[|]|e]; simpl;
    [destruct (in_range h counts "hat") as [[|]|e']; simpl;
     [destruct (in_range l counts "ball") as [[|]|e'']; simpl|..]|..];
    intuition congruence.
Qed.

Lemma order_true (x y z : Z) :
  ((-1 <? x) && (x <? y) && (y <? z))%Z = true <-> (-1 < x < y)%Z /\ (y < z)%Z.
Proof. rewrite !andb_true_iff, !Z.ltb_lt; lia. Qed.

Lemma quantities_three (qs : list Z) (P : Z -> Z -> Z -> Prop) :
  Nat.eqb (length qs) 3 = true ->
  (exists b h l, qs = [b; h; l] /\ P b h l) <->
  P (nth 0 qs 0%Z) (nth 1 qs 0%Z) (nth 2 qs 0%Z).
Proof.
  intros H; apply Nat.eqb_eq in H.
  destruct qs as [|b [|h [|l [|]]]]; try discriminate; simpl.
  split; [intros (? & ? & ? & [= <- <- <-] & HP); exact HP|eauto].
Qed.

(** [is_valid_proposal] accepts exactly the proposals of [proposal_accepted],
    read on the text after the last "[propose]". *)
Lemma is_valid_proposal_true game log msg :
  is_valid_proposal game log msg = Ok (true, "") <->
  length log <> 1 /\ startswith "[propose]" (strip msg) = true /\
  exists pieces, py_split "[propose]" msg = Ok pieces /\
                 proposal_accepted (item_counts game) (strip (last_piece pieces)).
Proof.
  unfold is_valid_proposal.
  destruct (Nat.eqb_spec (length log) 1) as [H1|H1]; simpl.
  { split; [discriminate|intros (H & _); contradiction]. }
  destruct (startswith "[propose]" (strip msg)) eqn:Hs; simpl.
  2:{ split; [discriminate|intros (_ & H & _); discriminate]. }
  rewrite py_split_propose; cbn [bind].
  rewrite (ex_Ok_iff _ (fun pieces =>
             proposal_accepted (item_counts game) (strip (last_piece pieces)))).
  unfold proposal_accepted; set (p := strip (last_piece _)).
  destruct (((-1 <? find "book" p) && (find "book" p <? find "hat" p))
            && (find "hat" p <? find "ball" p))%Z eqn:Ho; simpl.
  2:{ split; [discriminate|intros (_ & _ & Ho1 & Ho2 & _)].
      enough (E : ((-1 <? find "book" p) && (find "book" p <? find "hat" p)
                   && (find "hat" p <? find "ball" p))%Z = true) by congruence.
      apply order_true; auto. }
  apply order_true in Ho.
  destruct (Nat.eqb (length (map int_of_digits (findall_digits p))) 3) eqn:H3; simpl.
  - rewrite (quantities_three _ (within_counts (item_counts game)) H3), range_chain_true.
    intuition.
  - split; [discriminate|intros (_ & _ & _ & _ & b & h & l & Hq & _)].
    rewrite Hq in H3; discriminate.
Qed.

Lemma message_not_propose s :
  startswith "[message]" s = true -> startswith "[propose]" s = false.
Proof. unfold startswith; intros H; rewrite (prefix_app _ _ H); reflexivity. Qed.

Lemma is_valid_message_true game msg :
  is_valid_message game msg = (true, "") <->
  startswith "[message]" (strip msg) = true /\ message_accepted game msg.
Proof.
  unfold is_valid_message, message_accepted.
  destruct (contains "[message]" (slice_from 10 msg)),
           (contains "[propose]" (slice_from 10 msg)),
           (startswith "[message]" (strip msg)), (deal_proposed game);
    simpl; intuition congruence.
Qed.

(** Every [false] verdict carries feedback and every [true] verdict the
    empty string, so an accepted output is [(true, "")]. *)
Lemma is_valid_proposal_true_empty game log msg e :
  is_valid_proposal game log msg = Ok (true, e) -> e = "".
Proof.
  unfold is_valid_proposal; rewrite py_split_propose; cbn [bind].
  destruct (Nat.eqb _ 1); [intros H; congruence|].
  destruct (negb (startswith _ _)); [intros H; congruence|].
  cbn zeta; destruct (negb _); [intros H; congruence|].
  destruct (negb _); [intros H; congruence|].
  destruct (in_range _ _ "book") as [[|]|]; cbn [bind];
    [destruct (in_range _ _ "hat") as [[|]|]; cbn [bind];
     [destruct (in_range _ _ "ball") as [[|]|]; cbn [bind]|..]|..];
    cbn; intros H; congruence.
Qed.

Lemma is_valid_output_true_empty game log r e :
  is_valid_output game log r = Ok (true, e) -> e = "".
Proof.
  unfold is_valid_output, is_valid_message.
  destruct (startswith "[propose]" (strip r)); [apply is_valid_proposal_true_empty|].
  repeat match goal with |- context [if ?c then _ else _] => destruct c end;
    congruence.
Qed.

(** The two kinds of accepted output. *)
Lemma is_valid_output_true game log r :
  is_valid_output game log r = Ok (true, "") <->
  (startswith "[propose]" (strip r) = true /\ length log <> 1 /\
   exists pieces, py_split "[propose]" r = Ok pieces /\
                  proposal_accepted (item_counts game) (strip (last_piece pieces))) \/
  (startswith "[message]" (strip r) = true /\ message_accepted game r).
Proof.
  unfold is_valid_output.
  destruct (startswith "[propose]" (strip r)) eqn:Hp.
  - rewrite is_valid_proposal_true; split; [intros H; left; intuition|].
    intros [H|(Hm & _)]; [intuition|].
    rewrite message_not_propose in Hp by exact Hm; discriminate.
  - destruct (startswith "[message]" (strip r)) eqn:Hm.
    + split; [intros H; right; split; [reflexivity|];
               refine (proj2 (proj1 (is_valid_message_true game r) _)); congruence|].
      intros [(? & _)|H]; [discriminate|].
      rewrite (proj2 (is_valid_message_true game r)); [reflexivity|split; [exact Hm|apply H]].
    + split; [discriminate|intros [(? & _)|(? & _)]; discriminate].
Qed.

Lemma in_range_defined q counts k :
  lookup counts k <> None -> exists b, in_range q counts k = Ok b.
Proof.
  unfold in_range, getitem; intros H.
  destruct (0 <=? q)%Z; [|eauto].
  destruct (lookup counts k); [simpl; eauto|congruence].
Qed.

(** An accepted proposal ends with three in-stock numbers: the numbers of
    the text after its last "[propose]". *)
Lemma accepted_proposal_digits game log r e :
  is_valid_output game log r = Ok (true, e) ->
  startswith "[propose]" (strip r) = true ->
  exists pre b h l, map int_of_digits (findall_digits r) = (pre ++ [b; h; l])%list /\
                    within_counts (item_counts game) b h l.
Proof.
  intros H Hp; rewrite (is_valid_output_true_empty _ _ _ _ H) in H.
  apply is_valid_output_true in H
    as [(_ & _ & pieces & Hs & _ & _ & b & h & l & Hq & Hw)|(Hm & _)].
  - destruct (findall_last_piece _ _ Hs) as (pre & E).
    rewrite findall_digits_strip in Hq.
    exists (map int_of_digits pre), b, h, l; rewrite E, map_app, Hq; auto.
  - rewrite message_not_propose in Hp by exact Hm; discriminate.
Qed.

(** When the item counts hold the three item kinds, validation never
    raises: it returns a verdict for every output. *)
Lemma is_valid_output_defined game log r :
  (forall k, In k ITEMS -> lookup (item_counts game) k <> None) ->
  exists v, is_valid_output game log r = Ok v.
Proof.
  intros Hk; unfold is_valid_output, is_valid_proposal; rewrite py_split_propose.
  cbn [bind]; cbn zeta.
  repeat match goal with
  | |- context [bind (Ok _) _] => cbn [bind]
  | |- context [in_range ?q ?c ?k] =>
      let E := fresh "E" in
      destruct (in_range_defined q c k) as (? & E);
      [apply Hk; simpl; tauto|rewrite E; cbn [bind]]
  | |- context [if ?b then _ else _] => destruct b
  end; eauto.
Qed.

(** An accepted proposal parses without [IndexError]. *)
Lemma accepted_proposal_parse_Ok game log r e :
  is_valid_output game log r = Ok (true, e) ->
  startswith "[propose]" (strip r) = true ->
  exists b h l, parse_proposal r = Ok (items b h l).
Proof.
  intros H Hp; destruct (accepted_proposal_digits _ _ _ _ H Hp) as (pre & b & h & l & E & _).
  unfold parse_proposal; rewrite E.
  destruct pre as [|x [|y [|z pre]]]; simpl; eauto.
Qed.

Lemma findall_proposal_text b h l :
  (0 <= b)%Z -> (0 <= h)%Z -> (0 <= l)%Z ->
  findall_digits (proposal_text b h l) = [str_of_Z b; str_of_Z h; str_of_Z l].
Proof.
  intros Hb Hh Hl; unfold findall_digits, proposal_text.
  destruct (str_of_Z_digits b Hb) as [Db Nb], (str_of_Z_digits h Hh) as [Dh Nh],
    (str_of_Z_digits l Hl) as [Dl Nl].
  rewrite digit_runs_skip by reflexivity.
  rewrite digit_runs_digits, digit_runs_close_app by (reflexivity || assumption).
  rewrite digit_runs_skip by reflexivity.
  rewrite digit_runs_digits, digit_runs_close_app by (reflexivity || assumption).
  rewrite digit_runs_skip by reflexivity.
  rewrite digit_runs_digits, digit_runs_close by (reflexivity || assumption).
  reflexivity.
Qed.

(** The split and the last piece of a proposal preceded by a claim. *)
Lemma overclaim_split n b h l :
  (0 <= n)%Z -> (0 <= b)%Z -> (0 <= h)%Z -> (0 <= l)%Z ->
  let tail := " (" ++ str_of_Z b ++ " books, " ++ str_of_Z h ++ " hats, " ++ str_of_Z l ++ " balls)" in
  let r := "[propose]" ++ (" " ++ str_of_Z n ++ " books ") ++ "[propose]" ++ tail in
  py_split "[propose]" r = Ok [""; " " ++ str_of_Z n ++ " books "; tail].
Proof.
  intros Hn Hb Hh Hl tail r; unfold py_split, r; cbn [String.eqb]; f_equal.
  rewrite split_rec_sep by (discriminate || apply Nat.lt_succ_diag_r).
  rewrite split_rec_skip by (apply Nat.lt_succ_diag_r || no_char_tac).
  rewrite split_rec_sep by (discriminate || apply Nat.lt_succ_diag_r).
  rewrite split_rec_last; [reflexivity| |apply Nat.lt_succ_diag_r].
  unfold tail; no_char_tac.
Qed.

Lemma overclaim_tail_accepted counts b h l :
  within_counts counts b h l ->
  proposal_accepted counts
    (strip (" (" ++ str_of_Z b ++ " books, " ++ str_of_Z h ++ " hats, " ++ str_of_Z l ++ " balls)")).
Proof.
  intros Hw; pose proof Hw as ((cb & _ & Hb) & (ch & _ & Hh) & (cl & _ & Hl)).
  assert (Hb0 : (0 <= b)%Z) by lia; assert (Hh0 : (0 <= h)%Z) by lia; assert (Hl0 : (0 <= l)%Z) by lia.
  set (B := str_of_Z b); set (H := str_of_Z h); set (L := str_of_Z l).
  assert (Hs : strip (" (" ++ B ++ " books, " ++ H ++ " hats, " ++ L ++ " balls)") =
               "(" ++ B ++ " books, " ++ H ++ " hats, " ++ L ++ " balls)").
  { unfold strip; change (lstrip (" (" ++ ?x)) with ("(" ++ x).
    replace ("(" ++ B ++ " books, " ++ H ++ " hats, " ++ L ++ " balls)")
      with (("(" ++ B ++ " books, " ++ H ++ " hats, " ++ L ++ " balls") ++ ")")
      by (rewrite !str_app_assoc; reflexivity).
    apply rstrip_last; reflexivity. }
  rewrite Hs; set (q := "(" ++ B ++ " books, " ++ H ++ " hats, " ++ L ++ " balls)").
  assert (Fb : find "book" q = Z.of_nat (String.length ("(" ++ B ++ " ")%string)).
  { replace q with (("(" ++ B ++ " ") ++ "book" ++ "s, " ++ H ++ " hats, " ++ L ++ " balls)")
      by (unfold q; rewrite !str_app_assoc; reflexivity).
    apply find_after; unfold B; no_char_tac. }
  assert (Fh : find "hat" q = Z.of_nat (String.length ("(" ++ B ++ " books, " ++ H ++ " ")%string)).
  { replace q with (("(" ++ B ++ " books, " ++ H ++ " ") ++ "hat" ++ "s, " ++ L ++ " balls)")
      by (unfold q; rewrite !str_app_assoc; reflexivity).
    apply find_after; unfold B, H; no_char_tac. }
  assert (Fl : find "ball" q =
               Z.of_nat (String.length ("(" ++ B ++ " books, " ++ H ++ " hats, " ++ L ++ " ")%string)).
  { replace q with (("(" ++ B ++ " ") ++ String "b" (("ooks, " ++ H ++ " hats, " ++ L ++ " ") ++
                      "ball" ++ "s)")) by (unfold q; rewrite !str_app_assoc; reflexivity).
    unfold find; rewrite index_app_skip by (unfold B; no_char_tac).
    rewrite index_cons_skip by reflexivity.
    rewrite index_app_skip by (unfold H, L; no_char_tac).
    rewrite index_app_here; cbn [option_map]; f_equal.
    rewrite !str_length_app; cbn [String.length]; lia. }
  assert (Fd : findall_digits q = [B; H; L]).
  { unfold q; rewrite <- Hs, findall_digits_strip; unfold B, H, L.
    rewrite <- (findall_proposal_text b h l Hb0 Hh0 Hl0); unfold findall_digits, proposal_text.
    change ("[propose] (" ++ ?x) with ("[propose]" ++ " (" ++ x).
    rewrite (digit_runs_skip "[propose]") by reflexivity; reflexivity. }
  unfold proposal_accepted; rewrite Fb, Fh, Fl, !str_length_app; cbn [String.length].
  split; [lia|split; [lia|]].
  exists b, h, l; rewrite Fd; cbn [map]; unfold B, H, L.
  rewrite !int_of_str_of_Z by assumption; auto.
Qed.

(** ** Properties of the validators *)

(** C4: Once the opponent has proposed ([deal_proposed]), an output is
    accepted only if it is a proposal: a message is refused. *)
Theorem is_valid_output_owed_proposal game log r e :
  deal_proposed game = true ->
  is_valid_output game log r = Ok (true, e) ->
  startswith "[propose]" (strip r) = true.
Proof.
  intros Hd H; rewrite (is_valid_output_true_empty _ _ _ _ H) in H.
  apply is_valid_output_true in H as [(Hp & _)|(_ & _ & _ & Hd')]; congruence.
Qed.

(** On the first turn (a log holding only the system prompt) an
    accepted output is a message, never a proposal. *)
Theorem is_valid_output_first_turn game log r e :
  length log = 1 ->
  is_valid_output game log r = Ok (true, e) ->
  startswith "[message]" (strip r) = true /\ startswith "[propose]" (strip r) = false.
Proof.
  intros H1 H; rewrite (is_valid_output_true_empty _ _ _ _ H) in H.
  apply is_valid_output_true in H as [(_ & H1' & _)|(Hm & _)]; [contradiction|].
  split; [exact Hm|now apply message_not_propose].
Qed.

(** C28: An accepted proposal can be parsed: [parse_proposal] finds three
    numbers and does not raise [IndexError]; when the text holds exactly
    three numbers, the parsed counts are the validated, in-stock ones. *)
Theorem accepted_proposal_parses game log r e :
  is_valid_output game log r = Ok (true, e) ->
  startswith "[propose]" (strip r) = true ->
  exists b h l, parse_proposal r = Ok (items b h l) /\
    (length (findall_digits r) = 3 -> within_counts (item_counts game) b h l).
Proof.
  intros H Hp; destruct (accepted_proposal_digits _ _ _ _ H Hp) as (pre & b & h & l & E & Hw).
  unfold parse_proposal; rewrite E.
  destruct pre as [|x [|y [|z pre]]]; simpl;
    [exists b, h, l; auto|..];
    (eexists _, _, _; split; [reflexivity|]);
    intros H3; exfalso; apply (f_equal (@length Z)) in E;
    rewrite length_map, length_app, H3 in E; simpl in E; lia.
Qed.

(** C25: [is_valid_message] looks for a second marker in [msg[10:]], but
    the prefix "[message]" has nine characters: a marker written right
    after the prefix is not seen.  For every game in which no proposal is
    pending and every text [s] free of markers, the message
    "[message][propose]" ++ [s], which carries "[propose]" after its
    prefix, is accepted. *)
Theorem message_smuggles_proposal game log s :
  deal_proposed game = false ->
  contains "[message]" s = false -> contains "[propose]" s = false ->
  is_valid_output game log ("[message][propose]" ++ s) = Ok (true, "") /\
  contains "[propose]" (slice_from 9 ("[message][propose]" ++ s)) = true.
Proof.
  intros Hd Hm Hp; split; [|cbn [slice_from String.append]; apply (contains_app_self "[propose]")].
  unfold is_valid_output, is_valid_message.
  rewrite strip_app_word by (discriminate || reflexivity); cbn [slice_from String.append].
  rewrite !contains_skip by discriminate; rewrite Hm, Hp, Hd; reflexivity.
Qed.

(** C24: The validator checks the numbers after the last "[propose]",
    but [parse_proposal] reads the first three numbers of the whole text:
    for every game and every in-stock proposal [(b, h, l)], the text
    "[propose] n books " followed by that proposal is accepted whatever
    [n], and it is parsed as [n] books, [b] hats and [h] balls, so a claim
    beyond the stock is recorded as the player's proposal. *)
Theorem accepted_proposal_exceeds_stock game log n b h l :
  length log <> 1 -> (0 <= n)%Z -> within_counts (item_counts game) b h l ->
  is_valid_output game log ("[propose] " ++ str_of_Z n ++ " books " ++ proposal_text b h l)
    = Ok (true, "") /\
  parse_proposal ("[propose] " ++ str_of_Z n ++ " books " ++ proposal_text b h l) = Ok (items n b h).
Proof.
  intros H1 Hn Hw; pose proof Hw as ((cb & _ & Hb) & (ch & _ & Hh) & (cl & _ & Hl)).
  assert (Hb0 : (0 <= b)%Z) by lia; assert (Hh0 : (0 <= h)%Z) by lia; assert (Hl0 : (0 <= l)%Z) by lia.
  split.
  - unfold proposal_text.
    change ("[propose] " ++ ?x) with ("[propose]" ++ " " ++ x).
    change (" books " ++ "[propose] (" ++ ?x) with (" books " ++ "[propose]" ++ " (" ++ x).
    set (T := " (" ++ str_of_Z b ++ " books, " ++ str_of_Z h ++ " hats, " ++ str_of_Z l ++ " balls)").
    replace (" " ++ str_of_Z n ++ " books " ++ "[propose]" ++ T)
      with ((" " ++ str_of_Z n ++ " books ") ++ "[propose]" ++ T)
      by (rewrite !str_app_assoc; reflexivity).
    apply is_valid_output_true; left; split.
    { rewrite strip_app_word by (discriminate || reflexivity); apply prefix_app_self. }
    split; [exact H1|].
    eexists; split; [exact (overclaim_split n b h l Hn Hb0 Hh0 Hl0)|].
    unfold T; apply overclaim_tail_accepted, Hw.
  - unfold parse_proposal.
    assert (Fd : findall_digits ("[propose] " ++ str_of_Z n ++ " books " ++ proposal_text b h l) =
                 str_of_Z n :: [str_of_Z b; str_of_Z h; str_of_Z l]).
    { destruct (str_of_Z_digits n Hn) as [Dn Nn].
      unfold findall_digits; rewrite (digit_runs_skip "[propose] ") by reflexivity.
      rewrite digit_runs_digits, digit_runs_close_app by (exact Dn || reflexivity || exact Nn).
      rewrite (digit_runs_skip "books ") by reflexivity.
      now rewrite <- (findall_proposal_text b h l Hb0 Hh0 Hl0). }
    rewrite Fd; cbn [map]; rewrite !int_of_str_of_Z by assumption; reflexivity.
Qed.

(** A proposal written as "[propose] (b books, h hats, l balls)"
    with non-negative counts is parsed back to exactly those counts. *)
Theorem parse_proposal_roundtrip b h l :
  (0 <= b)%Z -> (0 <= h)%Z -> (0 <= l)%Z ->
  parse_proposal (proposal_text b h l) = Ok (items b h l).
Proof.
  intros Hb Hh Hl; unfold parse_proposal; rewrite findall_proposal_text by assumption.
  cbn [map]; rewrite !int_of_str_of_Z by assumption; reflexivity.
Qed.

(** ** Witnesses *)

Lemma message_smuggles_proposal_witness :
  deal_proposed fresh_game = false /\
  contains "[message]" " (1 books, 2 hats, 3 balls)" = false /\
  contains "[propose]" " (1 books, 2 hats, 3 balls)" = false /\
  is_valid_output fresh_game sample_log ("[message][propose]" ++ " (1 books, 2 hats, 3 balls)")
    = Ok (true, "") /\
  contains "[propose]" (slice_from 9 ("[message][propose]" ++ " (1 books, 2 hats, 3 balls)")) = true.
Proof.
  assert (Hd : deal_proposed fresh_game = false) by reflexivity.
  assert (Hm : contains "[message]" " (1 books, 2 hats, 3 balls)" = false) by reflexivity.
  assert (Hp : contains "[propose]" " (1 books, 2 hats, 3 balls)" = false) by reflexivity.
  split; [exact Hd|split; [exact Hm|split; [exact Hp|]]].
  exact (message_smuggles_proposal fresh_game sample_log _ Hd Hm Hp).
Defined.

Lemma accepted_proposal_exceeds_stock_witness :
  length sample_log <> 1 /\ (0 <= 5)%Z /\ within_counts (item_counts fresh_game) 1 0 0 /\
  is_valid_output fresh_game sample_log ("[propose] " ++ str_of_Z 5 ++ " books " ++ proposal_text 1 0 0)
    = Ok (true, "") /\
  parse_proposal ("[propose] " ++ str_of_Z 5 ++ " books " ++ proposal_text 1 0 0) = Ok (items 5 1 0) /\
  (get0 (item_counts fresh_game) "book" < 5)%Z.
Proof.
  assert (H1 : length sample_log <> 1) by discriminate.
  assert (Hn : (0 <= 5)%Z) by lia.
  assert (Hw : within_counts (item_counts fresh_game) 1 0 0)
    by (split; [|split]; eexists; split; (reflexivity || lia)).
  split; [exact H1|split; [exact Hn|split; [exact Hw|]]].
  refine (conj (proj1 (accepted_proposal_exceeds_stock fresh_game sample_log 5 1 0 0 H1 Hn Hw))
            (conj (proj2 (accepted_proposal_exceeds_stock fresh_game sample_log 5 1 0 0 H1 Hn Hw)) _)).
  vm_compute; reflexivity.
Defined.

Lemma is_valid_output_owed_proposal_witness :
  deal_proposed (spec_game "self" None None) = true /\
  is_valid_output (spec_game "self" None None) sample_log
    "[propose] (1 books, 2 hats, 3 balls)" = Ok (true, "") /\
  startswith "[propose]" (strip "[propose] (1 books, 2 hats, 3 balls)") = true.
Proof.
  split; [reflexivity|split; [vm_compute; reflexivity|]].
  apply (is_valid_output_owed_proposal (spec_game "self" None None) sample_log
           "[propose] (1 books, 2 hats, 3 balls)" ""); [reflexivity|vm_compute; reflexivity].
Defined.

Lemma is_valid_output_first_turn_witness :
  is_valid_output fresh_game [mkChat "system" "prompt"] "[message] Hello" = Ok (true, "") /\
  startswith "[message]" (strip "[message] Hello") = true /\
  startswith "[propose]" (strip "[message] Hello") = false.
Proof.
  split; [vm_compute; reflexivity|].
  apply (is_valid_output_first_turn fresh_game [mkChat "system" "prompt"]
           "[message] Hello" ""); [reflexivity|vm_compute; reflexivity].
Defined.

Lemma accepted_proposal_parses_witness :
  is_valid_output fresh_game sample_log "[propose] (1 books, 0 hats, 2 balls)" = Ok (true, "") /\
  exists b h l, parse_proposal "[propose] (1 books, 0 hats, 2 balls)" = Ok (items b h l) /\
    (length (findall_digits "[propose] (1 books, 0 hats, 2 balls)") = 3 ->
     within_counts (item_counts fresh_game) b h l).
Proof.
  split; [vm_compute; reflexivity|].
  apply (accepted_proposal_parses fresh_game sample_log _ "");
    vm_compute; reflexivity.
Defined.

Lemma parse_proposal_roundtrip_witness :
  parse_proposal (proposal_text 1 0 12) = Ok (items 1 0 12).
Proof. apply parse_proposal_roundtrip; lia. Defined.
