(* ===== verification/Player.v ===== *)
(** * Players

    The agents of src/players.py.  [LLMPlayer] keeps the chat history it
    sends to the model ([messages_json]) and the transcript the validator
    reads ([messages_log]); [ClosedSourceChatPlayer.generate_response]
    asks the model for a completion and post-processes it; [respond]
    validates the answer and retries, feeding the error back, until it is
    valid or five answers have been refused, when it gives up with
    "[ABORT]".  [HumanPlayer.respond] reads a line of input.

    The model is the field [model] of a player: the completion it returns
    for a prompt on the [n]-th call, which stands for the OpenAI API at
    the player's model name and temperature (sampling makes two calls on
    one prompt differ, hence the call counter [n_calls]).  The player's
    log file is [log_groups]: the header of [__init__], then one entry
    per [respond] call with each stripped completion and each "Error:"
    line ([respond_log]: an answer adds exactly one entry, which starts
    with the first completion).

    The game loop talks to a player only through [respond] and the two
    lists; the class [Agent] is that interface and [AgentLaws] what the
    loop relies on: [respond] leaves the transcript alone and only
    appends to the history. *)

From Stdlib Require Import String Ascii ZArith Bool Lia List.
From S2P Require Import Prelude PyDict PyStr Scoring Validator.
Import ListNotations.
Local Open Scope string_scope.
Local Open Scope py_scope.

(** ** The interface the game loop uses *)

Class Agent (A : Type) := {
  agent_respond : NegotiationGame -> A -> res (string * A);
  agent_json : A -> list chat;
  agent_log : A -> list chat;
  agent_set_json : list chat -> A -> A;
  agent_set_log : list chat -> A -> A
}.

Class AgentLaws (A : Type) `{Agent A} := {
  respond_keeps_log : forall g a t a',
    agent_respond g a = Ok (t, a') -> agent_log a' = agent_log a;
  respond_extends_json : forall g a t a',
    agent_respond g a = Ok (t, a') -> exists ext, agent_json a' = (agent_json a ++ ext)%list;
  json_set_json : forall l a, agent_json (agent_set_json l a) = l;
  log_set_json : forall l a, agent_log (agent_set_json l a) = agent_log a;
  log_set_log : forall l a, agent_log (agent_set_log l a) = l;
  json_set_log : forall l a, agent_json (agent_set_log l a) = agent_json a
}.

(** ** [LLMPlayer] *)

Record LLMPlayer : Type := mkLLMPlayer {
  messages_json : list chat;
  messages_log : list chat;
  selfplay : bool;
  model : list chat -> nat -> string;
  n_calls : nat;
  log_groups : list string
}.

Definition set_messages_json (l : list chat) (p : LLMPlayer) : LLMPlayer :=
  mkLLMPlayer l (messages_log p) (selfplay p) (model p) (n_calls p) (log_groups p).

Definition set_messages_log (l : list chat) (p : LLMPlayer) : LLMPlayer :=
  mkLLMPlayer (messages_json p) l (selfplay p) (model p) (n_calls p) (log_groups p).

Definition set_n_calls (n : nat) (p : LLMPlayer) : LLMPlayer :=
  mkLLMPlayer (messages_json p) (messages_log p) (selfplay p) (model p) n (log_groups p).

(** The player's log file: [log_groups] is the text the player has
    appended to [player_log_filename], the header of [__init__] first,
    then one entry for each call of [respond] (two players of one game
    may share a file, whose text then interleaves their entries turn by
    turn).  [open(self.player_log_filename, "a").write(s)] extends the
    last entry. *)
Fixpoint append_last (l : list string) (s : string) : list string :=
  match l with
  | [] => [s]
  | [x] => [x ++ s]
  | x :: r => x :: append_last r s
  end.

Definition write_log (s : string) (p : LLMPlayer) : LLMPlayer :=
  mkLLMPlayer (messages_json p) (messages_log p) (selfplay p) (model p) (n_calls p)
              (append_last (log_groups p) s).

(** A call of [respond] opens a new entry of [log_groups]. *)
Definition start_group (p : LLMPlayer) : LLMPlayer :=
  mkLLMPlayer (messages_json p) (messages_log p) (selfplay p) (model p) (n_calls p)
              (log_groups p ++ [""]).

(** The text of the log file a player writes alone. *)
Definition log_text (p : LLMPlayer) : string := String.concat "" (log_groups p).

(** The entries of two players who take turns, [turn] first, for [n]
    turns. *)
Fixpoint interleave_turns (turn : player) (n : nat) (g0 g1 : list string) : string :=
  match n with
  | O => ""
  | S n' =>
      match turn with
      | P0 => hd "" g0 ++ interleave_turns P1 n' (tl g0) g1
      | P1 => hd "" g1 ++ interleave_turns P0 n' g0 (tl g1)
      end
  end.

(** The text of one log file both players of a game write: the two
    headers, then each turn's entry of the player whose turn it is. *)
Definition shared_log_text (turn : player) (n : nat) (a0 a1 : LLMPlayer) : string :=
  hd "" (log_groups a0) ++ hd "" (log_groups a1) ++
  interleave_turns turn n (tl (log_groups a0)) (tl (log_groups a1)).

(** [self.messages_json.append(m)] *)
Definition push_json (m : chat) (p : LLMPlayer) : LLMPlayer :=
  set_messages_json (messages_json p ++ [m])%list p.

Definition player_value_context : string :=
  "Books are worth {book_val} points, hats are worth {hat_val} points, and balls are worth {ball_val} points." ++ NL.

(** The two writes of [LLMPlayer.__init__] to the player's log: the
    values, read in the order book, hat, ball, then a blank line. *)
Definition player_log_header (vals : dict Z) : res string :=
  bv <- getitem vals "book" ;; hv <- getitem vals "hat" ;; lv <- getitem vals "ball" ;;
  l <- py_format player_value_context [("book_val", str_of_Z bv); ("hat_val", str_of_Z hv);
                                       ("ball_val", str_of_Z lv)] ;;
  Ok (l ++ NL ++ NL).

(** [LLMPlayer.__init__]: empty histories and the log header, whose
    reads of the three values raise [KeyError] for a missing item kind. *)
Definition init_player (vals : dict Z) (selfplay : bool)
    (model : list chat -> nat -> string) : res LLMPlayer :=
  header <- player_log_header vals ;;
  Ok (mkLLMPlayer [] [] selfplay model 0 [header]).

(** [ClosedSourceChatPlayer.generate_response]: one call to the model on
    the current history, then [postprocess]. *)
Definition generate_response (p : LLMPlayer) : res (string * LLMPlayer) :=
  let content := model p (messages_json p) (n_calls p) in
  let p := write_log (strip content ++ NL) p in
  response_text <- postprocess content ;;
  Ok (response_text, set_n_calls (S (n_calls p)) p).

(** The completion after [strip], as [generate_response] writes it to
    the log. *)
Definition logged_output (p : LLMPlayer) : string :=
  strip (model p (messages_json p) (n_calls p)) ++ NL.

(** The correction sent back after a refused answer. *)
Definition error_feedback (error_msg : string) : string :=
  "An error occurred. Please resend the previous message with the following correction, without indicating in any way that you have made a correction to a prior message: "
  ++ NL ++ " " ++ DQ ++ error_msg ++ DQ ++ " ".

(** The [while not is_valid_output] loop of [respond], entered with the
    answer [response_text], its verdict, and [err_cnt] refusals so far.
    [err_cnt] reaches five after at most five rounds, so a fuel of
    [5 - err_cnt] rounds is never exhausted ([respond_loop_fuel]). *)
Fixpoint respond_loop (game : NegotiationGame) (fuel err_cnt : nat) (p : LLMPlayer)
    (response_text : string) (verdict : bool * string) : res (string * LLMPlayer) :=
  match fuel with
  | 0 => Raise (Exception "respond: out of fuel")
  | S fuel' =>
      let '(ok, error_msg) := verdict in
      if ok then Ok (response_text, p)
      else
        let p1 := write_log ("Error: " ++ error_msg ++ NL)
                    (push_json (mkChat "user" (error_feedback error_msg))
                      (push_json (mkChat "assistant" response_text) p)) in
        let err_cnt' := S err_cnt in
        if Nat.leb 5 err_cnt' then Ok ("[ABORT]", p1)
        else
          '(response_text', p2) <- generate_response p1 ;;
          verdict' <- is_valid_output game (messages_log p2) response_text' ;;
          respond_loop game fuel' err_cnt' p2 response_text' verdict'
  end.

Definition RESPOND_FUEL : nat := 5.

(** [LLMPlayer.respond]; the console echo of a non-selfplay game is
    output only and is not modelled. *)
Definition respond (game : NegotiationGame) (p : LLMPlayer) : res (string * LLMPlayer) :=
  let p := start_group p in
  '(response_text, p1) <- generate_response p ;;
  verdict <- is_valid_output game (messages_log p1) response_text ;;
  respond_loop game RESPOND_FUEL 0 p1 response_text verdict.

#[export] Instance LLMPlayer_Agent : Agent LLMPlayer := {
  agent_respond := respond;
  agent_json := messages_json;
  agent_log := messages_log;
  agent_set_json := set_messages_json;
  agent_set_log := set_messages_log
}.

(** ** [HumanPlayer] *)

(** [input_lines] is what remains of standard input. *)
Record HumanPlayer : Type := mkHumanPlayer {
  h_messages_json : list chat;
  h_messages_log : list chat;
  input_lines : list string
}.

(** [HumanPlayer.respond]: [input()], which raises [EOFError] at the end
    of the input. *)
Definition human_respond (game : NegotiationGame) (h : HumanPlayer)
    : res (string * HumanPlayer) :=
  match input_lines h with
  | line :: rest => Ok (line, mkHumanPlayer (h_messages_json h) (h_messages_log h) rest)
  | [] => Raise EOFError
  end.

#[export] Instance HumanPlayer_Agent : Agent HumanPlayer := {
  agent_respond := human_respond;
  agent_json := h_messages_json;
  agent_log := h_messages_log;
  agent_set_json := fun l h => mkHumanPlayer l (h_messages_log h) (input_lines h);
  agent_set_log := fun l h => mkHumanPlayer (h_messages_json h) l (input_lines h)
}.

(** ** Concrete players

    A player whose model always answers [text], with the transcript
    [sample_log] of the validator's examples. *)

Definition constant_player (text : string) : LLMPlayer :=
  mkLLMPlayer [] sample_log true (fun _ _ => text) 0 [].


(** ** Specification of [respond] *)

(** What [respond] promises: the transcript is untouched, the history only
    grows, and the answer is either "[ABORT]" after five refused answers
    (ten new history entries, five calls), or a valid answer after [k < 5]
    refused ones ([2 k] new entries, [k + 1] calls). *)
Definition respond_post (game : NegotiationGame) (p : LLMPlayer) (t : string)
    (p' : LLMPlayer) : Prop :=
  messages_log p' = messages_log p /\
  (exists ext, messages_json p' = (messages_json p ++ ext)%list) /\
  ((t = "[ABORT]" /\ length (messages_json p') = length (messages_json p) + 10 /\
    n_calls p' = n_calls p + 5) \/
   (is_valid_output game (messages_log p) t = Ok (true, "") /\
    exists k, k < 5 /\ length (messages_json p') = length (messages_json p) + 2 * k /\
              n_calls p' = n_calls p + S k)).

(** ** Lemmas *)

Lemma py_split_nonempty sep s :
  sep <> "" -> py_split sep s = Ok (split_rec (S (String.length s)) sep s "").
Proof. unfold py_split; intros H; destruct (String.eqb_spec sep ""); congruence. Qed.

(** Post-processing never raises: every [split] has a non-empty separator. *)
Lemma postprocess_Ok c : exists t, postprocess c = Ok t.
Proof.
  unfold postprocess.
  destruct (contains "[END]" (strip c)); [|destruct (contains "[end]" (strip c))];
    rewrite ?py_split_nonempty by discriminate; cbn [res_map bind];
    match goal with |- context [if startswith ?x ?y then _ else _] =>
      destruct (startswith x y) end;
    rewrite ?py_split_nonempty by discriminate; cbn [res_map bind]; eauto.
Qed.

Lemma generate_response_spec p t p' :
  generate_response p = Ok (t, p') ->
  postprocess (model p (messages_json p) (n_calls p)) = Ok t /\
  p' = set_n_calls (S (n_calls p)) (write_log (logged_output p) p).
Proof.
  unfold generate_response; destruct (postprocess _); cbn [bind]; [|discriminate].
  intros [= <- <-]; auto.
Qed.

Lemma generate_response_Ok p :
  exists t, generate_response p = Ok (t, set_n_calls (S (n_calls p)) (write_log (logged_output p) p)).
Proof.
  unfold generate_response; destruct (postprocess_Ok (model p (messages_json p) (n_calls p)))
    as (t & ->); cbn [bind]; eauto.
Qed.

(** The loop never runs out of fuel while [err_cnt] is below five. *)
Lemma respond_loop_fuel game fuel err p t v :
  err < 5 -> 5 - err <= fuel ->
  respond_loop game fuel err p t v = respond_loop game (5 - err) err p t v.
Proof.
  intros Hlt Hf; remember (5 - err) as n eqn:En.
  revert err fuel p t v Hlt Hf En; induction n as [|n IH]; intros err fuel p t [ok m] Hlt Hf En;
    [lia|].
  destruct fuel as [|fuel]; [lia|]; cbn [respond_loop].
  destruct ok; [reflexivity|].
  destruct (Nat.leb 5 (S err)) eqn:E5; [reflexivity|].
  apply Nat.leb_gt in E5.
  destruct (generate_response _) as [[t' p2]|]; cbn [bind]; [|reflexivity].
  destruct (is_valid_output _ _ _) as [v'|]; cbn [bind]; [|reflexivity].
  apply IH; lia.
Qed.

Ltac player_simpl :=
  cbn [messages_log messages_json n_calls model selfplay set_n_calls push_json
       set_messages_json set_messages_log write_log start_group] in *.

(** The loop entered after [err] refusals leaves the transcript and the
    model alone and only appends to the history; it ends either with
    "[ABORT]", after [5 - err] refusals in this loop (two history entries
    each, and [4 - err] calls), or with a valid answer after [k] more
    refusals and calls. *)
Lemma respond_loop_spec game fuel err p t v t' p' :
  respond_loop game fuel err p t v = Ok (t', p') ->
  is_valid_output game (messages_log p) t = Ok v -> err < 5 ->
  messages_log p' = messages_log p /\ model p' = model p /\ selfplay p' = selfplay p /\
  (exists ext, messages_json p' = (messages_json p ++ ext)%list) /\
  ((t' = "[ABORT]" /\
    length (messages_json p') = length (messages_json p) + 2 * (5 - err) /\
    n_calls p' = n_calls p + (4 - err)) \/
   (is_valid_output game (messages_log p) t' = Ok (true, "") /\
    exists k, err + k < 5 /\
      length (messages_json p') = length (messages_json p) + 2 * k /\
      n_calls p' = n_calls p + k)).
Proof.
  revert err p t v; induction fuel as [|fuel IH]; intros err p t [ok m] H Hv Hlt;
    cbn [respond_loop] in H; [discriminate|].
  destruct ok.
  - injection H as <- <-.
    rewrite (is_valid_output_true_empty _ _ _ _ Hv) in Hv.
    refine (conj eq_refl (conj eq_refl (conj eq_refl (conj (ex_intro _ [] _) _))));
      [now rewrite app_nil_r|right; split; [exact Hv|exists 0; repeat split; lia]].
  - destruct (Nat.leb 5 (S err)) eqn:E5.
    + apply Nat.leb_le in E5; assert (err = 4) as -> by lia.
      injection H as <- <-; player_simpl.
      refine (conj eq_refl (conj eq_refl (conj eq_refl (conj (ex_intro _ _ _) _))));
        [now rewrite <- app_assoc|left; rewrite !length_app; simpl; repeat split; lia].
    + apply Nat.leb_gt in E5.
      destruct (generate_response _) as [[t2 p2]|] eqn:Eg; cbn [bind] in H; [|discriminate].
      destruct (generate_response_spec _ _ _ Eg) as (_ & ->).
      destruct (is_valid_output _ _ t2) as [v2|] eqn:Ev; cbn [bind] in H; [|discriminate].
      destruct (IH _ _ _ _ H Ev ltac:(lia)) as (Hl & Hm & Hs & (ext & Hj) & Hout).
      player_simpl; rewrite Hl, Hm, Hs, Hj.
      refine (conj eq_refl (conj eq_refl (conj eq_refl (conj (ex_intro _ _ _) _))));
        [now rewrite <- !app_assoc|].
      rewrite Hj, !length_app in Hout; rewrite !length_app; cbn [length] in *.
      destruct Hout as [(-> & Hlen & Hc)|(Hok & k & Hk & Hlen & Hc)]; [left|right].
      * repeat split; lia.
      * split; [exact Hok|exists (S k); repeat split; lia].
Qed.

Lemma respond_loop_total game fuel err p t v :
  (forall k, In k ITEMS -> lookup (item_counts game) k <> None) ->
  err < 5 -> 5 - err <= fuel ->
  exists t' p', respond_loop game fuel err p t v = Ok (t', p').
Proof.
  intros Hk; revert err p t v; induction fuel as [|fuel IH]; intros err p t [[|] m] Hlt Hf;
    [lia|lia|cbn [respond_loop]; eauto|cbn [respond_loop]].
  destruct (Nat.leb 5 (S err)) eqn:E5; [eauto|apply Nat.leb_gt in E5].
  destruct (generate_response_Ok (write_log ("Error: " ++ m ++ NL)
              (push_json (mkChat "user" (error_feedback m))
                (push_json (mkChat "assistant" t) p)))) as (t2 & ->); cbn [bind].
  match goal with |- context [is_valid_output game ?l t2] =>
    destruct (is_valid_output_defined game l t2 Hk) as (v2 & ->) end; cbn [bind].
  apply IH; lia.
Qed.

(** When the model only ever gives refused answers, the loop ends with
    "[ABORT]". *)
Lemma respond_loop_abort game fuel err p t m :
  (forall js n, exists t e, postprocess (model p js n) = Ok t /\
                            is_valid_output game (messages_log p) t = Ok (false, e)) ->
  err < 5 -> 5 - err <= fuel ->
  exists p', respond_loop game fuel err p t (false, m) = Ok ("[ABORT]", p').
Proof.
  revert err p t m; induction fuel as [|fuel IH]; intros err p t m Hall Hlt Hf; [lia|].
  cbn [respond_loop].
  destruct (Nat.leb 5 (S err)) eqn:E5; [eauto|apply Nat.leb_gt in E5].
  set (p1 := write_log _ _).
  destruct (Hall (messages_json p1) (n_calls p1)) as (t2 & e & Ht2 & Hv2).
  unfold generate_response; change (model p1) with (model p); rewrite Ht2; cbn [bind].
  change (messages_log (set_n_calls _ (write_log _ p1))) with (messages_log p).
  rewrite Hv2; cbn [bind].
  apply IH; [exact Hall|lia|lia].
Qed.





#[export] Instance HumanPlayer_AgentLaws : AgentLaws HumanPlayer.
Proof.
  split; try reflexivity; intros g [js lg [|l ls]] t a' H; cbn in H; try discriminate;
    injection H as <- <-; [reflexivity|exists []; cbn; now rewrite app_nil_r].
Qed.

Lemma respond_unfold game p t p' :
  respond game p = Ok (t, p') ->
  exists t1 v, is_valid_output game (messages_log p) t1 = Ok v /\
    respond_loop game RESPOND_FUEL 0
      (set_n_calls (S (n_calls p)) (write_log (logged_output p) (start_group p))) t1 v = Ok (t, p').
Proof.
  unfold respond; intros H.
  destruct (generate_response (start_group p)) as [[t1 p1]|] eqn:Eg; cbn [bind] in H; [|discriminate].
  destruct (generate_response_spec _ _ _ Eg) as (_ & ->).
  destruct (is_valid_output _ _ _) as [v|] eqn:Ev; cbn [bind] in H; [|discriminate].
  eauto.
Qed.


#[export] Instance LLMPlayer_AgentLaws : AgentLaws LLMPlayer.
Proof.
  split; try reflexivity; intros g a t a' H; cbn in H;
    destruct (respond_unfold _ _ _ _ H) as (t1 & v & Ev & Hl);
    destruct (respond_loop_spec _ _ _ _ _ _ _ _ Hl Ev ltac:(lia)) as (Hlog & _ & _ & Hj & _);
    player_simpl; assumption.
Qed.


Lemma abort_refused game log : is_valid_output game log "[ABORT]" = Ok (false, ERR_FORMAT).
Proof. reflexivity. Qed.

(** ** Properties of [respond] *)

(** [respond] keeps the transcript, only appends to the history, and
    returns either "[ABORT]" after five refused answers or a valid answer
    after fewer than five refusals. *)
Lemma respond_outcome game p t p' :
  respond game p = Ok (t, p') -> respond_post game p t p'.
Proof.
  intros H; destruct (respond_unfold _ _ _ _ H) as (t1 & v & Ev & Hl).
  destruct (respond_loop_spec _ _ _ _ _ _ _ _ Hl Ev ltac:(lia))
    as (Hlog & _ & _ & Hj & Hout).
  player_simpl; unfold respond_post.
  split; [exact Hlog|split; [exact Hj|]].
  destruct Hout as [(-> & Hlen & Hc)|(Hv & k & Hk & Hlen & Hc)]; [left|right].
  - split; [reflexivity|split; lia].
  - split; [exact Hv|exists k; split; [lia|split; lia]].
Qed.

(** C10: [respond] answers "[ABORT]" exactly when it has refused five
    answers, i.e. when the history has grown by ten entries; "[ABORT]" is
    never itself a valid answer. *)
Theorem respond_abort_iff game p t p' :
  respond game p = Ok (t, p') ->
  (t = "[ABORT]" <-> length (messages_json p') = length (messages_json p) + 10).
Proof.
  intros H; destruct (respond_unfold _ _ _ _ H) as (t1 & v & Ev & Hl).
  destruct (respond_loop_spec _ _ _ _ _ _ _ _ Hl Ev ltac:(lia))
    as (_ & _ & _ & _ & [(-> & Hlen & _)|(Hv & k & Hk & Hlen & _)]);
    player_simpl; split; intros E; try lia.
  - reflexivity.
  - subst t; rewrite abort_refused in Hv; discriminate.
Qed.

(** When the first answer is valid, [respond] returns it after one
    call and leaves the history as it was. *)
Theorem respond_first_valid game p t e :
  postprocess (model p (messages_json p) (n_calls p)) = Ok t ->
  is_valid_output game (messages_log p) t = Ok (true, e) ->
  respond game p = Ok (t, set_n_calls (S (n_calls p)) (write_log (logged_output p) (start_group p))).
Proof.
  intros Hp Hv; unfold respond, generate_response; cbn [model messages_json n_calls start_group].
  rewrite Hp; cbn [bind messages_log set_n_calls write_log start_group]; rewrite Hv; reflexivity.
Qed.

(** When every answer the model can give is refused, [respond]
    gives up with "[ABORT]" after five attempts. *)
Theorem respond_aborts game p :
  (forall js n, exists t e, postprocess (model p js n) = Ok t /\
                            is_valid_output game (messages_log p) t = Ok (false, e)) ->
  exists p', respond game p = Ok ("[ABORT]", p') /\
             length (messages_json p') = length (messages_json p) + 10.
Proof.
  intros Hall; destruct (Hall (messages_json p) (n_calls p)) as (t & e & Ht & Hv).
  destruct (respond_loop_abort game RESPOND_FUEL 0
              (set_n_calls (S (n_calls p)) (write_log (logged_output p) (start_group p))) t e Hall)
    as (p' & Hl); [lia|unfold RESPOND_FUEL; lia|].
  assert (H : respond game p = Ok ("[ABORT]", p'))
    by (unfold respond, generate_response; cbn [model messages_json n_calls start_group];
        rewrite Ht; cbn [bind messages_log set_n_calls write_log start_group]; rewrite Hv; exact Hl).
  exists p'; split; [exact H|].
  destruct (respond_loop_spec _ _ _ _ _ _ _ _ Hl Hv ltac:(lia))
    as (_ & _ & _ & _ & [(_ & Hlen & _)|(Hv' & _)]); [exact Hlen|].
  rewrite abort_refused in Hv'; discriminate.
Qed.

(** When the item counts hold the three item kinds, [respond]
    returns: the retry loop stops within its five rounds and nothing in
    it raises. *)
Lemma respond_total game p :
  (forall k, In k ITEMS -> lookup (item_counts game) k <> None) ->
  exists t p', respond game p = Ok (t, p').
Proof.
  intros Hk; unfold respond.
  destruct (generate_response_Ok (start_group p)) as (t1 & ->); cbn [bind].
  match goal with |- context [is_valid_output game ?l t1] =>
    destruct (is_valid_output_defined game l t1 Hk) as (v & ->) end; cbn [bind].
  apply respond_loop_total; [exact Hk|lia|unfold RESPOND_FUEL; lia].
Qed.

(** ** Witnesses *)

Lemma respond_abort_iff_witness :
  exists p', respond fresh_game (constant_player "Hello") = Ok ("[ABORT]", p') /\
    ("[ABORT]" = "[ABORT]" <->
     length (messages_json p') = length (messages_json (constant_player "Hello")) + 10).
Proof.
  destruct (respond fresh_game (constant_player "Hello")) as [[t p']|e] eqn:E;
    vm_compute in E; [|discriminate].
  injection E as <- <-; eexists; split; [reflexivity|].
  apply (respond_abort_iff fresh_game (constant_player "Hello") "[ABORT]");
    vm_compute; reflexivity.
Defined.


Lemma respond_first_valid_witness :
  postprocess "[message] Hello" = Ok "[message] Hello" /\
  is_valid_output fresh_game sample_log "[message] Hello" = Ok (true, "") /\
  respond fresh_game (constant_player "[message] Hello")
    = Ok ("[message] Hello", set_n_calls 1 (write_log ("[message] Hello" ++ NL)
                               (start_group (constant_player "[message] Hello")))).
Proof.
  split; [vm_compute; reflexivity|split; [vm_compute; reflexivity|]].
  apply (respond_first_valid fresh_game (constant_player "[message] Hello") _ "");
    vm_compute; reflexivity.
Defined.

Lemma respond_aborts_witness :
  exists p', respond fresh_game (constant_player "Hello") = Ok ("[ABORT]", p') /\
             length (messages_json p') = length (messages_json (constant_player "Hello")) + 10.
Proof.
  apply respond_aborts; intros js n; exists "Hello", ERR_FORMAT.
  split; vm_compute; reflexivity.
Defined.

