(* ===== verification/Game.v ===== *)
(** * The batch game loop

    [NegotiationGame.play_game] (src/games/negotiation.py) as a step
    function on an explicit state: the game object, the two agents, the
    turn, the list [messages] and the text the game has appended to its
    full log file ([full_log.write] of each answer, then the two
    final-score lines, which [play_game] returns with its outcome).  The players hold the same game object
    as the loop (src/play.py builds them with it), so [respond] is given
    the current game; and [play_game]'s [player_prompts[i]] and [logs[i]]
    are the agents' own [messages_json] and [messages_log] lists, so the
    loop appends to them through the [Agent] interface, and what an agent
    later reads is what the loop wrote.

    The loop is written once for any agent type with an [Agent] instance;
    its invariants are proved from [AgentLaws], and the end-to-end
    properties of self-play from the [LLMPlayer] lemmas.  The first turn
    (random in the code) is an argument, and so are the text of the prompt
    file and the token count of GPT-2's tokenizer.  The while loop adds one
    message per turn and stops at 50, so a fuel of 50 turns is never
    exhausted ([play_loop_fuel]). *)

From Stdlib Require Import String Ascii ZArith Bool Lia List.
From S2P Require Import Prelude PyDict PyStr Scoring Validator Player.
Import ListNotations.
Local Open Scope string_scope.
Local Open Scope py_scope.

(** ** Constants *)

Definition bytes_string (l : list nat) : string :=
  fold_right (fun n s => String (ascii_of_nat n) s) EmptyString l.

(** The source holds the bytes C3 A2 E2 82 AC E2 80 9C at this place of the
    notice (an en dash garbled by a wrong decoding); the model keeps the
    bytes. *)
Definition GARBLED_DASH : string := bytes_string [195; 162; 226; 130; 172; 226; 128; 156].

(** What the opponent is shown instead of a proposal. *)
Definition PROPOSAL_NOTICE : string :=
  "[propose] Proposal made. You must now respond with a proposal of your own. If you've discussed that you should receive a certain combination of items, this proposal should reflect that. Keep in mind that you and your partner's proposals should be complementary "
  ++ GARBLED_DASH ++
  " when added, the elementwise sum should exactly equal the total item counts." ++ NL.

Definition MAX_MESSAGES : nat := 50.

(** ** The system prompt *)

(** The keyword arguments of [system_text.format(...)], evaluated left to
    right: the three counts, then the player's three values. *)
Definition prompt_args (counts vals : dict Z) : res (list (string * string)) :=
  bc <- getitem counts "book" ;; hc <- getitem counts "hat" ;; lc <- getitem counts "ball" ;;
  bv <- getitem vals "book" ;; hv <- getitem vals "hat" ;; lv <- getitem vals "ball" ;;
  Ok [("book_cnt", str_of_Z bc); ("hat_cnt", str_of_Z hc); ("ball_cnt", str_of_Z lc);
      ("book_val", str_of_Z bv); ("hat_val", str_of_Z hv); ("ball_val", str_of_Z lv)].

Definition system_message (system_text : string) (self : NegotiationGame) (p : player)
    : res chat :=
  args <- prompt_args (item_counts self) (pick p (player_values self)) ;;
  content <- py_format system_text args ;;
  Ok (mkChat "system" content).

(** ** The loop *)

Section Loop.
Context {A : Type} `{Agent A}.

Record state : Type := mkState {
  st_game : NegotiationGame;
  st_agents : A * A;
  st_turn : player;
  st_messages : list string;
  st_log : string
}.

(** [player_prompts[i].append(m)] and [logs[i].append(m)] *)
Definition append_json (m : chat) (a : A) : A := agent_set_json (agent_json a ++ [m]) a.
Definition append_log (m : chat) (a : A) : A := agent_set_log (agent_log a ++ [m]) a.

Definition append_json_at (p : player) (m : chat) (agents : A * A) : A * A :=
  upd p (append_json m (pick p agents)) agents.
Definition append_log_at (p : player) (m : chat) (agents : A * A) : A * A :=
  upd p (append_log m (pick p agents)) agents.

(** [self.proposals[turn] = self.parse_proposal(response_text)] *)
Definition record_proposal (turn : player) (response_text : string) (g : NegotiationGame)
    : res NegotiationGame :=
  prop <- parse_proposal response_text ;;
  Ok (set_proposals (upd turn (Some prop) (proposals g)) g).

(** The proposal check: the second proposal closes the game, the first
    one sets [deal_proposed]; the opponent sees the notice instead of
    the proposal. *)
Definition proposal_check (turn : player) (response_text : string) (g : NegotiationGame)
    : res (NegotiationGame * string * string) :=
  if startswith "[propose]" (strip response_text) then
    if deal_proposed g then
      g' <- record_proposal turn response_text g ;;
      Ok (set_game_over true g', strip response_text, PROPOSAL_NOTICE)
    else
      g' <- record_proposal turn response_text g ;;
      Ok (set_deal_proposed true g', strip response_text, PROPOSAL_NOTICE)
  else Ok (g, strip response_text, strip response_text).

(** [full_log.write("Player " + str(turn) + ": " + response_text + "\n")] *)
Definition log_line (turn : player) (response_text : string) : string :=
  "Player " ++ player_str turn ++ ": " ++ response_text ++ NL.

(** [full_log.write(f"Player {i} FINAL SCORE: {self.final_scores[i]} \n")] *)
Definition final_score_line (i : player) (score : option Z) : string :=
  "Player " ++ player_str i ++ " FINAL SCORE: " ++ py_str_opt score ++ " " ++ NL.

(** [if response_text.strip() == "[ABORT]": self.game_over = True] *)
Definition after_abort_check (r : string) (g : NegotiationGame) : NegotiationGame :=
  if String.eqb (strip r) "[ABORT]" then set_game_over true g else g.

(** One iteration of [while not self.game_over]; [st_log] is what the
    game has appended to its full text log. *)
Definition turn_step (s : state) : res state :=
  let turn := st_turn s in
  '(response_text, a) <- agent_respond (st_game s) (pick turn (st_agents s)) ;;
  let agents := upd turn a (st_agents s) in
  let messages := (st_messages s ++ [strip response_text])%list in
  let log := st_log s ++ log_line turn response_text in
  let g := after_abort_check response_text (st_game s) in
  '(g, assistant_message, user_message) <- proposal_check turn response_text g ;;
  let agents := append_json_at turn (mkChat "assistant" assistant_message) agents in
  let agents := append_json_at (other turn) (mkChat "user" user_message) agents in
  let agents := append_log_at turn (mkChat "assistant" assistant_message) agents in
  let agents := append_log_at (other turn) (mkChat "user" user_message) agents in
  let g := if Nat.leb MAX_MESSAGES (length messages) then set_game_over true g else g in
  Ok (mkState g agents (other turn) messages log).

Fixpoint play_loop (fuel : nat) (s : state) : res state :=
  if game_over (st_game s) then Ok s
  else match fuel with
       | 0 => Raise (Exception "play_game: out of fuel")
       | S f => s' <- turn_step s ;; play_loop f s'
       end.

(** The fields of a game that only [__init__] writes. *)
Definition static_fields (g : NegotiationGame) : dict Z * (dict Z * dict Z) * string :=
  (item_counts g, player_values g, objective g).

Definition PLAY_FUEL : nat := MAX_MESSAGES.

(** The dict [play_game] returns. *)
Record outcome : Type := mkOutcome {
  p0_score : option Z;
  p1_score : option Z;
  p0_log : list chat;
  p1_log : list chat;
  is_valid_deal : bool;
  msg_cnt : nat;
  token_cnt : nat
}.

(** [play_game]: the four system messages, the loop, the final scores and
    the outcome, with the text it appends to the game's full text log
    (the file opened in append mode, so the caller's file is what it held
    before followed by this text).  Console output is not modelled. *)
Definition play_game (self : NegotiationGame) (player_agents : A * A) (turn : player)
    (system_text : string) (n_tokens : string -> nat)
    : res (outcome * NegotiationGame * (A * A) * string) :=
  m0 <- system_message system_text self P0 ;;
  let agents := append_json_at P0 m0 player_agents in
  m1 <- system_message system_text self P1 ;;
  let agents := append_json_at P1 m1 agents in
  m2 <- system_message system_text self P0 ;;
  let agents := append_log_at P0 m2 agents in
  m3 <- system_message system_text self P1 ;;
  let agents := append_log_at P1 m3 agents in
  s <- play_loop PLAY_FUEL (mkState self agents turn [] "") ;;
  g <- calculateFinalScores (st_game s) ;;
  let log := st_log s ++ final_score_line P0 (fst (final_scores g))
                      ++ final_score_line P1 (snd (final_scores g)) in
  valid <- isValidDeal g ;;
  let tokens := fold_left (fun acc m => acc + n_tokens m) (st_messages s) 0 in
  Ok (mkOutcome (fst (final_scores g)) (snd (final_scores g))
                (agent_log (fst (st_agents s))) (agent_log (snd (st_agents s)))
                valid (length (st_messages s)) tokens,
      g, st_agents s, log).

End Loop.

Arguments state A : clear implicits.

(** ** Specification of the loop *)

Section Spec.
Context {A : Type} `{Agent A}.

(** The loop's bound: at most 50 messages, and fewer while the game
    runs. *)
Definition below_limit (s : state A) : Prop :=
  length (st_messages s) <= MAX_MESSAGES /\
  (game_over (st_game s) = false -> length (st_messages s) < MAX_MESSAGES).

(** What the opponent is shown of a message [m] (an answer, stripped). *)
Definition shown_to_opponent (m : string) : string :=
  if startswith "[propose]" m then PROPOSAL_NOTICE else m.

(** The entries a run with messages [msgs], starting at [turn], appends
    to the transcript of player [q]: its own messages as "assistant",
    the opponent's as "user", proposals replaced by the notice. *)
Fixpoint transcript (q turn : player) (msgs : list string) : list chat :=
  match msgs with
  | [] => []
  | m :: ms =>
      (if player_eq_dec turn q then mkChat "assistant" m
       else mkChat "user" (shown_to_opponent m)) :: transcript q (other turn) ms
  end.

(** The lines a run whose answers are [raws], starting at [turn], appends
    to the full text log. *)
Fixpoint log_lines (turn : player) (raws : list string) : string :=
  match raws with
  | [] => ""
  | r :: rs => log_line turn r ++ log_lines (other turn) rs
  end.

(** An entry of a transcript that does not leak a proposal: a "user"
    entry that reads as a proposal is the notice. *)
Definition private_entry (c : chat) : Prop :=
  role c = "user" -> startswith "[propose]" (content c) = true -> content c = PROPOSAL_NOTICE.

(** The agents after the four system messages of [play_game]. *)
Definition with_system (m0 m1 : chat) (ags : A * A) : A * A :=
  append_log_at P1 m1 (append_log_at P0 m0 (append_json_at P1 m1 (append_json_at P0 m0 ags))).

End Spec.

(** ** Self-play between [LLMPlayer]s *)

(** The three item kinds are keys of [d]. *)
Definition has_items (d : dict Z) : Prop := forall k, In k ITEMS -> lookup d k <> None.

(** Every recorded proposal is a parsed one, a dict of the three kinds. *)
Definition parsed_props (g : NegotiationGame) : Prop :=
  forall q, pick q (proposals g) = None \/
            exists b h l, pick q (proposals g) = Some (items b h l).

(** ** Concrete games

    A model that plays a fixed script of answers, one per call. *)
Definition scripted (answers : list string) : list chat -> nat -> string :=
  fun _ n => nth n answers "".

(** The specification's scenario: player 0 asks for the hats, player 1
    for the book and the balls, and both propose accordingly. *)
Definition spec_player0 : LLMPlayer :=
  mkLLMPlayer [] [] true
    (scripted ["[message] I would like the hats."; "[propose] (0 books, 2 hats, 0 balls)"]) 0 [].
Definition spec_player1 : LLMPlayer :=
  mkLLMPlayer [] [] true
    (scripted ["[message] Then I take the book and the balls.";
               "[propose] (1 books, 0 hats, 3 balls)"]) 0 [].

(** A player whose model never follows the format. *)
Definition silent_player : LLMPlayer := mkLLMPlayer [] [] true (fun _ _ => "...") 0 [].

(** A player that only ever chats. *)
Definition CHAT_LINE : string := "[message] Let us keep talking.".
Definition chatty_player : LLMPlayer := mkLLMPlayer [] [] true (fun _ _ => CHAT_LINE) 0 [].

(** A player that proposes at once. *)
Definition eager_player : LLMPlayer :=
  mkLLMPlayer [] [] true (fun _ _ => "[propose] (1 books, 2 hats, 3 balls)") 0 [].

Definition SYSTEM_TEXT : string :=
  "There are {book_cnt} books, {hat_cnt} hats and {ball_cnt} balls. You value a book at {book_val}, a hat at {hat_val} and a ball at {ball_val}.".

(** A token count: one token per character. *)
Definition char_tokens (m : string) : nat := String.length m.

(** ** Lemmas on the loop *)

Section LoopFacts.
Context {A : Type} `{AgentLaws A}.

Lemma log_append_json_at p q m (ag : A * A) :
  agent_log (pick q (append_json_at p m ag)) = agent_log (pick q ag).
Proof.
  unfold append_json_at, append_json; destruct (player_eq_dec p q) as [->|Hne].
  - now rewrite pick_upd_eq, log_set_json.
  - now rewrite pick_upd_ne.
Qed.

Lemma json_append_log_at p q m (ag : A * A) :
  agent_json (pick q (append_log_at p m ag)) = agent_json (pick q ag).
Proof.
  unfold append_log_at, append_log; destruct (player_eq_dec p q) as [->|Hne].
  - now rewrite pick_upd_eq, json_set_log.
  - now rewrite pick_upd_ne.
Qed.

Lemma log_append_log_at p q m (ag : A * A) :
  agent_log (pick q (append_log_at p m ag)) =
  if player_eq_dec p q then (agent_log (pick q ag) ++ [m])%list else agent_log (pick q ag).
Proof.
  unfold append_log_at, append_log; destruct (player_eq_dec p q) as [->|Hne].
  - now rewrite pick_upd_eq, log_set_log.
  - now rewrite pick_upd_ne.
Qed.

Lemma json_append_json_at p q m (ag : A * A) :
  agent_json (pick q (append_json_at p m ag)) =
  if player_eq_dec p q then (agent_json (pick q ag) ++ [m])%list else agent_json (pick q ag).
Proof.
  unfold append_json_at, append_json; destruct (player_eq_dec p q) as [->|Hne].
  - now rewrite pick_upd_eq, json_set_json.
  - now rewrite pick_upd_ne.
Qed.

(** What the proposal check does: the assistant side always sees the
    stripped answer, the opponent the notice for a proposal and the
    answer otherwise; counts and values are untouched. *)
Lemma proposal_check_spec turn r g g' am um :
  proposal_check turn r g = Ok (g', am, um) ->
  am = strip r /\
  um = (if startswith "[propose]" (strip r) then PROPOSAL_NOTICE else strip r) /\
  item_counts g' = item_counts g /\ player_values g' = player_values g /\
  objective g' = objective g.
Proof.
  unfold proposal_check, record_proposal.
  destruct (startswith "[propose]" (strip r)); [|intros [= <- <- <-]; auto].
  destruct (deal_proposed g), (parse_proposal r); cbn [bind]; try discriminate;
    intros [= <- <- <-]; auto.
Qed.

(** Inversion of a turn. *)
Lemma turn_step_inv s s' :
  turn_step s = Ok s' ->
  exists r a g am um,
    agent_respond (st_game s) (pick (st_turn s) (st_agents s)) = Ok (r, a) /\
    proposal_check (st_turn s) r (after_abort_check r (st_game s)) = Ok (g, am, um) /\
    s' = mkState
           (if Nat.leb MAX_MESSAGES (length (st_messages s ++ [strip r])) then
              set_game_over true g else g)
           (append_log_at (other (st_turn s)) (mkChat "user" um)
             (append_log_at (st_turn s) (mkChat "assistant" am)
               (append_json_at (other (st_turn s)) (mkChat "user" um)
                 (append_json_at (st_turn s) (mkChat "assistant" am)
                   (upd (st_turn s) a (st_agents s))))))
           (other (st_turn s)) (st_messages s ++ [strip r]) (st_log s ++ log_line (st_turn s) r).
Proof.
  unfold turn_step.
  destruct (agent_respond _ _) as [[r a]|] eqn:Er; cbn [bind]; [|discriminate].
  destruct (proposal_check _ _ _) as [[[g am] um]|] eqn:Ep; cbn [bind]; [|discriminate].
  intros [= <-]; exists r, a, g, am, um; auto.
Qed.

(** A turn appends one entry to each transcript: the answer to the turn
    player's, what [shown_to_opponent] gives to the opponent's. *)
Lemma turn_step_logs s s' q :
  turn_step s = Ok s' ->
  exists r, st_messages s' = (st_messages s ++ [strip r])%list /\
    agent_log (pick q (st_agents s')) =
    (agent_log (pick q (st_agents s)) ++
      [if player_eq_dec (st_turn s) q then mkChat "assistant" (strip r)
       else mkChat "user" (shown_to_opponent (strip r))])%list.
Proof.
  intros Hs; destruct (turn_step_inv _ _ Hs) as (r & a & g & am & um & Er & Ep & ->).
  destruct (proposal_check_spec _ _ _ _ _ _ Ep) as (-> & -> & _).
  exists r; split; [reflexivity|cbn [st_agents]].
  rewrite !log_append_log_at, !log_append_json_at.
  destruct (player_eq_dec (st_turn s) q) as [<-|Hne].
  - destruct (player_eq_dec (other (st_turn s)) (st_turn s)) as [E|_];
      [now apply other_neq in E|].
    now rewrite pick_upd_eq, (respond_keeps_log _ _ _ _ Er).
  - destruct (player_eq_dec (other (st_turn s)) q) as [<-|Hne'];
      [|destruct (st_turn s), q; simpl in *; congruence].
    now rewrite pick_upd_ne by exact Hne.
Qed.

Lemma turn_step_below s s' :
  below_limit s -> game_over (st_game s) = false -> turn_step s = Ok s' -> below_limit s'.
Proof.
  intros [_ Hb] Eo Hs; specialize (Hb Eo).
  destruct (turn_step_inv _ _ Hs) as (r & a & g & am & um & _ & _ & ->).
  unfold below_limit; cbn [st_game st_messages]; rewrite length_app; cbn [length].
  split; [lia|].
  destruct (Nat.leb_spec MAX_MESSAGES (length (st_messages s) + 1)); [discriminate|lia].
Qed.

Lemma turn_step_messages s s' :
  turn_step s = Ok s' ->
  exists r, st_messages s' = (st_messages s ++ [strip r])%list /\ st_turn s' = other (st_turn s) /\
            st_log s' = st_log s ++ log_line (st_turn s) r.
Proof.
  intros Hs; destruct (turn_step_inv _ _ Hs) as (r & a & g & am & um & _ & _ & ->).
  exists r; repeat split.
Qed.

Lemma play_loop_fuel_eq f s :
  below_limit s -> MAX_MESSAGES - length (st_messages s) <= f ->
  play_loop f s = play_loop (MAX_MESSAGES - length (st_messages s)) s.
Proof.
  revert s; induction f as [|f IH]; intros s Hb Hf; cbn [play_loop].
  - now replace (MAX_MESSAGES - length (st_messages s)) with 0 by lia.
  - destruct (game_over (st_game s)) eqn:Eo.
    + destruct (MAX_MESSAGES - length (st_messages s)); cbn [play_loop]; now rewrite Eo.
    + pose proof (proj2 Hb Eo) as Hlt.
      destruct (MAX_MESSAGES - length (st_messages s)) as [|k] eqn:Ek; [lia|].
      cbn [play_loop]; rewrite Eo.
      destruct (turn_step s) as [s'|e] eqn:Es; cbn [bind]; [|reflexivity].
      destruct (turn_step_messages _ _ Es) as (m & Hm & _).
      rewrite IH; [| exact (turn_step_below _ _ Hb Eo Es) | rewrite Hm, length_app; cbn [length]; lia].
      rewrite Hm, length_app; cbn [length]; f_equal; lia.
Qed.

(** A run that returns has ended the game, and has only appended to the
    messages, each turn appending its message to both transcripts. *)
Lemma play_loop_Ok f s s' :
  play_loop f s = Ok s' ->
  game_over (st_game s') = true /\
  (below_limit s -> length (st_messages s') <= MAX_MESSAGES) /\
  exists raws, st_messages s' = (st_messages s ++ map strip raws)%list /\
    st_turn s' = fold_left (fun t _ => other t) raws (st_turn s) /\
    st_log s' = st_log s ++ log_lines (st_turn s) raws /\
    forall q, agent_log (pick q (st_agents s')) =
              (agent_log (pick q (st_agents s)) ++ transcript q (st_turn s) (map strip raws))%list.
Proof.
  revert s; induction f as [|f IH]; intros s Hs; cbn [play_loop] in Hs;
    destruct (game_over (st_game s)) eqn:Eo; try discriminate.
  1,2: injection Hs as <-; split; [exact Eo|split; [intros Hb; apply Hb|]];
    exists []; cbn [map log_lines]; rewrite app_nil_r, str_app_nil_r;
    split; [reflexivity|split; [reflexivity|split; [reflexivity|]]];
    intros q; now rewrite app_nil_r.
  destruct (turn_step s) as [s1|e] eqn:Es; cbn [bind] in Hs; [|discriminate].
  destruct (IH _ Hs) as (Ho & Hlen & raws & Hm & Ht & Hlog & Hl).
  destruct (turn_step_messages _ _ Es) as (r & Hm1 & Ht1 & Hlog1).
  split; [exact Ho|split; [intros Hb; exact (Hlen (turn_step_below _ _ Hb Eo Es))|]].
  exists (r :: raws); cbn [map log_lines]; rewrite Hm, Hm1, <- app_assoc; split; [reflexivity|].
  split; [rewrite Ht, Ht1; reflexivity|].
  split; [rewrite Hlog, Hlog1, Ht1, str_app_assoc; reflexivity|].
  intros q; rewrite Hl.
  destruct (turn_step_logs _ _ q Es) as (r' & Hm2 & Hq).
  rewrite Hm1 in Hm2; apply app_inv_head in Hm2; injection Hm2 as Hmr.
  rewrite Hq, Ht1, <- app_assoc, Hmr; reflexivity.
Qed.

Lemma system_message_role text self q m :
  system_message text self q = Ok m -> role m = "system".
Proof.
  unfold system_message; destruct (prompt_args _ _); cbn [bind]; [|discriminate].
  destruct (py_format _ _); cbn [bind]; [|discriminate]; now intros [= <-].
Qed.

Lemma initial_below_limit self (ags : A * A) turn log : below_limit (mkState self ags turn [] log).
Proof. unfold below_limit, MAX_MESSAGES; cbn [st_messages length]; split; lia. Qed.

Lemma transcript_private q turn msgs : Forall private_entry (transcript q turn msgs).
Proof.
  revert turn; induction msgs as [|m ms IH]; intros turn; constructor; [|apply IH].
  destruct (player_eq_dec turn q); unfold private_entry; cbn [role content];
    [discriminate|unfold shown_to_opponent; intros _].
  destruct (startswith "[propose]" m) eqn:E; [reflexivity|congruence].
Qed.

Lemma log_with_system q m0 m1 (ags : A * A) :
  agent_log (pick q (with_system m0 m1 ags)) =
  (agent_log (pick q ags) ++ [match q with P0 => m0 | P1 => m1 end])%list.
Proof.
  unfold with_system; rewrite !log_append_log_at, !log_append_json_at.
  destruct q; reflexivity.
Qed.

(** Inversion of a [play_game] that returns. *)
Lemma play_game_inv self ags turn text ntok o g ags' log :
  play_game self ags turn text ntok = Ok (o, g, ags', log) ->
  exists m0 m1 s,
    system_message text self P0 = Ok m0 /\ system_message text self P1 = Ok m1 /\
    play_loop PLAY_FUEL (mkState self (with_system m0 m1 ags) turn [] "") = Ok s /\
    calculateFinalScores (st_game s) = Ok g /\ isValidDeal g = Ok (is_valid_deal o) /\
    ags' = st_agents s /\ msg_cnt o = length (st_messages s) /\
    p0_log o = agent_log (fst (st_agents s)) /\ p1_log o = agent_log (snd (st_agents s)) /\
    p0_score o = fst (final_scores g) /\ p1_score o = snd (final_scores g) /\
    log = st_log s ++ final_score_line P0 (fst (final_scores g))
                   ++ final_score_line P1 (snd (final_scores g)).
Proof.
  unfold play_game.
  destruct (system_message text self P0) as [m0|] eqn:E0; cbn [bind]; [|discriminate].
  destruct (system_message text self P1) as [m1|] eqn:E1; cbn [bind]; [|discriminate].
  destruct (play_loop _ _) as [s|] eqn:El; cbn [bind]; [|discriminate].
  destruct (calculateFinalScores (st_game s)) as [g1|] eqn:Ec; cbn [bind]; [|discriminate].
  destruct (isValidDeal g1) as [v|] eqn:Ev; cbn [bind]; [|discriminate].
  intros [= <- <- <- <-]; exists m0, m1, s; repeat split; assumption.
Qed.

(** The text [play_game] appends to the full log: one line per answer,
    in turn order, then the two final-score lines. *)
Lemma play_game_full_log self ags turn text ntok o g ags' log :
  play_game self ags turn text ntok = Ok (o, g, ags', log) ->
  exists raws, msg_cnt o = length raws /\
    log = log_lines turn raws ++ final_score_line P0 (p0_score o)
                              ++ final_score_line P1 (p1_score o).
Proof.
  intros Hg; destruct (play_game_inv _ _ _ _ _ _ _ _ _ Hg)
    as (m0 & m1 & s & _ & _ & El & _ & _ & _ & Hc & _ & _ & Hs0 & Hs1 & Hlog).
  destruct (play_loop_Ok _ _ _ El) as (_ & _ & raws & Hm & _ & Hl & _).
  exists raws; split.
  - rewrite Hc, Hm; cbn [st_messages app]; apply length_map.
  - rewrite Hlog, Hl, Hs0, Hs1; reflexivity.
Qed.

(** The fields a game never writes after [__init__]. *)
Lemma turn_step_static s s' :
  turn_step s = Ok s' -> static_fields (st_game s') = static_fields (st_game s).
Proof.
  intros Hs; destruct (turn_step_inv _ _ Hs) as (r & a & g & am & um & _ & Ep & ->).
  destruct (proposal_check_spec _ _ _ _ _ _ Ep) as (_ & _ & Hc & Hv & Ho).
  transitivity (static_fields g); [now destruct (Nat.leb _ _)|].
  unfold static_fields; rewrite Hc, Hv, Ho; unfold after_abort_check; now destruct (String.eqb _ _).
Qed.

Lemma play_loop_static f s s' :
  play_loop f s = Ok s' -> static_fields (st_game s') = static_fields (st_game s).
Proof.
  revert s; induction f as [|f IH]; intros s Hs; cbn [play_loop] in Hs;
    destruct (game_over (st_game s)); try (injection Hs as <-; reflexivity); [discriminate|].
  apply bind_eq_Ok in Hs; destruct Hs as (s1 & E1 & Hs).
  rewrite (IH _ Hs); exact (turn_step_static _ _ E1).
Qed.

Lemma calculateFinalScores_static g g' :
  calculateFinalScores g = Ok g' -> static_fields g' = static_fields g.
Proof.
  unfold calculateFinalScores; destruct (isValidDeal g) as [[]|]; cbn [bind negb]; try discriminate;
    [|now intros [= <-]].
  destruct (proposals g) as [[c0|] [c1|]]; try discriminate.
  repeat (destruct (String.eqb _ _)); now intros [= <-].
Qed.

Lemma init_static c v0 v1 obj g :
  init (Some c) (Some v0) (Some v1) obj = Ok g -> static_fields g = (c, (v0, v1), obj).
Proof. unfold init; intros Hi; py_unfold Hi; now injection Hi as <-. Qed.

(** A game that returns has counted at most 50 messages. *)
Lemma play_game_msg_cnt self ags turn text ntok o g ags' log :
  play_game self ags turn text ntok = Ok (o, g, ags', log) -> msg_cnt o <= MAX_MESSAGES.
Proof.
  intros Hg; destruct (play_game_inv _ _ _ _ _ _ _ _ _ Hg)
    as (m0 & m1 & s & _ & _ & El & _ & _ & _ & Hm & _).
  rewrite Hm; exact (proj1 (proj2 (play_loop_Ok _ _ _ El)) (initial_below_limit _ _ _ _)).
Qed.

(** The game [play_game] returns has the counts, values and objective it
    was built with. *)
Lemma play_game_static self ags turn text ntok o g ags' log :
  play_game self ags turn text ntok = Ok (o, g, ags', log) -> static_fields g = static_fields self.
Proof.
  intros Hg; destruct (play_game_inv _ _ _ _ _ _ _ _ _ Hg) as (m0 & m1 & s & _ & _ & El & Ec & _).
  rewrite (calculateFinalScores_static _ _ Ec); exact (play_loop_static _ _ _ El).
Qed.

(** A game with one of the three objectives reports both final scores. *)
Lemma play_game_scores self ags turn text ntok o g ags' log :
  valid_objective (objective self) = true ->
  play_game self ags turn text ntok = Ok (o, g, ags', log) ->
  exists s0 s1, p0_score o = Some s0 /\ p1_score o = Some s1.
Proof.
  intros Hv Hg; destruct (play_game_inv _ _ _ _ _ _ _ _ _ Hg)
    as (m0 & m1 & s & _ & _ & El & Ec & _ & _ & _ & _ & _ & Hs0 & Hs1 & _).
  pose proof (f_equal (fun x => snd x) (play_loop_static _ _ _ El)) as Ho;
    cbn [st_game static_fields snd] in Ho; rewrite <- Ho in Hv.
  destruct (calculateFinalScores_some _ _ Hv Ec) as (s0 & s1 & Hf).
  exists s0, s1; rewrite Hs0, Hs1, Hf; split; reflexivity.
Qed.

(** A game under the competitive objective ends with scores [f] and [-f]. *)
Lemma play_game_comp_zero_sum self ags turn text ntok o g ags' log :
  objective self = "comp" ->
  play_game self ags turn text ntok = Ok (o, g, ags', log) ->
  exists f, p0_score o = Some f /\ p1_score o = Some (- f)%Z.
Proof.
  intros Hv Hg; destruct (play_game_inv _ _ _ _ _ _ _ _ _ Hg)
    as (m0 & m1 & s & _ & _ & El & Ec & _ & _ & _ & _ & _ & Hs0 & Hs1 & _).
  pose proof (f_equal (fun x => snd x) (play_loop_static _ _ _ El)) as Ho;
    cbn [st_game static_fields snd] in Ho; rewrite <- Ho in Hv.
  destruct (calculateFinalScores_comp_zero_sum _ _ Hv Ec) as (f & Hf).
  exists f; rewrite Hs0, Hs1, Hf; split; reflexivity.
Qed.

(** ** Properties of the loop *)

(** C8: The while loop of [play_game] stops within [50 - len(messages)]
    turns: from a state within the bound, every fuel at least that large
    gives the result of the 50 turns the model allows. *)
Theorem play_loop_fuel f s :
  below_limit s -> MAX_MESSAGES - length (st_messages s) <= f ->
  play_loop f s = play_loop PLAY_FUEL s.
Proof.
  intros Hb Hf; rewrite (play_loop_fuel_eq f), (play_loop_fuel_eq PLAY_FUEL);
    unfold PLAY_FUEL; auto; lia.
Qed.

(** C7: The transcripts [play_game] returns are the players' initial logs,
    their system prompt, and then the messages of the game in turn order,
    each player's own as "assistant" and the opponent's as "user"; there
    are at most 50 messages. *)
Theorem play_game_transcripts self ags turn text ntok o g ags' log :
  play_game self ags turn text ntok = Ok (o, g, ags', log) ->
  exists m0 m1 msgs,
    system_message text self P0 = Ok m0 /\ system_message text self P1 = Ok m1 /\
    msg_cnt o = length msgs /\ msg_cnt o <= MAX_MESSAGES /\
    p0_log o = (agent_log (fst ags) ++ m0 :: transcript P0 turn msgs)%list /\
    p1_log o = (agent_log (snd ags) ++ m1 :: transcript P1 turn msgs)%list.
Proof.
  intros Hg; destruct (play_game_inv _ _ _ _ _ _ _ _ _ Hg)
    as (m0 & m1 & s & E0 & E1 & El & _ & _ & _ & Hc & Hp0 & Hp1 & _).
  destruct (play_loop_Ok _ _ _ El) as (_ & Hlen & raws & Hm & _ & _ & Hl).
  exists m0, m1, (map strip raws); cbn [st_messages app] in Hm.
  split; [exact E0|split; [exact E1|split; [now rewrite Hc, Hm|split]]].
  - rewrite Hc; apply Hlen, initial_below_limit.
  - split.
    + rewrite Hp0; change (fst (st_agents s)) with (pick P0 (st_agents s)).
      rewrite Hl; cbn [st_agents st_turn]; rewrite log_with_system, <- app_assoc; reflexivity.
    + rewrite Hp1; change (snd (st_agents s)) with (pick P1 (st_agents s)).
      rewrite Hl; cbn [st_agents st_turn]; rewrite log_with_system, <- app_assoc; reflexivity.
Qed.

(** C22: Proposals stay private: every entry [play_game] adds to a
    transcript is either the system prompt, the player's own message, or
    an opponent's message shown as "user" that, when it reads as a
    proposal, is the fixed notice and not the opponent's proposal. *)
Theorem play_game_private self ags turn text ntok o g ags' log :
  play_game self ags turn text ntok = Ok (o, g, ags', log) ->
  exists ext0 ext1,
    p0_log o = (agent_log (fst ags) ++ ext0)%list /\
    p1_log o = (agent_log (snd ags) ++ ext1)%list /\
    Forall private_entry ext0 /\ Forall private_entry ext1.
Proof.
  intros Hg; destruct (play_game_inv _ _ _ _ _ _ _ _ _ Hg)
    as (m0 & m1 & s & E0 & E1 & El & _ & _ & _ & _ & Hp0 & Hp1 & _).
  destruct (play_loop_Ok _ _ _ El) as (_ & _ & raws & _ & _ & _ & Hl).
  exists (m0 :: transcript P0 turn (map strip raws)), (m1 :: transcript P1 turn (map strip raws)).
  split; [|split; [|split]].
  - rewrite Hp0; change (fst (st_agents s)) with (pick P0 (st_agents s)).
    rewrite Hl; cbn [st_agents st_turn]; rewrite log_with_system, <- app_assoc; reflexivity.
  - rewrite Hp1; change (snd (st_agents s)) with (pick P1 (st_agents s)).
    rewrite Hl; cbn [st_agents st_turn]; rewrite log_with_system, <- app_assoc; reflexivity.
  - constructor; [|apply transcript_private].
    intros Hr; rewrite (system_message_role _ _ _ _ E0) in Hr; discriminate.
  - constructor; [|apply transcript_private].
    intros Hr; rewrite (system_message_role _ _ _ _ E1) in Hr; discriminate.
Qed.

(** *** Games without proposals or aborts *)

Section Chat.
Variable P : A -> Prop.
Hypothesis HP_respond : forall g a, P a -> deal_proposed g = false ->
  exists r a', agent_respond g a = Ok (r, a') /\ P a' /\
    strip r <> "[ABORT]" /\ startswith "[propose]" (strip r) = false.
Hypothesis HP_set : forall l a, P a -> P (agent_set_json l a) /\ P (agent_set_log l a).

Lemma chat_pick p (ags : A * A) : P (fst ags) /\ P (snd ags) -> P (pick p ags).
Proof. destruct p; simpl; tauto. Qed.

Lemma chat_upd p a (ags : A * A) :
  P a -> P (fst ags) /\ P (snd ags) -> P (fst (upd p a ags)) /\ P (snd (upd p a ags)).
Proof. destruct p; simpl; tauto. Qed.

Lemma chat_append p m (ags : A * A) :
  P (fst ags) /\ P (snd ags) ->
  (P (fst (append_json_at p m ags)) /\ P (snd (append_json_at p m ags))) /\
  (P (fst (append_log_at p m ags)) /\ P (snd (append_log_at p m ags))).
Proof.
  intros HA; unfold append_json_at, append_log_at, append_json, append_log.
  split; apply chat_upd; auto; apply HP_set, chat_pick, HA.
Qed.

Lemma play_loop_chat k s :
  P (fst (st_agents s)) /\ P (snd (st_agents s)) ->
  game_over (st_game s) = false -> deal_proposed (st_game s) = false ->
  proposals (st_game s) = (None, None) ->
  length (st_messages s) + S k = MAX_MESSAGES ->
  exists s', play_loop (S k) s = Ok s' /\ length (st_messages s') = MAX_MESSAGES /\
    proposals (st_game s') = (None, None).
Proof.
  revert s; induction k as [|k IH]; intros s HA Eo Ed Ep Hk;
    cbn [play_loop]; rewrite Eo;
    destruct (HP_respond (st_game s) (pick (st_turn s) (st_agents s)) (chat_pick _ _ HA) Ed)
      as (r & a & Er & Pa & Hab & Hpr);
    unfold turn_step; rewrite Er; cbn [bind];
    unfold after_abort_check; destruct (String.eqb_spec (strip r) "[ABORT]"); try contradiction;
    unfold proposal_check; rewrite Hpr; cbn [bind];
    rewrite length_app; cbn [length].
  - destruct (Nat.leb_spec MAX_MESSAGES (length (st_messages s) + 1)); [|lia].
    cbn [play_loop st_game set_game_over game_over].
    eexists; split; [reflexivity|cbn; split; [rewrite length_app; cbn; lia|exact Ep]].
  - destruct (Nat.leb_spec MAX_MESSAGES (length (st_messages s) + 1)); [lia|].
    apply IH; cbn [st_game st_agents st_messages]; auto.
    + pose proof (chat_upd (st_turn s) a (st_agents s) Pa HA) as HU.
      exact (proj2 (chat_append _ _ _ (proj2 (chat_append _ _ _
               (proj1 (chat_append _ _ _ (proj1 (chat_append _ _ _ HU)))))))).
    + rewrite length_app; cbn [length]; lia.
Qed.

(** C9: A game in which no answer is a proposal or "[ABORT]" runs to the
    cap: it ends after exactly 50 messages, with no deal and both final
    scores 0. *)
Theorem play_game_message_cap self ags turn text ntok m0 m1 :
  P (fst ags) -> P (snd ags) ->
  system_message text self P0 = Ok m0 -> system_message text self P1 = Ok m1 ->
  game_over self = false -> deal_proposed self = false -> proposals self = (None, None) ->
  exists o g ags' log, play_game self ags turn text ntok = Ok (o, g, ags', log) /\
    msg_cnt o = MAX_MESSAGES /\ is_valid_deal o = false /\
    p0_score o = Some 0%Z /\ p1_score o = Some 0%Z.
Proof.
  intros HP0 HP1 E0 E1 Eo Ed Ep.
  assert (HA : P (fst (with_system m0 m1 ags)) /\ P (snd (with_system m0 m1 ags)))
    by exact (proj2 (chat_append _ _ _ (proj2 (chat_append _ _ _
               (proj1 (chat_append _ _ _ (proj1 (chat_append _ _ _ (conj HP0 HP1))))))))).
  destruct (play_loop_chat 49 (mkState self (with_system m0 m1 ags) turn [] "") HA Eo Ed Ep eq_refl)
    as (s & Hl & Hlen & Hps).
  unfold play_game; rewrite E0, E1; cbn [bind].
  change (S 49) with PLAY_FUEL in Hl; unfold with_system in Hl; rewrite Hl; cbn [bind].
  unfold calculateFinalScores, isValidDeal; rewrite Hps; cbn [bind negb].
  cbn [set_final_scores proposals]; rewrite Hps; cbn [bind].
  eexists _, _, _, _; split; [reflexivity|].
  cbn [msg_cnt is_valid_deal p0_score p1_score final_scores fst snd]; auto.
Qed.
End Chat.
End LoopFacts.

(** ** Lemmas on self-play *)

Lemma parsed_props_record g t b h l :
  parsed_props g -> parsed_props (set_proposals (upd t (Some (items b h l)) (proposals g)) g).
Proof.
  intros Hp q; cbn [proposals set_proposals].
  destruct (player_eq_dec t q) as [<-|Hne].
  - right; rewrite pick_upd_eq; eauto.
  - rewrite pick_upd_ne by exact Hne; apply Hp.
Qed.

Lemma proposal_check_Ok t r g :
  (startswith "[propose]" (strip r) = true -> exists b h l, parse_proposal r = Ok (items b h l)) ->
  parsed_props g ->
  exists g' am um, proposal_check t r g = Ok (g', am, um) /\ parsed_props g' /\
                   item_counts g' = item_counts g.
Proof.
  intros Hparse Hp; unfold proposal_check, record_proposal.
  destruct (startswith "[propose]" (strip r));
    [|eexists _, _, _; split; [reflexivity|auto]].
  destruct (Hparse eq_refl) as (b & h & l & ->); cbn [bind].
  destruct (deal_proposed g); eexists _, _, _;
    (split; [reflexivity|split; [apply parsed_props_record, Hp|reflexivity]]).
Qed.

Lemma startswith_abort : startswith "[propose]" (strip "[ABORT]") = false.
Proof. reflexivity. Qed.

(** What an [LLMPlayer]'s answer [r] satisfies: it is "[ABORT]" or valid. *)
Lemma llm_answer game (p : LLMPlayer) r p' :
  respond game p = Ok (r, p') ->
  r = "[ABORT]" \/ is_valid_output game (messages_log p) r = Ok (true, "").
Proof.
  intros Hr; destruct (respond_outcome _ _ _ _ Hr) as (_ & _ & [(-> & _)|(Hv & _)]); auto.
Qed.

Lemma llm_answer_parses game (p : LLMPlayer) r p' :
  respond game p = Ok (r, p') ->
  startswith "[propose]" (strip r) = true -> exists b h l, parse_proposal r = Ok (items b h l).
Proof.
  intros Hr Hs; destruct (llm_answer _ _ _ _ Hr) as [->|Hv].
  - now rewrite startswith_abort in Hs.
  - exact (accepted_proposal_parse_Ok _ _ _ _ Hv Hs).
Qed.

Lemma after_abort_check_counts r g : item_counts (after_abort_check r g) = item_counts g.
Proof. unfold after_abort_check; now destruct (String.eqb _ _). Qed.

Lemma after_abort_check_props r g : proposals (after_abort_check r g) = proposals g.
Proof. unfold after_abort_check; now destruct (String.eqb _ _). Qed.

Lemma llm_turn_step_Ok (s : state LLMPlayer) :
  has_items (item_counts (st_game s)) -> parsed_props (st_game s) ->
  exists s', turn_step s = Ok s' /\ parsed_props (st_game s') /\
             item_counts (st_game s') = item_counts (st_game s).
Proof.
  intros Hk Hp.
  destruct (respond_total (st_game s) (pick (st_turn s) (st_agents s)) Hk) as (r & a & Er).
  destruct (proposal_check_Ok (st_turn s) r (after_abort_check r (st_game s))
              (llm_answer_parses _ _ _ _ Er))
    as (g & am & um & Ep & Hg & Hc).
  { intros q; unfold parsed_props in Hp; rewrite after_abort_check_props; apply Hp. }
  unfold turn_step; cbn [agent_respond LLMPlayer_Agent]; rewrite Er; cbn [bind].
  rewrite Ep; cbn [bind].
  eexists; split; [reflexivity|cbn [st_game]].
  destruct (Nat.leb _ _); (split; [exact Hg|]);
    cbn [item_counts set_game_over]; rewrite Hc; apply after_abort_check_counts.
Qed.

Lemma llm_play_loop_Ok f (s : state LLMPlayer) :
  below_limit s -> MAX_MESSAGES - length (st_messages s) <= f ->
  has_items (item_counts (st_game s)) -> parsed_props (st_game s) ->
  exists s', play_loop f s = Ok s' /\ parsed_props (st_game s') /\
             item_counts (st_game s') = item_counts (st_game s).
Proof.
  revert s; induction f as [|f IH]; intros s Hb Hf Hk Hp; cbn [play_loop];
    destruct (game_over (st_game s)) eqn:Eo; eauto.
  - pose proof (proj2 Hb Eo); lia.
  - destruct (llm_turn_step_Ok s Hk Hp) as (s1 & Es & Hp1 & Hc1).
    rewrite Es; cbn [bind].
    destruct (turn_step_messages _ _ Es) as (m & Hm & _).
    destruct (IH s1) as (s' & El & Hp' & Hc');
      [exact (turn_step_below _ _ Hb Eo Es)|rewrite Hm, length_app; cbn [length]; lia
       |rewrite Hc1; exact Hk|exact Hp1|].
    exists s'; split; [exact El|split; [exact Hp'|congruence]].
Qed.

Lemma lookup_items b h l k : In k ITEMS -> exists v, lookup (items b h l) k = Some v.
Proof. intros [<-|[<-|[<-|[]]]]; eexists; reflexivity. Qed.

Lemma deal_sums_match_defined b h l b' h' l' counts ks :
  incl ks ITEMS -> has_items counts ->
  exists v, deal_sums_match (items b h l) (items b' h' l') counts ks = Ok v.
Proof.
  intros Hks Hk; induction ks as [|k ks IH]; [eexists; reflexivity|].
  assert (Hin : In k ITEMS) by (apply Hks; left; reflexivity).
  cbn [deal_sums_match]; unfold getitem at 1 2 3.
  destruct (lookup_items b h l k Hin) as (x & ->), (lookup_items b' h' l' k Hin) as (y & ->).
  destruct (lookup counts k) as [c|] eqn:Ec; [|exfalso; exact (Hk k Hin Ec)].
  cbn [bind]; destruct (x + y =? c)%Z; [apply IH; intros z Hz; apply Hks; right; exact Hz|eauto].
Qed.

Lemma isValidDeal_defined g :
  has_items (item_counts g) -> parsed_props g -> exists v, isValidDeal g = Ok v.
Proof.
  intros Hk Hp; unfold isValidDeal.
  destruct (Hp P0) as [E0|(b & h & l & E0)], (Hp P1) as [E1|(b' & h' & l' & E1)];
    destruct (proposals g) as [p0 p1]; cbn [pick fst snd] in E0, E1; subst; eauto.
  apply deal_sums_match_defined; [intros k Hk'; exact Hk'|exact Hk].
Qed.

Lemma calculateFinalScores_defined g :
  has_items (item_counts g) -> parsed_props g ->
  exists g', calculateFinalScores g = Ok g' /\ exists v, isValidDeal g' = Ok v.
Proof.
  intros Hk Hp; unfold calculateFinalScores.
  destruct (isValidDeal_defined g Hk Hp) as (v & Ev).
  rewrite Ev; cbn [bind].
  destruct v; cbn [negb].
  2: eexists; split; [reflexivity|exact (isValidDeal_defined _ Hk Hp)].
  - destruct (Hp P0) as [E0|(b & h & l & E0)], (Hp P1) as [E1|(b' & h' & l' & E1)];
      destruct (proposals g) as [p0 p1] eqn:Eg; cbn [pick fst snd] in E0, E1; subst;
      try (unfold isValidDeal in Ev; rewrite Eg in Ev; discriminate).
    destruct (objective g =? "self"); [|destruct (objective g =? "coop");
      [|destruct (objective g =? "comp")]];
      (eexists; split; [reflexivity|]); apply isValidDeal_defined; auto;
      intros q; cbn [proposals set_final_scores]; apply Hp.
Qed.

Lemma after_abort_check_deal r g : deal_proposed (after_abort_check r g) = deal_proposed g.
Proof. unfold after_abort_check; now destruct (String.eqb _ _). Qed.

(** A player whose model only chats has its line accepted while no
    proposal is pending. *)
Lemma chatty_respond g (a : LLMPlayer) :
  model a = (fun _ _ => CHAT_LINE) -> deal_proposed g = false ->
  respond g a = Ok (CHAT_LINE, set_n_calls (S (n_calls a)) (write_log (logged_output a) (start_group a))).
Proof.
  intros HM Hd; unfold respond, generate_response; cbn [model messages_json n_calls start_group].
  replace (postprocess (model a (messages_json a) (n_calls a))) with (@Ok string CHAT_LINE)
    by (rewrite HM; reflexivity); cbn [bind].
  change (is_valid_output g _ CHAT_LINE) with (Ok (is_valid_message g CHAT_LINE)).
  unfold is_valid_message.
  change (contains "[message]" (slice_from 10 CHAT_LINE)) with false.
  change (contains "[propose]" (slice_from 10 CHAT_LINE)) with false.
  change (startswith "[message]" (strip CHAT_LINE)) with true.
  cbn [orb negb]; rewrite Hd; reflexivity.
Qed.

(** ** Properties of self-play *)

(** C1: A self-play game between two [LLMPlayer]s never raises when the
    counts hold the three item kinds and the system prompts format: every
    answer is "[ABORT]" or valid, so every proposal parses, and the final
    scoring finds all the keys it reads. *)
Theorem play_game_llm_total self (p0 p1 : LLMPlayer) turn text ntok :
  has_items (item_counts self) -> parsed_props self ->
  (exists m0, system_message text self P0 = Ok m0) ->
  (exists m1, system_message text self P1 = Ok m1) ->
  exists o g ags' log, play_game self (p0, p1) turn text ntok = Ok (o, g, ags', log).
Proof.
  intros Hk Hp (m0 & E0) (m1 & E1).
  destruct (llm_play_loop_Ok PLAY_FUEL (mkState self (with_system m0 m1 (p0, p1)) turn [] "")
              (initial_below_limit _ _ _ _) ltac:(unfold PLAY_FUEL; cbn [st_messages length]; lia) Hk Hp)
    as (s & El & Hp' & Hc').
  destruct (calculateFinalScores_defined (st_game s)) as (g & Ec & v & Ev);
    [rewrite Hc'; exact Hk|exact Hp'|].
  unfold play_game; rewrite E0, E1; cbn [bind].
  unfold with_system in El; rewrite El; cbn [bind]; rewrite Ec; cbn [bind]; rewrite Ev.
  cbn [bind]; eauto.
Qed.

(** C2: Between [LLMPlayer]s, the turn after a proposal ends the game:
    the answer is either "[ABORT]" or, being valid while a proposal is
    pending, the second proposal. *)
Theorem llm_turn_after_proposal (s s' : state LLMPlayer) :
  deal_proposed (st_game s) = true -> turn_step s = Ok s' -> game_over (st_game s') = true.
Proof.
  intros Hd Hs; destruct (turn_step_inv _ _ Hs) as (r & a & g & am & um & Er & Ep & ->).
  cbn [st_game]; enough (Hg : game_over g = true)
    by (destruct (Nat.leb _ _); [reflexivity|exact Hg]).
  unfold proposal_check in Ep.
  destruct (llm_answer _ _ _ _ Er) as [->|Hv].
  - change (after_abort_check "[ABORT]" (st_game s)) with (set_game_over true (st_game s)) in Ep.
    rewrite startswith_abort in Ep; now injection Ep as <- _ _.
  - apply is_valid_output_true in Hv as [(Hp & _)|(_ & _ & _ & Hd')]; [|congruence].
    rewrite Hp, after_abort_check_deal, Hd in Ep.
    destruct (record_proposal _ _ _); cbn [bind] in Ep; [|discriminate].
    now injection Ep as <- _ _.
Qed.

(** The specification's scenario, played to the end: two messages,
    player 0 proposes (0, 2, 0), player 1 proposes (1, 0, 3); the deal is
    valid and the final scores are 6 and 8. *)
Example play_game_spec_scenario :
  match play_game fresh_game (spec_player0, spec_player1) P0 SYSTEM_TEXT char_tokens with
  | Ok (o, _, _, _) =>
      p0_score o = Some 6%Z /\ p1_score o = Some 8%Z /\ is_valid_deal o = true /\ msg_cnt o = 4
  | Raise _ => False
  end.
Proof. vm_compute; split; [reflexivity|split; [reflexivity|split; reflexivity]]. Qed.

(** A player that never follows the format aborts on the first turn:
    the game ends after one message, the opponent's transcript shows the
    "[ABORT]", and both scores are 0. *)
Example play_game_abort_first_turn :
  match play_game fresh_game (silent_player, chatty_player) P0 SYSTEM_TEXT char_tokens with
  | Ok (o, _, _, _) =>
      msg_cnt o = 1 /\ p0_score o = Some 0%Z /\ p1_score o = Some 0%Z /\
      is_valid_deal o = false /\ last (p1_log o) (mkChat "" "") = mkChat "user" "[ABORT]"
  | Raise _ => False
  end.
Proof. vm_compute; repeat split; reflexivity. Qed.

(** ** Witnesses *)

Lemma play_loop_fuel_witness :
  below_limit (mkState fresh_game (chatty_player, chatty_player) P0 [] "") /\
  play_loop 60 (mkState fresh_game (chatty_player, chatty_player) P0 [] "") =
  play_loop PLAY_FUEL (mkState fresh_game (chatty_player, chatty_player) P0 [] "").
Proof.
  assert (Hb : below_limit (mkState fresh_game (chatty_player, chatty_player) P0 [] ""))
    by (unfold below_limit, MAX_MESSAGES; cbn; split; lia).
  split; [exact Hb|apply (play_loop_fuel 60 _ Hb); unfold MAX_MESSAGES; cbn; lia].
Defined.

Lemma play_game_transcripts_witness :
  exists o g ags' log,
    play_game fresh_game (spec_player0, spec_player1) P0 SYSTEM_TEXT char_tokens = Ok (o, g, ags', log) /\
    exists m0 m1 msgs,
      system_message SYSTEM_TEXT fresh_game P0 = Ok m0 /\
      system_message SYSTEM_TEXT fresh_game P1 = Ok m1 /\
      msg_cnt o = length msgs /\ msg_cnt o <= MAX_MESSAGES /\
      p0_log o = (agent_log (fst (spec_player0, spec_player1)) ++ m0 :: transcript P0 P0 msgs)%list /\
      p1_log o = (agent_log (snd (spec_player0, spec_player1)) ++ m1 :: transcript P1 P0 msgs)%list.
Proof.
  destruct (play_game fresh_game (spec_player0, spec_player1) P0 SYSTEM_TEXT char_tokens)
    as [[[[o g] ags'] log]|e] eqn:E; [|vm_compute in E; discriminate].
  exists o, g, ags', log; split; [reflexivity|].
  exact (play_game_transcripts _ _ _ _ _ _ _ _ _ E).
Defined.

Lemma play_game_private_witness :
  exists o g ags' log,
    play_game fresh_game (spec_player0, spec_player1) P0 SYSTEM_TEXT char_tokens = Ok (o, g, ags', log) /\
    exists ext0 ext1,
      p0_log o = (agent_log (fst (spec_player0, spec_player1)) ++ ext0)%list /\
      p1_log o = (agent_log (snd (spec_player0, spec_player1)) ++ ext1)%list /\
      Forall private_entry ext0 /\ Forall private_entry ext1.
Proof.
  destruct (play_game fresh_game (spec_player0, spec_player1) P0 SYSTEM_TEXT char_tokens)
    as [[[[o g] ags'] log]|e] eqn:E; [|vm_compute in E; discriminate].
  exists o, g, ags', log; split; [reflexivity|].
  exact (play_game_private _ _ _ _ _ _ _ _ _ E).
Defined.

Lemma play_game_message_cap_witness :
  exists o g ags' log,
    play_game fresh_game (chatty_player, chatty_player) P1 SYSTEM_TEXT char_tokens = Ok (o, g, ags', log) /\
    msg_cnt o = MAX_MESSAGES /\ is_valid_deal o = false /\
    p0_score o = Some 0%Z /\ p1_score o = Some 0%Z.
Proof.
  destruct (system_message SYSTEM_TEXT fresh_game P0) as [m0|e] eqn:E0;
    [|vm_compute in E0; discriminate].
  destruct (system_message SYSTEM_TEXT fresh_game P1) as [m1|e] eqn:E1;
    [|vm_compute in E1; discriminate].
  eapply (play_game_message_cap (fun a : LLMPlayer => model a = (fun _ _ => CHAT_LINE))).
  all: try exact E0; try exact E1; try reflexivity.
  - intros g a HM Hd; exists CHAT_LINE, (set_n_calls (S (n_calls a)) (write_log (logged_output a) (start_group a))).
    split; [exact (chatty_respond g a HM Hd)|split; [exact HM|split; [discriminate|reflexivity]]].
  - intros l a HM; split; exact HM.
Defined.

Lemma play_game_llm_total_witness :
  exists o g ags' log, play_game fresh_game (spec_player0, spec_player1) P1 SYSTEM_TEXT char_tokens
                   = Ok (o, g, ags', log).
Proof.
  apply play_game_llm_total.
  - intros k Hk; simpl in Hk; destruct Hk as [<-|[<-|[<-|[]]]]; discriminate.
  - intros q; left; destruct q; reflexivity.
  - eexists; vm_compute; reflexivity.
  - eexists; vm_compute; reflexivity.
Defined.

Lemma llm_turn_after_proposal_witness :
  exists s', turn_step (mkState (set_game_over false (spec_game "self" None None))
                          (eager_player, chatty_player) P0 [] "") = Ok s' /\
             game_over (st_game s') = true.
Proof.
  destruct (turn_step (mkState (set_game_over false (spec_game "self" None None))
                          (eager_player, chatty_player) P0 [] "")) as [s'|e] eqn:E;
    [|vm_compute in E; discriminate].
  exists s'; split; [reflexivity|].
  eapply llm_turn_after_proposal; [|exact E]; reflexivity.
Defined.
