(* ===== verification/GameLog.v ===== *)
(** * The full text log of a batch game and the scripts that read it

    [NegotiationGame.__init__] (src/games/negotiation.py) opens the game's
    full text log in append mode and writes three header lines (the item
    counts and the two players' values) and a blank line; [play_game]
    then appends one line per answer and the two final-score lines
    ([Game.log_line], [Game.final_score_line]).  Three functions read such
    logs back with regular expressions: [utils.check_agreement_validity],
    [utils.extract_final_scores] and [analysis.parse_game_context] (through
    [analysis.generate_game_contexts]).

    The regular expressions are written in a fragment of Python's [re]:
    literal text, [.], a captured [\d] and a captured greedy run of a
    character class.  In every pattern of the code a run is followed by a
    character outside its class (or ends the pattern), so Python's
    backtracking never revisits a run: the matcher [match_at] takes each
    run maximal and does not backtrack.  [re.search] tries every start
    position from the left; [re.findall] resumes after each match, with a
    fuel of one more than the length of the text, which is never
    exhausted since every pattern consumes at least one character.

    The theorems read a game's log back: the final scores of a finished
    game come back from [extract_final_scores] when they are not negative
    (and those of a competitive game that is not a tie never do), and the
    header comes back from [parse_game_context] under plural keys.  A run
    shows [check_agreement_validity] accepting a log with a single
    proposal equal to the counts. *)

From Stdlib Require Import String Ascii ZArith List Bool Lia.
From S2P Require Import Prelude PyDict PyStr Scoring Validator Player Game.
Import ListNotations.
Local Open Scope string_scope.
Local Open Scope py_scope.

(** ** Writing the header: [NegotiationGame.__init__] *)

Definition item_context : string :=
  "Item counts: there are {book_cnt} books, {hat_cnt} hats, and {ball_cnt} balls." ++ NL.

Definition value_context : string :=
  "Player {player_index} values: books are worth {book_val} points, hats are worth {hat_val} points, and balls are worth {ball_val} points." ++ NL.

(** [value_context.format(player_index=i, book_val=..., ...)] *)
Definition value_line (i : player) (vals : dict Z) : res string :=
  bv <- getitem vals "book" ;; hv <- getitem vals "hat" ;; lv <- getitem vals "ball" ;;
  py_format value_context [("player_index", player_str i); ("book_val", str_of_Z bv);
                           ("hat_val", str_of_Z hv); ("ball_val", str_of_Z lv)].

(** The four writes of [__init__], in order. *)
Definition init_log (self : NegotiationGame) : res string :=
  bc <- getitem (item_counts self) "book" ;;
  hc <- getitem (item_counts self) "hat" ;;
  lc <- getitem (item_counts self) "ball" ;;
  l1 <- py_format item_context [("book_cnt", str_of_Z bc); ("hat_cnt", str_of_Z hc);
                                ("ball_cnt", str_of_Z lc)] ;;
  l2 <- value_line P0 (fst (player_values self)) ;;
  l3 <- value_line P1 (snd (player_values self)) ;;
  Ok (l1 ++ l2 ++ l3 ++ NL ++ NL).

(** ** A fragment of [re] *)

(** A pattern is a list of tokens: literal text, [.] (any character but
    a newline), a captured [(\d)], and a captured greedy run [(c+)] of a
    character class [c]. *)
Inductive tok : Type :=
| Lit (s : string)
| AnyChar
| Digit
| Plus (cls : ascii -> bool).

Definition pattern : Type := list tok.

Definition is_nl (c : ascii) : bool := Ascii.eqb c (ascii_of_nat 10).

(** [\w] on the ASCII characters: letters, digits and the underscore. *)
Definition is_word (c : ascii) : bool :=
  let n := nat_of_ascii c in
  is_digit c || (Nat.leb 65 n && Nat.leb n 90) || (Nat.leb 97 n && Nat.leb n 122) ||
  Nat.eqb n 95.

(** [s] without the prefix [l], if [s] starts with [l] *)
Fixpoint strip_prefix (l s : string) : option string :=
  match l, s with
  | EmptyString, _ => Some s
  | String a l', String b s' => if Ascii.eqb a b then strip_prefix l' s' else None
  | String _ _, EmptyString => None
  end.

(** The longest prefix of [s] in the class, and the rest. *)
Fixpoint span (cls : ascii -> bool) (s : string) : string * string :=
  match s with
  | EmptyString => (EmptyString, EmptyString)
  | String c s' =>
      if cls c then let '(run, rest) := span cls s' in (String c run, rest)
      else (EmptyString, s)
  end.

(** One token at the start of [s]: its captured groups and the rest. *)
Definition match_tok (t : tok) (s : string) : option (list string * string) :=
  match t with
  | Lit l => option_map (fun r => ([], r)) (strip_prefix l s)
  | AnyChar =>
      match s with
      | String c s' => if is_nl c then None else Some ([], s')
      | EmptyString => None
      end
  | Digit =>
      match s with
      | String c s' => if is_digit c then Some ([String c EmptyString], s') else None
      | EmptyString => None
      end
  | Plus cls =>
      let '(run, rest) := span cls s in
      match run with
      | EmptyString => None
      | _ => Some ([run], rest)
      end
  end.

(** [re.match(p, s)]: the groups of a match at the start of [s], and the
    text after it. *)
Fixpoint match_at (p : pattern) (s : string) : option (list string * string) :=
  match p with
  | [] => Some ([], s)
  | t :: p' =>
      match match_tok t s with
      | Some (g, r) =>
          match match_at p' r with
          | Some (g', r') => Some ((g ++ g')%list, r')
          | None => None
          end
      | None => None
      end
  end.

(** [re.search(p, s).groups()]: the first start position with a match. *)
Fixpoint re_search (p : pattern) (s : string) : option (list string) :=
  match match_at p s with
  | Some (gs, _) => Some gs
  | None => match s with
            | EmptyString => None
            | String _ s' => re_search p s'
            end
  end.

(** [re.findall(p, s)]: the groups of each match, left to right, the
    scan resuming after each match (one character further after an
    empty one). *)
Fixpoint findall_fuel (fuel : nat) (p : pattern) (s : string) : list (list string) :=
  match fuel with
  | O => []
  | S f =>
      match match_at p s, s with
      | Some (gs, rest), String _ s' =>
          gs :: findall_fuel f p (if Nat.ltb (String.length rest) (String.length s) then rest else s')
      | Some (gs, _), EmptyString => [gs]
      | None, String _ s' => findall_fuel f p s'
      | None, EmptyString => []
      end
  end.

Definition re_findall (p : pattern) (s : string) : list (list string) :=
  findall_fuel (S (String.length s)) p s.

(** ** [utils.check_agreement_validity] *)

(** [r"Item counts: there are (\d+) books, (\d+) hats, and (\d+) balls."] *)
Definition ITEM_COUNTS_RE : pattern :=
  [Lit "Item counts: there are "; Plus is_digit; Lit " books, "; Plus is_digit;
   Lit " hats, and "; Plus is_digit; Lit " balls"; AnyChar].

(** [r"\[propose\] \((\d+) books, (\d+) hats, (\d+) balls\)"] *)
Definition PROPOSAL_RE : pattern :=
  [Lit "[propose] ("; Plus is_digit; Lit " books, "; Plus is_digit; Lit " hats, ";
   Plus is_digit; Lit " balls)"].

(** The function returns a dict [{"error": ...}] or a bool. *)
Inductive agreement_check : Type :=
| CheckError (msg : string)
| CheckResult (valid : bool).

(** [sum_books += int(proposal[0])], ... over the proposals found *)
Definition add_proposal (acc : Z * Z * Z) (proposal : list string) : res (Z * Z * Z) :=
  let '(sb, sh, sl) := acc in
  x <- py_index proposal 0 ;; b <- py_int x ;;
  y <- py_index proposal 1 ;; h <- py_int y ;;
  z <- py_index proposal 2 ;; l <- py_int z ;;
  Ok (sb + b, sh + h, sl + l)%Z.

Definition check_agreement_validity (game_text : string) : res agreement_check :=
  let item_counts := re_search ITEM_COUNTS_RE game_text in
  let proposals := re_findall PROPOSAL_RE game_text in
  match item_counts with
  | None => Ok (CheckError "Item counts not found in the provided text")
  | Some groups =>
      totals <- mapM py_int groups ;;
      match totals with
      | [total_books; total_hats; total_balls] =>
          '(sb, sh, sl) <- foldM add_proposal (0, 0, 0)%Z proposals ;;
          Ok (CheckResult ((sb =? total_books) && (sh =? total_hats) && (sl =? total_balls))%Z)
      | _ => Raise ValueError
      end
  end.

(** ** [utils.extract_final_scores] *)

(** [r"Player (\d) FINAL SCORE: (\d+)"] *)
Definition FINAL_SCORE_RE : pattern :=
  [Lit "Player "; Digit; Lit " FINAL SCORE: "; Plus is_digit].

(** A dict with [int] keys, in insertion order. *)
Fixpoint zset (d : list (Z * Z)) (k v : Z) : list (Z * Z) :=
  match d with
  | [] => [(k, v)]
  | (k', v') :: d' => if (k =? k')%Z then (k', v) :: d' else (k', v') :: zset d' k v
  end.

Fixpoint zget (d : list (Z * Z)) (k : Z) : res Z :=
  match d with
  | [] => Raise (KeyError (str_of_Z k))
  | (k', v) :: d' => if (k =? k')%Z then Ok v else zget d' k
  end.

(** One element of [{int(player): int(score) for player, score in scores}] *)
Definition score_entry (d : list (Z * Z)) (m : list string) : res (list (Z * Z)) :=
  match m with
  | [player; score] => p <- py_int player ;; s <- py_int score ;; Ok (zset d p s)
  | _ => Raise ValueError
  end.

Definition extract_final_scores (game_text : string) : res (Z * Z) :=
  let scores := re_findall FINAL_SCORE_RE game_text in
  score_dict <- foldM score_entry [] scores ;;
  s0 <- zget score_dict 0 ;;
  s1 <- zget score_dict 1 ;;
  Ok (s0, s1).

(** ** [analysis.parse_game_context] and [analysis.generate_game_contexts] *)

(** [[\d\s\w,]] and [[\w\s,]] *)
Definition counts_cls (c : ascii) : bool :=
  is_digit c || is_space c || is_word c || Ascii.eqb c ",".
Definition values_cls (c : ascii) : bool := is_word c || is_space c || Ascii.eqb c ",".

(** [r"Item counts: there are ([\d\s\w,]+)\."] *)
Definition COUNTS_TEXT_RE : pattern := [Lit "Item counts: there are "; Plus counts_cls; Lit "."].

(** [r"Player 0 values: ([\w\s,]+)\."] and its player-1 twin *)
Definition VALUES_TEXT_RE (i : string) : pattern :=
  [Lit ("Player " ++ i ++ " values: "); Plus values_cls; Lit "."].

(** [r"(\d+) (\w+)"] and [r"(\w+) are worth (\d+)"] *)
Definition COUNT_ITEM_RE : pattern := [Plus is_digit; Lit " "; Plus is_word].
Definition WORTH_RE : pattern := [Plus is_word; Lit " are worth "; Plus is_digit].

(** The dict [parse_game_context] returns: each key is present only when
    its pattern was found. *)
Record game_context : Type := mkContext {
  ctx_counts : option (dict Z);
  ctx_p0_values : option (dict Z);
  ctx_p1_values : option (dict Z)
}.

(** [{item: int(count) for count, item in counts}] *)
Definition counts_dict (pairs : list (list string)) : res (dict Z) :=
  foldM (fun d m => match m with
                    | [count; item] => c <- py_int count ;; Ok (setitem d item c)
                    | _ => Raise ValueError
                    end) [] pairs.

(** [dict(pairs)], then [{item: int(value) for item, value in d.items()}] *)
Definition values_dict (pairs : list (list string)) : res (dict Z) :=
  d <- foldM (fun d m => match m with
                         | [item; value] => Ok (setitem d item value)
                         | _ => Raise ValueError
                         end) [] pairs ;;
  mapM (fun '(item, value) => v <- py_int value ;; Ok (item, v)) d.

(** One [if pi_values_match:] block of [parse_game_context]. *)
Definition values_of (i : string) (text : string) : res (option (dict Z)) :=
  match re_search (VALUES_TEXT_RE i) text with
  | Some [values_text] => res_map Some (values_dict (re_findall WORTH_RE values_text))
  | Some _ => Raise IndexError
  | None => Ok None
  end.

Definition parse_game_context (text : string) : res game_context :=
  counts <- match re_search COUNTS_TEXT_RE text with
            | Some [counts_text] => res_map Some (counts_dict (re_findall COUNT_ITEM_RE counts_text))
            | Some _ => Raise IndexError
            | None => Ok None
            end ;;
  p0 <- values_of "0" text ;;
  p1 <- values_of "1" text ;;
  Ok (mkContext counts p0 p1).

(** The first line of a file, with its newline, and the rest. *)
Fixpoint take_line (s : string) : string * string :=
  match s with
  | EmptyString => (EmptyString, EmptyString)
  | String c s' =>
      if is_nl c then (String c EmptyString, s')
      else let '(l, r) := take_line s' in (String c l, r)
  end.

(** [[next(text_log) for _ in range(n)]] joined: [StopIteration] when the
    file has fewer than [n] lines. *)
Fixpoint first_lines (n : nat) (s : string) : res string :=
  match n with
  | O => Ok EmptyString
  | S k =>
      match s with
      | EmptyString => Raise StopIteration
      | _ => let '(l, r) := take_line s in res_map (fun t => l ++ t) (first_lines k r)
      end
  end.

(** The loop over [os.listdir(text_logs)]: each full log's first three
    lines are parsed and written to [contexts/<filename[:3]>.json]. *)
Definition generate_game_contexts (text_logs : dict string) : res (dict game_context) :=
  foldM (fun contexts '(filename, text) =>
           if endswith "full.txt" filename then
             context_str <- first_lines 3 text ;;
             context_json <- parse_game_context context_str ;;
             Ok (setitem contexts (slice_to 3 filename ++ ".json") context_json)
           else Ok contexts) [] text_logs.

(** ** Concrete logs *)

(** The file a game writes: the header of [__init__], then what
    [play_game] appends. *)
Definition game_file (self : NegotiationGame) {A : Type} `{Agent A} (ags : A * A) (turn : player)
    : res string :=
  hdr <- init_log self ;;
  '(_, _, _, log) <- play_game self ags turn SYSTEM_TEXT char_tokens ;;
  Ok (hdr ++ log).

(** The specification's scenario under the competitive objective. *)
Definition comp_game : NegotiationGame :=
  mkGame DEFAULT_COUNTS (DEFAULT_P1_VALUES, DEFAULT_P2_VALUES) (None, None)
         (None, None) false false "comp" "prompts/comp_dond.txt".

(** Player 0 claims every item; player 1 never answers in the format, so
    it aborts instead of proposing. *)
Definition greedy_player : LLMPlayer :=
  mkLLMPlayer [] [] true
    (scripted ["[message] I would like everything."; "[propose] (1 books, 2 hats, 3 balls)"]) 0 [].
Definition stalling_player : LLMPlayer :=
  mkLLMPlayer [] [] true (scripted ["[message] Let me think."]) 0 [].

(** The header and the game of the specification's scenario. *)
Definition init_log_text : string :=
  match init_log fresh_game with Ok h => h | Raise _ => "" end.
Definition spec_play_log : string :=
  match play_game fresh_game (spec_player0, spec_player1) P0 SYSTEM_TEXT char_tokens with
  | Ok (_, _, _, log) => log
  | Raise _ => ""
  end.

(** ** Specification helpers *)

(** A token that never matches a newline. *)
Definition nl_free_tok (t : tok) : bool :=
  match t with
  | Lit l => all_chars (fun c => negb (is_nl c)) l
  | AnyChar | Digit => true
  | Plus cls => negb (cls (ascii_of_nat 10))
  end.

Definition nl_free (p : pattern) : bool := forallb nl_free_tok p.

(** A text that ends with a newline. *)
Definition nl_ended (s : string) : Prop := exists x, s = x ++ NL.

(** A match in [s], seen in [s ++ y]. *)
Definition shift (y : string) (m : list string * string) : list string * string :=
  (fst m, snd m ++ y).

(** The end of a greedy run of [cls]: the text is empty or starts with
    a character outside the class. *)
Definition stops (cls : ascii -> bool) (y : string) : bool :=
  match y with String c _ => negb (cls c) | EmptyString => true end.

(** No match of [p] starts inside [x] when [y] follows it. *)
Fixpoint misses (p : pattern) (x y : string) : Prop :=
  match x with
  | EmptyString => True
  | String c x' => match_at p (String c (x' ++ y)) = None /\ misses p x' y
  end.

(** The text of the three header lines, for counts and values written in
    decimal. *)
Definition counts_text (b h l : string) : string :=
  b ++ " books, " ++ h ++ " hats, and " ++ l ++ " balls".
Definition values_text (x y z : string) : string :=
  "books are worth " ++ x ++ " points, hats are worth " ++ y ++
  " points, and balls are worth " ++ z ++ " points".
Definition count_line (b h l : Z) : string :=
  "Item counts: there are " ++ counts_text (str_of_Z b) (str_of_Z h) (str_of_Z l) ++ ".".
Definition values_line (i : string) (x y z : Z) : string :=
  ("Player " ++ i ++ " values: ") ++ values_text (str_of_Z x) (str_of_Z y) (str_of_Z z) ++ ".".

(** A dict keyed by the plural words of the log text. *)
Definition plural_items (b h l : Z) : dict Z := [("books", b); ("hats", h); ("balls", l)].

(** ** Lemmas *)

(** *** Texts ending with a newline *)

Lemma nl_ended_app x s : nl_ended s -> nl_ended (x ++ s).
Proof. intros [z ->]; exists (x ++ z); now rewrite str_app_assoc. Qed.

Lemma nl_ended_cons c s :
  nl_ended (String c s) -> (c = ascii_of_nat 10 /\ s = "") \/ nl_ended s.
Proof.
  intros [[|c' x] Hx]; cbn in Hx; injection Hx as -> ->; [left; split; reflexivity|].
  right; exists x; reflexivity.
Qed.

Lemma nl_ended_not_nil : ~ nl_ended "".
Proof. intros [[|c x] Hx]; discriminate. Qed.

(** *** The matcher at a newline *)

Lemma strip_prefix_nl l s y :
  all_chars (fun c => negb (is_nl c)) l = true -> nl_ended s ->
  strip_prefix l (s ++ y) = option_map (fun r => r ++ y) (strip_prefix l s) /\
  (forall r, strip_prefix l s = Some r -> nl_ended r).
Proof.
  revert s; induction l as [|a l IH]; intros s Hl Hs.
  - split; [reflexivity|intros r [= <-]; exact Hs].
  - destruct s as [|c s]; [now apply nl_ended_not_nil in Hs|].
    cbn [all_chars] in Hl; apply andb_true_iff in Hl as [Ha Hl].
    cbn [strip_prefix String.append]; destruct (Ascii.eqb_spec a c) as [<-|_];
      [|split; [reflexivity|discriminate]].
    destruct (nl_ended_cons _ _ Hs) as [[-> ->]|Hs']; [discriminate|exact (IH s Hl Hs')].
Qed.

Lemma span_nl cls s y :
  cls (ascii_of_nat 10) = false -> nl_ended s ->
  span cls (s ++ y) = (fst (span cls s), snd (span cls s) ++ y) /\ nl_ended (snd (span cls s)).
Proof.
  intros Hn; induction s as [|c s IH]; intros Hs; [now apply nl_ended_not_nil in Hs|].
  cbn [span String.append].
  destruct (nl_ended_cons _ _ Hs) as [[-> ->]|Hs'].
  - rewrite Hn; split; [reflexivity|exact Hs].
  - destruct (cls c); [|split; [reflexivity|exact Hs]].
    destruct (IH Hs') as [-> Hr]; destruct (span cls s) as [run rest]; split; [reflexivity|exact Hr].
Qed.

Lemma match_tok_nl t s y :
  nl_free_tok t = true -> nl_ended s ->
  match_tok t (s ++ y) = option_map (shift y) (match_tok t s) /\
  (forall g r, match_tok t s = Some (g, r) -> nl_ended r).
Proof.
  intros Ht Hs; destruct t as [l| | |cls]; cbn [nl_free_tok] in Ht.
  - destruct (strip_prefix_nl l s y Ht Hs) as [E Hr]; cbn [match_tok]; rewrite E.
    destruct (strip_prefix l s); split; [reflexivity| |reflexivity|discriminate].
    intros g r [= _ <-]; now apply Hr.
  - destruct s as [|c s]; [now apply nl_ended_not_nil in Hs|cbn [match_tok String.append]].
    destruct (nl_ended_cons _ _ Hs) as [[-> ->]|Hs']; [split; [reflexivity|discriminate]|].
    destruct (is_nl c); split; try reflexivity; try discriminate; now intros g r [= _ <-].
  - destruct s as [|c s]; [now apply nl_ended_not_nil in Hs|cbn [match_tok String.append]].
    destruct (nl_ended_cons _ _ Hs) as [[-> ->]|Hs']; [split; [reflexivity|discriminate]|].
    destruct (is_digit c); split; try reflexivity; try discriminate; now intros g r [= _ <-].
  - apply negb_true_iff in Ht; destruct (span_nl cls s y Ht Hs) as [E Hr]; cbn [match_tok].
    rewrite E; destruct (span cls s) as [run rest]; cbn [fst snd] in *.
    destruct run; split; try reflexivity; try discriminate; now intros g r [= _ <-].
Qed.

Lemma match_at_nl p s y :
  nl_free p = true -> nl_ended s ->
  match_at p (s ++ y) = option_map (shift y) (match_at p s) /\
  (forall g r, match_at p s = Some (g, r) -> nl_ended r).
Proof.
  revert s; induction p as [|t p IH]; intros s Hp Hs.
  - split; [reflexivity|intros g r [= _ <-]; exact Hs].
  - cbn [nl_free forallb] in Hp; apply andb_true_iff in Hp as [Ht Hp].
    destruct (match_tok_nl t s y Ht Hs) as [E Hr]; cbn [match_at]; rewrite E.
    destruct (match_tok t s) as [[g r]|]; cbn [option_map shift fst snd];
      [|split; [reflexivity|discriminate]].
    destruct (IH r Hp (Hr g r eq_refl)) as [E' Hr']; rewrite E'.
    destruct (match_at p r) as [[g' r']|]; split; try reflexivity; try discriminate.
    intros g0 r0 [= _ <-]; exact (Hr' g' r' eq_refl).
Qed.

(** *** The scan of [re.findall] *)

Lemma findall_fuel_indep p f1 f2 s :
  String.length s < f1 -> String.length s < f2 -> findall_fuel f1 p s = findall_fuel f2 p s.
Proof.
  revert f2 s; induction f1 as [|f1 IH]; intros [|f2] s H1 H2; try lia.
  cbn [findall_fuel]; destruct (match_at p s) as [[gs rest]|], s as [|c s]; try reflexivity.
  - cbn [String.length] in *; f_equal; apply IH;
      destruct (Nat.ltb_spec (String.length rest) (S (String.length s))); lia.
  - cbn [String.length] in *; apply IH; lia.
Qed.

Lemma findall_fuel_enough p f s : String.length s < f -> findall_fuel f p s = re_findall p s.
Proof. intros H; apply findall_fuel_indep; [exact H|lia]. Qed.

Lemma findall_hit p s g r :
  match_at p s = Some (g, r) -> String.length r < String.length s ->
  re_findall p s = g :: re_findall p r.
Proof.
  intros E Hl; unfold re_findall at 1; destruct s as [|c s]; cbn in Hl; [lia|].
  cbn [findall_fuel]; rewrite E; cbn [String.length].
  destruct (Nat.ltb_spec (String.length r) (S (String.length s))); [|lia].
  f_equal; apply findall_fuel_enough; lia.
Qed.

Lemma findall_empty p c s g r :
  match_at p (String c s) = Some (g, r) -> ~ String.length r < String.length (String c s) ->
  re_findall p (String c s) = g :: re_findall p s.
Proof.
  intros E Hl; unfold re_findall at 1; cbn [findall_fuel]; rewrite E.
  destruct (Nat.ltb_spec (String.length r) (String.length (String c s))); [contradiction|].
  f_equal; apply findall_fuel_enough; cbn; lia.
Qed.

Lemma findall_miss p c s :
  match_at p (String c s) = None -> re_findall p (String c s) = re_findall p s.
Proof.
  intros E; unfold re_findall at 1; cbn [findall_fuel]; rewrite E.
  apply findall_fuel_enough; cbn; lia.
Qed.

Lemma findall_nil p : match_at p "" = None -> re_findall p "" = [].
Proof. intros E; unfold re_findall; cbn [findall_fuel]; now rewrite E. Qed.

(** The scan of a text ending with a newline and of what follows are
    independent: no match of a pattern that never reads a newline
    straddles it. *)
Lemma findall_frame p s y :
  nl_free p = true -> match_at p "" = None -> nl_ended s ->
  re_findall p (s ++ y) = (re_findall p s ++ re_findall p y)%list.
Proof.
  intros Hp H0; remember (String.length s) as n eqn:Hn.
  revert s Hn; induction n as [n IH] using lt_wf_ind; intros s Hn Hs.
  destruct s as [|c s']; [now apply nl_ended_not_nil in Hs|].
  (* what is left after the first character *)
  assert (Hrest : re_findall p (s' ++ y) = (re_findall p s' ++ re_findall p y)%list).
  { destruct (nl_ended_cons _ _ Hs) as [[_ ->]|Hs'];
      [now rewrite findall_nil|apply (IH (String.length s')); auto; cbn in Hn; lia]. }
  destruct (match_at_nl p (String c s') y Hp Hs) as [E Hr].
  destruct (match_at p (String c s')) as [[g r]|] eqn:Em.
  - destruct (Nat.ltb_spec (String.length r) (String.length (String c s'))) as [Hlt|Hge].
    + rewrite (findall_hit _ _ _ _ Em Hlt).
      rewrite (findall_hit _ (String c s' ++ y) g (r ++ y) E)
        by (rewrite !str_length_app; lia).
      rewrite (IH (String.length r)); [reflexivity|subst n; lia|reflexivity|exact (Hr g r eq_refl)].
    + rewrite (findall_empty _ _ _ _ _ Em) by lia.
      change (String c s' ++ y) with (String c (s' ++ y)) in E |- *.
      rewrite (findall_empty _ _ _ g (r ++ y) E)
        by (cbn [String.length] in *; rewrite !str_length_app; lia).
      now rewrite Hrest.
  - change (String c s' ++ y) with (String c (s' ++ y)) in E |- *.
    rewrite (findall_miss _ _ _ E), (findall_miss _ _ _ Em); exact Hrest.
Qed.

Lemma findall_fuel_In p f s m :
  In m (findall_fuel f p s) -> exists t r, match_at p t = Some (m, r).
Proof.
  revert s; induction f as [|f IH]; intros s H; cbn [findall_fuel] in H; [contradiction|].
  destruct (match_at p s) as [[gs rest]|] eqn:E, s as [|c s]; try contradiction;
    try (destruct H as [<-|H]; [now eauto|]); first [exact (IH _ H)|contradiction].
Qed.

Lemma findall_In p s m : In m (re_findall p s) -> exists t r, match_at p t = Some (m, r).
Proof. apply findall_fuel_In. Qed.

(** *** Matching tokens *)

Lemma strip_prefix_app l s : strip_prefix l (l ++ s) = Some s.
Proof. induction l as [|a l IH]; cbn; [reflexivity|now rewrite Ascii.eqb_refl]. Qed.

Lemma span_stop cls x c s :
  all_chars cls x = true -> cls c = false -> span cls (x ++ String c s) = (x, String c s).
Proof.
  induction x as [|a x IH]; intros Hx Hc; cbn [String.append span].
  - now rewrite Hc.
  - cbn [all_chars] in Hx; apply andb_true_iff in Hx as [Ha Hx].
    now rewrite Ha, IH.
Qed.

Lemma span_spec cls s : all_chars cls (fst (span cls s)) = true /\ s = fst (span cls s) ++ snd (span cls s).
Proof.
  induction s as [|c s IH]; cbn [span]; [split; reflexivity|].
  destruct (cls c) eqn:Ec; [|split; reflexivity].
  destruct (span cls s) as [run rest]; cbn [fst snd all_chars String.append] in *.
  rewrite Ec; destruct IH as [-> <-]; split; reflexivity.
Qed.

Lemma match_at_lit l p s : match_at (Lit l :: p) (l ++ s) = match_at p s.
Proof.
  cbn [match_at match_tok]; rewrite strip_prefix_app; cbn [option_map].
  destruct (match_at p s) as [[g r]|]; reflexivity.
Qed.

Lemma match_at_plus cls p x c s :
  all_chars cls x = true -> x <> "" -> cls c = false ->
  match_at (Plus cls :: p) (x ++ String c s) =
  option_map (fun m => (x :: fst m, snd m)) (match_at p (String c s)).
Proof.
  intros Hx Hne Hc; cbn [match_at match_tok]; rewrite (span_stop _ _ _ _ Hx Hc).
  destruct x as [|a x]; [contradiction|].
  destruct (match_at p (String c s)) as [[g r]|]; reflexivity.
Qed.

Lemma match_at_digit p d s :
  is_digit d = true ->
  match_at (Digit :: p) (String d s) =
  option_map (fun m => (String d "" :: fst m, snd m)) (match_at p s).
Proof.
  intros Hd; cbn [match_at match_tok]; rewrite Hd.
  destruct (match_at p s) as [[g r]|]; reflexivity.
Qed.

(** *** Dicts with [int] keys *)

Lemma zget_zset_eq d k v : zget (zset d k v) k = Ok v.
Proof.
  induction d as [|[k' v'] d IH]; cbn [zset zget]; [now rewrite Z.eqb_refl|].
  destruct (Z.eqb_spec k k') as [<-|Hne]; cbn [zget]; [now rewrite Z.eqb_refl|].
  rewrite (proj2 (Z.eqb_neq k k') Hne); exact IH.
Qed.

Lemma zget_zset_ne d k k' v : k <> k' -> zget (zset d k v) k' = zget d k'.
Proof.
  intros Hne; induction d as [|[k0 v0] d IH]; cbn [zset zget].
  - now rewrite (proj2 (Z.eqb_neq k' k)) by congruence.
  - destruct (Z.eqb_spec k k0) as [->|_]; cbn [zget]; [|now rewrite IH].
    now rewrite (proj2 (Z.eqb_neq k' k0)) by congruence.
Qed.

(** Every value of the dict is non-negative. *)
Lemma zset_nonneg d k v :
  Forall (fun kv => 0 <= snd kv)%Z d -> (0 <= v)%Z -> Forall (fun kv => 0 <= snd kv)%Z (zset d k v).
Proof.
  induction 1 as [|[k' v'] d Hkv Hd IH]; intros Hv; cbn [zset]; [now repeat constructor|].
  destruct (k =? k')%Z; constructor; auto.
Qed.

Lemma zget_nonneg d k v : Forall (fun kv => 0 <= snd kv)%Z d -> zget d k = Ok v -> (0 <= v)%Z.
Proof.
  induction 1 as [|[k' v'] d Hkv Hd IH]; cbn [zget]; [discriminate|].
  destruct (k =? k')%Z; [intros [= <-]; exact Hkv|exact IH].
Qed.

(** *** The score lines *)

Lemma final_groups t m r :
  match_at FINAL_SCORE_RE t = Some (m, r) ->
  exists d ds, m = [String d ""; ds] /\ is_digit d = true /\
               all_chars is_digit ds = true /\ ds <> "".
Proof.
  unfold FINAL_SCORE_RE; cbn [match_at match_tok].
  destruct (strip_prefix _ t) as [t1|]; cbn [option_map]; [|discriminate].
  destruct t1 as [|d t1]; [discriminate|].
  destruct (is_digit d) eqn:Hd; [|discriminate].
  destruct (strip_prefix _ t1) as [t2|]; cbn [option_map]; [|discriminate].
  pose proof (span_spec is_digit t2) as [Hs _].
  destruct (span is_digit t2) as [run rest]; cbn [fst] in Hs.
  destruct run as [|a run]; [discriminate|].
  intros [= <- _]; exists d, (String a run); repeat split; auto; discriminate.
Qed.

Lemma int_of_digits_nonneg ds : all_chars is_digit ds = true -> (0 <= int_of_digits ds)%Z.
Proof.
  intros H; rewrite all_chars_forallb in H.
  exact (proj1 (digits_value_bound _ H)).
Qed.

(** Each match of the score pattern is an entry of the dict. *)
Lemma score_entry_match d m t r :
  match_at FINAL_SCORE_RE t = Some (m, r) ->
  exists p s, score_entry d m = Ok (zset d p s) /\ (0 <= s)%Z.
Proof.
  intros E; destruct (final_groups _ _ _ E) as (c & ds & -> & Hc & Hds & Hne).
  exists (int_of_digits (String c "")), (int_of_digits ds); cbn [score_entry].
  rewrite (py_int_digits (String c ""))
    by first [discriminate|cbn [all_chars]; rewrite Hc; reflexivity].
  rewrite (py_int_digits ds) by assumption.
  split; [reflexivity|exact (int_of_digits_nonneg _ Hds)].
Qed.

Lemma score_dict_nonneg d l d' :
  Forall (fun kv => 0 <= snd kv)%Z d ->
  (forall m, In m l -> exists t r, match_at FINAL_SCORE_RE t = Some (m, r)) ->
  foldM score_entry d l = Ok d' -> Forall (fun kv => 0 <= snd kv)%Z d'.
Proof.
  intros Hd Hl; apply foldM_inv; [exact Hd|].
  intros x m z Hx Hm Hz; destruct (Hl m Hm) as (t & r & E).
  destruct (score_entry_match x _ _ _ E) as (p & s & Hs & Hnn).
  rewrite Hs in Hz; injection Hz as <-; exact (zset_nonneg _ _ _ Hx Hnn).
Qed.

Lemma score_dict_total d l :
  (forall m, In m l -> exists t r, match_at FINAL_SCORE_RE t = Some (m, r)) ->
  exists d', foldM score_entry d l = Ok d'.
Proof.
  intros Hl; destruct (foldM_total (fun _ => True) score_entry d l I) as (d' & E & _); [|eauto].
  intros x m _ Hm; destruct (Hl m Hm) as (t & r & E).
  destruct (score_entry_match x _ _ _ E) as (p & s & Hs & _); eauto.
Qed.

Lemma final_score_line_ended i x : nl_ended (final_score_line i x).
Proof.
  exists ("Player " ++ player_str i ++ " FINAL SCORE: " ++ py_str_opt x ++ " ").
  unfold final_score_line; now rewrite !str_app_assoc.
Qed.

Lemma findall_final_line i s :
  (0 <= s)%Z ->
  re_findall FINAL_SCORE_RE (final_score_line i (Some s)) = [[player_str i; str_of_Z s]].
Proof.
  intros Hs; destruct (str_of_Z_digits s Hs) as [Hd Hne].
  assert (E : match_at FINAL_SCORE_RE (final_score_line i (Some s)) =
              Some ([player_str i; str_of_Z s], String " " NL)).
  { unfold final_score_line, py_str_opt, FINAL_SCORE_RE; rewrite match_at_lit.
    destruct i; cbn [player_str];
      [change ("0" ++ ?x) with (String "0" x)|change ("1" ++ ?x) with (String "1" x)];
      rewrite match_at_digit by reflexivity;
      rewrite match_at_lit; change (" " ++ NL) with (String " " NL);
      rewrite match_at_plus by (assumption || reflexivity); reflexivity. }
  rewrite (findall_hit _ _ _ _ E); [reflexivity|].
  unfold final_score_line; rewrite !str_length_app; cbn; lia.
Qed.

Lemma findall_final_lines s0 s1 :
  (0 <= s0)%Z -> (0 <= s1)%Z ->
  re_findall FINAL_SCORE_RE (final_score_line P0 (Some s0) ++ final_score_line P1 (Some s1)) =
  [["0"; str_of_Z s0]; ["1"; str_of_Z s1]].
Proof.
  intros H0 H1; rewrite findall_frame by (reflexivity || apply final_score_line_ended).
  now rewrite !findall_final_line.
Qed.

(** *** The log's shape *)

Lemma log_line_ended turn r : nl_ended (log_line turn r).
Proof.
  exists ("Player " ++ player_str turn ++ ": " ++ r); unfold log_line; now rewrite !str_app_assoc.
Qed.

Lemma log_lines_ended turn raws : log_lines turn raws = "" \/ nl_ended (log_lines turn raws).
Proof.
  revert turn; induction raws as [|r raws IH]; intros turn; [now left|right; cbn [log_lines]].
  destruct (IH (other turn)) as [->|He];
    [rewrite str_app_nil_r; apply log_line_ended|now apply nl_ended_app].
Qed.

Lemma init_log_ended self hdr : init_log self = Ok hdr -> nl_ended hdr.
Proof.
  unfold init_log; intros H.
  repeat (apply bind_eq_Ok in H; destruct H as (? & _ & H)).
  injection H as <-; do 3 apply nl_ended_app; exists NL; reflexivity.
Qed.

(** The two score lines after any text that ends a line are read back. *)
Lemma extract_final_lines pre s0 s1 :
  (pre = "" \/ nl_ended pre) -> (0 <= s0)%Z -> (0 <= s1)%Z ->
  extract_final_scores (pre ++ final_score_line P0 (Some s0) ++ final_score_line P1 (Some s1)) =
  Ok (s0, s1).
Proof.
  intros Hpre H0 H1; unfold extract_final_scores.
  assert (Hf : re_findall FINAL_SCORE_RE
                 (pre ++ final_score_line P0 (Some s0) ++ final_score_line P1 (Some s1)) =
               (re_findall FINAL_SCORE_RE pre ++ [["0"; str_of_Z s0]; ["1"; str_of_Z s1]])%list).
  { destruct Hpre as [->|He].
    - rewrite (findall_nil FINAL_SCORE_RE eq_refl); exact (findall_final_lines _ _ H0 H1).
    - rewrite findall_frame by (reflexivity || exact He); now rewrite findall_final_lines. }
  rewrite Hf, foldM_app.
  destruct (score_dict_total [] (re_findall FINAL_SCORE_RE pre)) as (d & Ed);
    [intros m Hm; exact (findall_In _ _ _ Hm)|].
  rewrite Ed; cbn [bind foldM score_entry].
  change (py_int "0") with (@Ok Z 0%Z); change (py_int "1") with (@Ok Z 1%Z).
  rewrite !py_int_str_of_Z; cbn [bind].
  rewrite zget_zset_ne, !zget_zset_eq by discriminate; reflexivity.
Qed.

(** *** Reading the header back *)

Lemma digit_classes c :
  is_digit c = true ->
  is_word c = true /\ counts_cls c = true /\ values_cls c = true /\
  negb (Ascii.eqb c "P") = true /\ negb (is_nl c) = true.
Proof.
  intros Hd; unfold counts_cls, values_cls, is_word, is_nl; rewrite Hd; cbn [orb].
  split; [reflexivity|split; [reflexivity|split; [reflexivity|split]]].
  - destruct (Ascii.eqb_spec c "P") as [->|_]; [discriminate Hd|reflexivity].
  - destruct (Ascii.eqb_spec c (ascii_of_nat 10)) as [->|_]; [discriminate Hd|reflexivity].
Qed.

(** The decimal text of a non-negative number, in every class the
    header's patterns use. *)
Lemma str_of_Z_classes n :
  (0 <= n)%Z ->
  all_chars is_digit (str_of_Z n) = true /\ str_of_Z n <> "" /\
  all_chars is_word (str_of_Z n) = true /\ all_chars counts_cls (str_of_Z n) = true /\
  all_chars values_cls (str_of_Z n) = true /\
  all_chars (fun a => negb (Ascii.eqb a "P")) (str_of_Z n) = true /\
  all_chars (fun a => negb (is_nl a)) (str_of_Z n) = true.
Proof.
  intros Hn; destruct (str_of_Z_digits n Hn) as [Hd Hne].
  split; [exact Hd|split; [exact Hne|]].
  repeat split; refine (all_chars_impl _ _ _ _ Hd); intros c Hc;
    destruct (digit_classes c Hc) as (? & ? & ? & ? & ?); assumption.
Qed.

Ltac digit_facts :=
  repeat match goal with
  | H : (0 <= ?x)%Z |- _ =>
      destruct (str_of_Z_classes x H) as (? & ? & ? & ? & ? & ? & ?); clear H
  end.

Ltac chars_tac :=
  rewrite ?all_chars_app, ?andb_true_iff;
  repeat match goal with |- _ /\ _ => split end; first [assumption|reflexivity].

Ltac misses_tac := cbn [misses]; repeat (split; [reflexivity|]); exact I.

Lemma span_app cls x y : all_chars cls x = true -> stops cls y = true -> span cls (x ++ y) = (x, y).
Proof.
  intros Hx Hy; destruct y as [|c y].
  - induction x as [|a x IH]; [reflexivity|].
    cbn [all_chars] in Hx; apply andb_true_iff in Hx as [Ha Hx].
    cbn [String.append span]; rewrite Ha, (IH Hx); reflexivity.
  - apply span_stop; [exact Hx|]; cbn [stops] in Hy; now destruct (cls c).
Qed.

Lemma match_at_plus_app cls p x y :
  all_chars cls x = true -> x <> "" -> stops cls y = true ->
  match_at (Plus cls :: p) (x ++ y) = option_map (fun m => (x :: fst m, snd m)) (match_at p y).
Proof.
  intros Hx Hne Hy; cbn [match_at match_tok]; rewrite (span_app _ _ _ Hx Hy).
  destruct x as [|a x]; [contradiction|].
  destruct (match_at p y) as [[g r]|]; reflexivity.
Qed.

Lemma re_search_hit p s g r : match_at p s = Some (g, r) -> re_search p s = Some g.
Proof. intros E; destruct s; cbn [re_search]; rewrite E; reflexivity. Qed.

Lemma re_search_misses p x y : misses p x y -> re_search p (x ++ y) = re_search p y.
Proof.
  induction x as [|c x IH]; [reflexivity|]; cbn [misses String.append re_search].
  intros [E H]; rewrite E; exact (IH H).
Qed.

Lemma findall_misses p x y : misses p x y -> re_findall p (x ++ y) = re_findall p y.
Proof.
  induction x as [|c x IH]; [reflexivity|]; cbn [misses String.append].
  intros [E H]; rewrite (findall_miss _ _ _ E); exact (IH H).
Qed.

Lemma misses_app p x1 x2 y : misses p x1 (x2 ++ y) -> misses p x2 y -> misses p (x1 ++ x2) y.
Proof.
  induction x1 as [|c x1 IH]; [intros _ H; exact H|]; cbn [misses String.append].
  intros [E H1] H2; rewrite str_app_assoc; split; [exact E|exact (IH H1 H2)].
Qed.

(** A literal that starts with [c] matches nowhere in a text without [c]. *)
Lemma misses_lit c l p x y :
  all_chars (fun a => negb (Ascii.eqb a c)) x = true -> misses (Lit (String c l) :: p) x y.
Proof.
  induction x as [|a x IH]; [intros _; exact I|]; cbn [all_chars misses].
  rewrite andb_true_iff; intros [Ha Hx]; split; [|exact (IH Hx)].
  cbn [match_at match_tok strip_prefix]; rewrite Ascii.eqb_sym.
  destruct (Ascii.eqb a c); [discriminate Ha|reflexivity].
Qed.

Lemma misses_values i x y :
  all_chars (fun a => negb (Ascii.eqb a "P")) x = true -> misses (VALUES_TEXT_RE i) x y.
Proof. exact (misses_lit "P" ("layer " ++ i ++ " values: ") [Plus values_cls; Lit "."] x y). Qed.

Lemma findall_count_item D W y :
  all_chars is_digit D = true -> D <> "" -> all_chars is_word W = true -> W <> "" ->
  stops is_word y = true ->
  re_findall COUNT_ITEM_RE (D ++ " " ++ W ++ y) = [D; W] :: re_findall COUNT_ITEM_RE y.
Proof.
  intros Hd HD Hw HW Hy; apply findall_hit.
  - unfold COUNT_ITEM_RE; rewrite match_at_plus_app by (assumption || reflexivity).
    rewrite match_at_lit, match_at_plus_app by assumption; reflexivity.
  - rewrite !str_length_app; destruct D; [contradiction|cbn [String.length]; lia].
Qed.

Lemma findall_worth W D y :
  all_chars is_word W = true -> W <> "" -> all_chars is_digit D = true -> D <> "" ->
  stops is_digit y = true ->
  re_findall WORTH_RE (W ++ " are worth " ++ D ++ y) = [W; D] :: re_findall WORTH_RE y.
Proof.
  intros Hw HW Hd HD Hy; apply findall_hit.
  - unfold WORTH_RE; rewrite match_at_plus_app by (assumption || reflexivity).
    rewrite match_at_lit, match_at_plus_app by assumption; reflexivity.
  - rewrite !str_length_app; destruct W; [contradiction|cbn [String.length]; lia].
Qed.

Lemma findall_counts_text B H L :
  all_chars is_digit B = true -> B <> "" -> all_chars is_digit H = true -> H <> "" ->
  all_chars is_digit L = true -> L <> "" ->
  re_findall COUNT_ITEM_RE (counts_text B H L) = [[B; "books"]; [H; "hats"]; [L; "balls"]].
Proof.
  intros; unfold counts_text.
  change (B ++ " books, " ++ H ++ " hats, and " ++ L ++ " balls") with
    (B ++ " " ++ "books" ++ ", " ++ H ++ " " ++ "hats" ++ ", and " ++ L ++ " " ++ "balls" ++ "").
  rewrite findall_count_item by (assumption || reflexivity || discriminate).
  rewrite findall_misses by misses_tac.
  rewrite findall_count_item by (assumption || reflexivity || discriminate).
  rewrite findall_misses by misses_tac.
  rewrite findall_count_item by (assumption || reflexivity || discriminate).
  rewrite findall_nil by reflexivity; reflexivity.
Qed.

Lemma findall_values_text X Y Z :
  all_chars is_digit X = true -> X <> "" -> all_chars is_digit Y = true -> Y <> "" ->
  all_chars is_digit Z = true -> Z <> "" ->
  re_findall WORTH_RE (values_text X Y Z) = [["books"; X]; ["hats"; Y]; ["balls"; Z]].
Proof.
  intros; unfold values_text.
  change ("books are worth " ++ X ++ " points, hats are worth " ++ Y ++
          " points, and balls are worth " ++ Z ++ " points") with
    ("books" ++ " are worth " ++ X ++ " points, " ++ "hats" ++ " are worth " ++ Y ++
     " points, and " ++ "balls" ++ " are worth " ++ Z ++ " points" ++ "").
  rewrite findall_worth by (assumption || reflexivity || discriminate).
  rewrite findall_misses by misses_tac.
  rewrite findall_worth by (assumption || reflexivity || discriminate).
  rewrite findall_misses by misses_tac.
  rewrite findall_worth by (assumption || reflexivity || discriminate).
  rewrite findall_misses by misses_tac.
  rewrite findall_nil by reflexivity; reflexivity.
Qed.

Lemma counts_dict_items b h l :
  counts_dict [[str_of_Z b; "books"]; [str_of_Z h; "hats"]; [str_of_Z l; "balls"]] =
  Ok (plural_items b h l).
Proof. unfold counts_dict; cbn -[py_int str_of_Z]; rewrite !py_int_str_of_Z; reflexivity. Qed.

Lemma values_dict_items x y z :
  values_dict [["books"; str_of_Z x]; ["hats"; str_of_Z y]; ["balls"; str_of_Z z]] =
  Ok (plural_items x y z).
Proof. unfold values_dict; cbn -[py_int str_of_Z]; rewrite !py_int_str_of_Z; reflexivity. Qed.

Lemma match_count_line b h l y :
  (0 <= b)%Z -> (0 <= h)%Z -> (0 <= l)%Z ->
  match_at COUNTS_TEXT_RE (count_line b h l ++ y) =
  Some ([counts_text (str_of_Z b) (str_of_Z h) (str_of_Z l)], y).
Proof.
  intros; digit_facts; unfold count_line; rewrite !str_app_assoc; unfold COUNTS_TEXT_RE.
  rewrite match_at_lit, match_at_plus_app; [rewrite match_at_lit; reflexivity| |destruct (str_of_Z b); [contradiction|discriminate]|reflexivity].
  unfold counts_text; chars_tac.
Qed.

Lemma match_values_line i x y z post :
  (0 <= x)%Z -> (0 <= y)%Z -> (0 <= z)%Z ->
  match_at (VALUES_TEXT_RE i) (values_line i x y z ++ post) =
  Some ([values_text (str_of_Z x) (str_of_Z y) (str_of_Z z)], post).
Proof.
  intros; digit_facts; unfold values_line, VALUES_TEXT_RE; rewrite str_app_assoc.
  rewrite match_at_lit, str_app_assoc, match_at_plus_app;
    [rewrite match_at_lit; reflexivity| |discriminate|reflexivity].
  unfold values_text; chars_tac.
Qed.

Lemma values_of_line i x y z text pre post :
  text = pre ++ values_line i x y z ++ post -> misses (VALUES_TEXT_RE i) pre (values_line i x y z ++ post) ->
  (0 <= x)%Z -> (0 <= y)%Z -> (0 <= z)%Z ->
  values_of i text = Ok (Some (plural_items x y z)).
Proof.
  intros -> Hm Hx Hy Hz; unfold values_of.
  rewrite (re_search_misses _ _ _ Hm), (re_search_hit _ _ _ _ (match_values_line i x y z post Hx Hy Hz)).
  cbv beta iota; digit_facts.
  rewrite findall_values_text, values_dict_items by assumption; reflexivity.
Qed.

Lemma line_no_P_count b h l :
  (0 <= b)%Z -> (0 <= h)%Z -> (0 <= l)%Z ->
  all_chars (fun a => negb (Ascii.eqb a "P")) (count_line b h l ++ NL) = true.
Proof. intros; digit_facts; unfold count_line, counts_text; chars_tac. Qed.

(** Player 1's pattern does not match in player 0's line. *)
Lemma misses_values_line0 x y z post :
  (0 <= x)%Z -> (0 <= y)%Z -> (0 <= z)%Z ->
  misses (VALUES_TEXT_RE "1") (values_line "0" x y z ++ NL) post.
Proof.
  intros; digit_facts; unfold values_line.
  change ((("Player " ++ "0" ++ " values: ") ++ values_text (str_of_Z x) (str_of_Z y) (str_of_Z z) ++ ".") ++ NL)
    with (String "P" (("layer 0 values: " ++ values_text (str_of_Z x) (str_of_Z y) (str_of_Z z) ++ ".") ++ NL)).
  cbn [misses]; split; [reflexivity|apply misses_values].
  unfold values_text; chars_tac.
Qed.

Lemma parse_header b h l a0 a1 a2 c0 c1 c2 :
  Forall (fun n => 0 <= n)%Z [b; h; l; a0; a1; a2; c0; c1; c2] ->
  parse_game_context (count_line b h l ++ NL ++ values_line "0" a0 a1 a2 ++ NL ++
                      values_line "1" c0 c1 c2 ++ NL) =
  Ok (mkContext (Some (plural_items b h l)) (Some (plural_items a0 a1 a2))
                (Some (plural_items c0 c1 c2))).
Proof.
  intros Hn; rewrite !Forall_cons_iff in Hn.
  destruct Hn as (Hb & Hh & Hl & Ha0 & Ha1 & Ha2 & Hc0 & Hc1 & Hc2 & _).
  unfold parse_game_context; rewrite (re_search_hit _ _ _ _ (match_count_line _ _ _ _ Hb Hh Hl)).
  cbv beta iota.
  destruct (str_of_Z_classes b Hb) as (? & ? & _), (str_of_Z_classes h Hh) as (? & ? & _),
    (str_of_Z_classes l Hl) as (? & ? & _).
  rewrite findall_counts_text, counts_dict_items by assumption; cbn [res_map bind].
  rewrite (values_of_line "0" a0 a1 a2 _ (count_line b h l ++ NL) (NL ++ values_line "1" c0 c1 c2 ++ NL));
    [|now rewrite !str_app_assoc|apply misses_values, line_no_P_count; assumption|assumption..].
  cbn [bind].
  rewrite (values_of_line "1" c0 c1 c2 _ (count_line b h l ++ NL ++ values_line "0" a0 a1 a2 ++ NL) NL);
    [reflexivity|now rewrite !str_app_assoc| |assumption..].
  rewrite <- str_app_assoc; apply misses_app; [apply misses_values, line_no_P_count; assumption|].
  apply misses_values_line0; assumption.
Qed.

Lemma format_item_context B H L :
  py_format item_context [("book_cnt", B); ("hat_cnt", H); ("ball_cnt", L)] =
  Ok ("Item counts: there are " ++ B ++ " books, " ++ H ++ " hats, and " ++ L ++ " balls." ++ NL).
Proof. reflexivity. Qed.

Lemma format_value_context i X Y Z :
  py_format value_context [("player_index", i); ("book_val", X); ("hat_val", Y); ("ball_val", Z)] =
  Ok ("Player " ++ i ++ " values: books are worth " ++ X ++ " points, hats are worth " ++ Y ++
      " points, and balls are worth " ++ Z ++ " points." ++ NL).
Proof. reflexivity. Qed.

Lemma init_log_header self cb ch cl a0 a1 a2 c0 c1 c2 :
  item_counts self = items cb ch cl -> player_values self = (items a0 a1 a2, items c0 c1 c2) ->
  init_log self = Ok (count_line cb ch cl ++ NL ++ values_line "0" a0 a1 a2 ++ NL ++
                      values_line "1" c0 c1 c2 ++ NL ++ NL ++ NL).
Proof.
  intros Hc Hv; unfold init_log, value_line; rewrite Hc, Hv.
  cbn [getitem lookup items bind fst snd String.eqb Ascii.eqb Bool.eqb player_str].
  rewrite format_item_context, !format_value_context; cbn [bind].
  unfold count_line, values_line, counts_text, values_text; rewrite !str_app_assoc; reflexivity.
Qed.

Lemma take_line_app x y :
  all_chars (fun a => negb (is_nl a)) x = true -> take_line (x ++ NL ++ y) = (x ++ NL, y).
Proof.
  induction x as [|c x IH]; intros Hx; [reflexivity|].
  cbn [all_chars] in Hx; apply andb_true_iff in Hx as [Hc Hx].
  cbn [String.append take_line]; rewrite (IH Hx); now destruct (is_nl c).
Qed.

Lemma first_lines_app k x y :
  all_chars (fun a => negb (is_nl a)) x = true ->
  first_lines (S k) (x ++ NL ++ y) = res_map (fun t => (x ++ NL) ++ t) (first_lines k y).
Proof.
  intros Hx; cbn [first_lines]; rewrite (take_line_app _ _ Hx).
  destruct (x ++ NL ++ y) eqn:E; [|reflexivity].
  apply (f_equal String.length) in E; rewrite !str_length_app in E; cbn in E; lia.
Qed.

(** *** Properties of the log readers *)

(** [utils.extract_final_scores] never returns a negative score: its
    pattern [\d+] does not read a minus sign, so a competitive game's
    negative score is never read back. *)
Theorem extract_final_scores_nonneg t x y :
  extract_final_scores t = Ok (x, y) -> (0 <= x /\ 0 <= y)%Z.
Proof.
  unfold extract_final_scores; intros H.
  destruct (foldM score_entry [] _) as [d|e] eqn:Ed; cbn [bind] in H; [|discriminate].
  assert (Hd : Forall (fun kv => 0 <= snd kv)%Z d)
    by (apply (score_dict_nonneg [] (re_findall FINAL_SCORE_RE t) d);
        [constructor|intros m Hm; exact (findall_In _ _ _ Hm)|exact Ed]).
  destruct (zget d 0) as [a|] eqn:E0; cbn [bind] in H; [|discriminate].
  destruct (zget d 1) as [b|] eqn:E1; cbn [bind] in H; [|discriminate].
  injection H as <- <-; split; eapply zget_nonneg; eauto.
Qed.

Section Readback.
Context {A : Type} `{AgentLaws A}.

(** C11: What a batch game writes is what [utils.extract_final_scores]
    reads: for a game that [play_game] plays to the end after the header
    of [__init__], the scores read back from the full log are the game's
    final scores when they are not negative, whatever the players wrote
    in their messages (the score lines come last and overwrite any
    earlier match). *)
Theorem extract_final_scores_play_game self (ags : A * A) turn text ntok o g ags' log hdr s0 s1 :
  init_log self = Ok hdr -> play_game self ags turn text ntok = Ok (o, g, ags', log) ->
  p0_score o = Some s0 -> p1_score o = Some s1 -> (0 <= s0)%Z -> (0 <= s1)%Z ->
  extract_final_scores (hdr ++ log) = Ok (s0, s1).
Proof.
  intros Hh Hg E0 E1 Hs0 Hs1.
  destruct (play_game_full_log _ _ _ _ _ _ _ _ _ Hg) as (raws & _ & ->).
  rewrite E0, E1, <- str_app_assoc.
  apply extract_final_lines; [right|exact Hs0|exact Hs1].
  destruct (log_lines_ended turn raws) as [->|He];
    [rewrite str_app_nil_r; exact (init_log_ended _ _ Hh)|exact (nl_ended_app _ _ He)].
Qed.

(** C29: Under the competitive objective [utils.extract_final_scores]
    never reads back the scores of a game whose players scored
    differently: the two scores are [f] and [-f], one of them is negative,
    and the pattern [\d+] reads no minus sign, so on the full log it
    raises or returns other numbers. *)
Theorem extract_final_scores_competitive self (ags : A * A) turn text ntok o g ags' log hdr s0 s1 :
  objective self = "comp" -> init_log self = Ok hdr ->
  play_game self ags turn text ntok = Ok (o, g, ags', log) ->
  p0_score o = Some s0 -> p1_score o = Some s1 -> s0 <> s1 ->
  extract_final_scores (hdr ++ log) <> Ok (s0, s1).
Proof.
  intros Hc _ Hg E0 E1 Hne Hx.
  destruct (play_game_comp_zero_sum _ _ _ _ _ _ _ _ _ Hc Hg) as (f & F0 & F1).
  apply extract_final_scores_nonneg in Hx.
  rewrite E0 in F0; rewrite E1 in F1; injection F0 as ->; injection F1 as ->; lia.
Qed.

End Readback.

(** C15: What [NegotiationGame.__init__] writes at the top of the full
    log, [analysis.generate_game_contexts] reads back: for counts and
    values with the keys "book", "hat", "ball" and non-negative numbers,
    the first three lines of the log, whatever follows them, parse to
    exactly the game's counts and the two players' values, but keyed by
    the plural words of the text, "books", "hats" and "balls". *)
Theorem parse_game_context_init_log self hdr rest cb ch cl a0 a1 a2 c0 c1 c2 :
  item_counts self = items cb ch cl -> player_values self = (items a0 a1 a2, items c0 c1 c2) ->
  Forall (fun n => 0 <= n)%Z [cb; ch; cl; a0; a1; a2; c0; c1; c2] ->
  init_log self = Ok hdr ->
  (context_str <- first_lines 3 (hdr ++ rest) ;; parse_game_context context_str) =
  Ok (mkContext (Some (plural_items cb ch cl)) (Some (plural_items a0 a1 a2))
                (Some (plural_items c0 c1 c2))).
Proof.
  intros Hc Hv Hn Hh; rewrite (init_log_header _ _ _ _ _ _ _ _ _ _ Hc Hv) in Hh.
  replace hdr with (count_line cb ch cl ++ NL ++ values_line "0" a0 a1 a2 ++ NL ++
                    values_line "1" c0 c1 c2 ++ NL ++ NL ++ NL) by congruence.
  pose proof Hn as Hn'; rewrite !Forall_cons_iff in Hn'.
  destruct Hn' as (Hb & Hh' & Hl & Ha0 & Ha1 & Ha2 & Hc0 & Hc1 & Hc2 & _); digit_facts.
  rewrite !str_app_assoc.
  rewrite first_lines_app by (unfold count_line, counts_text; chars_tac).
  rewrite first_lines_app by (unfold values_line, values_text; chars_tac).
  rewrite first_lines_app by (unfold values_line, values_text; chars_tac).
  cbn [first_lines res_map bind]; rewrite str_app_nil_r, !str_app_assoc.
  exact (parse_header _ _ _ _ _ _ _ _ _ Hn).
Qed.

(** [utils.check_agreement_validity] calls a deal valid when a single
    proposal already adds up to the item counts: player 0 claims every
    item, player 1 aborts instead of answering with its own proposal, and
    the game records no deal (both scores 0), while the log check finds
    the one proposal equal to the counts and reports a valid deal. *)
Example check_agreement_unclosed_deal :
  match play_game fresh_game (greedy_player, stalling_player) P0 SYSTEM_TEXT char_tokens,
        game_file fresh_game (greedy_player, stalling_player) P0 with
  | Ok (o, _, _, _), Ok file =>
      is_valid_deal o = false /\ p0_score o = Some 0%Z /\ p1_score o = Some 0%Z /\
      check_agreement_validity file = Ok (CheckResult true)
  | _, _ => False
  end.
Proof. vm_compute; split; [reflexivity|split; [reflexivity|split; reflexivity]]. Qed.

(** ** Witnesses *)

Lemma extract_final_scores_play_game_witness :
  exists hdr o g ags' log,
    init_log fresh_game = Ok hdr /\
    play_game fresh_game (spec_player0, spec_player1) P0 SYSTEM_TEXT char_tokens = Ok (o, g, ags', log) /\
    p0_score o = Some 6%Z /\ p1_score o = Some 8%Z /\
    extract_final_scores (hdr ++ log) = Ok (6%Z, 8%Z).
Proof.
  destruct (init_log fresh_game) as [hdr|e] eqn:Eh; [|vm_compute in Eh; discriminate].
  destruct (play_game fresh_game (spec_player0, spec_player1) P0 SYSTEM_TEXT char_tokens)
    as [[[[o g] ags'] log]|e] eqn:E; [|vm_compute in E; discriminate].
  assert (Ho : p0_score o = Some 6%Z /\ p1_score o = Some 8%Z)
    by (pose proof E as V; vm_compute in V; injection V as <- _ _ _; split; reflexivity).
  exists hdr, o, g, ags', log; split; [reflexivity|split; [reflexivity|]].
  split; [exact (proj1 Ho)|split; [exact (proj2 Ho)|]].
  apply (extract_final_scores_play_game fresh_game (spec_player0, spec_player1) P0 SYSTEM_TEXT
           char_tokens o g ags' log hdr 6 8 Eh E (proj1 Ho) (proj2 Ho)); lia.
Defined.

Lemma extract_final_scores_competitive_witness :
  exists hdr o g ags' log,
    objective comp_game = "comp" /\ init_log comp_game = Ok hdr /\
    play_game comp_game (spec_player0, spec_player1) P0 SYSTEM_TEXT char_tokens = Ok (o, g, ags', log) /\
    p0_score o = Some (-2)%Z /\ p1_score o = Some 2%Z /\ (-2 <> 2)%Z /\
    extract_final_scores (hdr ++ log) <> Ok ((-2)%Z, 2%Z).
Proof.
  destruct (init_log comp_game) as [hdr|e] eqn:Eh; [|vm_compute in Eh; discriminate].
  destruct (play_game comp_game (spec_player0, spec_player1) P0 SYSTEM_TEXT char_tokens)
    as [[[[o g] ags'] log]|e] eqn:E; [|vm_compute in E; discriminate].
  assert (Ho : p0_score o = Some (-2)%Z /\ p1_score o = Some 2%Z)
    by (pose proof E as V; vm_compute in V; injection V as <- _ _ _; split; reflexivity).
  assert (Hc : objective comp_game = "comp") by reflexivity.
  assert (Hne : (-2 <> 2)%Z) by lia.
  exists hdr, o, g, ags', log; split; [exact Hc|split; [reflexivity|split; [reflexivity|]]].
  split; [exact (proj1 Ho)|split; [exact (proj2 Ho)|split; [exact Hne|]]].
  exact (extract_final_scores_competitive comp_game (spec_player0, spec_player1) P0 SYSTEM_TEXT
           char_tokens o g ags' log hdr (-2) 2 Hc Eh E (proj1 Ho) (proj2 Ho) Hne).
Defined.

Lemma extract_final_scores_nonneg_witness :
  game_file fresh_game (spec_player0, spec_player1) P0 = Ok (init_log_text ++ spec_play_log) /\
  extract_final_scores (init_log_text ++ spec_play_log) = Ok (6%Z, 8%Z) /\ (0 <= 6 /\ 0 <= 8)%Z.
Proof.
  assert (E : extract_final_scores (init_log_text ++ spec_play_log) = Ok (6%Z, 8%Z))
    by (vm_compute; reflexivity).
  split; [vm_compute; reflexivity|split; [exact E|exact (extract_final_scores_nonneg _ _ _ E)]].
Defined.

Lemma parse_game_context_init_log_witness :
  item_counts fresh_game = items 1 2 3 /\ player_values fresh_game = (items 1 3 1, items 2 1 2) /\
  Forall (fun n => 0 <= n)%Z [1; 2; 3; 1; 3; 1; 2; 1; 2]%Z /\ init_log fresh_game = Ok init_log_text /\
  (context_str <- first_lines 3 (init_log_text ++ spec_play_log) ;; parse_game_context context_str) =
  Ok (mkContext (Some (plural_items 1 2 3)) (Some (plural_items 1 3 1)) (Some (plural_items 2 1 2))).
Proof.
  assert (Hc : item_counts fresh_game = items 1 2 3) by reflexivity.
  assert (Hv : player_values fresh_game = (items 1 3 1, items 2 1 2)) by reflexivity.
  assert (Hn : Forall (fun n => 0 <= n)%Z [1; 2; 3; 1; 3; 1; 2; 1; 2]%Z)
    by (repeat constructor; lia).
  assert (Hh : init_log fresh_game = Ok init_log_text) by (vm_compute; reflexivity).
  split; [exact Hc|split; [exact Hv|split; [exact Hn|split; [exact Hh|]]]].
  exact (parse_game_context_init_log fresh_game init_log_text spec_play_log 1 2 3 1 3 1 2 1 2 Hc Hv Hn Hh).
Defined.
