(* ===== verification/WebGame.v ===== *)
(** * The web game

    [WebNegotiationGame] (src/web_interface/games/web_negotiation.py), the
    variant the web server drives one request at a time: the human user is
    player 0, the model ([ClosedSourceChatPlayer]) is player 1.

    The class repeats [isValidDeal], [calculateFinalScores],
    [calculateScore], [isParetoOptimal] and [parse_proposal] of
    [NegotiationGame] word for word; the object carries the same fields
    (counts, values, proposals, final scores, the two flags, objective,
    prompt path), which the record keeps as a [NegotiationGame], so those
    methods are the [Scoring], [Pareto] and [Validator] definitions applied
    to it.  The assistant's validator reads [self.game], which is this
    object, so [respond] is given the same fields.

    What differs is the constructor and [receive_and_respond], which
    applies the user's message, lets the model answer once (when the game
    is still open) and scores the game.  The ["time"] key the handler adds
    to the assistant's chat entries is not modelled. *)

From Stdlib Require Import String Ascii ZArith Bool Lia List.
From S2P Require Import Prelude PyDict PyStr Scoring Pareto Validator Player Game.
Import ListNotations.
Local Open Scope string_scope.
Local Open Scope py_scope.

(** ** The game object *)

Record WebNegotiationGame : Type := mkWebGame {
  core : NegotiationGame;
  user_values : dict Z;
  assistant_values : dict Z;
  assistant_system_prompt : string
}.

Definition set_core (g : NegotiationGame) (w : WebNegotiationGame) : WebNegotiationGame :=
  mkWebGame g (user_values w) (assistant_values w) (assistant_system_prompt w).

(** [WebNegotiationGame.__init__].  The attributes [user_values] and
    [assistant_values] are only set when [user_values] is given (line 28
    tests [user_values] a second time where [assistant_values] is meant),
    so the prompt's [self.assistant_values["book"]] raises
    [AttributeError] for a game built without [user_values], and
    [TypeError] when [user_values] is given without [assistant_values].
    [read_file] is the content of the prompt file at a path. *)
Definition web_init (item_counts user_vals assistant_vals : option (dict Z))
    (objective : string) (read_file : string -> string) : res WebNegotiationGame :=
  let counts := match item_counts with Some c => c | None => DEFAULT_COUNTS end in
  let v0 := match user_vals with Some v => v | None => DEFAULT_P1_VALUES end in
  let assistant_attr := match user_vals with
                        | Some _ => Some assistant_vals
                        | None => None
                        end in
  path <- prompt_of_objective objective ;;
  let prompt_message := read_file path in
  bc <- getitem counts "book" ;; hc <- getitem counts "hat" ;; lc <- getitem counts "ball" ;;
  av <- match assistant_attr with
        | None => Raise (AttributeError "assistant_values")
        | Some None => Raise (TypeError "NoneType is not subscriptable")
        | Some (Some a) => Ok a
        end ;;
  bv <- getitem av "book" ;; hv <- getitem av "hat" ;; lv <- getitem av "ball" ;;
  prompt <- py_format prompt_message
              [("book_cnt", str_of_Z bc); ("hat_cnt", str_of_Z hc); ("ball_cnt", str_of_Z lc);
               ("book_val", str_of_Z bv); ("hat_val", str_of_Z hv); ("ball_val", str_of_Z lv)] ;;
  Ok (mkWebGame (mkGame counts (v0, av) (None, None) (None, None) false false objective path)
                v0 av prompt).

(** ** The methods shared with [NegotiationGame] *)

Definition web_isValidDeal (self : WebNegotiationGame) : res bool := isValidDeal (core self).

Definition web_calculateFinalScores (self : WebNegotiationGame) : res WebNegotiationGame :=
  g <- calculateFinalScores (core self) ;; Ok (set_core g self).

Definition web_calculateScore (player_values player_cnts : dict Z) : Z :=
  calculateScore player_values player_cnts.

Definition web_isParetoOptimal (self : WebNegotiationGame)
    (p1_values p2_values p1_cnts p2_cnts : dict Z) : res bool :=
  GameMethod.isParetoOptimal (core self) p1_values p2_values p1_cnts p2_cnts.

Definition web_parse_proposal (text : string) : res (dict Z) := parse_proposal text.

(** ** [receive_and_respond] *)

(** What the assistant is told of the user's proposal, and what the user
    is shown of the assistant's. *)
Definition WEB_NOTICE : string :=
  "[propose] Proposal made. You must now respond with a proposal of your own." ++ NL.
Definition CLOSED_DISPLAY : string := "[propose] Proposal made.".
Definition ABORT_DISPLAY : string := "Model errored. Aborting game.".

(** [assistant_agent.messages_log.append(m)] *)
Definition push_log (m : chat) (p : LLMPlayer) : LLMPlayer :=
  set_messages_log (messages_log p ++ [m])%list p.

(** The dict the handler returns (the server sends it to the browser). *)
Record web_response : Type := mkWebResponse {
  message : string;
  r_game_over : bool;
  user_score : option Z;
  assistant_score : option Z;
  valid_deal : bool;
  abort : bool;
  user_proposal : option (dict Z);
  assistant_proposal : option (dict Z);
  message_log : list chat
}.

(** The user's message, when there is one: a proposal is parsed (with no
    validation) into [proposals[0]] and closes the game if one was
    pending; the assistant is told of it; any other text is relayed as it
    is. *)
Definition receive_user (user_msg : option string) (self : WebNegotiationGame)
    (a : LLMPlayer) : res (WebNegotiationGame * LLMPlayer) :=
  match user_msg with
  | None => Ok (self, a)
  | Some m =>
      if startswith "[propose]" (strip m) then
        prop <- web_parse_proposal m ;;
        let g := set_proposals (upd P0 (Some prop) (proposals (core self))) (core self) in
        let g := if deal_proposed g then set_game_over true g else set_deal_proposed true g in
        Ok (set_core g self,
            push_log (mkChat "user" WEB_NOTICE) (push_json (mkChat "user" WEB_NOTICE) a))
      else Ok (self, push_log (mkChat "user" m) (push_json (mkChat "user" m) a))
  end.

(** The model's turn, only while the game is open: its answer is logged,
    then the abort and proposal checks as in the batch loop, with what the
    user is shown.  Returns the game, the player, the displayed message
    and the abort flag. *)
Definition assistant_turn (self : WebNegotiationGame) (a : LLMPlayer)
    : res (WebNegotiationGame * LLMPlayer * string * bool) :=
  if game_over (core self) then Ok (self, a, "", false)
  else
    '(response_text, a) <- respond (core self) a ;;
    let a := push_log (mkChat "assistant" response_text)
               (push_json (mkChat "assistant" response_text) a) in
    let '(g, aborted, displayed) :=
      if String.eqb (strip response_text) "[ABORT]"
      then (set_game_over true (core self), true, ABORT_DISPLAY)
      else (core self, false, strip response_text) in
    if startswith "[propose]" (strip response_text) then
      prop <- web_parse_proposal response_text ;;
      let g := set_proposals (upd P1 (Some prop) (proposals g)) g in
      if deal_proposed g then Ok (set_core (set_game_over true g) self, a, CLOSED_DISPLAY, aborted)
      else Ok (set_core (set_deal_proposed true g) self, a, WEB_NOTICE, aborted)
    else Ok (set_core g self, a, displayed, aborted).

Definition receive_and_respond (user_msg : option string) (self : WebNegotiationGame)
    (assistant_agent : LLMPlayer) : res (web_response * WebNegotiationGame * LLMPlayer) :=
  '(self, a) <- receive_user user_msg self assistant_agent ;;
  '(self, a, displayed_message, aborted) <- assistant_turn self a ;;
  self <- web_calculateFinalScores self ;;
  valid <- web_isValidDeal self ;;
  Ok (mkWebResponse displayed_message (game_over (core self))
        (fst (final_scores (core self))) (snd (final_scores (core self)))
        valid aborted (fst (proposals (core self))) (snd (proposals (core self)))
        (messages_json a),
      self, a).

(** ** A sequence of user messages

    The ["user_message"] events of one session, each handled by
    [receive_and_respond]; a specification device for statements about
    several rounds. *)
Fixpoint web_chat (msgs : list string) (w : WebNegotiationGame) (a : LLMPlayer)
    : res (list web_response * WebNegotiationGame * LLMPlayer) :=
  match msgs with
  | [] => Ok ([], w, a)
  | m :: ms =>
      '(r, w1, a1) <- receive_and_respond (Some m) w a ;;
      '(rs, w2, a2) <- web_chat ms w1 a1 ;;
      Ok (r :: rs, w2, a2)
  end.

(** ** Concrete games *)

Definition demo_web_game : WebNegotiationGame :=
  mkWebGame fresh_game DEFAULT_P1_VALUES DEFAULT_P2_VALUES "prompt".

Definition web_assistant (model : list chat -> nat -> string) : LLMPlayer :=
  mkLLMPlayer [mkChat "system" "prompt"] [mkChat "system" "prompt"] true model 0 [].

(** An assistant that chats once, then proposes the book for itself, twice. *)
Definition proposing_assistant : LLMPlayer :=
  web_assistant (scripted ["[message] I would like the book.";
                           "[propose] (1 books, 0 hats, 0 balls)";
                           "[propose] (1 books, 0 hats, 0 balls)"]).

Definition chatty_assistant : LLMPlayer := web_assistant (fun _ _ => CHAT_LINE).

(** The opening of a session in which the assistant speaks first, then
    the user's messages [msgs]. *)
Definition web_session (msgs : list string) (w : WebNegotiationGame) (a : LLMPlayer)
    : res (web_response * list web_response * WebNegotiationGame * LLMPlayer) :=
  '(r0, w1, a1) <- receive_and_respond None w a ;;
  '(rs, w2, a2) <- web_chat msgs w1 a1 ;;
  Ok (r0, rs, w2, a2).

(** What a round keeps: the game's objective and system prompt; and what
    it does to the assistant: it only appends to its two histories. *)
Definition round_extends (w w' : WebNegotiationGame) (a a' : LLMPlayer) : Prop :=
  objective (core w') = objective (core w) /\
  assistant_system_prompt w' = assistant_system_prompt w /\
  (exists ext, messages_json a' = (messages_json a ++ ext)%list) /\
  (exists ext, messages_log a' = (messages_log a ++ ext)%list).

(** ** Lemmas *)

Lemma getitem_has_items d k : has_items d -> In k ITEMS -> exists v, getitem d k = Ok v.
Proof.
  unfold getitem; intros Hd Hk; destruct (lookup d k) eqn:E; [eauto|exfalso; exact (Hd k Hk E)].
Qed.

Lemma prompt_of_objective_valid o : valid_objective o = true -> exists p, prompt_of_objective o = Ok p.
Proof.
  unfold valid_objective, prompt_of_objective.
  destruct (o =? "self"), (o =? "coop"), (o =? "comp"); simpl; eauto; discriminate.
Qed.

Lemma mapM_getitem_ITEMS (d : dict Z) b h l :
  getitem d "book" = Ok b -> getitem d "hat" = Ok h -> getitem d "ball" = Ok l ->
  mapM (getitem d) ITEMS = Ok [b; h; l].
Proof. intros Eb Eh El; cbn [mapM ITEMS]; rewrite Eb, Eh, El; reflexivity. Qed.

Lemma mapM_getitem_has_items (d : dict Z) :
  has_items d -> exists vs, mapM (getitem d) ITEMS = Ok vs.
Proof.
  intros Hd.
  destruct (getitem_has_items d "book" Hd ltac:(simpl; tauto)) as (b & Eb),
    (getitem_has_items d "hat" Hd ltac:(simpl; tauto)) as (h & Eh),
    (getitem_has_items d "ball" Hd ltac:(simpl; tauto)) as (l & El).
  eexists; exact (mapM_getitem_ITEMS d b h l Eb Eh El).
Qed.

Lemma parse_proposal_short m : length (findall_digits m) < 3 -> parse_proposal m = Raise IndexError.
Proof.
  unfold parse_proposal; destruct (findall_digits m) as [|x [|y [|z l]]]; simpl; intros H;
    reflexivity || lia.
Qed.

Lemma strip_chat_line : strip CHAT_LINE = CHAT_LINE.
Proof. reflexivity. Qed.

(** One round with a chatting assistant and a user message that is not a
    proposal: both lines are logged, the scores are reset to 0, nothing
    else of the game changes. *)
Lemma web_chat_round m w a :
  model a = (fun _ _ => CHAT_LINE) -> game_over (core w) = false ->
  deal_proposed (core w) = false -> proposals (core w) = (None, None) ->
  startswith "[propose]" (strip m) = false ->
  exists r a', receive_and_respond (Some m) w a =
    Ok (r, set_core (set_final_scores (Some 0%Z, Some 0%Z) (core w)) w, a') /\
    r_game_over r = false /\ model a' = model a.
Proof.
  intros HM Eo Ed Ep Hm; unfold receive_and_respond, receive_user; rewrite Hm; cbn [bind].
  unfold assistant_turn; rewrite Eo.
  rewrite (chatty_respond (core w) (push_log (mkChat "user" m) (push_json (mkChat "user" m) a))
             HM Ed); cbn [bind].
  rewrite strip_chat_line.
  change (String.eqb CHAT_LINE "[ABORT]") with false.
  change (startswith "[propose]" CHAT_LINE) with false; cbv iota beta; cbn [bind].
  unfold web_calculateFinalScores, calculateFinalScores, isValidDeal; cbn [core set_core].
  rewrite Ep; cbn [bind negb].
  unfold web_isValidDeal, isValidDeal; cbn [core set_core set_final_scores proposals].
  rewrite Ep; cbn [bind].
  eexists _, _; split; [reflexivity|split; [exact Eo|reflexivity]].
Qed.

Lemma calculateFinalScores_fields g g' :
  calculateFinalScores g = Ok g' ->
  proposals g' = proposals g /\ game_over g' = game_over g /\ deal_proposed g' = deal_proposed g.
Proof.
  unfold calculateFinalScores; destruct (isValidDeal g) as [[|]|]; cbn [bind negb];
    [|intros [= <-]; auto|discriminate].
  destruct (proposals g) as [[c0|] [c1|]] eqn:Ep; try discriminate.
  destruct (objective g =? "self"); [|destruct (objective g =? "coop");
    [|destruct (objective g =? "comp")]]; intros [= <-]; cbn; rewrite ?Ep; auto.
Qed.

Lemma calculateFinalScores_objective g g' :
  calculateFinalScores g = Ok g' -> objective g' = objective g.
Proof.
  unfold calculateFinalScores; destruct (isValidDeal g) as [[|]|]; cbn [bind negb];
    [|intros [= <-]; reflexivity|discriminate].
  destruct (proposals g) as [[c0|] [c1|]]; try discriminate.
  destruct (objective g =? "self"); [|destruct (objective g =? "coop");
    [|destruct (objective g =? "comp")]]; try discriminate; intros [= <-]; reflexivity.
Qed.

Lemma round_extends_refl w a : round_extends w w a a.
Proof.
  split; [reflexivity|split; [reflexivity|split; exists []; now rewrite app_nil_r]].
Qed.

Lemma round_extends_trans w1 w2 w3 a1 a2 a3 :
  round_extends w1 w2 a1 a2 -> round_extends w2 w3 a2 a3 -> round_extends w1 w3 a1 a3.
Proof.
  intros (O1 & S1 & (e1 & J1) & (l1 & L1)) (O2 & S2 & (e2 & J2) & (l2 & L2)).
  split; [congruence|split; [congruence|split]].
  - exists (e1 ++ e2)%list; rewrite J2, J1, app_assoc; reflexivity.
  - exists (l1 ++ l2)%list; rewrite L2, L1, app_assoc; reflexivity.
Qed.

Lemma receive_user_extends u w a w' a' :
  receive_user u w a = Ok (w', a') -> round_extends w w' a a'.
Proof.
  destruct u as [m|]; cbn [receive_user]; [|intros [= <- <-]; apply round_extends_refl].
  destruct (startswith "[propose]" (strip m)); [destruct (web_parse_proposal m); cbn [bind];
    [|discriminate]|]; intros [= <- <-]; [destruct (deal_proposed _)|];
    (split; [reflexivity|split; [reflexivity|split; eexists; reflexivity]]).
Qed.

Lemma assistant_turn_extends w a w' a' d ab :
  assistant_turn w a = Ok (w', a', d, ab) -> round_extends w w' a a'.
Proof.
  unfold assistant_turn; destruct (game_over (core w));
    [intros [= <- <- _ _]; apply round_extends_refl|].
  destruct (respond (core w) a) as [[t p]|] eqn:Er; cbn [bind]; [|discriminate].
  destruct (respond_outcome _ _ _ _ Er) as (Hl & (ext & Hj) & _).
  assert (Hja : messages_json (push_log (mkChat "assistant" t) (push_json (mkChat "assistant" t) p)) =
                (messages_json a ++ (ext ++ [mkChat "assistant" t]))%list)
    by (cbn; rewrite Hj, app_assoc; reflexivity).
  assert (Hla : messages_log (push_log (mkChat "assistant" t) (push_json (mkChat "assistant" t) p)) =
                (messages_log a ++ [mkChat "assistant" t])%list)
    by (cbn; rewrite Hl; reflexivity).
  destruct (String.eqb (strip t) "[ABORT]"), (startswith "[propose]" (strip t));
    try destruct (web_parse_proposal t); cbn [bind]; try discriminate;
    try destruct (deal_proposed _); intros [= <- <- _ _];
    (split; [reflexivity|split; [reflexivity|split; eexists; [exact Hja|exact Hla]]]).
Qed.

(** A round keeps the game's objective and system prompt and only appends
    to the assistant's two histories. *)
Lemma receive_and_respond_extends u w a r w' a' :
  receive_and_respond u w a = Ok (r, w', a') -> round_extends w w' a a'.
Proof.
  unfold receive_and_respond, web_calculateFinalScores.
  destruct (receive_user u w a) as [[w1 a1]|] eqn:Eu; cbn [bind]; [|discriminate].
  destruct (assistant_turn w1 a1) as [[[[w2 a2] d] ab]|] eqn:Et; cbn [bind]; [|discriminate].
  destruct (calculateFinalScores (core w2)) as [g3|] eqn:Ec; cbn [bind]; [|discriminate].
  destruct (web_isValidDeal _); cbn [bind]; [|discriminate]; intros [= _ <- <-].
  apply (round_extends_trans _ _ _ _ _ _ (receive_user_extends _ _ _ _ _ Eu)).
  apply (round_extends_trans _ _ _ _ _ _ (assistant_turn_extends _ _ _ _ _ _ Et)).
  split; [exact (calculateFinalScores_objective _ _ Ec)|split; [reflexivity|]].
  split; exists []; now rewrite app_nil_r.
Qed.

(** ** Properties of the web game *)

(** C38: [WebNegotiationGame] built without [user_values] always raises
    [AttributeError]: line 28 tests [user_values] where
    [assistant_values] is meant, so the attribute the prompt reads is
    never set. *)
Theorem web_init_without_user_values c av obj read_file :
  valid_objective obj = true ->
  has_items (match c with Some c => c | None => DEFAULT_COUNTS end) ->
  web_init c None av obj read_file = Raise (AttributeError "assistant_values").
Proof.
  intros Ho Hc; destruct (prompt_of_objective_valid _ Ho) as (p & Ep).
  unfold web_init; rewrite Ep; cbn [bind].
  set (counts := match c with Some c => c | None => DEFAULT_COUNTS end) in *.
  destruct (getitem_has_items counts "book" Hc ltac:(simpl; tauto)) as (b & ->),
    (getitem_has_items counts "hat" Hc ltac:(simpl; tauto)) as (h & ->),
    (getitem_has_items counts "ball" Hc ltac:(simpl; tauto)) as (l & ->).
  reflexivity.
Qed.

(** C32: Where the web constructor succeeds on values with the three item
    kinds, it builds the same game as [NegotiationGame.__init__]: same
    counts, values, objective and prompt path, no proposal, both flags
    false. *)
Theorem web_init_agrees_init c u av obj read_file w :
  web_init c (Some u) (Some av) obj read_file = Ok w -> has_items u ->
  init c (Some u) (Some av) obj = Ok (core w).
Proof.
  intros H Hu; unfold web_init in H.
  py_inv H; py_inv H; py_inv H; py_inv H; cbn [bind] in H.
  py_inv H; py_inv H; py_inv H; py_inv H; injection H as <-.
  unfold init; rewrite Hm; cbn [bind].
  rewrite (mapM_getitem_ITEMS _ _ _ _ Hm0 Hm1 Hm2); cbn [bind].
  destruct (mapM_getitem_has_items u Hu) as (vs & ->); cbn [bind].
  rewrite (mapM_getitem_ITEMS _ _ _ _ Hm3 Hm4 Hm5); reflexivity.
Qed.

(** C37: The user's proposal is parsed without validation: a text that
    starts with "[propose]" but holds fewer than three numbers makes the
    handler raise [IndexError]. *)
Theorem web_user_proposal_unvalidated m w a :
  startswith "[propose]" (strip m) = true -> length (findall_digits m) < 3 ->
  receive_and_respond (Some m) w a = Raise IndexError.
Proof.
  intros Hs Hd; unfold receive_and_respond, receive_user, web_parse_proposal.
  rewrite Hs, parse_proposal_short by exact Hd; reflexivity.
Qed.

(** A user proposal made while a proposal is pending closes the
    game at once: the model is not called, and the assistant is only told
    of the proposal. *)
Theorem web_user_second_proposal m w a d r w' a' :
  deal_proposed (core w) = true -> startswith "[propose]" (strip m) = true ->
  parse_proposal m = Ok d -> receive_and_respond (Some m) w a = Ok (r, w', a') ->
  r_game_over r = true /\ user_proposal r = Some d /\ n_calls a' = n_calls a /\
  messages_json a' = (messages_json a ++ [mkChat "user" WEB_NOTICE])%list.
Proof.
  intros Hd Hs Hp H; unfold receive_and_respond, receive_user, web_parse_proposal in H.
  rewrite Hs, Hp in H; cbn [bind] in H.
  unfold assistant_turn in H; cbn [core set_core set_proposals deal_proposed] in H.
  rewrite Hd in H; cbn [set_game_over game_over] in H; cbn [bind] in H.
  unfold web_calculateFinalScores in H; cbn [core set_core] in H.
  destruct (calculateFinalScores _) as [g|] eqn:Ec; cbn [bind] in H; [|discriminate].
  destruct (calculateFinalScores_fields _ _ Ec) as (Hpg & Hog & _).
  destruct (web_isValidDeal _) as [v|]; cbn [bind] in H; [|discriminate].
  injection H as <- <- <-; cbn [r_game_over user_proposal core set_core].
  rewrite Hog, Hpg; cbn; auto.
Qed.

(** C27: The web game has no message cap: with a model that keeps
    chatting and a user who never proposes, any number of rounds, fifty
    or more, leaves the game open. *)
Theorem web_chat_no_cap msgs w a :
  model a = (fun _ _ => CHAT_LINE) -> game_over (core w) = false ->
  deal_proposed (core w) = false -> proposals (core w) = (None, None) ->
  Forall (fun m => startswith "[propose]" (strip m) = false) msgs ->
  exists rs w' a', web_chat msgs w a = Ok (rs, w', a') /\ length rs = length msgs /\
    game_over (core w') = false /\ Forall (fun r => r_game_over r = false) rs.
Proof.
  revert w a; induction msgs as [|m ms IH]; intros w a HM Eo Ed Ep Hall.
  - exists [], w, a; split; [reflexivity|split; [reflexivity|split; [exact Eo|constructor]]].
  - inversion Hall as [|? ? Hm Hms]; subst.
    destruct (web_chat_round m w a HM Eo Ed Ep Hm) as (r & a1 & E1 & Hr & HM1).
    destruct (IH (set_core (set_final_scores (Some 0%Z, Some 0%Z) (core w)) w) a1)
      as (rs & w' & a' & E & Hlen & Ho & Hrs); [congruence|exact Eo|exact Ed|exact Ep|exact Hms|].
    exists (r :: rs), w', a'; cbn [web_chat]; rewrite E1; cbn [bind]; rewrite E; cbn [bind].
    split; [reflexivity|split; [cbn; congruence|split; [exact Ho|constructor; assumption]]].
Qed.

(** A game without the user's proposal is no deal and scores 0. *)
Lemma isValidDeal_no_user g : fst (proposals g) = None -> isValidDeal g = Ok false.
Proof. unfold isValidDeal; destruct (proposals g) as [[?|] ?]; cbn [fst]; congruence. Qed.

Lemma calculateFinalScores_no_user g :
  fst (proposals g) = None -> calculateFinalScores g = Ok (set_final_scores (Some 0%Z, Some 0%Z) g).
Proof. intros H; unfold calculateFinalScores; now rewrite isValidDeal_no_user. Qed.

(** The scoring after a round in which the user has not proposed. *)
Ltac web_scores H Ep :=
  cbn [bind] in H; unfold web_calculateFinalScores in H;
  rewrite calculateFinalScores_no_user in H by (cbn; rewrite ?Ep; reflexivity); cbn [bind] in H;
  unfold web_isValidDeal in H;
  rewrite isValidDeal_no_user in H by (cbn; rewrite ?Ep; reflexivity); cbn [bind] in H.

(** The model's turn while it owes a counter-proposal closes the game:
    [respond] gives either "[ABORT]" or an accepted output, which must be
    a proposal, and a second proposal ends the game.  The user's slot is
    left as it was. *)
Lemma owed_turn_closes w a w1 a1 d ab :
  deal_proposed (core w) = true -> game_over (core w) = false ->
  assistant_turn w a = Ok (w1, a1, d, ab) ->
  game_over (core w1) = true /\ fst (proposals (core w1)) = fst (proposals (core w)) /\
  deal_proposed (core w1) = true.
Proof.
  intros Hd Eo H; unfold assistant_turn in H; rewrite Eo in H.
  destruct (respond (core w) a) as [[t a2]|] eqn:Er; cbn [bind] in H; [|discriminate].
  destruct (respond_outcome _ _ _ _ Er) as (_ & _ & [(-> & _)|(Hv & _)]).
  - injection H as <- _ _ _; cbn; auto.
  - assert (Hp : startswith "[propose]" (strip t) = true).
    { apply is_valid_output_true in Hv as [(Hp & _)|(_ & _ & _ & Hd')]; congruence. }
    rewrite Hp in H.
    destruct (String.eqb (strip t) "[ABORT]"); cbv iota beta in H;
      destruct (web_parse_proposal t) as [prop|]; cbn [bind] in H; try discriminate;
      cbn [deal_proposed set_proposals set_game_over] in H; rewrite Hd in H;
      injection H as <- _ _ _; cbn; auto.
Qed.

(** C26: The user is never made to counter-propose: while the assistant's
    proposal is pending, any user text that is not a proposal is relayed
    as it is, the assistant then has to propose again (or abort), and the
    game ends with no user proposal, an invalid deal and both scores 0. *)
Theorem web_owed_proposal_not_enforced m w a r w' a' :
  deal_proposed (core w) = true -> fst (proposals (core w)) = None ->
  game_over (core w) = false -> startswith "[propose]" (strip m) = false ->
  receive_and_respond (Some m) w a = Ok (r, w', a') ->
  r_game_over r = true /\ user_proposal r = None /\ valid_deal r = false /\
  user_score r = Some 0%Z /\ assistant_score r = Some 0%Z.
Proof.
  intros Hd Hn Eo Hm H; unfold receive_and_respond, receive_user in H; rewrite Hm in H.
  cbn [bind] in H.
  destruct (assistant_turn w _) as [[[[w1 a1] d] ab]|] eqn:Et; cbn [bind] in H; [|discriminate].
  destruct (owed_turn_closes _ _ _ _ _ _ Hd Eo Et) as (Ho1 & Hp1 & _).
  rewrite Hn in Hp1; unfold web_calculateFinalScores in H.
  rewrite calculateFinalScores_no_user in H by exact Hp1; cbn [bind] in H.
  unfold web_isValidDeal in H; rewrite isValidDeal_no_user in H by exact Hp1; cbn [bind] in H.
  injection H as <- _ _; cbn; rewrite Ho1, Hp1; auto.
Qed.

(** C30: When the assistant makes the first proposal of the game, the
    response shows the user only the notice and keeps the game open, but
    the same dict, which the server sends to the browser, carries the
    parsed proposal and, as the last entry of its message log, the
    assistant's proposal text itself. *)
Theorem web_response_leaks_proposal m w a r w' a' :
  deal_proposed (core w) = false -> game_over (core w) = false ->
  proposals (core w) = (None, None) -> startswith "[propose]" (strip m) = false ->
  receive_and_respond (Some m) w a = Ok (r, w', a') -> assistant_proposal r <> None ->
  message r = WEB_NOTICE /\ r_game_over r = false /\
  exists t p pre, assistant_proposal r = Some p /\ parse_proposal t = Ok p /\
    startswith "[propose]" (strip t) = true /\
    message_log r = (pre ++ [mkChat "assistant" t])%list.
Proof.
  intros Hd Eo Ep Hm H Hsome; unfold receive_and_respond, receive_user in H; rewrite Hm in H.
  cbn [bind] in H; unfold assistant_turn in H; rewrite Eo in H.
  destruct (respond (core w) _) as [[t a1]|] eqn:Er; cbn [bind] in H; [|discriminate].
  destruct (String.eqb_spec (strip t) "[ABORT]") as [Ea|Ea]; cbv iota beta in H.
  { rewrite Ea in H; change (startswith "[propose]" "[ABORT]") with false in H; cbv iota in H.
    web_scores H Ep; injection H as <- _ _; cbn in Hsome; rewrite Ep in Hsome; cbn in Hsome; congruence. }
  destruct (startswith "[propose]" (strip t)) eqn:Hp.
  2:{ web_scores H Ep; injection H as <- _ _; cbn in Hsome; rewrite Ep in Hsome; cbn in Hsome; congruence. }
  unfold web_parse_proposal in H; destruct (parse_proposal t) as [prop|] eqn:Hpp;
    cbn [bind] in H; [|discriminate].
  cbn [deal_proposed set_proposals] in H; rewrite Hd in H; cbv iota in H.
  web_scores H Ep; injection H as <- _ _; cbn; rewrite ?Ep.
  split; [reflexivity|split; [exact Eo|]].
  exists t, prop, (messages_json a1); split; [reflexivity|split; [exact Hpp|split; [exact Hp|]]].
  reflexivity.
Qed.

(** ** Witnesses *)

Lemma web_owed_proposal_not_enforced_witness :
  exists w a r w' a',
    deal_proposed (core w) = true /\ fst (proposals (core w)) = None /\ game_over (core w) = false /\
    startswith "[propose]" (strip "[message] Hmm.") = false /\
    receive_and_respond (Some "[message] Hmm.") w a = Ok (r, w', a') /\
    r_game_over r = true /\ user_proposal r = None /\ valid_deal r = false /\
    user_score r = Some 0%Z /\ assistant_score r = Some 0%Z.
Proof.
  destruct (web_session ["[message] You can have it."] demo_web_game proposing_assistant)
    as [[[[r0 rs] w] a]|x] eqn:Es; [|vm_compute in Es; discriminate].
  assert (Hw : deal_proposed (core w) = true /\ fst (proposals (core w)) = None /\
               game_over (core w) = false)
    by (pose proof Es as V; vm_compute in V; injection V as _ _ <- _; repeat split).
  destruct Hw as (Hd & Hn & Eo).
  assert (Hm : startswith "[propose]" (strip "[message] Hmm.") = false) by reflexivity.
  destruct (receive_and_respond (Some "[message] Hmm.") w a) as [[[r w'] a']|x] eqn:Er;
    [|pose proof Es as V; vm_compute in V; injection V as _ _ <- <-; vm_compute in Er; discriminate].
  exists w, a, r, w', a'.
  split; [exact Hd|split; [exact Hn|split; [exact Eo|split; [exact Hm|split; [exact Er|]]]]].
  exact (web_owed_proposal_not_enforced _ _ _ _ _ _ Hd Hn Eo Hm Er).
Defined.

Lemma web_response_leaks_proposal_witness :
  exists w a r w' a',
    deal_proposed (core w) = false /\ game_over (core w) = false /\
    proposals (core w) = (None, None) /\
    startswith "[propose]" (strip "[message] You can have it.") = false /\
    receive_and_respond (Some "[message] You can have it.") w a = Ok (r, w', a') /\
    assistant_proposal r <> None /\
    message r = WEB_NOTICE /\ r_game_over r = false /\
    exists t p pre, assistant_proposal r = Some p /\ parse_proposal t = Ok p /\
      startswith "[propose]" (strip t) = true /\
      message_log r = (pre ++ [mkChat "assistant" t])%list.
Proof.
  destruct (receive_and_respond None demo_web_game proposing_assistant)
    as [[[r0 w] a]|x] eqn:E0; [|vm_compute in E0; discriminate].
  assert (Hw : deal_proposed (core w) = false /\ game_over (core w) = false /\
               proposals (core w) = (None, None))
    by (pose proof E0 as V; vm_compute in V; injection V as _ <- _; repeat split).
  destruct Hw as (Hd & Eo & Ep).
  assert (Hm : startswith "[propose]" (strip "[message] You can have it.") = false) by reflexivity.
  destruct (receive_and_respond (Some "[message] You can have it.") w a) as [[[r w'] a']|x] eqn:Er;
    [|pose proof E0 as V; vm_compute in V; injection V as _ <- <-; vm_compute in Er; discriminate].
  assert (Hs : assistant_proposal r <> None)
    by (pose proof E0 as V; vm_compute in V; injection V as _ <- <-;
        vm_compute in Er; injection Er as <- _ _; discriminate).
  exists w, a, r, w', a'.
  split; [exact Hd|split; [exact Eo|split; [exact Ep|split; [exact Hm|split; [exact Er|]]]]].
  split; [exact Hs|].
  exact (web_response_leaks_proposal _ _ _ _ _ _ Hd Eo Ep Hm Er Hs).
Defined.

Lemma web_init_without_user_values_witness :
  web_init None None None "coop" (fun _ => SYSTEM_TEXT) = Raise (AttributeError "assistant_values").
Proof.
  apply web_init_without_user_values; [reflexivity|].
  intros k Hk; simpl in Hk; destruct Hk as [<-|[<-|[<-|[]]]]; discriminate.
Defined.

Lemma web_init_agrees_init_witness :
  exists w, web_init None (Some DEFAULT_P1_VALUES) (Some DEFAULT_P2_VALUES) "self"
              (fun _ => SYSTEM_TEXT) = Ok w /\
            init None (Some DEFAULT_P1_VALUES) (Some DEFAULT_P2_VALUES) "self" = Ok (core w).
Proof.
  destruct (web_init None (Some DEFAULT_P1_VALUES) (Some DEFAULT_P2_VALUES) "self"
              (fun _ => SYSTEM_TEXT)) as [w|e] eqn:E; [|vm_compute in E; discriminate].
  exists w; split; [reflexivity|].
  apply (web_init_agrees_init _ _ _ _ _ _ E).
  intros k Hk; simpl in Hk; destruct Hk as [<-|[<-|[<-|[]]]]; discriminate.
Defined.

Lemma web_user_proposal_unvalidated_witness :
  receive_and_respond (Some "[propose] I take everything") demo_web_game chatty_assistant
    = Raise IndexError.
Proof. apply web_user_proposal_unvalidated; vm_compute; [reflexivity|lia]. Defined.

Lemma web_user_second_proposal_witness :
  exists r w' a',
    receive_and_respond (Some "[propose] (0 books, 2 hats, 3 balls)")
      (set_core (set_deal_proposed true fresh_game) demo_web_game) chatty_assistant
      = Ok (r, w', a') /\
    r_game_over r = true /\ user_proposal r = Some (items 0 2 3) /\
    n_calls a' = n_calls chatty_assistant /\
    messages_json a' = (messages_json chatty_assistant ++ [mkChat "user" WEB_NOTICE])%list.
Proof.
  destruct (receive_and_respond (Some "[propose] (0 books, 2 hats, 3 balls)")
      (set_core (set_deal_proposed true fresh_game) demo_web_game) chatty_assistant)
    as [[[r w'] a']|e] eqn:E; [|vm_compute in E; discriminate].
  exists r, w', a'; split; [reflexivity|].
  eapply web_user_second_proposal; [| | |exact E]; vm_compute; reflexivity.
Defined.

Lemma web_chat_no_cap_witness :
  exists rs w' a', web_chat (repeat "[message] ok" 60) demo_web_game chatty_assistant
                   = Ok (rs, w', a') /\
    length rs = length (repeat "[message] ok" 60) /\
    game_over (core w') = false /\ Forall (fun r => r_game_over r = false) rs.
Proof.
  apply web_chat_no_cap; try reflexivity.
  apply Forall_forall; intros m Hm; apply repeat_spec in Hm; subst m; reflexivity.
Defined.
