(* ===== verification/Session.v ===== *)
(** * The web server's session store (src/web_interface/app.py)

    [app.py] keeps, for the whole process, the dicts [current_games]
    (user id to the running game, its assistant and a copy of its
    context), [user_data] (user id to the worker's MTurk parameters, bonus
    and number of games completed) and [mturk_users] (worker id to user
    id), and the list [current_model], whose first slot names the
    objective drawn for the game started last.  Each Socket.IO handler
    reads the client's session cookie and the request's query string and
    updates those dicts.

    The dicts are stdpp [gmap]s keyed by [option string], since Python
    lets [None] be a key ([session.get('user_id')] is [None] for a client
    without a cookie); [current_model] keeps its first slot, the only one
    read after it is written.  A handler is a function of the store that
    returns the store it leaves and its outcome ([sm]): as in Python, the
    updates made before an exception stay.  The outbound events are
    appended to [emitted].  Random draws ([np.random.choice],
    [np.random.randint], [generate_random_string], [random.random]) are
    inputs of the handler ([draws]); the data file and prompt files, and
    the language model behind the assistant, are variables of the
    section.  Bonuses are in cents. *)

From Stdlib Require Import String Ascii ZArith List Bool Lia.
From stdpp Require Import base gmap strings.
From S2P Require Import Prelude PyDict PyStr Scoring Validator Player Game WebGame.
Import ListNotations.
Local Open Scope string_scope.
Local Open Scope py_scope.

(** ** [parse_context]

    [ctx.split()], then [int] of the words at even and at odd positions
    ([ctx[0::2]] and [ctx[1::2]]). *)

Fixpoint evens {A : Type} (l : list A) : list A :=
  match l with
  | [] => []
  | x :: r => x :: odds r
  end
with odds {A : Type} (l : list A) : list A :=
  match l with
  | [] => []
  | _ :: r => evens r
  end.

Definition parse_context (ctx : string) : res (list Z * list Z) :=
  let words := split_ws ctx in
  cnts <- mapM py_int (evens words) ;;
  vals <- mapM py_int (odds words) ;;
  Ok (cnts, vals).

(** [{"book": l[0], "hat": l[1], "ball": l[2]}] *)
Definition items_of_list (l : list Z) : res (dict Z) :=
  b <- py_index l 0 ;; h <- py_index l 1 ;; x <- py_index l 2 ;;
  Ok (items b h x).

(** ** The request and the store *)

(** The query string of the request, [request.args]. *)
Definition args : Type := list (string * string).

(** [request.args.get(k)]: the first value given for [k]. *)
Definition args_get (req : args) (k : string) : option string :=
  option_map snd (List.find (fun kv => String.eqb (fst kv) k) req).

(** The dict [mturk_params] builds, with the ["user_cookie"] key that
    [handle_connect] adds ([None] while absent). *)
Record mturk_info : Type := mkMturk {
  assignmentId : option string;
  hitId : option string;
  turkSubmitTo : option string;
  workerId : option string;
  user_cookie : option string
}.

(** [mturk_params]: it always returns a dict, so the [is None] tests of
    its callers never hold. *)
Definition mturk_params (req_params : args) : mturk_info :=
  mkMturk (args_get req_params "assignmentId") (args_get req_params "hitId")
          (args_get req_params "turkSubmitTo") (args_get req_params "workerId") None.

Definition set_user_cookie (c : option string) (m : mturk_info) : mturk_info :=
  mkMturk (assignmentId m) (hitId m) (turkSubmitTo m) (workerId m) c.

(** An entry of [current_games]: the ["game"] and ["assistant"] objects,
    the ["model_id"], ["objective"] and ["mturk_info"] keys.  The
    ["item_counts"], ["user_values"] and ["assistant_values"] keys hold
    the game's own dicts, which nothing mutates, and are read from
    [e_game]; ["start_time"] is not modelled. *)
Record entry : Type := mkEntry {
  e_game : WebNegotiationGame;
  e_assistant : LLMPlayer;
  e_model_id : string;
  e_objective : string;
  e_mturk : mturk_info
}.

(** An entry of [user_data]. *)
Record user_rec : Type := mkUserRec {
  u_mturk : mturk_info;
  bonus_pay : Z;
  num_games_completed : Z
}.

(** The keys [receive_and_respond] adds to a response that ends a game. *)
Record bonus_fields : Type := mkBonus {
  b_bonus_pay : Z;
  b_num_games_completed : Z;
  b_max_games : Z;
  b_game_bonus : Z
}.

(** The events the handlers [emit]. *)
Inductive event : Type :=
| Instructions
| Initialize (counts values : list Z) (game_num max_games earned : Z) (game_mode : string)
| Response (r : web_response) (bonus : option bonus_fields)
| GameOver (r : web_response) (bonus : bonus_fields).

Record store : Type := mkStore {
  current_model : string;
  current_games : gmap (option string) entry;
  user_data : gmap (option string) user_rec;
  mturk_users : gmap (option string) string;
  emitted : list event
}.

Definition set_current_model (m : string) (st : store) : store :=
  mkStore m (current_games st) (user_data st) (mturk_users st) (emitted st).
Definition set_current_games (g : gmap (option string) entry) (st : store) : store :=
  mkStore (current_model st) g (user_data st) (mturk_users st) (emitted st).
Definition set_user_data (u : gmap (option string) user_rec) (st : store) : store :=
  mkStore (current_model st) (current_games st) u (mturk_users st) (emitted st).
Definition set_mturk_users (m : gmap (option string) string) (st : store) : store :=
  mkStore (current_model st) (current_games st) (user_data st) m (emitted st).
Definition set_emitted (e : list event) (st : store) : store :=
  mkStore (current_model st) (current_games st) (user_data st) (mturk_users st) e.

(** The module's state when it is imported: [current_model] is
    [["original", "human", "after", ""]] and the dicts are empty. *)
Definition initial_store : store := mkStore "original" ∅ ∅ ∅ [].

(** ** Handlers: a state monad whose exceptions keep the store *)

Definition sm (A : Type) : Type := store -> store * res A.

Definition sret {A : Type} (a : A) : sm A := fun st => (st, Ok a).

Definition sbind {A B : Type} (m : sm A) (k : A -> sm B) : sm B :=
  fun st => match m st with
            | (st', Ok a) => k a st'
            | (st', Raise e) => (st', Raise e)
            end.

Definition lift {A : Type} (r : res A) : sm A := fun st => (st, r).

Definition modify (f : store -> store) : sm unit := fun st => (f st, Ok tt).

Definition gets {A : Type} (f : store -> A) : sm A := fun st => (st, Ok (f st)).

Declare Scope app_scope.
Delimit Scope app_scope with app.
Notation "x <<- m ;; k" := (sbind m (fun x => k))
  (at level 62, m at next level, right associativity) : app_scope.
Local Open Scope app_scope.

Definition emit (ev : event) : sm unit :=
  modify (fun st => set_emitted (emitted st ++ [ev]) st).

Definition key_name (k : option string) : string :=
  match k with Some s => s | None => "None" end.

(** [current_games[user_id]] and [user_data[user_id]] *)
Definition game_of (user_id : option string) : sm entry :=
  fun st => match current_games st !! user_id with
            | Some e => (st, Ok e)
            | None => (st, Raise (KeyError (key_name user_id)))
            end.

Definition user_of (user_id : option string) : sm user_rec :=
  fun st => match user_data st !! user_id with
            | Some u => (st, Ok u)
            | None => (st, Raise (KeyError (key_name user_id)))
            end.

Definition put_game (user_id : option string) (e : entry) : sm unit :=
  modify (fun st => set_current_games (<[user_id := e]> (current_games st)) st).

Definition put_user (user_id : option string) (u : user_rec) : sm unit :=
  modify (fun st => set_user_data (<[user_id := u]> (user_data st)) st).

(** The outcomes of the random draws a handler makes. *)
Record draws : Type := mkDraws {
  d_model : string;
  d_index : Z;
  d_user_id : string;
  d_first : bool
}.

Definition max_games : Z := 40.

(** The objective [new_game] derives from [current_model[0]]. *)
Definition objective_of_model (m : string) : res string :=
  if String.eqb m "original" then Ok "self"
  else if String.eqb m "cooperative" then Ok "coop"
  else if String.eqb m "competitive" then Ok "comp"
  else Raise (Exception "Invalid objective").

(** The worker already seen: [workerId in mturk_users and workerId !=
    "debug" and workerId is not None]. *)
Definition returning_user (st : store) (mi : mturk_info) : option string :=
  match workerId mi with
  | Some w => if String.eqb w "debug" then None else mturk_users st !! Some w
  | None => None
  end.

(** The user id [update_session_id] resolves the session cookie to. *)
Definition session_user (st : store) (req : args) (session_id : option string) : option string :=
  match returning_user st (mturk_params req) with
  | Some u => Some u
  | None => session_id
  end.

(** The bonus of a finished game, in cents, by the objective of
    [current_model[0]] at the time the game ends. *)
Definition game_bonus (cm : string) (r : web_response) : res Z :=
  if abort r then Ok 25%Z
  else match user_score r with
       | Some s =>
           if (s =? 0)%Z then Ok 10%Z
           else if String.eqb cm "original" then Ok (10 + s * 20)%Z
           else if String.eqb cm "cooperative" then Ok (10 + s * 10)%Z
           else if String.eqb cm "competitive" then Ok (10 + Z.max (s * 30) 0)%Z
           else Ok 0%Z
       | None =>
           if String.eqb cm "original" || String.eqb cm "cooperative"
              || String.eqb cm "competitive"
           then Raise (TypeError "unsupported operand type(s) for *: NoneType and float")
           else Ok 0%Z
       end.

Definition initialize_event (e : entry) (u : user_rec) : event :=
  Initialize (values (item_counts (core (e_game e)))) (values (user_values (e_game e)))
             (num_games_completed u + 1) max_games (bonus_pay u) (e_objective e).

Module App.

Section Handlers.

(** [lines] of [data/selfplay.txt], the prompt files, and the model the
    assistant calls. *)
Variable lines : list string.
Variable read_file : string -> string.
Variable llm : list chat -> nat -> string.

(** [update_session_id] *)
Definition update_session_id (req : args) (session_id : option string) : sm (option string) :=
  gets (fun st => session_user st req session_id).

(** [new_game]: draws the objective into the shared [current_model],
    parses the two context lines, builds the game and its assistant, whose
    two histories start with the game's system prompt, and stores them. *)
Definition new_game (user_id : option string) (mi : mturk_info) (d : draws) : sm unit :=
  _ <<- modify (set_current_model (d_model d)) ;;
  l0 <<- lift (py_index lines (d_index d * 2)) ;;
  c0 <<- lift (parse_context l0) ;;
  l1 <<- lift (py_index lines (d_index d * 2 + 1)) ;;
  c1 <<- lift (parse_context l1) ;;
  objective <<- lift (objective_of_model (d_model d)) ;;
  cnts <<- lift (items_of_list (fst c0)) ;;
  uv <<- lift (items_of_list (snd c0)) ;;
  av <<- lift (items_of_list (snd c1)) ;;
  game <<- lift (web_init (Some cnts) (Some uv) (Some av) objective read_file) ;;
  a <<- lift (init_player (assistant_values game) true llm) ;;
  let sys := mkChat "system" (assistant_system_prompt game) in
  let a := set_messages_log [sys] (set_messages_json [sys] a) in
  _ <<- put_game user_id (mkEntry game a "gpt-3.5-turbo" objective mi) ;;
  emit Instructions.

(** [handle_connect]: a worker seen before gets their user id back;
    anyone else gets the cookie's user id, or a fresh one, and a fresh
    [user_data] record.  The new cookie is returned beside the run. *)
Definition handle_connect (cookie : option string) (req : args) (d : draws)
    (st : store) : option string * (store * res unit) :=
  let mi := mturk_params req in
  match returning_user st mi with
  | Some uid => (cookie, new_game (Some uid) mi d st)
  | None =>
      let uid := match cookie with Some u => u | None => d_user_id d end in
      let mi := set_user_cookie (Some uid) mi in
      (Some uid,
       (_ <<- put_user (Some uid) (mkUserRec mi 0 0) ;;
        _ <<- modify (fun st => set_mturk_users (<[workerId mi := uid]> (mturk_users st)) st) ;;
        new_game (Some uid) mi d) st)
  end.

(** [handle_keep_playing] *)
Definition handle_keep_playing (cookie : option string) (req : args) (d : draws) : sm unit :=
  user_id <<- update_session_id req cookie ;;
  _ <<- new_game user_id (mturk_params req) d ;;
  e <<- game_of user_id ;;
  u <<- user_of user_id ;;
  emit (initialize_event e u).

(** [handle_initialize_game]: half the time the assistant opens. *)
Definition handle_initialize_game (cookie : option string) (req : args) (d : draws) : sm unit :=
  user_id <<- update_session_id req cookie ;;
  e <<- game_of user_id ;;
  u <<- user_of user_id ;;
  _ <<- emit (initialize_event e u) ;;
  if d_first d then
    r <<- lift (WebGame.receive_and_respond None (e_game e) (e_assistant e)) ;;
    let '(response, g, a) := r in
    _ <<- put_game user_id (mkEntry g a (e_model_id e) (e_objective e) (e_mturk e)) ;;
    emit (Response response None)
  else sret tt.

(** [receive_and_respond], the ["user_message"] handler: one round of the
    game; a round that ends the game counts it, credits its bonus and
    removes the session's game. *)
Definition receive_and_respond (cookie : option string) (req : args) (user_message : string)
    : sm unit :=
  user_id <<- update_session_id req cookie ;;
  e <<- game_of user_id ;;
  r <<- lift (WebGame.receive_and_respond (Some user_message) (e_game e) (e_assistant e)) ;;
  let '(response, g, a) := r in
  _ <<- put_game user_id (mkEntry g a (e_model_id e) (e_objective e) (e_mturk e)) ;;
  if r_game_over response then
    u <<- user_of user_id ;;
    let u := mkUserRec (u_mturk u) (bonus_pay u) (num_games_completed u + 1) in
    _ <<- put_user user_id u ;;
    cm <<- gets current_model ;;
    bonus <<- lift (game_bonus cm response) ;;
    let u := mkUserRec (u_mturk u) (bonus_pay u + bonus) (num_games_completed u) in
    _ <<- put_user user_id u ;;
    let b := mkBonus (bonus_pay u) (num_games_completed u) max_games bonus in
    _ <<- modify (fun st => set_current_games (delete user_id (current_games st)) st) ;;
    _ <<- emit (GameOver response b) ;;
    emit (Response response (Some b))
  else emit (Response response None).

(** [handle_disconnect]: the session's game is dropped; a missing game or
    user record raises [KeyError], which the handler catches. *)
Definition handle_disconnect (cookie : option string) (req : args) : sm unit :=
  user_id <<- update_session_id req cookie ;;
  match user_id with
  | None => sret tt
  | Some _ =>
      fun st => match current_games st !! user_id, user_data st !! user_id with
                | Some _, Some _ => (set_current_games (delete user_id (current_games st)) st, Ok tt)
                | _, _ => (st, Ok tt)
                end
  end.

End Handlers.

End App.

(** ** What the handlers promise *)

(** [st'] differs from [st] at most at key [u] of [current_games] and of
    [user_data], and in the events emitted: the shared [current_model] and
    [mturk_users] are as they were. *)
Definition frames (u : option string) (st st' : store) : Prop :=
  current_model st' = current_model st /\ mturk_users st' = mturk_users st /\
  forall v, v <> u ->
    current_games st' !! v = current_games st !! v /\ user_data st' !! v = user_data st !! v.

(** A computation that only touches the session [u]. *)
Definition local {A : Type} (u : option string) (m : sm A) : Prop :=
  forall st, frames u st (fst (m st)).

(** A running session's entry as [new_game] builds it: its objective is
    its game's, and the assistant's two histories start with the game's
    system prompt. *)
Definition entry_ok (e : entry) : Prop :=
  e_objective e = objective (core (e_game e)) /\
  (exists ext, messages_json (e_assistant e) =
               mkChat "system" (assistant_system_prompt (e_game e)) :: ext) /\
  (exists ext, messages_log (e_assistant e) =
               mkChat "system" (assistant_system_prompt (e_game e)) :: ext).

Definition store_ok (st : store) : Prop :=
  map_Forall (fun _ e => entry_ok e) (current_games st).

(** A computation that keeps [store_ok], whatever its outcome. *)
Definition preserves {A : Type} (m : sm A) : Prop :=
  forall st, store_ok st -> store_ok (fst (m st)).

(** The events a client sends, each routed by [@socketio.on] to its
    handler. *)
Inductive request : Type :=
| Connect (cookie : option string) (req : args) (d : draws)
| KeepPlaying (cookie : option string) (req : args) (d : draws)
| InitializeGame (cookie : option string) (req : args) (d : draws)
| UserMessage (cookie : option string) (req : args) (msg : string)
| Disconnect (cookie : option string) (req : args).

Section Server.
Variable lines : list string.
Variable read_file : string -> string.
Variable llm : list chat -> nat -> string.

Definition handle (ev : request) (st : store) : store * res unit :=
  match ev with
  | Connect c req d => snd (App.handle_connect lines read_file llm c req d st)
  | KeepPlaying c req d => App.handle_keep_playing lines read_file llm c req d st
  | InitializeGame c req d => App.handle_initialize_game c req d st
  | UserMessage c req m => App.receive_and_respond c req m st
  | Disconnect c req => App.handle_disconnect c req st
  end.

(** The stores the server can reach from its start, by any sequence of
    events, each handled to its end or to an exception. *)
Inductive reachable : store -> Prop :=
| reachable_initial : reachable initial_store
| reachable_step ev st : reachable st -> reachable (fst (handle ev st)).

End Server.

(** The line of [data/selfplay.txt] for three counts [cs] and values
    [vs]: the numbers interleaved, separated by spaces. *)
Fixpoint interleave (cs vs : list Z) : list Z :=
  match cs, vs with
  | c :: cs', v :: vs' => c :: v :: interleave cs' vs'
  | _, _ => []
  end.

Definition context_line (cs vs : list Z) : string := join_sp (map str_of_Z (interleave cs vs)).

(** ** A concrete server *)

Definition demo_lines : list string := [context_line [1; 2; 3] [4; 1; 2]; context_line [1; 2; 3] [2; 3; 1]]%Z.
Definition demo_prompts (path : string) : string := "prompt".
Definition demo_llm : list chat -> nat -> string :=
  scripted ["[propose] (1 books, 2 hats, 3 balls)"; "[propose] (1 books, 2 hats, 3 balls)"].

(** Alice connects and her game is drawn competitive; then Bob connects
    and his game is drawn original.  Neither has a cookie or a worker id. *)
Definition alice_draws : draws := mkDraws "competitive" 0 "alice" false.
Definition bob_draws : draws := mkDraws "original" 0 "bob" false.

Definition connect_alice : option string * (store * res unit) :=
  App.handle_connect demo_lines demo_prompts demo_llm None [] alice_draws initial_store.

Definition connect_bob : option string * (store * res unit) :=
  App.handle_connect demo_lines demo_prompts demo_llm None [] bob_draws (fst (snd connect_alice)).

Definition after_connects : store := fst (snd connect_bob).

(** Alice gives everything away, and the assistant takes it. *)
Definition alice_gives_up : string := "[propose] (0 books, 0 hats, 0 balls)".

(** ** Lemmas *)

(** *** Locality *)


Lemma frames_refl u st : frames u st st.
Proof. split; [reflexivity|split; [reflexivity|auto]]. Qed.

Lemma frames_trans u st1 st2 st3 : frames u st1 st2 -> frames u st2 st3 -> frames u st1 st3.
Proof.
  intros (M1 & U1 & H1) (M2 & U2 & H2); split; [congruence|split; [congruence|]].
  intros v Hv; destruct (H1 v Hv), (H2 v Hv); split; congruence.
Qed.

Lemma local_sbind {A B} u (m : sm A) (k : A -> sm B) :
  local u m -> (forall a, local u (k a)) -> local u (sbind m k).
Proof.
  intros Hm Hk st; specialize (Hm st); unfold sbind.
  destruct (m st) as [st1 [a|e]]; cbn [fst] in *; [|exact Hm].
  exact (frames_trans _ _ _ _ Hm (Hk a st1)).
Qed.

Lemma local_sret {A} u (a : A) : local u (sret a).
Proof. intros st; apply frames_refl. Qed.
Lemma local_lift {A} u (r : res A) : local u (lift r).
Proof. intros st; apply frames_refl. Qed.
Lemma local_gets {A} u (f : store -> A) : local u (gets f).
Proof. intros st; apply frames_refl. Qed.
Lemma local_emit u ev : local u (emit ev).
Proof. intros st; split; [reflexivity|split; [reflexivity|intros; split; reflexivity]]. Qed.
Lemma local_game_of u : local u (game_of u).
Proof. intros st; unfold game_of; destruct (_ !! u); apply frames_refl. Qed.
Lemma local_user_of u : local u (user_of u).
Proof. intros st; unfold user_of; destruct (_ !! u); apply frames_refl. Qed.
Lemma local_put_game u e : local u (put_game u e).
Proof.
  intros st; split; [reflexivity|split; [reflexivity|]]; intros v Hv; cbn.
  split; [now rewrite lookup_insert_ne by congruence|reflexivity].
Qed.
Lemma local_put_user u r : local u (put_user u r).
Proof.
  intros st; split; [reflexivity|split; [reflexivity|]]; intros v Hv; cbn.
  split; [reflexivity|now rewrite lookup_insert_ne by congruence].
Qed.
Lemma local_delete_game u :
  local u (modify (fun st => set_current_games (delete u (current_games st)) st)).
Proof.
  intros st; split; [reflexivity|split; [reflexivity|]]; intros v Hv; cbn.
  split; [now rewrite lookup_delete_ne by congruence|reflexivity].
Qed.

Create HintDb session.
#[export] Hint Resolve local_sret local_lift local_gets local_emit local_game_of local_user_of
  local_put_game local_put_user local_delete_game : session.

Ltac local_tac :=
  repeat first
    [ apply local_sbind; [|let x := fresh "x" in intros x;
      lazymatch type of x with prod (prod _ _) _ => destruct x as [[? ?] ?] | _ => idtac end]
    | progress auto with session
    | match goal with |- local _ (if ?b then _ else _) => destruct b end ].

Lemma with_session {A} req cookie (k : option string -> sm A) st :
  (forall u, local u (k u)) ->
  frames (session_user st req cookie) st (fst (sbind (App.update_session_id req cookie) k st)).
Proof. intros H; exact (H _ st). Qed.

(** C17: A user message touches only its own session: whatever its
    outcome, exceptions included, the shared [current_model] and
    [mturk_users] are unchanged and every other user's game and record
    are as they were. *)
Theorem receive_and_respond_local cookie req msg st :
  frames (session_user st req cookie) st (fst (App.receive_and_respond cookie req msg st)).
Proof. apply with_session; intros u; local_tac. Qed.

Lemma session_user_frames u st st' req c :
  frames u st st' -> session_user st' req c = session_user st req c.
Proof. intros (_ & Hm & _); unfold session_user, returning_user; now rewrite Hm. Qed.

(** A message that ends the session's game. *)
Lemma game_over_step cookie req msg msg' st st' e r g a :
  current_games st !! session_user st req cookie = Some e ->
  WebGame.receive_and_respond (Some msg) (e_game e) (e_assistant e) = Ok (r, g, a) ->
  r_game_over r = true ->
  App.receive_and_respond cookie req msg st = (st', Ok tt) ->
  exists u b,
    user_data st !! session_user st req cookie = Some u /\
    game_bonus (current_model st) r = Ok b /\
    user_data st' !! session_user st req cookie =
      Some (mkUserRec (u_mturk u) (bonus_pay u + b) (num_games_completed u + 1)) /\
    current_games st' !! session_user st req cookie = None /\
    App.receive_and_respond cookie req msg' st' =
      (st', Raise (KeyError (key_name (session_user st req cookie)))).
Proof.
  intros Hg Hr Ho Hrun.
  pose proof (receive_and_respond_local cookie req msg st) as Hf; rewrite Hrun in Hf; cbn [fst] in Hf.
  cbv [App.receive_and_respond sbind gets lift modify put_game put_user game_of user_of emit
       App.update_session_id] in Hrun.
  rewrite Hg, Hr, Ho in Hrun; cbn [set_current_games user_data current_model] in Hrun.
  destruct (user_data st !! _) as [u|] eqn:Hu; [|discriminate].
  cbn [current_model set_user_data set_current_games user_data] in Hrun.
  destruct (game_bonus (current_model st) r) as [b|] eqn:Hb; [|discriminate].
  injection Hrun as <-.
  exists u, b; split; [reflexivity|split; [reflexivity|]].
  cbn [user_data current_games set_emitted set_current_games set_user_data].
  split; [rewrite lookup_insert_eq; f_equal; cbn; f_equal; lia|].
  split; [apply lookup_delete_eq|].
  cbv [App.receive_and_respond sbind gets game_of App.update_session_id].
  rewrite (session_user_frames _ _ _ _ _ Hf); cbn [current_games set_emitted set_current_games set_user_data].
  now rewrite lookup_delete_eq.
Qed.

(** C18: A message that ends the session's game counts the game, credits
    the bonus [game_bonus] computes from the shared [current_model] (not
    from the session's own objective), and removes the session's game, so
    that every later message of the session raises [KeyError]. *)
Theorem game_over_credits_bonus cookie req msg msg' st st' e r g a :
  current_games st !! session_user st req cookie = Some e ->
  WebGame.receive_and_respond (Some msg) (e_game e) (e_assistant e) = Ok (r, g, a) ->
  r_game_over r = true ->
  App.receive_and_respond cookie req msg st = (st', Ok tt) ->
  exists u b,
    user_data st !! session_user st req cookie = Some u /\
    game_bonus (current_model st) r = Ok b /\
    user_data st' !! session_user st req cookie =
      Some (mkUserRec (u_mturk u) (bonus_pay u + b) (num_games_completed u + 1)) /\
    current_games st' !! session_user st req cookie = None /\
    App.receive_and_respond cookie req msg' st' =
      (st', Raise (KeyError (key_name (session_user st req cookie)))).
Proof. exact (game_over_step cookie req msg msg' st st' e r g a). Qed.

(** *** The invariant of the store *)


Lemma preserves_sbind {A B} (m : sm A) (k : A -> sm B) :
  preserves m -> (forall a, preserves (k a)) -> preserves (sbind m k).
Proof.
  intros Hm Hk st Hs; specialize (Hm st Hs); unfold sbind.
  destruct (m st) as [st1 [a|e]]; cbn [fst] in *; [exact (Hk a st1 Hm)|exact Hm].
Qed.

(** What [game_of] returns is an entry of the store. *)
Lemma preserves_game_of_bind {B} u (k : entry -> sm B) :
  (forall e, entry_ok e -> preserves (k e)) -> preserves (sbind (game_of u) k).
Proof.
  intros Hk st Hs; unfold sbind, game_of.
  destruct (current_games st !! u) as [e|] eqn:E; cbn [fst]; [|exact Hs].
  exact (Hk e (Hs u e E) st Hs).
Qed.

Lemma preserves_lift_bind {A B} (r : res A) (k : A -> sm B) :
  (forall a, r = Ok a -> preserves (k a)) -> preserves (sbind (lift r) k).
Proof.
  intros Hk st Hs; unfold sbind, lift; destruct r as [a|e]; cbn [fst]; [|exact Hs].
  exact (Hk a eq_refl st Hs).
Qed.

Lemma preserves_sret {A} (a : A) : preserves (sret a).
Proof. intros st Hs; exact Hs. Qed.
Lemma preserves_lift {A} (r : res A) : preserves (lift r).
Proof. intros st Hs; exact Hs. Qed.
Lemma preserves_gets {A} (f : store -> A) : preserves (gets f).
Proof. intros st Hs; exact Hs. Qed.
Lemma preserves_emit ev : preserves (emit ev).
Proof. intros st Hs; exact Hs. Qed.
Lemma preserves_user_of u : preserves (user_of u).
Proof. intros st Hs; unfold user_of; destruct (_ !! u); exact Hs. Qed.
Lemma preserves_put_user u r : preserves (put_user u r).
Proof. intros st Hs; exact Hs. Qed.
Lemma preserves_set_model m : preserves (modify (set_current_model m)).
Proof. intros st Hs; exact Hs. Qed.
Lemma preserves_set_mturk f : preserves (modify (fun st => set_mturk_users (f st) st)).
Proof. intros st Hs; exact Hs. Qed.
Lemma preserves_put_game u e : entry_ok e -> preserves (put_game u e).
Proof. intros He st Hs; apply map_Forall_insert_2; [exact He|exact Hs]. Qed.
Lemma preserves_delete_game u :
  preserves (modify (fun st => set_current_games (delete u (current_games st)) st)).
Proof. intros st Hs; apply map_Forall_delete, Hs. Qed.

Lemma preserves_update_session_id req c : preserves (App.update_session_id req c).
Proof. apply preserves_gets. Qed.

Create HintDb session_inv.
#[export] Hint Resolve preserves_sret preserves_lift preserves_gets preserves_emit preserves_user_of
  preserves_put_user preserves_set_model preserves_set_mturk preserves_delete_game
  preserves_update_session_id : session_inv.

(** A round of the web game keeps an entry well formed. *)
Lemma entry_ok_round m e r g a :
  entry_ok e -> WebGame.receive_and_respond m (e_game e) (e_assistant e) = Ok (r, g, a) ->
  entry_ok (mkEntry g a (e_model_id e) (e_objective e) (e_mturk e)).
Proof.
  intros (Ho & (j & Hj) & (l & Hl)) Hr.
  destruct (receive_and_respond_extends _ _ _ _ _ _ Hr) as (Ho' & Hp & (j' & Hj') & (l' & Hl')).
  unfold entry_ok; cbn [e_game e_assistant e_objective]; rewrite Ho', Hp, Hj', Hl', Hj, Hl.
  split; [exact Ho|split; eexists; reflexivity].
Qed.

Ltac preserves_tac :=
  repeat first
    [ progress auto with session_inv
    | apply preserves_game_of_bind; intros ?e ?He
    | apply preserves_lift_bind; let x := fresh "x" in intros x ?Hr;
      lazymatch type of x with prod (prod _ _) _ => destruct x as [[? ?] ?] | _ => idtac end
    | apply preserves_sbind; [|intros ?]
    | match goal with |- preserves (if ?b then _ else _) => destruct b end ].

Lemma web_init_objective c u av obj rf w :
  web_init c u av obj rf = Ok w -> objective (core w) = obj.
Proof.
  unfold web_init; intros H.
  repeat match type of H with
         | bind ?m _ = Ok _ => destruct m; cbn [bind] in H; [|discriminate]
         | match ?x with _ => _ end = Ok _ => destruct x; try discriminate
         end.
  now injection H as <-.
Qed.

Section Inv.
Variable lines : list string.
Variable read_file : string -> string.
Variable llm : list chat -> nat -> string.

Lemma new_game_preserves uid mi d : preserves (App.new_game lines read_file llm uid mi d).
Proof.
  unfold App.new_game; preserves_tac.
  apply preserves_put_game; unfold entry_ok; cbn [e_game e_assistant e_objective].
  match goal with H : web_init _ _ _ _ _ = Ok _ |- _ => rewrite (web_init_objective _ _ _ _ _ _ H) end.
  split; [reflexivity|split; eexists; reflexivity].
Qed.

#[local] Hint Resolve new_game_preserves : session_inv.

Lemma handle_preserves ev : preserves (handle lines read_file llm ev).
Proof.
  destruct ev as [c req d|c req d|c req d|c req m|c req]; intros st Hs; cbn [handle].
  - unfold App.handle_connect; destruct (returning_user st (mturk_params req)).
    + exact (new_game_preserves _ _ _ st Hs).
    + cbn [snd]; revert st Hs; preserves_tac.
  - revert st Hs; unfold App.handle_keep_playing; preserves_tac.
  - revert st Hs; unfold App.handle_initialize_game; preserves_tac.
    apply preserves_put_game; eapply entry_ok_round; eassumption.
  - revert st Hs; unfold App.receive_and_respond; preserves_tac;
      apply preserves_put_game; eapply entry_ok_round; eassumption.
  - revert st Hs; unfold App.handle_disconnect; preserves_tac.
    intros st Hs; destruct (current_games st !! Some s), (user_data st !! Some s); try exact Hs.
    apply map_Forall_delete, Hs.
Qed.

(** C19: Every store the server reaches keeps each running session's
    assistant on its own game: the entry's objective is its game's, and
    the assistant's histories start with that game's system prompt. *)
Theorem reachable_store_ok st : reachable lines read_file llm st -> store_ok st.
Proof.
  induction 1 as [|ev st _ IH]; [apply map_Forall_empty|exact (handle_preserves ev st IH)].
Qed.
End Inv.

(** *** Contexts and [new_game] *)


Lemma evens_odds_map {A B} (f : A -> B) l :
  evens (map f l) = map f (evens l) /\ odds (map f l) = map f (odds l).
Proof.
  induction l as [|x l IH]; [split; reflexivity|].
  cbn [map evens odds]; destruct IH as [-> ->]; split; reflexivity.
Qed.

Lemma evens_odds_interleave cs vs :
  length cs = length vs -> evens (interleave cs vs) = cs /\ odds (interleave cs vs) = vs.
Proof.
  revert vs; induction cs as [|c cs IH]; intros [|v vs] H; try discriminate; [split; reflexivity|].
  cbn [interleave evens odds]; destruct (IH vs) as [-> ->]; [now injection H|split; reflexivity].
Qed.

Lemma str_of_Z_word n : str_of_Z n <> "" /\ all_chars not_space (str_of_Z n) = true.
Proof.
  destruct (Z.ltb_spec n 0) as [Hn|Hn].
  - unfold str_of_Z; rewrite (proj2 (Z.ltb_lt n 0) Hn).
    destruct (nat_digits_spec (S (Z.to_nat (Z.log2 (- n)))) (- n)) as [Hd _]; [lia|lia|].
    split; [discriminate|change ("-" ++ ?x)%string with (String "-"%char x); cbn [all_chars]; rewrite digits_not_space by exact Hd; reflexivity].
  - destruct (str_of_Z_digits n Hn) as [Hd Hne]; split; [exact Hne|now apply digits_not_space].
Qed.

Lemma mapM_py_int_str l : mapM py_int (map str_of_Z l) = Ok l.
Proof.
  induction l as [|x l IH]; [reflexivity|]; cbn [map mapM].
  rewrite py_int_str_of_Z; cbn [bind]; rewrite IH; reflexivity.
Qed.

(** [parse_context] reads back the counts and values of a context
    line: [int] of the words of [" ".join(map(str, ...))] at even and odd
    positions. *)
Theorem parse_context_roundtrip cs vs :
  length cs = length vs -> parse_context (context_line cs vs) = Ok (cs, vs).
Proof.
  intros Hl; unfold parse_context, context_line.
  rewrite split_ws_join
    by (apply List.Forall_forall; intros t Ht; apply in_map_iff in Ht as (n & <- & _); apply str_of_Z_word).
  destruct (evens_odds_map str_of_Z (interleave cs vs)) as [-> ->].
  destruct (evens_odds_interleave cs vs Hl) as [-> ->].
  rewrite !mapM_py_int_str; reflexivity.
Qed.

Lemma objective_of_model_prompt m obj :
  objective_of_model m = Ok obj -> exists p, prompt_of_objective obj = Ok p.
Proof.
  unfold objective_of_model; destruct (String.eqb m "original"); [intros [= <-]; eexists; reflexivity|].
  destruct (String.eqb m "cooperative"); [intros [= <-]; eexists; reflexivity|].
  destruct (String.eqb m "competitive"); [intros [= <-]; eexists; reflexivity|discriminate].
Qed.

Lemma items_of_list_3 b h l : items_of_list [b; h; l] = Ok (items b h l).
Proof. reflexivity. Qed.

Lemma getitem_items b h l :
  getitem (items b h l) "book" = Ok b /\ getitem (items b h l) "hat" = Ok h /\
  getitem (items b h l) "ball" = Ok l.
Proof. repeat split. Qed.

Section NewGame.
Variable lines : list string.
Variable read_file : string -> string.
Variable llm : list chat -> nat -> string.

(** C33: [new_game] on two context lines of [data/selfplay.txt] and an
    objective drawn among the three stores, under the user id, a game
    whose counts and values are the numbers of the lines (the user's from
    the first line, the assistant's from the second), with the drawn
    objective, and an assistant that knows the game's system prompt; it
    writes the draw into the shared [current_model] and emits
    ["instructions"], and touches nothing else. *)
Theorem new_game_spec uid mi d st c0 c1 c2 u0 u1 u2 x0 x1 x2 a0 a1 a2 obj :
  py_index lines (d_index d * 2) = Ok (context_line [c0; c1; c2] [u0; u1; u2]) ->
  py_index lines (d_index d * 2 + 1) = Ok (context_line [x0; x1; x2] [a0; a1; a2]) ->
  objective_of_model (d_model d) = Ok obj ->
  (forall p b h l b' h' l', exists s, py_format (read_file p)
     [("book_cnt", b); ("hat_cnt", h); ("ball_cnt", l);
      ("book_val", b'); ("hat_val", h'); ("ball_val", l')] = Ok s) ->
  exists e,
    App.new_game lines read_file llm uid mi d st =
      (mkStore (d_model d) (<[uid := e]> (current_games st)) (user_data st) (mturk_users st)
               (emitted st ++ [Instructions]), Ok tt) /\
    item_counts (core (e_game e)) = items c0 c1 c2 /\ user_values (e_game e) = items u0 u1 u2 /\
    assistant_values (e_game e) = items a0 a1 a2 /\ e_objective e = obj /\ entry_ok e.
Proof.
  intros H0 H1 Ho Hf.
  destruct (objective_of_model_prompt _ _ Ho) as (p & Hp).
  destruct (Hf p (str_of_Z c0) (str_of_Z c1) (str_of_Z c2) (str_of_Z a0) (str_of_Z a1) (str_of_Z a2))
    as (s & Hs).
  cbv [App.new_game sbind modify lift put_game emit].
  rewrite H0, H1, !parse_context_roundtrip, Ho by reflexivity.
  cbn [fst snd bind]; rewrite !items_of_list_3; cbn [bind].
  unfold web_init; rewrite Hp; cbn [bind].
  destruct (getitem_items c0 c1 c2) as (-> & -> & ->), (getitem_items a0 a1 a2) as (-> & -> & ->).
  cbn [bind]; rewrite Hs; cbn [bind].
  eexists; split; [reflexivity|].
  cbn; split; [reflexivity|split; [reflexivity|split; [reflexivity|split; [reflexivity|]]]].
  split; [reflexivity|split; eexists; reflexivity].
Qed.
(** [new_game] writes [current_model] before anything can raise, and
    otherwise touches only its own user's game. *)
Lemma frames_after_modify {B} u (f : store -> store) (k : unit -> sm B) st :
  (forall x, local u (k x)) -> frames u (f st) (fst (sbind (modify f) k st)).
Proof. intros Hk; exact (Hk tt (f st)). Qed.

Lemma new_game_frames uid mi d st :
  frames uid (set_current_model (d_model d) st) (fst (App.new_game lines read_file llm uid mi d st)).
Proof. apply frames_after_modify; intros _; cbv zeta; local_tac. Qed.

(** C16: Sessions are not independent, as the spec's concurrency model
    requires: whenever a user starts a game ([new_game], whatever its
    outcome), a game of any other session that ends afterwards is paid at
    the rate of the objective that user drew, not at its own.  (With
    Alice's competitive game and Bob's original draw, Alice's score of -11
    pays -210 cents where the competitive rate pays 10.) *)
Theorem sessions_share_current_model uid mi d st cookie req msg e r g a st2 :
  session_user st req cookie <> uid ->
  current_games st !! session_user st req cookie = Some e ->
  WebGame.receive_and_respond (Some msg) (e_game e) (e_assistant e) = Ok (r, g, a) ->
  r_game_over r = true ->
  App.receive_and_respond cookie req msg (fst (App.new_game lines read_file llm uid mi d st)) =
    (st2, Ok tt) ->
  exists u b, user_data st !! session_user st req cookie = Some u /\
    game_bonus (d_model d) r = Ok b /\
    user_data st2 !! session_user st req cookie =
      Some (mkUserRec (u_mturk u) (bonus_pay u + b) (num_games_completed u + 1)).
Proof.
  intros Hne Hg Hr Ho Hrun.
  destruct (new_game_frames uid mi d st) as (Hm & Hmt & Hv).
  set (st1 := fst (App.new_game lines read_file llm uid mi d st)) in *.
  assert (Hs : session_user st1 req cookie = session_user st req cookie)
    by (unfold session_user, returning_user; now rewrite Hmt).
  destruct (Hv _ Hne) as [Hge Hue]; cbn [current_games user_data set_current_model] in Hge, Hue.
  destruct (game_over_step cookie req msg msg st1 st2 e r g a) as (u & b & Hu & Hb & Hu2 & _);
    [now rewrite Hs, Hge|exact Hr|exact Ho|exact Hrun|].
  exists u, b; rewrite Hs in Hu, Hu2; rewrite Hm in Hb; rewrite Hue in Hu; auto.
Qed.

End NewGame.

(** ** Witnesses *)

Lemma sessions_share_current_model_witness :
  exists e r g a st2,
    session_user (fst (snd connect_alice)) [] (Some "alice") <> Some "bob" /\
    current_games (fst (snd connect_alice)) !! session_user (fst (snd connect_alice)) [] (Some "alice")
      = Some e /\
    WebGame.receive_and_respond (Some alice_gives_up) (e_game e) (e_assistant e) = Ok (r, g, a) /\
    r_game_over r = true /\
    App.receive_and_respond (Some "alice") [] alice_gives_up
      (fst (App.new_game demo_lines demo_prompts demo_llm (Some "bob") (mturk_params []) bob_draws
              (fst (snd connect_alice)))) = (st2, Ok tt) /\
    exists u b, user_data (fst (snd connect_alice)) !! session_user (fst (snd connect_alice)) [] (Some "alice")
                  = Some u /\
      game_bonus (d_model bob_draws) r = Ok b /\
      user_data st2 !! session_user (fst (snd connect_alice)) [] (Some "alice") =
        Some (mkUserRec (u_mturk u) (bonus_pay u + b) (num_games_completed u + 1)).
Proof.
  assert (Hne : session_user (fst (snd connect_alice)) [] (Some "alice") <> Some "bob")
    by (vm_compute; discriminate).
  destruct (current_games (fst (snd connect_alice)) !! session_user (fst (snd connect_alice)) [] (Some "alice"))
    as [e|] eqn:He; [|vm_compute in He; discriminate].
  destruct (WebGame.receive_and_respond (Some alice_gives_up) (e_game e) (e_assistant e))
    as [[[r g] a]|x] eqn:Hr;
    [|pose proof He as V; vm_compute in V; injection V as <-; vm_compute in Hr; discriminate].
  destruct (App.receive_and_respond (Some "alice") [] alice_gives_up
      (fst (App.new_game demo_lines demo_prompts demo_llm (Some "bob") (mturk_params []) bob_draws
              (fst (snd connect_alice))))) as [st2 o] eqn:Hrun.
  assert (Ho : o = Ok tt) by (pose proof Hrun as V; vm_compute in V; now injection V as _ <-); subst o.
  assert (Hg : r_game_over r = true)
    by (pose proof He as V; vm_compute in V; injection V as <-; vm_compute in Hr;
        injection Hr as <- _ _; reflexivity).
  exists e, r, g, a, st2.
  split; [exact Hne|split; [first [exact He|reflexivity]|split; [exact Hr|split; [exact Hg|]]]].
  split; [first [exact Hrun|reflexivity]|].
  exact (sessions_share_current_model demo_lines demo_prompts demo_llm _ _ _ _ _ _ _ _ _ _ _ _
           Hne He Hr Hg Hrun).
Defined.

Lemma game_over_credits_bonus_witness :
  exists st' e r g a,
    current_games after_connects !! session_user after_connects [] (Some "alice") = Some e /\
    WebGame.receive_and_respond (Some alice_gives_up) (e_game e) (e_assistant e) = Ok (r, g, a) /\
    r_game_over r = true /\
    App.receive_and_respond (Some "alice") [] alice_gives_up after_connects = (st', Ok tt) /\
    exists u b,
      user_data after_connects !! session_user after_connects [] (Some "alice") = Some u /\
      game_bonus (current_model after_connects) r = Ok b /\
      user_data st' !! session_user after_connects [] (Some "alice") =
        Some (mkUserRec (u_mturk u) (bonus_pay u + b) (num_games_completed u + 1)) /\
      current_games st' !! session_user after_connects [] (Some "alice") = None /\
      App.receive_and_respond (Some "alice") [] "hello" st' =
        (st', Raise (KeyError (key_name (session_user after_connects [] (Some "alice"))))).
Proof.
  destruct (current_games after_connects !! session_user after_connects [] (Some "alice"))
    as [e|] eqn:He; [|vm_compute in He; discriminate].
  destruct (WebGame.receive_and_respond (Some alice_gives_up) (e_game e) (e_assistant e))
    as [[[r g] a]|x] eqn:Hr;
    [|pose proof He as V; vm_compute in V; injection V as <-; vm_compute in Hr; discriminate].
  destruct (App.receive_and_respond (Some "alice") [] alice_gives_up after_connects)
    as [st' o] eqn:Hrun.
  assert (Ho : o = Ok tt) by (pose proof Hrun as V; vm_compute in V; now injection V as _ <-); subst o.
  assert (Hg : r_game_over r = true)
    by (pose proof He as V; vm_compute in V; injection V as <-; vm_compute in Hr;
        injection Hr as <- _ _; reflexivity).
  exists st', e, r, g, a.
  split; [first [exact He|reflexivity]|split; [exact Hr|split; [exact Hg|]]].
  split; [first [exact Hrun|reflexivity]|].
  exact (game_over_credits_bonus _ _ _ _ _ _ _ _ _ _ He Hr Hg Hrun).
Defined.

Lemma reachable_store_ok_witness :
  reachable demo_lines demo_prompts demo_llm after_connects /\ store_ok after_connects.
Proof.
  assert (H : reachable demo_lines demo_prompts demo_llm after_connects)
    by exact (reachable_step _ _ _ (Connect None [] bob_draws) _
               (reachable_step _ _ _ (Connect None [] alice_draws) _ (reachable_initial _ _ _))).
  split; [exact H|exact (reachable_store_ok _ _ _ _ H)].
Defined.

Lemma parse_context_roundtrip_witness :
  length [1; 2; 3]%Z = length [4; 1; 2]%Z /\
  parse_context (context_line [1; 2; 3] [4; 1; 2])%Z = Ok ([1; 2; 3], [4; 1; 2])%Z.
Proof. split; [reflexivity|apply parse_context_roundtrip; reflexivity]. Defined.

Lemma new_game_spec_witness :
  py_index demo_lines (d_index alice_draws * 2) = Ok (context_line [1; 2; 3] [4; 1; 2])%Z /\
  py_index demo_lines (d_index alice_draws * 2 + 1) = Ok (context_line [1; 2; 3] [2; 3; 1])%Z /\
  objective_of_model (d_model alice_draws) = Ok "comp" /\
  exists e,
    App.new_game demo_lines demo_prompts demo_llm (Some "alice") (mturk_params []) alice_draws initial_store =
      (mkStore (d_model alice_draws) (<[Some "alice" := e]> (current_games initial_store))
               (user_data initial_store) (mturk_users initial_store)
               (emitted initial_store ++ [Instructions]), Ok tt) /\
    item_counts (core (e_game e)) = items 1 2 3 /\ user_values (e_game e) = items 4 1 2 /\
    assistant_values (e_game e) = items 2 3 1 /\ e_objective e = "comp" /\ entry_ok e.
Proof.
  split; [reflexivity|split; [reflexivity|split; [reflexivity|]]].
  eapply new_game_spec; [reflexivity|reflexivity|reflexivity|].
  intros; eexists; reflexivity.
Defined.
