(* ===== verification/Analysis.v ===== *)
(** * The transcript analyzer (src/analysis.py) and the fine-tuning filter
    (src/utils.py)

    [analysis.analyze] reads a batch directory written by
    [play.simulate_trials]: the score ledgers [p0_scores] and [p1_scores]
    (one integer per line), the summary [results/<index>.json] and the
    full text log [text_logs/<index>_full.txt] of each game, and computes
    the statistics of the whole batch, of the games that ended in a valid
    deal, and of the scores above the batch mean.  [utils.concatenate]
    selects, with a cutoff, the transcripts [json_logs/<index>_p<i>.json]
    that go into the fine-tuning file.  [create_csv] analyzes a fixed
    list of directories and rounds the statistics to four decimals;
    [utils.calculate_dataset_ceiling_performance] averages the maximum
    collective score of every summary.

    A batch directory is a record of its files ([batch]); a JSON summary
    is a record with the keys [play.py] writes.  Python's float results
    ([np.mean], [np.median], [/]) are exact rationals [Q]; [None] stands
    for NaN, the mean and median of an empty list; a transcript file
    created and not yet written is [None], which [json.load] rejects.  The
    game index [("000" + str(i))[-3:]] is [game_index]; [batch_ok]
    describes the directories [Trials.simulate_trials] writes, on which
    [analyze] always returns ([analyze_total]). *)

From Stdlib Require Import String Ascii ZArith List Bool Lia QArith.
From S2P Require Import Prelude PyDict PyStr Scoring Pareto Validator.
Import ListNotations.
Local Open Scope string_scope.
Local Open Scope py_scope.
Local Open Scope list_scope.

(** ** Indices and files *)

(** [("000" + str(i))[-3:]] *)
Definition game_index (i : Z) : string := slice_last 3 ("000" ++ str_of_Z i)%string.

(** The summary [play.simulate_trials] writes to [results/<index>.json]. *)
Record result_json : Type := mkResult {
  r_counts : dict Z;
  r_p0_values : dict Z;
  r_p1_values : dict Z;
  r_p0_allocation : option (dict Z);
  r_p1_allocation : option (dict Z);
  r_p0_score : option Z;
  r_p1_score : option Z;
  r_message_count : Z;
  r_token_count : Z;
  r_is_valid_deal : bool
}.

(** A batch directory: the lines of the two score ledgers, the files of
    [results/] in the order [os.listdir] gives them, the full text logs
    and the players' JSON transcripts, by file name ([None] for a file
    created empty and not yet written). *)
Record batch : Type := mkBatch {
  p0_lines : list string;
  p1_lines : list string;
  results : dict result_json;
  text_logs : dict string;
  json_logs : dict (option (list chat))
}.

(** [open(path)] of a file of the directory. *)
Definition read_file {V : Type} (dir : dict V) (name : string) : res V :=
  match lookup dir name with
  | Some v => Ok v
  | None => Raise (FileNotFoundError name)
  end.

(** [json.load] of a transcript file: an empty file is not JSON
    ([json.JSONDecodeError], a [ValueError]). *)
Definition json_load (f : option (list chat)) : res (list chat) :=
  match f with Some l => Ok l | None => Raise ValueError end.

(** [[int(line.strip()) for line in f]] *)
Definition read_ints (lines : list string) : res (list Z) := mapM py_int lines.

(** ** Float arithmetic as rationals *)

Definition py_mean (l : list Z) : option Q :=
  match l with
  | [] => None
  | _ => Some (inject_Z (py_sum l) / inject_Z (Z.of_nat (length l)))%Q
  end.

Fixpoint insert_sorted (x : Z) (l : list Z) : list Z :=
  match l with
  | [] => [x]
  | y :: r => if (x <=? y)%Z then x :: l else y :: insert_sorted x r
  end.

Definition sort_Z (l : list Z) : list Z := fold_right insert_sorted [] l.

(** [np.median]: the middle of the sorted list, or the mean of the two
    middle elements. *)
Definition py_median (l : list Z) : option Q :=
  let s := sort_Z l in
  let n := length s in
  match n with
  | O => None
  | _ => if Nat.even n
         then Some ((inject_Z (nth (n / 2 - 1)%nat s 0%Z) + inject_Z (nth (n / 2)%nat s 0%Z)) / 2)%Q
         else Some (inject_Z (nth (n / 2)%nat s 0%Z))
  end.

(** [a / b] on two integers *)
Definition py_div (a b : Z) : res Q :=
  if (b =? 0)%Z then Raise ZeroDivisionError else Ok (inject_Z a / inject_Z b)%Q.

(** [x > cutoff]: false when the cutoff is NaN. *)
Definition gt_cutoff (x : Z) (cutoff : option Q) : bool :=
  match cutoff with
  | Some c => negb (Qle_bool (inject_Z x) c)
  | None => false
  end.

(** [[l[i] for i in idx]] *)
Definition select (l : list Z) (idx : list Z) : res (list Z) := mapM (py_index l) idx.

(** ** [analysis.analyze] *)

(** What the loop over [range(len(p0_array))] gathers: the games with a
    valid deal, the token and message counts of every game, and the
    games whose text log contains "[ABORT]". *)
Record scan : Type := mkScan {
  agreement_indices : list Z;
  token_counts : list Z;
  msg_counts : list Z;
  num_aborts : Z
}.

Definition scan_game (b : batch) (acc : scan) (i : Z) : res scan :=
  let index := game_index i in
  result <- read_file (results b) (index ++ ".json")%string ;;
  text <- read_file (text_logs b) (index ++ "_full.txt")%string ;;
  Ok (mkScan (if r_is_valid_deal result then agreement_indices acc ++ [i] else agreement_indices acc)
             (token_counts acc ++ [r_token_count result])
             (msg_counts acc ++ [r_message_count result])
             (if contains "[ABORT]" text then num_aborts acc + 1 else num_aborts acc)%Z).

(** One file of [os.listdir(results)]: its game's scores are looked up by
    the first three characters of the file name, and the game counts when
    [utils.isParetoOptimal] says so; an exception of the check is caught
    by the bare [except] and the game is skipped. *)
Definition pareto_step (p0_array p1_array : list Z) (objective : string) (num_optimal : Z)
    (file : string * result_json) : res Z :=
  let '(filename, result) := file in
  game_idx <- py_int (slice_to 3 filename) ;;
  p0_score <- py_index p0_array game_idx ;;
  p1_score <- py_index p1_array game_idx ;;
  match isParetoOptimal p0_score p1_score (r_counts result) (r_p0_values result)
          (r_p1_values result) objective with
  | Ok true => Ok (num_optimal + 1)%Z
  | Ok false => Ok num_optimal
  | Raise _ => Ok num_optimal
  end.

(** One index of the above-average loop: [p0_array[i] > cutoff], then
    [p1_array[i] > cutoff]. *)
Definition above_step (p0_array p1_array : list Z) (cutoff : option Q)
    (acc : list Z * list Z) (i : Z) : res (list Z * list Z) :=
  x0 <- py_index p0_array i ;;
  let good0 := if gt_cutoff x0 cutoff then fst acc ++ [i] else fst acc in
  x1 <- py_index p1_array i ;;
  Ok (good0, if gt_cutoff x1 cutoff then snd acc ++ [i] else snd acc).

Record total_stats : Type := mkTotal {
  t_mean : option Q;
  t_median : option Q;
  t_length_in_msgs : option Q;
  t_length_in_tkns : option Q;
  t_abort_rate : Q
}.

Record agreement_stats : Type := mkAgreement {
  a_mean : option Q;
  a_median : option Q;
  a_length_in_msgs : option Q;
  a_length_in_tkns : option Q;
  a_proportion_agreement : Q;
  a_proportion_pareto_opt : Q
}.

Record above_avg_stats : Type := mkAboveAvg {
  v_mean : option Q;
  v_median : option Q;
  v_length_in_msgs : option Q;
  v_length_in_tkns : option Q;
  v_proportion_above_avg : Q
}.

Record analysis : Type := mkAnalysis {
  total : total_stats;
  agreement : agreement_stats;
  above_avg : above_avg_stats
}.

Definition analyze (b : batch) (objective : string) : res analysis :=
  p0_array <- read_ints (p0_lines b) ;;
  p1_array <- read_ints (p1_lines b) ;;
  let full_scores := p0_array ++ p1_array in
  let games := py_range (Z.of_nat (length p0_array)) in
  sc <- foldM (scan_game b) (mkScan [] [] [] 0) games ;;
  agreement_scores_p0 <- select p0_array (agreement_indices sc) ;;
  agreement_scores_p1 <- select p1_array (agreement_indices sc) ;;
  let agreement_scores := agreement_scores_p0 ++ agreement_scores_p1 in
  proportion_agreement <- py_div (Z.of_nat (length agreement_scores)) (Z.of_nat (length full_scores)) ;;
  abort_rate <- py_div (num_aborts sc) (Z.of_nat (length p0_array)) ;;
  let total_stats := mkTotal (py_mean full_scores) (py_median full_scores)
                             (py_mean (msg_counts sc)) (py_mean (token_counts sc)) abort_rate in
  agreement_message_counts <- select (msg_counts sc) (agreement_indices sc) ;;
  agreement_token_counts <- select (token_counts sc) (agreement_indices sc) ;;
  num_optimal <- foldM (pareto_step p0_array p1_array objective) 0%Z (results b) ;;
  proportion_pareto_opt <- py_div num_optimal (Z.of_nat (length p0_array)) ;;
  let agreement_stats :=
    mkAgreement (py_mean agreement_scores) (py_median agreement_scores)
                (py_mean agreement_message_counts) (py_mean agreement_token_counts)
                proportion_agreement proportion_pareto_opt in
  let cutoff := py_mean (p0_array ++ p1_array) in
  '(p0_good, p1_good) <- foldM (above_step p0_array p1_array cutoff) ([], []) games ;;
  p0_above_avg_scores <- select p0_array p0_good ;;
  p1_above_avg_scores <- select p1_array p1_good ;;
  let all_above_avg_scores := p0_above_avg_scores ++ p1_above_avg_scores in
  proportion_above_avg <- py_div (Z.of_nat (length all_above_avg_scores)) (Z.of_nat (length full_scores)) ;;
  above_avg_message_counts <- select (msg_counts sc) (agreement_indices sc) ;;
  above_avg_token_counts <- select (token_counts sc) (agreement_indices sc) ;;
  Ok (mkAnalysis total_stats agreement_stats
        (mkAboveAvg (py_mean all_above_avg_scores) (py_median all_above_avg_scores)
                    (py_mean above_avg_message_counts) (py_mean above_avg_token_counts)
                    proportion_above_avg)).

(** [analysis.calculate_avg_score] *)
Definition calculate_avg_score (b : batch) (filter_zeros : bool) : res (option Q) :=
  p0_array <- read_ints (p0_lines b) ;;
  p1_array <- read_ints (p1_lines b) ;;
  let full_scores := p0_array ++ p1_array in
  Ok (py_mean (if filter_zeros then filter (fun x => 0 <? x)%Z full_scores else full_scores)).

(** ** [utils.concatenate] *)

Definition concatenate_cutoff (filter : string) (p0_array p1_array : list Z) : res (option Q) :=
  if filter =? "above_avg" then Ok (py_mean (p0_array ++ p1_array))
  else if filter =? "nonzero" then Ok (Some 0%Q)
  else if filter =? "all" then Ok (Some (-100)%Q)
  else Raise (Exception "").

(** One index of the selection loop.  With the competitive objective a
    game where both players scored 0 is kept when its summary records a
    valid deal; [p1_array[i]] and the summary are only read when the
    conditions before them hold. *)
Definition concat_step (b : batch) (is_comp : bool) (p0_array p1_array : list Z)
    (cutoff : option Q) (acc : list Z * list Z) (i : Z) : res (list Z * list Z) :=
  x0 <- py_index p0_array i ;;
  include <- (if is_comp && (x0 =? 0)%Z then
                x1 <- py_index p1_array i ;;
                if (x1 =? 0)%Z then
                  result <- read_file (results b) (game_index i ++ ".json")%string ;;
                  Ok (r_is_valid_deal result)
                else Ok false
              else Ok false) ;;
  let good0 := if gt_cutoff x0 cutoff || include then fst acc ++ [i] else fst acc in
  x1 <- py_index p1_array i ;;
  Ok (good0, if gt_cutoff x1 cutoff || include then snd acc ++ [i] else snd acc).

(** The transcripts [concatenate] appends to [game_data.jsonl], in order:
    player 0's of the selected games, then player 1's. *)
Definition concatenate (b : batch) (filter : string) (is_comp : bool) : res (list (list chat)) :=
  p0_array <- read_ints (p0_lines b) ;;
  p1_array <- read_ints (p1_lines b) ;;
  cutoff <- concatenate_cutoff filter p0_array p1_array ;;
  '(p0_good_games, p1_good_games) <-
    foldM (concat_step b is_comp p0_array p1_array cutoff) ([], [])
          (py_range (Z.of_nat (length p0_array))) ;;
  logs0 <- mapM (fun i => f <- read_file (json_logs b) (game_index i ++ "_p0.json")%string ;;
                          json_load f) p0_good_games ;;
  logs1 <- mapM (fun i => f <- read_file (json_logs b) (game_index i ++ "_p1.json")%string ;;
                          json_load f) p1_good_games ;;
  Ok (logs0 ++ logs1).

(** ** [utils.calculate_dataset_ceiling_performance] and [utils.calculate_avg_score] *)

(** [np.mean] of a list of floats *)
Definition py_mean_Q (l : list Q) : option Q :=
  match l with
  | [] => None
  | _ => Some (fold_left Qplus l 0 / inject_Z (Z.of_nat (length l)))%Q
  end.

(** [utils.calculate_dataset_ceiling_performance]: the maximum collective
    score of the game of every summary in [results/], averaged. *)
Definition calculate_dataset_ceiling_performance (b : batch) (objective : string) : res (option Q) :=
  best_combined_scores <-
    mapM (fun '(_, results_json) =>
            calculate_maximum_collective_score (r_counts results_json) (r_p0_values results_json)
                                               (r_p1_values results_json) objective) (results b) ;;
  Ok (py_mean_Q best_combined_scores).

(** [utils.calculate_avg_score] on the lines of one score file *)
Definition utils_calculate_avg_score (lines : list string) : res (option Q) :=
  scores <- read_ints lines ;;
  Ok (py_mean scores).

(** ** [analysis.create_csv] *)

(** [round(x, 4)] on the exact value: the nearest multiple of 1/10000,
    ties to even. *)
Definition py_round4 (x : Q) : Q :=
  let n := (Qnum x * 10000)%Z in
  let d := Zpos (Qden x) in
  let fl := (n / d)%Z in
  let r := (n mod d)%Z in
  let k := if (2 * r <? d)%Z then fl
           else if (d <? 2 * r)%Z then (fl + 1)%Z
           else if Z.even fl then fl else (fl + 1)%Z in
  (inject_Z k / 10000)%Q.

(** The dict [create_csv] appends for one batch directory. *)
Record csv_row : Type := mkRow {
  model_id : string;
  total_mean : option Q;
  total_median : option Q;
  total_avg_length_in_tokens : option Q;
  total_avg_length_in_msgs : option Q;
  agreement_proportion : Q;
  pareto_optimal_proportion : Q;
  filtered_mean : option Q;
  filtered_median : option Q;
  filtered_length_in_tokens : option Q;
  filtered_length_in_msgs : option Q;
  proportion_filtered : Q
}.

Definition original_iterations : list string :=
  ["data/original/gpt-4"; "data/original/9DNgwMlN"; "data/original/9PKMibHw";
   "data/original/9PMs4x7S"; "data/original/9POn9NJZ"; "data/original/9PaMUea6";
   "data/original/9PbPTeHK"].
Definition human_iterations : list string :=
  ["data/human/9Oz63Fnh"; "data/human/9P0ZKcST"; "data/human/9P2L5ZJB";
   "data/human/9P4MWWOv"; "data/human/9PaOW5rD"; "data/human/9PbQfBu5"].
Definition coop_iterations : list string :=
  ["data/cooperative/gpt-4"; "data/cooperative/9PvRpiad"; "data/cooperative/9PxbGFd4";
   "data/cooperative/9Pz8kevY"; "data/cooperative/9Q0sxpON"].
Definition human_coop_iterations : list string :=
  ["data/human_coop/9Oz63Fnh"; "data/human_coop/9Q4UFafd"; "data/human_coop/9Q6zHBm4";
   "data/human_coop/9Q8j5r5o"].

(** The row of one directory's analysis. *)
Definition csv_row_of (iteration_path : string) (results : analysis) : res csv_row :=
  pieces <- py_split "/" iteration_path ;;
  let t := total results in
  let a := agreement results in
  let v := above_avg results in
  Ok (mkRow (last_piece pieces)
            (option_map py_round4 (t_mean t)) (t_median t)
            (option_map py_round4 (t_length_in_tkns t)) (option_map py_round4 (t_length_in_msgs t))
            (py_round4 (a_proportion_agreement a)) (py_round4 (a_proportion_pareto_opt a))
            (option_map py_round4 (v_mean v)) (option_map py_round4 (v_median v))
            (option_map py_round4 (v_length_in_tkns v)) (option_map py_round4 (v_length_in_msgs v))
            (py_round4 (v_proportion_above_avg v))).

(** [analysis.create_csv]: the rows it writes, one per directory of the
    chosen list; [dirs] gives the batch directory at a path.  An
    objective outside the four lists leaves [iterations] unbound. *)
Definition create_csv (dirs : string -> option batch) (objective : string) : res (list csv_row) :=
  iterations <- (if objective =? "orig" then Ok original_iterations
                 else if objective =? "coop" then Ok coop_iterations
                 else if objective =? "human" then Ok human_iterations
                 else if objective =? "human_coop" then Ok human_coop_iterations
                 else Raise (UnboundLocalError "iterations")) ;;
  mapM (fun iteration_path =>
          b <- match dirs iteration_path with
               | Some b => Ok b
               | None => Raise (FileNotFoundError (iteration_path ++ "/p0_scores"))
               end ;;
          results <- analyze b "orig" ;;
          csv_row_of iteration_path results) iterations.

(** ** A concrete batch

    Two games with a valid deal: in game 0 both players score 8 after 10
    messages, in game 1 both score 1 after 2 messages. *)

Definition two_game_result (score msgs : Z) : result_json :=
  mkResult (items 1 2 3) (items 4 1 2) (items 2 3 1) (Some (items 0 2 0)) (Some (items 1 0 3))
           (Some score) (Some score) msgs (10 * msgs) true.

Definition two_game_batch : batch :=
  mkBatch ["8 "; "1 "] ["8 "; "1 "]
          [("000.json", two_game_result 8 10); ("001.json", two_game_result 1 2)]
          [("000_full.txt", "Player 0: [message] Hello."); ("001_full.txt", "Player 0: [message] Hi.")]
          [].

(** [o] is a number equal to [q]. *)
Definition opt_qeq (o : option Q) (q : Q) : Prop :=
  match o with
  | Some x => (x == q)%Q
  | None => False
  end.

(** A batch directory of [n] games as [simulate_trials] leaves it: an
    integer on each of the [n] lines of both ledgers, the summary and the
    full text log of every game, and no other summary. *)
Definition batch_ok (n : Z) (b : batch) : Prop :=
  (0 <= n <= 1000)%Z /\
  (exists s0, read_ints (p0_lines b) = Ok s0 /\ length s0 = Z.to_nat n) /\
  (exists s1, read_ints (p1_lines b) = Ok s1 /\ length s1 = Z.to_nat n) /\
  (forall i, (0 <= i < n)%Z ->
     lookup (results b) (game_index i ++ ".json")%string <> None /\
     lookup (text_logs b) (game_index i ++ "_full.txt")%string <> None) /\
  (forall f r, In (f, r) (results b) -> exists j, (0 <= j < n)%Z /\ f = (game_index j ++ ".json")%string).

(** ** Lemmas *)


(** A loop whose step only ever returns its accumulator returns it. *)
Lemma foldM_const {A B} (f : A -> B -> res A) a l a' :
  (forall x y z, f x y = Ok z -> z = x) -> foldM f a l = Ok a' -> a' = a.
Proof.
  intros Hf; revert a; induction l as [|x l IH]; intros a H; cbn [foldM] in H.
  - now injection H.
  - destruct (f a x) as [z|e] eqn:E; cbn [bind] in H; [|discriminate].
    rewrite (IH _ H); exact (Hf _ _ _ E).
Qed.

Lemma isParetoOptimal_invalid_objective s0 s1 c v0 v1 o :
  valid_objective o = false -> isParetoOptimal s0 s1 c v0 v1 o = Raise AssertionError.
Proof. intros H; unfold isParetoOptimal; rewrite H; reflexivity. Qed.

Lemma pareto_step_invalid p0 p1 o n f n' :
  valid_objective o = false -> pareto_step p0 p1 o n f = Ok n' -> n' = n.
Proof.
  intros Ho; destruct f as [name r]; unfold pareto_step.
  destruct (py_int _); cbn [bind]; [|discriminate].
  destruct (py_index p0 _); cbn [bind]; [|discriminate].
  destruct (py_index p1 _); cbn [bind]; [|discriminate].
  rewrite isParetoOptimal_invalid_objective by exact Ho; now intros [= <-].
Qed.

Lemma py_div_zero d q : py_div 0 d = Ok q -> (q == 0)%Q.
Proof.
  unfold py_div; destruct (d =? 0)%Z; [discriminate|intros [= <-]].
  unfold Qeq, Qdiv, Qmult; simpl; lia.
Qed.

(** Opens the binds of a successful [analyze] into equations. *)
Ltac analyze_inv H :=
  repeat match type of H with
         | bind ?m _ = Ok _ => destruct m eqn:?; cbn [bind] in H; [|discriminate]
         | match ?x with _ => _ end = Ok _ => destruct x
         end.

(** The Pareto proportion under the objective "orig", the default of
    [analyze]. *)
Lemma analyze_pareto_orig b s :
  analyze b "orig" = Ok s -> (a_proportion_pareto_opt (agreement s) == 0)%Q.
Proof.
  unfold analyze; intros H; analyze_inv H.
  injection H as <-; cbn [agreement a_proportion_pareto_opt].
  match goal with
  | E : foldM (pareto_step ?p0 ?p1 _) 0%Z _ = Ok ?n, D : py_div ?n _ = Ok _ |- _ =>
      rewrite (foldM_const _ _ _ _ (fun x y z => pareto_step_invalid p0 p1 "orig" x y z eq_refl) E) in D;
      exact (py_div_zero _ _ D)
  end.
Qed.

(** C20: [analyze] with the objective "orig", its default and the one
    [create_csv] uses, reports a proportion of Pareto-optimal games of 0
    for every batch: [utils.isParetoOptimal] asserts the objective is one
    of "self", "coop", "comp", and the bare [except] swallows the
    [AssertionError] of every game. *)
Theorem analyze_orig_pareto_zero b s :
  analyze b "orig" = Ok s -> (a_proportion_pareto_opt (agreement s) == 0)%Q.
Proof. exact (analyze_pareto_orig b s). Qed.


Lemma zero_padded_value s :
  digits_value (list_ascii_of_string ("000" ++ s)) = digits_value (list_ascii_of_string s).
Proof. rewrite list_ascii_app; unfold digits_value; rewrite fold_left_app; reflexivity. Qed.

(** The index of game [i] is three digits whose value is [i mod 1000]. *)
Lemma game_index_digits i :
  (0 <= i)%Z ->
  all_chars is_digit (game_index i) = true /\ String.length (game_index i) = 3%nat /\
  int_of_digits (game_index i) = (i mod 1000)%Z.
Proof.
  intros Hi; destruct (str_of_Z_digits i Hi) as [Hd Hne].
  set (l := list_ascii_of_string ("000" ++ str_of_Z i)).
  assert (Hl : forallb is_digit l = true)
    by (unfold l; rewrite list_ascii_app, forallb_app, <- !all_chars_forallb, Hd; reflexivity).
  assert (Hlen : (3 < length l)%nat)
    by (unfold l; rewrite list_ascii_app, length_app, length_list_ascii;
        destruct (str_of_Z i); [congruence|cbn; lia]).
  assert (Hs : list_ascii_of_string (game_index i) = skipn (length l - 3)%nat l)
    by (unfold game_index; rewrite slice_last_list, <- length_list_ascii; reflexivity).
  split; [|split].
  - rewrite all_chars_forallb, Hs.
    rewrite <- (firstn_skipn (length l - 3)%nat l), forallb_app in Hl.
    now apply andb_true_iff in Hl as [_ Hl].
  - rewrite <- length_list_ascii, Hs, length_skipn; lia.
  - change (int_of_digits (game_index i)) with (digits_value (list_ascii_of_string (game_index i))).
    rewrite Hs, digits_value_skipn by exact Hl.
    unfold l; rewrite zero_padded_value.
    change (digits_value (list_ascii_of_string (str_of_Z i))) with (int_of_digits (str_of_Z i)).
    now rewrite int_of_str_of_Z by exact Hi.
Qed.

Lemma game_index_value i : (0 <= i)%Z -> py_int (game_index i) = Ok (i mod 1000)%Z.
Proof.
  intros Hi; destruct (game_index_digits i Hi) as (Hd & Hl & Hv).
  rewrite py_int_digits by (assumption || (intros E; rewrite E in Hl; discriminate)).
  now rewrite Hv.
Qed.

(** C35: Two games get the same index [("000" + str(i))[-3:]] exactly
    when their numbers agree modulo 1000: the first thousand games have
    distinct files, and game [i + 1000] reuses the files of game [i]. *)
Theorem game_index_collision i j :
  (0 <= i)%Z -> (0 <= j)%Z -> game_index i = game_index j <-> (i mod 1000 = j mod 1000)%Z.
Proof.
  intros Hi Hj; destruct (game_index_digits i Hi) as (Hdi & Hli & Hvi),
    (game_index_digits j Hj) as (Hdj & Hlj & Hvj).
  split; [intros E; now rewrite <- Hvi, <- Hvj, E|intros E].
  rewrite <- (string_of_list_ascii_of_string (game_index i)),
    <- (string_of_list_ascii_of_string (game_index j)); f_equal.
  apply digits_value_inj; try (rewrite <- all_chars_forallb; assumption).
  - now rewrite !length_list_ascii, Hli, Hlj.
  - change (int_of_digits (game_index i) = int_of_digits (game_index j)); congruence.
Qed.

(** [calculate_dataset_ceiling_performance] raises [KeyError "books"] on
    every directory with a summary keyed as [play.simulate_trials] writes
    it. *)
Lemma ceiling_keyerror b objective :
  results b <> [] -> Forall (fun fr => lookup (r_counts (snd fr)) "books" = None) (results b) ->
  calculate_dataset_ceiling_performance b objective = Raise (KeyError "books").
Proof.
  unfold calculate_dataset_ceiling_performance; destruct (results b) as [|[f r] rs]; [congruence|].
  intros _ Hf; inversion_clear Hf as [|? ? Hr _]; cbn [mapM snd] in *.
  unfold calculate_maximum_collective_score, max_score_allocations, getitem; now rewrite Hr.
Qed.


Lemma py_round4_zero x : (x == 0)%Q -> (py_round4 x == 0)%Q.
Proof.
  destruct x as [n d]; unfold Qeq; cbn [Qnum Qden]; rewrite Z.mul_1_r; intros ->.
  reflexivity.
Qed.

(** [create_csv] reports a Pareto-optimal proportion of 0 for every
    directory: it calls [analyze] with its default objective "orig". *)
Lemma create_csv_pareto_zero dirs objective rows :
  create_csv dirs objective = Ok rows -> Forall (fun r => pareto_optimal_proportion r == 0)%Q rows.
Proof.
  unfold create_csv; intros H; apply bind_eq_Ok in H; destruct H as (its & _ & H).
  refine (mapM_Forall _ _ _ _ _ H); intros path row _ Hr; py_unfold Hr.
  unfold csv_row_of in Hr; py_unfold Hr; injection Hr as <-; cbn [pareto_optimal_proportion].
  apply py_round4_zero; eapply analyze_pareto_orig; eassumption.
Qed.

(** An objective outside the four lists raises [UnboundLocalError]. *)
Lemma create_csv_unbound dirs objective :
  ~ In objective ["orig"; "coop"; "human"; "human_coop"] ->
  create_csv dirs objective = Raise (UnboundLocalError "iterations").
Proof.
  intros Hn; unfold create_csv.
  repeat match goal with |- context [String.eqb objective ?o] =>
    destruct (String.eqb_spec objective o) as [->|_]; [exfalso; apply Hn; cbn; tauto|] end.
  reflexivity.
Qed.

(** ** Statistics of a concrete batch *)

(** C21: For every batch and objective, [analyze] reports as the
    message and token lengths of the above-average cohort exactly those
    of the agreement cohort (the games with a valid deal): the code
    selects [msg_counts[i] for i in agreement_indices] where the spec asks
    for the above-average games. *)
Theorem analyze_above_avg_uses_agreement b objective s :
  analyze b objective = Ok s ->
  v_length_in_msgs (above_avg s) = a_length_in_msgs (agreement s) /\
  v_length_in_tkns (above_avg s) = a_length_in_tkns (agreement s).
Proof.
  unfold analyze; intros H; analyze_inv H.
  injection H as <-; cbn [above_avg agreement v_length_in_msgs v_length_in_tkns
                          a_length_in_msgs a_length_in_tkns].
  split; f_equal; congruence.
Qed.

(** In [two_game_batch] only game 0, which took 10 messages, is above the
    mean of 4.5, yet the reported length of the above-average games is 6,
    the mean over both agreed games. *)
Example analyze_above_avg_two_games :
  exists s, analyze two_game_batch "self" = Ok s /\
    opt_qeq (v_mean (above_avg s)) 8 /\ (v_proportion_above_avg (above_avg s) == 1 # 2)%Q /\
    opt_qeq (a_length_in_msgs (agreement s)) 6 /\
    opt_qeq (v_length_in_msgs (above_avg s)) 6 /\
    opt_qeq (v_length_in_tkns (above_avg s)) 60.
Proof.
  destruct (analyze two_game_batch "self") as [s|e] eqn:E; [|vm_compute in E; discriminate].
  exists s; split; [reflexivity|].
  pose proof E as V; vm_compute in V; injection V as <-.
  vm_compute; repeat split; reflexivity.
Qed.

(** ** Witnesses *)

Lemma game_index_collision_witness :
  (0 <= 1000)%Z /\ (0 <= 0)%Z /\ game_index 1000 = game_index 0.
Proof.
  split; [lia|split; [lia|]].
  apply (proj2 (game_index_collision 1000 0 ltac:(lia) ltac:(lia))); reflexivity.
Defined.

Lemma analyze_above_avg_uses_agreement_witness :
  exists s, analyze two_game_batch "self" = Ok s /\
    v_length_in_msgs (above_avg s) = a_length_in_msgs (agreement s) /\
    v_length_in_tkns (above_avg s) = a_length_in_tkns (agreement s).
Proof.
  destruct (analyze two_game_batch "self") as [s|e] eqn:E; [|vm_compute in E; discriminate].
  exists s; split; [reflexivity|exact (analyze_above_avg_uses_agreement _ _ _ E)].
Defined.

Lemma analyze_orig_pareto_zero_witness :
  exists s, analyze two_game_batch "orig" = Ok s /\ (a_proportion_pareto_opt (agreement s) == 0)%Q.
Proof.
  destruct (analyze two_game_batch "orig") as [s|e] eqn:E; [|vm_compute in E; discriminate].
  exists s; split; [reflexivity|exact (analyze_orig_pareto_zero _ _ E)].
Defined.

(** ** Totality of the analyzer *)

Lemma py_index_total {A} (l : list A) i :
  (0 <= i < Z.of_nat (length l))%Z -> exists x, py_index l i = Ok x.
Proof.
  intros Hi; unfold py_index.
  rewrite (proj2 (Z.ltb_ge i 0)) by lia; rewrite (proj2 (Z.ltb_ge i 0)) by lia.
  destruct (nth_error l (Z.to_nat i)) eqn:E; [eauto|].
  apply nth_error_None in E; lia.
Qed.

Lemma select_total l idx :
  (forall i, In i idx -> (0 <= i < Z.of_nat (length l))%Z) -> exists r, select l idx = Ok r.
Proof.
  unfold select; induction idx as [|i idx IH]; intros H; cbn [mapM]; [eauto|].
  destruct (py_index_total l i (H i (or_introl eq_refl))) as (x & ->); cbn [bind].
  destruct IH as (r & ->); [intros j Hj; apply H; now right|cbn [bind]; eauto].
Qed.

Lemma py_div_total a d : d <> 0%Z -> exists q, py_div a d = Ok q.
Proof. unfold py_div; intros H; rewrite (proj2 (Z.eqb_neq d 0) H); eauto. Qed.

(** The loop over the games reads the two files of each game. *)
Lemma scan_total b n l acc :
  (forall i, In i l -> (0 <= i < n)%Z /\
     lookup (results b) (game_index i ++ ".json")%string <> None /\
     lookup (text_logs b) (game_index i ++ "_full.txt")%string <> None) ->
  exists sc, foldM (scan_game b) acc l = Ok sc /\
    (forall i, In i (agreement_indices sc) -> In i (agreement_indices acc) \/ In i l) /\
    length (msg_counts sc) = (length (msg_counts acc) + length l)%nat /\
    length (token_counts sc) = (length (token_counts acc) + length l)%nat.
Proof.
  revert acc; induction l as [|i l IH]; intros acc H; cbn [foldM].
  - exists acc; cbn [length]; split; [reflexivity|split; [intros j Hj; now left|split; lia]].
  - destruct (H i (or_introl eq_refl)) as (_ & Hr & Ht).
    unfold scan_game, read_file.
    destruct (lookup (results b) _) as [r|]; [|contradiction].
    destruct (lookup (text_logs b) _) as [t|]; [|contradiction]; cbn [bind].
    match goal with |- exists sc, foldM _ ?a _ = Ok sc /\ _ =>
      destruct (IH a) as (sc & E & Hagr & Hm & Ht'); [intros j Hj; apply H; now right|] end.
    exists sc; split; [exact E|].
    cbn [msg_counts token_counts agreement_indices] in *; rewrite !length_app in Hm, Ht'.
    cbn [length] in *; split; [|split; lia].
    intros j Hj; destruct (Hagr j Hj) as [Hj'|Hj']; [|right; now right].
    destruct (r_is_valid_deal r); [apply in_app_or in Hj' as [Hj'|[<-|[]]]|]; auto with datatypes.
Qed.

(** One file of [results/] named after a game of the batch. *)
Lemma pareto_step_total p0 p1 obj k j r :
  (0 <= j < Z.of_nat (length p0))%Z -> (0 <= j < Z.of_nat (length p1))%Z -> (j < 1000)%Z ->
  exists k', pareto_step p0 p1 obj k ((game_index j ++ ".json")%string, r) = Ok k'.
Proof.
  intros H0 H1 Hj; destruct (game_index_digits j ltac:(lia)) as (_ & Hl & _).
  unfold pareto_step; rewrite <- Hl, slice_to_app, game_index_value by lia; cbn [bind].
  rewrite Z.mod_small by lia.
  destruct (py_index_total p0 j H0) as (x & ->), (py_index_total p1 j H1) as (y & ->); cbn [bind].
  destruct (isParetoOptimal _ _ _ _ _ _) as [[|]|]; eauto.
Qed.

Lemma above_total p0 p1 cutoff n :
  Z.of_nat (length p0) = n -> Z.of_nat (length p1) = n ->
  exists g0 g1, foldM (above_step p0 p1 cutoff) ([], []) (py_range n) = Ok (g0, g1) /\
    (forall i, In i g0 -> (0 <= i < n)%Z) /\ (forall i, In i g1 -> (0 <= i < n)%Z).
Proof.
  intros L0 L1.
  destruct (foldM_total (fun acc => (forall i, In i (fst acc) -> (0 <= i < n)%Z) /\
                                    (forall i, In i (snd acc) -> (0 <= i < n)%Z))
              (above_step p0 p1 cutoff) ([], []) (py_range n)) as ([g0 g1] & E & H0 & H1).
  - split; intros i [].
  - intros [a0 a1] i [Ha0 Ha1] Hi; apply in_py_range in Hi.
    unfold above_step.
    destruct (py_index_total p0 i ltac:(lia)) as (x & ->), (py_index_total p1 i ltac:(lia)) as (y & ->).
    cbn [bind fst snd]; eexists; split; [reflexivity|cbn [fst snd]].
    split; intros j Hj;
      [destruct (gt_cutoff x cutoff)|destruct (gt_cutoff y cutoff)];
      try (apply in_app_or in Hj as [Hj|[<-|[]]]); auto.
  - exists g0, g1; auto.
Qed.

(** One [select] or division of [analyze] at a time, its side
    condition left to [lia] with the bounds in the context. *)
Ltac analyze_steps :=
  repeat match goal with
  | |- exists s, bind (select ?l ?idx) _ = Ok s =>
      let r := fresh "r" in let E := fresh "E" in
      destruct (select_total l idx) as (r & E);
      [intros ? Hi; match goal with H : forall i, In i idx -> _ |- _ => specialize (H _ Hi) end; lia
      |rewrite E; cbn [bind]]
  | |- exists s, bind (py_div ?a ?d) _ = Ok s =>
      let q := fresh "q" in let E := fresh "E" in
      destruct (py_div_total a d) as (q & E); [rewrite ?length_app; lia|rewrite E; cbn [bind]]
  end.

(** [analyze] returns on every batch of at least one game with the shape
    [simulate_trials] leaves ([batch_ok]): every file it opens is there,
    every index it selects is in range, the bare [except] of the Pareto
    loop catches what the check raises, and no division is by zero. *)
Lemma analyze_total n b objective :
  batch_ok n b -> (1 <= n)%Z -> exists s, analyze b objective = Ok s.
Proof.
  intros (Hn & (s0 & E0 & L0) & (s1 & E1 & L1) & Hfiles & Hres) H1.
  assert (N0 : Z.of_nat (length s0) = n) by lia.
  assert (N1 : Z.of_nat (length s1) = n) by lia.
  unfold analyze; rewrite E0, E1; cbn [bind]; rewrite N0.
  destruct (scan_total b n (py_range n) (mkScan [] [] [] 0)) as (sc & Esc & Hagr & Lm & Lt).
  { intros i Hi; apply in_py_range in Hi; split; [exact Hi|exact (Hfiles i Hi)]. }
  rewrite Esc; cbn [bind]; cbn [agreement_indices msg_counts token_counts length] in Hagr, Lm, Lt.
  rewrite length_py_range in Lm, Lt.
  assert (Ha : forall i, In i (agreement_indices sc) -> (0 <= i < n)%Z)
    by (intros i Hi; destruct (Hagr i Hi) as [[]|Hi']; now apply in_py_range).
  assert (Lm' : Z.of_nat (length (msg_counts sc)) = n) by lia.
  assert (Lt' : Z.of_nat (length (token_counts sc)) = n) by lia.
  analyze_steps.
  destruct (foldM_total (fun _ => True) (pareto_step s0 s1 objective) 0%Z (results b) I)
    as (k & Ek & _).
  { intros x [f rj] _ Hin; destruct (Hres f rj Hin) as (j & Hj & ->).
    destruct (pareto_step_total s0 s1 objective x j rj) as (k' & Ek'); [lia|lia|lia|eauto]. }
  rewrite Ek; cbn [bind]; analyze_steps.
  destruct (above_total s0 s1 (py_mean (s0 ++ s1)) n N0 N1) as (g0 & g1 & Eg & Hg0 & Hg1).
  rewrite Eg; cbn [bind]; analyze_steps.
  eexists; reflexivity.
Qed.
