(* ===== verification/Trials.v ===== *)
(** * The batch driver (src/play.py) and the fine-tuning driver
      (src/finetuning.py)

    [play.simulate_trials] plays [num_runs] self-play games in sequence
    and writes a batch directory: for game [i], with the index
    [("000" + str(i))[-3:]], it creates the full text log, the two player
    logs and the two JSON transcripts with [open(..., "x")], draws the
    game's context from the data file, builds the game and its two
    players (whose constructors write the log headers), plays the game,
    appends what the players wrote to their log files (each its own in
    self-play; in the other branch both write [p1_filename], turn by
    turn, which [shared_log_text] interleaves),
    appends the two scores to the score ledgers, and writes the two
    transcripts and the summary [results/<index>.json].  The directory is
    the [batch] record that [analysis.analyze] reads: a file created and
    not yet written is empty ([""], or [None] for a JSON file).

    The random draws ([np.random.randint], the first turn of each game)
    and the outside world (the chat model behind a model name, the text
    of a prompt file, GPT-2's token count) are variables of the section.
    [finetuning.main] is [concatenate]
    followed by the request [utils.create_finetuning_job] sends. *)

From Stdlib Require Import String Ascii ZArith List Bool Lia.
From S2P Require Import Prelude PyDict PyStr Scoring Validator Player Game GameLog Session Analysis.
Import ListNotations.
Local Open Scope string_scope.
Local Open Scope py_scope.

(** ** Files of the batch directory *)

(** [open(path, "x")]: a new empty file, or [FileExistsError]. *)
Definition create_file {V : Type} (dir : dict V) (name : string) (empty : V) : res (dict V) :=
  match lookup dir name with
  | Some _ => Raise (FileExistsError name)
  | None => Ok (setitem dir name empty)
  end.

(** [open(path, "a").write(t)] *)
Definition append_file (dir : dict string) (name : string) (t : string) : dict string :=
  setitem dir name (match lookup dir name with Some s => s | None => "" end ++ t).

(** The directory of a new run. *)
Definition empty_batch : batch := mkBatch [] [] [] [] [].

(** ** [play.parse_context] and the game's dicts *)

Module Play.

(** [play.parse_context], the same code as [app.parse_context]: the
    counts at the even positions of the words, the values at the odd
    ones. *)
Definition parse_context (ctx : string) : res (list Z * list Z) :=
  let words := split_ws ctx in
  cnts <- mapM py_int (evens words) ;;
  vals <- mapM py_int (odds words) ;;
  Ok (cnts, vals).

(** [{keys[i]: l[i] for i in range(3)}] with [keys = ["book", "hat", "ball"]] *)
Definition item_dict (l : list Z) : res (dict Z) :=
  mapM (fun i => k <- py_index ITEMS i ;; v <- py_index l i ;; Ok (k, v)) (py_range 3).

End Play.

(** ** The players *)

Section Trials.

(** The chat model behind a model name, the text of a prompt file, the
    first turn [play_game] draws for game [i], and GPT-2's token count. *)
Variable chat_model : string -> list chat -> nat -> string.
Variable read_prompt : string -> string.
Variable first_turn : Z -> player.
Variable n_tokens : string -> nat.

(** [ClosedSourceChatPlayer(game, vals, log_filename=..., model=...)]:
    [LLMPlayer.__init__] on the model of that name.  The player keeps
    what it writes to its log file ([log_groups]). *)
Definition new_player (vals : dict Z) (model_name : string) : res LLMPlayer :=
  init_player vals true (chat_model model_name).

(** The [if selfplay:] of [simulate_trials]: in self-play each player has
    its own values; otherwise both players get player 1's values, the
    second one on "gpt-3.5-turbo". *)
Definition make_players (game : NegotiationGame) (model_name : string) (selfplay : bool)
    : res (LLMPlayer * LLMPlayer) :=
  if selfplay then
    a0 <- new_player (fst (player_values game)) model_name ;;
    a1 <- new_player (snd (player_values game)) model_name ;;
    Ok (a0, a1)
  else
    a0 <- new_player (snd (player_values game)) model_name ;;
    a1 <- new_player (snd (player_values game)) "gpt-3.5-turbo" ;;
    Ok (a0, a1).

(** What the two players wrote to their log files during a game of
    [turns] turns: in self-play each its own file, otherwise both the
    file [p1_filename], turn by turn. *)
Definition write_player_logs (selfplay : bool) (turn : player) (turns : nat)
    (p0_filename p1_filename : string) (ags : LLMPlayer * LLMPlayer) (tl : dict string)
    : dict string :=
  if selfplay then
    append_file (append_file tl p0_filename (log_text (fst ags))) p1_filename (log_text (snd ags))
  else append_file tl p1_filename (shared_log_text turn turns (fst ags) (snd ags)).

(** ** [simulate_trials] *)

(** The body of [for i in range(0, num_runs)]. *)
Definition trial (lines : list string) (random_indices : list Z) (model_name objective : string)
    (selfplay : bool) (b : batch) (i : Z) : res batch :=
  let index := game_index i in
  let game_filename := index ++ "_full.txt" in
  let p0_filename := index ++ "_p0.txt" in
  let p1_filename := index ++ "_p1.txt" in
  tl <- create_file (text_logs b) game_filename "" ;;
  tl <- create_file tl p0_filename "" ;;
  tl <- create_file tl p1_filename "" ;;
  jl <- create_file (json_logs b) (index ++ "_p0.json") None ;;
  jl <- create_file jl (index ++ "_p1.json") None ;;
  ri <- py_index random_indices i ;;
  ctx0 <- py_index lines (ri * 2) ;;
  '(cnts, p1_vals) <- Play.parse_context ctx0 ;;
  ctx1 <- py_index lines (ri * 2 + 1) ;;
  '(_, p2_vals) <- Play.parse_context ctx1 ;;
  counts_d <- Play.item_dict cnts ;;
  p1_d <- Play.item_dict p1_vals ;;
  p2_d <- Play.item_dict p2_vals ;;
  game <- init (Some counts_d) (Some p1_d) (Some p2_d) objective ;;
  hdr <- init_log game ;;
  let tl := append_file tl game_filename hdr in
  players <- make_players game model_name selfplay ;;
  '(o, g, ags, log) <- play_game game players (first_turn i) (read_prompt (prompt_path game)) n_tokens ;;
  let tl := append_file tl game_filename log in
  let tl := write_player_logs selfplay (first_turn i) (msg_cnt o) p0_filename p1_filename ags tl in
  let summary := mkResult (item_counts g) (fst (player_values g)) (snd (player_values g))
                          (fst (proposals g)) (snd (proposals g)) (p0_score o) (p1_score o)
                          (Z.of_nat (msg_cnt o)) (Z.of_nat (token_cnt o)) (is_valid_deal o) in
  let jl := setitem jl (index ++ "_p0.json") (Some (p0_log o)) in
  let jl := setitem jl (index ++ "_p1.json") (Some (p1_log o)) in
  Ok (mkBatch (p0_lines b ++ [py_str_opt (p0_score o) ++ " " ++ NL])
              (p1_lines b ++ [py_str_opt (p1_score o) ++ " " ++ NL])
              (setitem (results b) (index ++ ".json") summary) tl jl).

(** [simulate_trials]: the lines of data/selfplay.txt are stripped, the
    random indices drawn, and the games played into the directory [b]. *)
Definition simulate_trials (data_lines : list string) (random_indices : list Z)
    (model_name objective : string) (num_runs : Z) (selfplay : bool) (b : batch) : res batch :=
  let lines := map strip data_lines in
  foldM (trial lines random_indices model_name objective selfplay) b (py_range num_runs).

End Trials.

(** ** [finetuning.main] *)

(** The request [utils.create_finetuning_job] sends to the API. *)
Record finetuning_job : Type := mkJob {
  job_model : string;
  job_training_file : string;
  job_n_epochs : Z;
  job_batch_size : Z;
  job_learning_rate_multiplier : Z;
  job_suffix : string
}.

Definition create_finetuning_job (model_suffix jsonl_path model_name : string) : finetuning_job :=
  mkJob model_name jsonl_path 3 1 8 model_suffix.

(** [type=bool] applied by argparse to the option's text: [bool(s)]. *)
Definition py_bool_of_str (s : string) : bool := negb (String.eqb s "").

(** [finetuning.main]: the transcripts appended to [game_data.jsonl] (none
    for human data) and the job created.  [human] is the text given to
    [-u], if any. *)
Definition finetuning_main (dir_path filter model_to_train model_suffix objective : string)
    (human : option string) (b : batch) : res (list (list chat) * finetuning_job) :=
  let human_flag := match human with Some s => py_bool_of_str s | None => false end in
  if human_flag then
    Ok ([], create_finetuning_job model_suffix "data/human_init_data/human_data.jsonl" model_to_train)
  else
    let is_comp := String.eqb objective "comp" in
    logs <- concatenate b filter is_comp ;;
    Ok (logs, create_finetuning_job model_suffix (dir_path ++ "/game_data.jsonl") model_to_train).

(** The shape of a summary [results/<index>.json] as the readers of the
    batch use it: the three dicts keyed "book", "hat", "ball" in that
    order, two integer scores (not [None]) and a message count within
    the game's cap. *)
Definition result_typed (r : result_json) : Prop :=
  keys (r_counts r) = ITEMS /\ keys (r_p0_values r) = ITEMS /\ keys (r_p1_values r) = ITEMS /\
  (exists s0 s1, r_p0_score r = Some s0 /\ r_p1_score r = Some s1) /\
  (0 <= r_message_count r <= 50)%Z.

(** ** A concrete run

    A data file of one context, a chat model whose answers depend on the
    values in the player's prompt (player 0 values books at 4): two games
    of this data both end in the deal (0, 2, 0) / (1, 0, 3). *)
Definition demo_data : list string := ["1 4 2 1 3 2"; "1 2 2 3 3 1"].

Definition demo_model (name : string) : list chat -> nat -> string :=
  fun hist n =>
    if existsb (fun c => contains "a book at 4" (content c)) hist
    then nth n ["[message] I would like the hats."; "[propose] (0 books, 2 hats, 0 balls)"] ""
    else nth n ["[message] Then I take the book and the balls."; "[propose] (1 books, 0 hats, 3 balls)"] "".

(** ** Lemmas *)

(** *** Files only appear *)

Lemma create_file_keeps {V} (d : dict V) n e d' :
  create_file d n e = Ok d' ->
  (forall k, lookup d k <> None -> lookup d' k <> None) /\ lookup d' n <> None.
Proof.
  unfold create_file; destruct (lookup d n); [discriminate|intros [= <-]].
  split; [intros k; apply lookup_setitem_some|now rewrite lookup_setitem_eq].
Qed.

Lemma create_file_exists {V} (d : dict V) n e :
  lookup d n <> None -> create_file d n e = Raise (FileExistsError n).
Proof. unfold create_file; destruct (lookup d n); [reflexivity|congruence]. Qed.

Lemma append_file_keeps d n t k : lookup d k <> None -> lookup (append_file d n t) k <> None.
Proof. apply lookup_setitem_some. Qed.

Section Facts.
Variable chat_model : string -> list chat -> nat -> string.
Variable read_prompt : string -> string.
Variable first_turn : Z -> player.
Variable n_tokens : string -> nat.

Lemma write_player_logs_keeps sp t n f0 f1 ags tl k :
  lookup tl k <> None -> lookup (write_player_logs sp t n f0 f1 ags tl) k <> None.
Proof. unfold write_player_logs; destruct sp; intros Hk; now repeat apply append_file_keeps. Qed.

(** A game that is played leaves every file of the directory in place and
    adds its full text log. *)
Lemma trial_text_logs lines ri m obj sp b i b' :
  trial chat_model read_prompt first_turn n_tokens lines ri m obj sp b i = Ok b' ->
  (forall k, lookup (text_logs b) k <> None -> lookup (text_logs b') k <> None) /\
  lookup (text_logs b') (game_index i ++ "_full.txt") <> None.
Proof.
  unfold trial; intros H.
  apply bind_eq_Ok in H; destruct H as (t1 & E1 & H); destruct (create_file_keeps _ _ _ _ E1) as [K1 N1].
  apply bind_eq_Ok in H; destruct H as (t2 & E2 & H); destruct (create_file_keeps _ _ _ _ E2) as [K2 _].
  apply bind_eq_Ok in H; destruct H as (t3 & E3 & H); destruct (create_file_keeps _ _ _ _ E3) as [K3 _].
  py_unfold H; injection H as <-; cbn [text_logs].
  split.
  - intros k Hk; apply write_player_logs_keeps, append_file_keeps, append_file_keeps, K3, K2, K1, Hk.
  - apply write_player_logs_keeps, append_file_keeps, append_file_keeps, K3, K2, N1.
Qed.

Lemma trial_collision lines ri m obj sp b i :
  lookup (text_logs b) (game_index i ++ "_full.txt") <> None ->
  trial chat_model read_prompt first_turn n_tokens lines ri m obj sp b i =
  Raise (FileExistsError (game_index i ++ "_full.txt")).
Proof. intros H; unfold trial; rewrite (create_file_exists _ _ _ H); reflexivity. Qed.

(** A run of more than 1000 games plays game 0, then games 1 to 999, then
    game 1000. *)
Lemma py_range_1000 n :
  (1000 < n)%Z -> exists l1 l2, py_range n = (0%Z :: l1 ++ 1000%Z :: l2)%list.
Proof.
  intros Hn; unfold py_range.
  replace (Z.to_nat n) with (1 + (999 + (1 + (Z.to_nat n - 1001))))%nat by lia.
  rewrite seq_app, (seq_app 999), (seq_app 1), !map_app.
  exists (map Z.of_nat (seq (0 + 1) 999)), (map Z.of_nat (seq (0 + 1 + 999 + 1) (Z.to_nat n - 1001))).
  reflexivity.
Qed.

(** C14: [simulate_trials] never writes more than 1000 games: game 1000
    gets the index "000" of game 0 ([("000" + str(i))[-3:]]), so
    [open(game_filename, "x")] finds game 0's full log and raises
    [FileExistsError], whatever the directory held before. *)
Theorem simulate_trials_at_most_1000 data ri m obj n sp b b' :
  simulate_trials chat_model read_prompt first_turn n_tokens data ri m obj n sp b = Ok b' ->
  (n <= 1000)%Z.
Proof.
  unfold simulate_trials; intros H.
  destruct (Z.le_gt_cases n 1000) as [Hn|Hn]; [exact Hn|exfalso].
  destruct (py_range_1000 n Hn) as (l1 & l2 & Hr); rewrite Hr in H; cbn [foldM] in H.
  apply bind_eq_Ok in H; destruct H as (b0 & E0 & H).
  rewrite foldM_app in H; apply bind_eq_Ok in H; destruct H as (b1 & E1 & H); cbn [foldM] in H.
  assert (Hk : lookup (text_logs b1) (game_index 0 ++ "_full.txt") <> None).
  { refine (foldM_inv (fun x => lookup (text_logs x) (game_index 0 ++ "_full.txt") <> None)
                       _ b0 l1 b1 (proj2 (trial_text_logs _ _ _ _ _ _ _ _ E0)) _ E1).
    intros x y z Hx _ Ez; exact (proj1 (trial_text_logs _ _ _ _ _ _ _ _ Ez) _ Hx). }
  change (game_index 0) with (game_index 1000) in Hk.
  rewrite (trial_collision _ _ _ _ _ _ _ Hk) in H; discriminate.
Qed.

(** What a game that is played adds to the ledgers and the summaries. *)
Lemma trial_shape lines ri m obj sp b i b' :
  trial chat_model read_prompt first_turn n_tokens lines ri m obj sp b i = Ok b' ->
  exists s0 s1 summary,
    p0_lines b' = (p0_lines b ++ [(str_of_Z s0 ++ " " ++ NL)%string])%list /\
    p1_lines b' = (p1_lines b ++ [(str_of_Z s1 ++ " " ++ NL)%string])%list /\
    results b' = setitem (results b) (game_index i ++ ".json") summary.
Proof.
  unfold trial; intros H; py_unfold H.
  match goal with
  | Ei : init _ _ _ _ = Ok ?game, Eg : play_game ?game _ _ _ _ = Ok _ |- _ =>
      destruct (init_spec _ _ _ _ _ Ei) as (Hv & _);
      destruct (play_game_scores _ _ _ _ _ _ _ _ _ Hv Eg) as (s0 & s1 & E0 & E1)
  end.
  injection H as <-; rewrite E0, E1; eexists _, _, _; split; [reflexivity|split; reflexivity].
Qed.

(** The dict play.py builds is the one app.py builds. *)
Lemma item_dict_items_of_list l : Play.item_dict l = items_of_list l.
Proof.
  unfold Play.item_dict, items_of_list; change (py_range 3) with [0; 1; 2]%Z; cbn [mapM].
  change (py_index ITEMS 0) with (Ok "book"); change (py_index ITEMS 1) with (Ok "hat");
    change (py_index ITEMS 2) with (Ok "ball"); cbn [bind].
  destruct (py_index l 0); [|reflexivity]; destruct (py_index l 1); [|reflexivity];
    destruct (py_index l 2); reflexivity.
Qed.

Lemma item_dict_keys l d : Play.item_dict l = Ok d -> keys d = ITEMS.
Proof.
  rewrite item_dict_items_of_list; unfold items_of_list; intros H; py_unfold H.
  now injection H as <-.
Qed.

(** The summary of a game that is played has the shape [result_typed]. *)
Lemma trial_summary lines ri m obj sp b i b' :
  trial chat_model read_prompt first_turn n_tokens lines ri m obj sp b i = Ok b' ->
  exists summary, results b' = setitem (results b) (game_index i ++ ".json") summary /\
                  result_typed summary.
Proof.
  unfold trial; intros H; py_unfold H.
  match goal with
  | Ei : init _ _ _ _ = Ok ?game, Eg : play_game ?game _ _ _ _ = Ok _ |- _ =>
      destruct (init_spec _ _ _ _ _ Ei) as (Hv & _);
      destruct (play_game_scores _ _ _ _ _ _ _ _ _ Hv Eg) as (s0 & s1 & E0 & E1);
      pose proof (play_game_msg_cnt _ _ _ _ _ _ _ _ _ Eg) as Hm;
      pose proof (play_game_static _ _ _ _ _ _ _ _ _ Eg) as Hs;
      rewrite (init_static _ _ _ _ _ Ei) in Hs; injection Hs as Hc Hp _
  end.
  injection H as <-; eexists; split; [reflexivity|].
  unfold result_typed; cbn [r_counts r_p0_values r_p1_values r_p0_score r_p1_score r_message_count].
  rewrite Hc, Hp, E0, E1; cbn [fst snd].
  repeat match goal with Ek : Play.item_dict _ = Ok _ |- _ => rewrite (item_dict_keys _ _ Ek); clear Ek end.
  split; [reflexivity|split; [reflexivity|split; [reflexivity|split; [eauto|]]]].
  unfold MAX_MESSAGES in Hm; lia.
Qed.

(** The ledgers of [n] games read back as [n] integers. *)
Lemma read_ints_snoc l s x :
  read_ints l = Ok s -> read_ints (l ++ [(str_of_Z x ++ " " ++ NL)%string])%list = Ok (s ++ [x])%list.
Proof.
  unfold read_ints; intros E; rewrite mapM_app, E; cbn [bind mapM].
  rewrite py_int_app_space, py_int_str_of_Z by reflexivity; reflexivity.
Qed.

(** Each game keeps the directory well formed, and a thousandth game is
    never played: its index is game 0's. *)
Lemma trial_batch_ok lines ri m obj sp b k b' :
  batch_ok k b ->
  trial chat_model read_prompt first_turn n_tokens lines ri m obj sp b k = Ok b' ->
  batch_ok (k + 1) b'.
Proof.
  intros (Hk & (s0 & E0 & L0) & (s1 & E1 & L1) & Hfiles & Hres) Ht.
  destruct (Z.eq_dec k 1000) as [->|Hk'].
  - destruct (Hfiles 0%Z ltac:(lia)) as (_ & Hlog).
    change (game_index 0) with (game_index 1000) in Hlog.
    rewrite (trial_collision _ _ _ _ _ _ _ Hlog) in Ht; discriminate.
  - destruct (trial_shape _ _ _ _ _ _ _ _ Ht) as (x0 & x1 & summary & P0 & P1 & R).
    destruct (trial_text_logs _ _ _ _ _ _ _ _ Ht) as [KT NT].
    split; [lia|split; [|split; [|split]]].
    + exists (s0 ++ [x0])%list; rewrite P0; split; [exact (read_ints_snoc _ _ _ E0)|].
      rewrite length_app, L0; cbn [length]; lia.
    + exists (s1 ++ [x1])%list; rewrite P1; split; [exact (read_ints_snoc _ _ _ E1)|].
      rewrite length_app, L1; cbn [length]; lia.
    + intros i Hi; rewrite R; destruct (Z.eq_dec i k) as [->|Hik].
      * split; [now rewrite lookup_setitem_eq|exact NT].
      * destruct (Hfiles i ltac:(lia)) as [Hr Ht'].
        split; [now apply lookup_setitem_some|now apply KT].
    + intros f r Hin; rewrite R in Hin; apply In_setitem in Hin as [Hin| ->].
      * destruct (Hres f r Hin) as (j & Hj & ->); exists j; split; [lia|reflexivity].
      * exists k; split; [lia|reflexivity].
Qed.

Lemma simulate_trials_batch_ok data ri m obj n sp b :
  (0 <= n)%Z ->
  simulate_trials chat_model read_prompt first_turn n_tokens data ri m obj n sp empty_batch = Ok b ->
  batch_ok n b.
Proof.
  unfold simulate_trials; intros Hn; rewrite <- (Z2Nat.id n Hn).
  revert b; induction (Z.to_nat n) as [|k IH]; intros b H.
  - cbn in H; injection H as <-.
    split; [lia|split; [exists []; split; reflexivity|split; [exists []; split; reflexivity|]]].
    split; [intros i Hi; lia|intros f r []].
  - rewrite py_range_S, foldM_app in H; apply bind_eq_Ok in H; destruct H as (b0 & E0 & H).
    cbn [foldM] in H; apply bind_eq_Ok in H; destruct H as (b1 & E1 & H); injection H as <-.
    rewrite Nat2Z.inj_succ, <- Z.add_1_r; exact (trial_batch_ok _ _ _ _ _ _ _ _ (IH _ E0) E1).
Qed.

(** C13: Every summary [simulate_trials] writes to [results/] is well
    typed for its readers: the counts and the two value dicts are keyed
    "book", "hat", "ball", both scores are integers (never [None]) and
    the message count lies between 0 and 50; a summary that is not of
    this shape was in the directory before the run. *)
Theorem simulate_trials_results_typed data ri m obj n sp b b' :
  simulate_trials chat_model read_prompt first_turn n_tokens data ri m obj n sp b = Ok b' ->
  forall k r, lookup (results b') k = Some r -> lookup (results b) k = Some r \/ result_typed r.
Proof.
  unfold simulate_trials; intros H.
  refine (foldM_inv (fun x => forall k r, lookup (results x) k = Some r ->
                                          lookup (results b) k = Some r \/ result_typed r)
                    _ b _ b' (fun k r Hr => or_introl Hr) _ H).
  intros x i z Hx _ Ez k r Hr.
  destruct (trial_summary _ _ _ _ _ _ _ _ Ez) as (summary & Rz & Ts); rewrite Rz in Hr.
  destruct (String.eqb_spec k (game_index i ++ ".json")) as [->|Hne].
  - rewrite lookup_setitem_eq in Hr; injection Hr as <-; now right.
  - rewrite lookup_setitem_ne in Hr by congruence; exact (Hx k r Hr).
Qed.

(** C12: What the batch driver writes, the analyzer reads: for a new
    output directory and at least one game, whenever [simulate_trials]
    returns, [analysis.analyze] of the directory returns too, whatever
    objective it is given. *)
Theorem simulate_trials_analyzable data ri m obj n sp b aobj :
  simulate_trials chat_model read_prompt first_turn n_tokens data ri m obj n sp empty_batch = Ok b ->
  (1 <= n)%Z -> exists s, analyze b aobj = Ok s.
Proof.
  intros H Hn; apply (analyze_total n b aobj); [|exact Hn].
  apply (simulate_trials_batch_ok data ri m obj n sp b); [lia|exact H].
Qed.

End Facts.

(** C36: [finetuning.main] parses [-u] with [type=bool], so any non-empty
    text given to [-u], "False" and "0" included, selects the human-data
    branch: for every batch, no transcript is concatenated and the job
    trains on the human data. *)
Theorem finetuning_human_false dir_path filter model_to_train model_suffix objective s b :
  s <> "" ->
  finetuning_main dir_path filter model_to_train model_suffix objective (Some s) b =
  Ok ([], create_finetuning_job model_suffix "data/human_init_data/human_data.jsonl" model_to_train).
Proof.
  intros Hs; unfold finetuning_main, py_bool_of_str.
  now rewrite (proj2 (String.eqb_neq s "") Hs).
Qed.

(** ** Witnesses *)

Lemma simulate_trials_results_typed_witness :
  exists b, simulate_trials demo_model (fun _ => SYSTEM_TEXT) (fun _ => P0) char_tokens demo_data [0; 0]%Z "gpt-4" "self" 2 true empty_batch = Ok b /\
    forall k r, lookup (results b) k = Some r -> lookup (results empty_batch) k = Some r \/ result_typed r.
Proof.
  destruct (simulate_trials demo_model (fun _ => SYSTEM_TEXT) (fun _ => P0) char_tokens demo_data [0; 0]%Z "gpt-4" "self" 2 true empty_batch) as [b|e] eqn:E; [|vm_compute in E; discriminate].
  exists b; split; [reflexivity|exact (simulate_trials_results_typed _ _ _ _ _ _ _ _ _ _ _ _ E)].
Defined.

Lemma simulate_trials_at_most_1000_witness :
  exists b, simulate_trials demo_model (fun _ => SYSTEM_TEXT) (fun _ => P0) char_tokens demo_data [0; 0]%Z "gpt-4" "self" 2 true empty_batch = Ok b /\ (2 <= 1000)%Z.
Proof.
  destruct (simulate_trials demo_model (fun _ => SYSTEM_TEXT) (fun _ => P0) char_tokens demo_data [0; 0]%Z "gpt-4" "self" 2 true empty_batch) as [b|e] eqn:E; [|vm_compute in E; discriminate].
  exists b; split; [reflexivity|exact (simulate_trials_at_most_1000 _ _ _ _ _ _ _ _ _ _ _ _ E)].
Defined.

Lemma simulate_trials_analyzable_witness :
  exists b, simulate_trials demo_model (fun _ => SYSTEM_TEXT) (fun _ => P0) char_tokens demo_data [0; 0]%Z "gpt-4" "self" 2 true empty_batch = Ok b /\ (1 <= 2)%Z /\ exists s, analyze b "self" = Ok s.
Proof.
  destruct (simulate_trials demo_model (fun _ => SYSTEM_TEXT) (fun _ => P0) char_tokens demo_data [0; 0]%Z "gpt-4" "self" 2 true empty_batch) as [b|e] eqn:E; [|vm_compute in E; discriminate].
  exists b; split; [reflexivity|split; [lia|]].
  exact (simulate_trials_analyzable _ _ _ _ _ _ _ _ _ _ _ _ E ltac:(lia)).
Defined.

Lemma finetuning_human_false_witness :
  ("False" <> "")%string /\
  finetuning_main "data/run" "above_avg" "gpt-3.5-turbo" "sfx" "self" (Some "False") empty_batch =
  Ok ([], create_finetuning_job "sfx" "data/human_init_data/human_data.jsonl" "gpt-3.5-turbo").
Proof.
  assert (H : ("False" <> "")%string) by discriminate.
  split; [exact H|exact (finetuning_human_false "data/run" "above_avg" "gpt-3.5-turbo" "sfx" "self" "False" empty_batch H)].
Defined.
